(** * LexAssist: brief analysis, research aggregation and document drafting

    A shallow embedding of the Python sources

      - [legal_backend.py]            (text normalizer, research aggregator,
                                       analysis generator),
      - [legal_brief_analyzer.py]     (citation extractor, query generator),
      - [case_file_drafting_agent.py] (section builders, drafting agent),
      - [api/case_file_drafter.py]    (API-level drafter),

    followed by the properties of the specification that concern them
    (Part II) and by further properties of the code (Part III).

    Python [str] values are sequences of Unicode code points; Python
    exceptions are values of [exn] carried by [result], or of [raised]
    carried by [outcome] where a missing key matters; dictionaries whose
    iteration order matters are association lists in insertion order, the
    others are [gmap]s. *)

From Stdlib Require Import NArith ZArith Ascii String.
From stdpp Require Import base option list sorting gmap.

Local Open Scope N_scope.

(* ===================================================================== *)
(** * Part I: definitions                                                 *)
(* ===================================================================== *)

(** ** Python strings *)

Module PyStr.

(** A [str] is the list of its code points. *)
Definition chr : Type := N.
Definition str : Type := list N.

(** An ASCII literal of the source, as a [str]. *)
Definition py (s : string) : str :=
  (fun a => N_of_ascii a) <$> list_ascii_of_string s.

Definition NL : chr := 10.          (* "\n" *)
Definition SPACE : chr := 32.       (* " " *)
Definition DQUOTE : chr := 34.
Definition APOSTROPHE : chr := 39.

Definition str_eqb (a b : str) : bool := bool_decide (a = b).

(** [s.startswith(p)]. *)
Fixpoint startswith (p s : str) : bool :=
  match p, s with
  | [], _ => true
  | _ :: _, [] => false
  | a :: p', b :: s' => (a =? b) && startswith p' s'
  end.

(** [sub in s] for strings. *)
Fixpoint contains (sub s : str) : bool :=
  startswith sub s ||
  match s with
  | [] => false
  | _ :: s' => contains sub s'
  end.

(** Left-to-right scan for the non-overlapping occurrences of a
    non-empty [old]; [skip] counts the code points of the occurrence
    being stepped over. *)
Fixpoint replace_scan (old new : str) (skip : nat) (s : str) : str :=
  match s with
  | [] => []
  | c :: s' =>
      match skip with
      | S k => replace_scan old new k s'
      | O => if startswith old s
             then new ++ replace_scan old new (Nat.pred (length old)) s'
             else c :: replace_scan old new O s'
      end
  end.

(** [s.replace(old, new)]; for an empty [old] Python inserts [new]
    before every code point and at the end. *)
Definition replace (old new s : str) : str :=
  match old with
  | [] => new ++ concat ((fun c => c :: new) <$> s)
  | _ :: _ => replace_scan old new O s
  end.

Fixpoint count_scan (sub : str) (skip : nat) (s : str) : nat :=
  match s with
  | [] => O
  | c :: s' =>
      match skip with
      | S k => count_scan sub k s'
      | O => if startswith sub s
             then S (count_scan sub (Nat.pred (length sub)) s')
             else count_scan sub O s'
      end
  end.

(** [s.count(sub)]: the number of non-overlapping occurrences. *)
Definition count (sub s : str) : nat :=
  match sub with
  | [] => S (length s)
  | _ :: _ => count_scan sub O s
  end.

(** [sep.join(parts)]. *)
Fixpoint join (sep : str) (parts : list str) : str :=
  match parts with
  | [] => []
  | [p] => p
  | p :: ps => p ++ sep ++ join sep ps
  end.

(** [str(n)] for a non-negative integer, as an f-string prints it. *)
Definition digit_chr (d : nat) : chr := 48 + N.of_nat d.

Fixpoint digits_fuel (fuel n : nat) (acc : str) : str :=
  match fuel with
  | O => acc
  | S fuel' =>
      let acc' := digit_chr (n mod 10) :: acc in
      match (n / 10)%nat with
      | O => acc'
      | q => digits_fuel fuel' q acc'
      end
  end.

Definition str_of_nat (n : nat) : str := digits_fuel (S n) n [].

(** [for i, x in enumerate(l, start): ...], where every iteration appends
    [body i x] to what is being built (a text or a list of lines). *)
Definition for_enumerate {A B} (start : nat) (l : list A)
    (body : nat -> A -> list B) : list B :=
  concat (imap (fun i x => body (start + i)%nat x) l).

(** [s.lower()] and [s.upper()] restricted to ASCII letters; what the
    interpreter's mappings do on ASCII text. *)
Definition ascii_lower (s : str) : str :=
  (fun c => if (65 <=? c) && (c <=? 90) then c + 32 else c) <$> s.

Definition ascii_upper (s : str) : str :=
  (fun c => if (97 <=? c) && (c <=? 122) then c - 32 else c) <$> s.

(** Truthiness of a string and of a list. *)
Definition truthy {A} (l : list A) : bool :=
  match l with [] => false | _ :: _ => true end.

End PyStr.

Import PyStr.

(** ** The interpreter's Unicode character classes *)

Module Unicode.

Definition in_ranges (table : list (N * N)) (c : chr) : bool :=
  existsb (fun r => (fst r <=? c) && (c <=? snd r)) table.

(** Code points for which [str.isspace()] holds; [\s] in a [str]
    pattern and [str.strip()] use the same class. *)
Definition space_ranges : list (N * N) :=
  [ (0x9, 0xd); (0x1c, 0x20); (0x85, 0x85); (0xa0, 0xa0);
    (0x1680, 0x1680); (0x2000, 0x200a); (0x2028, 0x2029);
    (0x202f, 0x202f); (0x205f, 0x205f); (0x3000, 0x3000) ].

Definition isspace (c : chr) : bool := in_ranges space_ranges c.

(** First code point of every block of ten decimal digits (general
    category Nd, Unicode 14.0 as shipped with CPython 3.11), and the one
    longer block of mathematical digits; [\d] in a [str] pattern. *)
Definition decimal_blocks : list N :=
  [ 48; 1632; 1776; 1984; 2406; 2534; 2662; 2790; 2918; 3046; 3174;
    3302; 3430; 3558; 3664; 3792; 3872; 4160; 4240; 6112; 6160; 6470;
    6608; 6784; 6800; 6992; 7088; 7232; 7248; 42528; 43216; 43264;
    43472; 43504; 43600; 44016; 65296; 66720; 68912; 69734; 69872;
    69942; 70096; 70384; 70736; 70864; 71248; 71360; 71472; 71904;
    72016; 72784; 73040; 73120; 92768; 92864; 93008; 123200; 123632;
    125264; 130032 ].

Definition decimal_ranges : list (N * N) :=
  (120782, 120831) :: ((fun b => (b, b + 9)) <$> decimal_blocks).

Definition isdecimal (c : chr) : bool := in_ranges decimal_ranges c.

(** [s.lstrip()], [s.rstrip()] and [s.strip()]. *)
Fixpoint lstrip (s : str) : str :=
  match s with
  | [] => []
  | c :: s' => if isspace c then lstrip s' else s
  end.

Fixpoint rstrip (s : str) : str :=
  match s with
  | [] => []
  | c :: s' =>
      match rstrip s' with
      | [] => if isspace c then [] else [c]
      | r => c :: r
      end
  end.

Definition strip (s : str) : str := rstrip (lstrip s).

End Unicode.

Import Unicode.

(** ** The tokens of a line of Python *)

Module PyLex.

(** One physical line of Python as its tokens, as far as names,
    one-character operators and string literals go (language reference,
    sections 2.3 to 2.6). A name directly before a quote is the prefix of
    the string when it is one of the string prefixes. A short string runs
    from its quote to the next occurrence of that quote which no backslash
    precedes, and the line may not end before it; three quotes in a row
    open a long string. A [#] starts a comment. *)
Inductive token : Type :=
| Name (s : str)
| Op (c : chr)
| String_ (prefix body : str).

(** The tokens of the line, or the tokens read before the line stops
    being Python: a short string still open at the end of the line (with
    its prefix, its quote and what was read of it), a long string, or a
    code point that starts no token. *)
Inductive lexed : Type :=
| Tokens (ts : list token)
| UnterminatedString (before : list token) (prefix : str) (quote : chr)
    (body : str)
| LongString (before : list token)
| Unexpected (before : list token) (c : chr).

Definition emit (t : token) (r : lexed) : lexed :=
  match r with
  | Tokens ts => Tokens (t :: ts)
  | UnterminatedString before prefix quote body =>
      UnterminatedString (t :: before) prefix quote body
  | LongString before => LongString (t :: before)
  | Unexpected before c => Unexpected (t :: before) c
  end.

Inductive mode : Type :=
| Code
| InName (name : str)
| InString (prefix : str) (quote : chr) (body : str) (escaped : bool).

Definition is_name_start (c : chr) : bool :=
  ((65 <=? c) && (c <=? 90)) || ((97 <=? c) && (c <=? 122)) || (c =? 95).

Definition is_name_char (c : chr) : bool :=
  is_name_start c || ((48 <=? c) && (c <=? 57)).

Definition is_quote (c : chr) : bool := (c =? APOSTROPHE) || (c =? DQUOTE).

Definition BACKSLASH : chr := 92.
Definition HASH : chr := 35.

Definition is_blank (c : chr) : bool := (c =? SPACE) || (c =? 9) || (c =? 12).

Definition operators : list chr := py "()[]{},:.;=+-*/%<>&|^~@!".

Definition string_prefixes : list str :=
  py <$> [ "r"; "u"; "b"; "br"; "rb"; "f"; "fr"; "rf" ]%string.

Fixpoint lex (m : mode) (s : str) : lexed :=
  match s with
  | [] =>
      match m with
      | Code => Tokens []
      | InName name => Tokens [Name name]
      | InString prefix quote body _ =>
          UnterminatedString [] prefix quote body
      end
  | c :: s' =>
      let open_string (prefix : str) :=
        match s' with
        | c1 :: c2 :: _ =>
            if (c1 =? c) && (c2 =? c) then LongString []
            else lex (InString prefix c [] false) s'
        | _ => lex (InString prefix c [] false) s'
        end in
      let code :=
        if is_blank c then lex Code s'
        else if is_name_start c then lex (InName [c]) s'
        else if is_quote c then open_string []
        else if c =? HASH then Tokens []
        else if bool_decide (c ∈ operators) then emit (Op c) (lex Code s')
        else Unexpected [] c in
      match m with
      | Code => code
      | InName name =>
          if is_name_char c then lex (InName (name ++ [c])) s'
          else if is_quote c &&
                  bool_decide (ascii_lower name ∈ string_prefixes)
          then open_string name
          else emit (Name name) code
      | InString prefix quote body escaped =>
          if escaped then lex (InString prefix quote (body ++ [c]) false) s'
          else if c =? BACKSLASH
          then lex (InString prefix quote (body ++ [c]) true) s'
          else if c =? quote then emit (String_ prefix body) (lex Code s')
          else lex (InString prefix quote (body ++ [c]) false) s'
      end
  end.

(** The brackets of a line of tokens: [None] when a bracket closes
    another kind of bracket or none, otherwise the brackets left open. *)
Definition closer_of (c : chr) : option chr :=
  if c =? 40 then Some 41 else if c =? 91 then Some 93
  else if c =? 123 then Some 125 else None.

Fixpoint brackets (open : list chr) (ts : list token) : option (list chr) :=
  match ts with
  | [] => Some open
  | Op c :: ts' =>
      match closer_of c with
      | Some closer => brackets (closer :: open) ts'
      | None =>
          if bool_decide (c ∈ [41; 93; 125])
          then match open with
               | expected :: open' =>
                   if c =? expected then brackets open' ts' else None
               | [] => None
               end
          else brackets open ts'
      end
  | _ :: ts' => brackets open ts'
  end.

End PyLex.

(** ** Exceptions *)

Inductive exn : Type :=
| ValueError (msg : str)
| IndexError (msg : str)
| Exception (msg : str).

Inductive result (A : Type) : Type :=
| Ok (a : A)
| Raise (e : exn).
Arguments Ok {A} a.
Arguments Raise {A} e.

#[global] Instance result_ret : MRet result := fun A a => Ok a.

#[global] Instance result_bind : MBind result := fun A B k r =>
  match r with
  | Ok a => k a
  | Raise e => Raise e
  end.

Definition is_ok {A} (r : result A) : bool :=
  match r with Ok _ => true | Raise _ => false end.

(** What a method of [legal_brief_analyzer.py] can raise: an exception of
    the API client, or [KeyError('volume')], which [item['volume']] raises
    on a citation dictionary without that key. *)
Inductive raised : Type :=
| ApiError (e : exn)
| KeyError_volume.

(** What a method ends with: the value it returns, or the exception that
    leaves it. *)
Inductive outcome (A : Type) : Type :=
| Returned (a : A)
| Raised (r : raised).
Arguments Returned {A} a.
Arguments Raised {A} r.

#[global] Instance outcome_ret : MRet outcome := fun A a => Returned a.

#[global] Instance outcome_bind : MBind outcome := fun A B k r =>
  match r with
  | Returned a => k a
  | Raised e => Raised e
  end.

(** ** [legal_backend.py] *)

Module Backend.

(** *** Whitespace runs *)

(** [re.sub(r'\s+', ' ', text)]: every maximal run of whitespace becomes
    one space; [in_run] tells that the previous code point was
    whitespace. *)
Fixpoint sub_ws_runs (in_run : bool) (s : str) : str :=
  match s with
  | [] => []
  | c :: s' =>
      if isspace c
      then (if in_run then sub_ws_runs true s'
            else SPACE :: sub_ws_runs true s')
      else c :: sub_ws_runs false s'
  end.

(** *** [LegalBriefAnalyzer._preprocess_text] *)

(** The method collapses and trims whitespace (line 84), substitutes a
    class of double quotes (line 87) and then has, as line 88, a text that
    is no Python statement, so that the method cannot be given a value.
    The three lines, as the file has them (all of their code points are
    ASCII): *)
Definition preprocess_text_line_84 : str :=
  py "        text = re.sub(r'\s+', ' ', text).strip()".

Definition preprocess_text_line_87 : str :=
  py "        text = re.sub(r'[" ++ [DQUOTE; DQUOTE; DQUOTE] ++ py "]', '"
    ++ [DQUOTE] ++ py "', text)".

Definition preprocess_text_line_88 : str :=
  py "        text = re.sub(r'[''']', " ++ [DQUOTE] ++ py "'" ++ [DQUOTE]
    ++ py ", text)".

(** *** Research results and connectors *)

Record LawSection : Type := {
  title : str;
  sectionNumber : str;
  content : str;
  relevance : Z
}.

Record CaseHistory : Type := {
  citation : str;
  parties : str;
  holdings : str;
  case_relevance : Z;
  date : option str
}.

Record QueryParams : Type := {
  keywords : list str;
  acts : list str;
  sections : list str;
  domains : list str
}.

(** A [LegalDatabaseConnector]: each search either returns its records or
    raises an exception derived from [Exception]. *)
Record LegalDatabaseConnector : Type := {
  class_name : str;
  connector_search_law_sections : QueryParams -> result (list LawSection);
  connector_search_case_history : QueryParams -> result (list CaseHistory)
}.

(** *** Python dictionaries in insertion order *)

Section Dict.

Context {K V : Type} `{EqDecision K}.

Fixpoint dict_get (d : list (K * V)) (k : K) : option V :=
  match d with
  | [] => None
  | (k', v) :: d' => if decide (k = k') then Some v else dict_get d' k
  end.

(** [d[k] = v]: an existing key keeps its position, a new key goes last. *)
Fixpoint dict_set (d : list (K * V)) (k : K) (v : V) : list (K * V) :=
  match d with
  | [] => [(k, v)]
  | (k', v') :: d' =>
      if decide (k = k') then (k, v) :: d' else (k', v') :: dict_set d' k v
  end.

Definition dict_values (d : list (K * V)) : list V := d.*2.

End Dict.

(** *** [LegalDataAggregator] *)

Section Aggregate.

Context {A K : Type} `{EqDecision K}.
Variable key : A -> K.
Variable rel : A -> Z.

(** One iteration of the connector loop: the call and the [extend] are
    inside the [try]; the handler prints one line. The state is the
    printed output and [all_results]. *)
Definition query_step (call : LegalDatabaseConnector -> result (list A))
    (st : list str * list A) (connector : LegalDatabaseConnector)
  : list str * list A :=
  let '(stdout, all_results) := st in
  match call connector with
  | Ok results => (stdout, all_results ++ results)
  | Raise e =>
      let msg := match e with
                 | ValueError m | IndexError m | Exception m => m
                 end in
      (stdout ++ [py "Error querying connector " ++ class_name connector
                  ++ py ": " ++ msg],
       all_results)
  end.

Definition query_connectors
    (call : LegalDatabaseConnector -> result (list A))
    (connectors : list LegalDatabaseConnector) : list str * list A :=
  fold_left (query_step call) connectors ([], []).

(** One iteration of the deduplication loop. *)
Definition dedup_step (deduplicated : list (K * A)) (result : A)
  : list (K * A) :=
  let k := key result in
  match dict_get deduplicated k with
  | None => dict_set deduplicated k result
  | Some kept =>
      if (rel kept <? rel result)%Z
      then dict_set deduplicated k result
      else deduplicated
  end.

Definition deduplicate (all_results : list A) : list (K * A) :=
  fold_left dedup_step all_results [].

(** [sorted(values, key=relevance, reverse=True)]: the stable sort in
    descending order; [x] is placed before the first element that is not
    strictly more relevant. *)
Fixpoint insert_desc (x : A) (l : list A) : list A :=
  match l with
  | [] => [x]
  | y :: l' => if (rel x <? rel y)%Z then y :: insert_desc x l' else x :: l
  end.

Definition sorted_desc (l : list A) : list A := foldr insert_desc [] l.

Definition aggregate (call : LegalDatabaseConnector -> result (list A))
    (connectors : list LegalDatabaseConnector) : list str * list A :=
  let '(stdout, all_results) := query_connectors call connectors in
  let deduplicated := deduplicate all_results in
  let sorted_results := sorted_desc (dict_values deduplicated) in
  (stdout, sorted_results).

End Aggregate.

Module LegalDataAggregator.

Definition law_key (r : LawSection) : str * str := (title r, sectionNumber r).

(** Returns what was printed and the returned list. *)
Definition search_law_sections (connectors : list LegalDatabaseConnector)
    (query_params : QueryParams) : list str * list LawSection :=
  aggregate law_key relevance
    (fun connector => connector_search_law_sections connector query_params)
    connectors.

Definition search_case_history (connectors : list LegalDatabaseConnector)
    (query_params : QueryParams) : list str * list CaseHistory :=
  aggregate citation case_relevance
    (fun connector => connector_search_case_history connector query_params)
    connectors.

End LegalDataAggregator.

(** *** [LegalAnalysisGenerator] *)

(** The [brief_analysis] dictionary: an absent key is [None]. *)
Record BriefAnalysis : Type := {
  ba_domains : option (list str);
  ba_acts : option (list str);
  ba_summary : option str
}.

Definition elem_ofb (x : str) (l : list str) : bool := bool_decide (x ∈ l).

Module LegalAnalysisGenerator.

Definition generic_arguments : list str :=
  [ py "The facts presented establish a prima facie case that meets all statutory requirements.";
    py "The opposing party's actions constitute a clear violation of established legal principles.";
    py "Procedural irregularities in the opposing party's approach undermine their position." ].

Definition _generate_arguments (brief_analysis : BriefAnalysis)
    (law_sections : list LawSection) (case_histories : list CaseHistory)
  : list str :=
  let arguments : list str := [] in
  let arguments := arguments ++ (
    (fun section =>
       let content := content section in
       let content := if (100 <? length content)%nat
                      then take 100 content ++ py "..." else content in
       py "Under " ++ title section ++ py " Section "
         ++ sectionNumber section ++ py ", you can argue that " ++ content)
    <$> take 3 law_sections) in
  let arguments := arguments ++ (
    (fun case =>
       py "The precedent established in " ++ parties case ++ py " ("
         ++ citation case ++ py ") supports the position that "
         ++ holdings case)
    <$> take 2 case_histories) in
  let arguments :=
    if (length arguments <? 3)%nat
    then arguments ++ take (3 - length arguments) generic_arguments
    else arguments in
  take 5 arguments.

Definition generic_challenges : list str :=
  [ py "Establishing sufficient evidence to meet the burden of proof may be challenging.";
    py "The opposing party may argue that the statute of limitations has expired.";
    py "Jurisdictional issues could arise if the matter crosses state boundaries.";
    py "Proving the requisite intent element may be difficult without direct evidence.";
    py "Quantifying damages precisely could be challenging without expert testimony." ].

Definition get_domains (brief_analysis : BriefAnalysis) : list str :=
  default [py "general"] (ba_domains brief_analysis).

Definition _generate_challenges (brief_analysis : BriefAnalysis)
    (law_sections : list LawSection) (case_histories : list CaseHistory)
  : list str :=
  let challenges : list str := [] in
  let domains := get_domains brief_analysis in
  let challenges :=
    if elem_ofb (py "criminal") domains
    then challenges
      ++ [py "Proving criminal intent beyond reasonable doubt will require substantial evidence."]
    else challenges in
  let challenges :=
    if elem_ofb (py "civil") domains
    then challenges
      ++ [py "Establishing causation between the breach and claimed damages may be difficult."]
    else challenges in
  let challenges :=
    if elem_ofb (py "constitutional") domains
    then challenges
      ++ [py "Constitutional challenges face a high standard of review from the courts."]
    else challenges in
  let challenges :=
    if (length challenges <? 3)%nat
    then challenges ++ take (3 - length challenges) generic_challenges
    else challenges in
  take 4 challenges.

Definition generic_recommendations : list str :=
  [ py "Gather all documentary evidence to support factual assertions in the case.";
    py "Consider engaging expert witnesses to strengthen technical aspects of the case.";
    py "Prepare detailed affidavits from all relevant witnesses.";
    py "Explore alternative dispute resolution options before proceeding to trial.";
    py "Conduct thorough research on the presiding judge's previous rulings in similar cases." ].

Definition _generate_recommendations (brief_analysis : BriefAnalysis)
    (law_sections : list LawSection) (case_histories : list CaseHistory)
  : list str :=
  let recommendations : list str := [] in
  let domains := get_domains brief_analysis in
  let recommendations :=
    if elem_ofb (py "criminal") domains
    then recommendations
      ++ [py "Scrutinize the investigation procedure for any procedural lapses that could be challenged."]
    else recommendations in
  let recommendations :=
    if elem_ofb (py "civil") domains
    then recommendations
      ++ [py "Quantify damages precisely with supporting documentation and expert opinions."]
    else recommendations in
  let recommendations :=
    if elem_ofb (py "corporate") domains
    then recommendations
      ++ [py "Review all corporate governance documents and board resolutions relevant to the matter."]
    else recommendations in
  let recommendations :=
    match case_histories with
    | top_case :: _ =>
        recommendations ++
        [py "Cite " ++ parties top_case
             ++ py " prominently in submissions as it establishes favorable precedent."]
    | [] => recommendations
    end in
  let recommendations :=
    if (length recommendations <? 4)%nat
    then recommendations
      ++ take (4 - length recommendations) generic_recommendations
    else recommendations in
  take 5 recommendations.

End LegalAnalysisGenerator.

End Backend.

(** ** [legal_brief_analyzer.py] *)

Module BriefAnalyzer.

(** *** Pattern matching

    A matcher consumes a prefix of the text and returns what it captured
    together with the rest. The patterns below need no backtracking: every
    repetition is followed by a code point outside its class (whitespace,
    then a letter or a digit; digits, then whitespace or a letter) or ends
    the pattern, so the first, greedy attempt is the only possible one. *)

Definition matcher (A : Type) : Type := str -> option (A * str).

(** A literal. *)
Definition lit (w : str) : matcher unit := fun s =>
  if startswith w s then Some (tt, drop (length w) s) else None.

(** [\s*] *)
Definition ws_star : matcher unit := fun s => Some (tt, lstrip s).

Fixpoint span_decimal (s : str) : str * str :=
  match s with
  | c :: s' =>
      if isdecimal c
      then let '(d, r) := span_decimal s' in (c :: d, r)
      else ([], s)
  | [] => ([], [])
  end.

(** [(\d+)] *)
Definition digits_plus : matcher str := fun s =>
  match span_decimal s with
  | ([], _) => None
  | (d, r) => Some (d, r)
  end.

(** [(\d{4})] *)
Definition digits_4 : matcher str := fun s =>
  let d := take 4 s in
  if (length d =? 4)%nat && forallb isdecimal d
  then Some (d, drop 4 s) else None.

(** [re.finditer]: the matches from left to right; after a match the scan
    resumes where the match ended ([skip] counts the code points of the
    match still to be stepped over). None of the patterns matches the
    empty string. *)
Fixpoint finditer {A} (m : matcher A) (skip : nat) (s : str) : list A :=
  match s with
  | [] => []
  | _ :: s' =>
      match skip with
      | S k => finditer m k s'
      | O =>
          match m s with
          | Some (a, rest) =>
              a :: finditer m (length s - length rest - 1) s'
          | None => finditer m O s'
          end
      end
  end.

(** *** [_extract_citations] *)

Inductive reporter : Type := AIR | SCC | SCR.

(** The citation dictionary: ["volume"] is present for SCC only. *)
Record Citation : Type := {
  type : reporter;
  year : str;
  volume : option str;
  page : str
}.

(** [(\d{4})\s*AIR\s*(\d+)] *)
Definition air_pattern : matcher Citation := fun s =>
  '(y, s) ← digits_4 s;
  '(_, s) ← ws_star s;
  '(_, s) ← lit (py "AIR") s;
  '(_, s) ← ws_star s;
  '(p, s) ← digits_plus s;
  Some ({| type := AIR; year := y; volume := None; page := p |}, s).

(** [\((\d{4})\)\s*(\d+)\s*SCC\s*(\d+)] *)
Definition scc_pattern : matcher Citation := fun s =>
  '(_, s) ← lit (py "(") s;
  '(y, s) ← digits_4 s;
  '(_, s) ← lit (py ")") s;
  '(_, s) ← ws_star s;
  '(v, s) ← digits_plus s;
  '(_, s) ← ws_star s;
  '(_, s) ← lit (py "SCC") s;
  '(_, s) ← ws_star s;
  '(p, s) ← digits_plus s;
  Some ({| type := SCC; year := y; volume := Some v; page := p |}, s).

(** [(\d{4})\s*SCR\s*(\d+)] *)
Definition scr_pattern : matcher Citation := fun s =>
  '(y, s) ← digits_4 s;
  '(_, s) ← ws_star s;
  '(_, s) ← lit (py "SCR") s;
  '(_, s) ← ws_star s;
  '(p, s) ← digits_plus s;
  Some ({| type := SCR; year := y; volume := None; page := p |}, s).

Definition _extract_citations (text : str) : list Citation :=
  let citations : list Citation := [] in
  let citations := citations ++ finditer air_pattern O text in
  let citations := citations ++ finditer scc_pattern O text in
  let citations := citations ++ finditer scr_pattern O text in
  citations.

(** *** [_generate_search_queries] *)

(** What the method obtains from spaCy, from the [re] engine and from the
    interpreter's [set]. [set_to_list queries] is [list(set(queries))]: the
    iteration order of a set of strings follows their hashes, so the model
    only knows that the list has the same members and no repetition. *)
Record Runtime : Type := {
  noun_chunks : str -> list str;
  search_word_ignorecase : str -> str -> bool;
  set_to_list : list str -> list str;
  set_to_list_NoDup : forall l, NoDup (set_to_list l);
  set_to_list_elem : forall l x, x ∈ set_to_list l <-> x ∈ l
}.

Record ActSection : Type := { act : str; section : str }.

(** [len(s.split())]: the number of maximal runs of non-whitespace. *)
Fixpoint count_words (in_word : bool) (s : str) : nat :=
  match s with
  | [] => O
  | c :: s' =>
      if isspace c then count_words false s'
      else if in_word then count_words true s'
      else S (count_words true s')
  end.

Definition legal_terms_catalog : list str :=
  py <$> [ "murder"; "theft"; "fraud"; "negligence"; "damages";
           "contract"; "breach"; "tort"; "liability"; "compensation";
           "injunction"; "specific performance"; "arbitration"; "appeal";
           "evidence"; "testimony"; "witness"; "jurisdiction"; "bail";
           "conviction"; "acquittal"; "sentence"; "punishment"; "rights"
         ]%string.

(** [re.search(r'\b' + re.escape(term) + r'\b', text, re.IGNORECASE)] is
    asked of the runtime. *)
Definition _extract_legal_terms (rt : Runtime) (text : str) : list str :=
  filter (fun term => search_word_ignorecase rt term text = true)
         legal_terms_catalog.

Definition act_section_query (item : ActSection) : str :=
  act item ++ py " section " ++ section item.

(** The query appended for a citation; the volume of an SCC citation is
    read with [item['volume']]. *)
Definition citation_query (item : Citation) : outcome str :=
  match type item with
  | AIR => Returned (year item ++ py " AIR " ++ page item)
  | SCC =>
      match volume item with
      | Some v =>
          Returned (py "(" ++ year item ++ py ") " ++ v ++ py " SCC "
                      ++ page item)
      | None => Raised KeyError_volume
      end
  | SCR => Returned (year item ++ py " SCR " ++ page item)
  end.

(** The list [queries] as it stands before duplicates are removed, unless
    the loop over the citations raises. The [tokens] computed at the top
    of the method are not used. *)
Definition candidate_queries (rt : Runtime) (text : str)
    (entities : list (str * list str)) (acts_sections : list ActSection)
    (citations : list Citation) : outcome (list str) :=
  let queries : list str := [] in
  let key_phrases :=
    filter (fun chunk => (2 <= count_words false chunk)%nat /\
                         (count_words false chunk <= 5)%nat)
           (noun_chunks rt text) in
  let queries := queries ++ take 5 key_phrases in
  let queries := queries ++ (act_section_query <$> acts_sections) in
  citation_queries ← mapM citation_query citations;
  let queries := queries ++ citation_queries in
  let queries := queries ++
    ('(entity_type, values) ← entities;
     if bool_decide (entity_type ∈ [py "PERSON"; py "ORG"]) && truthy values
     then value ← take 3 values;
          match _extract_legal_terms rt text with
          | term :: _ => [value ++ py " " ++ term]
          | [] => []
          end
     else []) in
  Returned queries.

Definition _generate_search_queries (rt : Runtime) (text : str)
    (entities : list (str * list str)) (acts_sections : list ActSection)
    (citations : list Citation) : outcome (list str) :=
  queries ← candidate_queries rt text entities acts_sections citations;
  let unique_queries := set_to_list rt queries in
  Returned (take 10 unique_queries).

(** A runtime whose sets iterate in insertion order and whose other
    services find nothing, except the noun chunks handed to it. *)
Definition insertion_order_runtime (chunks : list str) : Runtime :=
  {| noun_chunks := fun _ => chunks;
     search_word_ignorecase := fun _ _ => false;
     set_to_list := remove_dups;
     set_to_list_NoDup := NoDup_remove_dups;
     set_to_list_elem := fun l x => elem_of_remove_dups l x |}.

(** The example brief at the end of the module. *)
Definition example_brief : str := py "
    This case involves a breach of contract under Section 73 of the Indian Contract Act. 
    The defendant failed to deliver goods by the agreed date of 15 March 2023, causing significant 
    financial losses to my client. The contract clearly specified a delivery date and included 
    a penalty clause for late delivery. The Supreme Court in Mehta vs. Patel & Others (AIR 2017 SC 567) 
    established that in cases of contractual breach, the aggrieved party must prove actual damages 
    suffered to claim compensation under Section 73 of the Indian Contract Act.
    ".

End BriefAnalyzer.

(** ** [case_file_drafting_agent.py] *)

Module DraftingAgent.

Import Backend.

(** *** Inputs *)

(** The dictionaries handed to the builders; an absent key is [None]. *)
Record PotentialParties : Type := {
  pp_petitioners : option (list str);
  pp_respondents : option (list str);
  pp_plaintiffs : option (list str);
  pp_defendants : option (list str)
}.

Record Entities : Type := {
  e_persons : option (list str);
  e_organizations : option (list str);
  e_dates : option (list str);
  e_locations : option (list str);
  e_monetary_values : option (list str);
  e_potential_parties : option PotentialParties
}.

Record Analysis : Type := {
  an_arguments : option (list str);
  an_challenges : option (list str);
  an_recommendations : option (list str)
}.

(** What the agent obtains from outside: NLTK's sentence splitter, the
    clock, the interpreter's case mappings and [re.sub], the template
    files, and [_extract_entities] (spaCy entities and the party and money
    patterns). *)
Record Runtime : Type := {
  sent_tokenize : str -> list str;
  today : str;                      (* now().strftime("%d/%m/%Y") *)
  now_isoformat : str;              (* now().isoformat() *)
  str_lower : str -> str;
  str_upper : str -> str;
  re_sub : str -> str -> str -> str;
  read_template : str -> option str;   (* [None]: FileNotFoundError *)
  _extract_entities : str -> Entities
}.

Definition get_list (o : option (list str)) : list str := default [] o.

Definition no_parties : PotentialParties :=
  {| pp_petitioners := None; pp_respondents := None;
     pp_plaintiffs := None; pp_defendants := None |}.

Definition get_parties (entities : Entities) : PotentialParties :=
  default no_parties (e_potential_parties entities).

Definition get_domains (brief_analysis : BriefAnalysis) : list str :=
  default [py "general"] (ba_domains brief_analysis).

(** [a or b] on lists. *)
Definition list_or (a b : list str) : list str := if truthy a then a else b.

(** [l[0] if l else d]. *)
Definition first_or (l : list str) (d : str) : str :=
  match l with x :: _ => x | [] => d end.

(** [l[0]]. *)
Definition index0 (l : list str) : result str :=
  match l with
  | x :: _ => Ok x
  | [] => Raise (IndexError (py "list index out of range"))
  end.

(** [if info.get(name): return info[name]]: the override, when truthy. *)
Definition override (info : gmap str str) (name : str) : option str :=
  match info !! name with
  | Some text => if truthy text then Some text else None
  | None => None
  end.

Definition is_type (document_type : str) (names : list str) : bool :=
  bool_decide (document_type ∈ names).

(** *** Section builders *)

Definition _generate_title (document_type : str)
    (brief_analysis : BriefAnalysis) (entities : Entities)
    (info : gmap str str) : str :=
  match override info (py "title") with
  | Some text => text
  | None =>
  let court := default (py "APPROPRIATE COURT") (info !! py "court") in
  let domains := get_domains brief_analysis in
  let case_type :=
    if elem_ofb (py "criminal") domains then py "CRIMINAL CASE"
    else if elem_ofb (py "civil") domains then py "CIVIL SUIT"
    else if elem_ofb (py "constitutional") domains then py "WRIT PETITION"
    else if elem_ofb (py "corporate") domains then py "COMPANY PETITION"
    else if elem_ofb (py "tax") domains then py "TAX APPEAL"
    else py "PETITION" in
  let potential_parties := get_parties entities in
  let petitioners := list_or (get_list (pp_petitioners potential_parties))
                             (get_list (pp_plaintiffs potential_parties)) in
  let respondents := list_or (get_list (pp_respondents potential_parties))
                             (get_list (pp_defendants potential_parties)) in
  let petitioner := first_or petitioners (py "PETITIONER NAME") in
  let respondent := first_or respondents (py "RESPONDENT NAME") in
  if is_type document_type [py "petition"] then
    py "IN THE " ++ court ++ [NL; NL] ++ case_type ++ [NL; NL]
      ++ py "IN THE MATTER OF:" ++ [NL] ++ petitioner ++ py " ... PETITIONER"
      ++ [NL; NL] ++ py "VERSUS" ++ [NL; NL] ++ respondent
      ++ py " ... RESPONDENT"
  else if is_type document_type [py "reply"; py "written_statement"] then
    py "IN THE " ++ court ++ [NL; NL] ++ case_type ++ [NL; NL]
      ++ py "IN THE MATTER OF:" ++ [NL] ++ petitioner
      ++ py " ... PETITIONER/PLAINTIFF" ++ [NL; NL] ++ py "VERSUS" ++ [NL; NL]
      ++ respondent ++ py " ... RESPONDENT/DEFENDANT"
  else if is_type document_type [py "rejoinder"] then
    py "IN THE " ++ court ++ [NL; NL] ++ case_type ++ [NL; NL]
      ++ py "IN THE MATTER OF:" ++ [NL] ++ petitioner
      ++ py " ... PETITIONER/PLAINTIFF" ++ [NL; NL] ++ py "VERSUS" ++ [NL; NL]
      ++ respondent ++ py " ... RESPONDENT/DEFENDANT" ++ [NL; NL]
      ++ py "REJOINDER ON BEHALF OF THE PETITIONER/PLAINTIFF"
  else
    py "IN THE MATTER OF:" ++ [NL] ++ petitioner ++ py " ... PETITIONER"
      ++ [NL; NL] ++ py "VERSUS" ++ [NL; NL] ++ respondent
      ++ py " ... RESPONDENT"
  end.

Definition party_details (organizations : list str) (party : str) : str :=
  let is_org := existsb (fun org => contains org party) organizations in
  if is_org then party
    ++ py ", a company/organization registered under the laws of India, having its registered office at [ADDRESS]."
  else party ++ py ", aged about [AGE] years, resident of [ADDRESS].".

Definition _generate_parties_section (document_type : str)
    (entities : Entities) (info : gmap str str) : str :=
  match override info (py "parties") with
  | Some text => text
  | None =>
  let potential_parties := get_parties entities in
  let petitioners := list_or (get_list (pp_petitioners potential_parties))
                             (get_list (pp_plaintiffs potential_parties)) in
  let respondents := list_or (get_list (pp_respondents potential_parties))
                             (get_list (pp_defendants potential_parties)) in
  let organizations := get_list (e_organizations entities) in
  let parties_text : str := [] in
  let parties_text :=
    match petitioners with
    | petitioner :: _ =>
        let parties_text := parties_text ++
          (if is_type document_type [py "petition"; py "rejoinder"]
           then py "1. The Petitioner is " else py "1. The Plaintiff is ") in
        let parties_text :=
          parties_text ++ party_details organizations petitioner in
        parties_text ++ [NL; NL]
    | [] => parties_text
      ++ py "1. The Petitioner/Plaintiff details: [TO BE FILLED]" ++ [NL; NL]
    end in
  let parties_text :=
    match respondents with
    | respondent :: _ =>
        let parties_text := parties_text ++
          (if is_type document_type [py "petition"; py "rejoinder"]
           then py "2. The Respondent is " else py "2. The Defendant is ") in
        parties_text ++ party_details organizations respondent
    | [] => parties_text
      ++ py "2. The Respondent/Defendant details: [TO BE FILLED]"
    end in
  parties_text
  end.

Definition _generate_jurisdiction_section (brief_analysis : BriefAnalysis)
    (entities : Entities) (info : gmap str str) : str :=
  match override info (py "jurisdiction") with
  | Some text => text
  | None =>
  let locations := get_list (e_locations entities) in
  let location := first_or locations (py "[LOCATION]") in
  let domains := get_domains brief_analysis in
  if elem_ofb (py "criminal") domains then
    py "This Hon'ble Court has jurisdiction to try and entertain this petition as the alleged offence occurred within the territorial jurisdiction of this Court at "
      ++ location ++ py "."
  else if elem_ofb (py "civil") domains then
    py "This Hon'ble Court has jurisdiction to try and entertain this suit as the subject matter of the dispute is situated within the territorial jurisdiction of this Court at "
      ++ location
      ++ py ", and the cause of action arose within the jurisdiction of this Court."
  else if elem_ofb (py "constitutional") domains then
    py "This Hon'ble Court has jurisdiction to entertain this petition under Article 226 of the Constitution of India as the cause of action arose within the territorial jurisdiction of this Court."
  else
    py "This Hon'ble Court has jurisdiction to try and entertain this matter as the cause of action arose within the territorial jurisdiction of this Court at "
      ++ location ++ py "."
  end.

Definition _generate_facts_section (rt : Runtime) (document_type : str)
    (brief_analysis : BriefAnalysis) (entities : Entities)
    (info : gmap str str) : str :=
  match override info (py "facts") with
  | Some text => text
  | None =>
  let dates := get_list (e_dates entities) in
  let monetary_values := get_list (e_monetary_values entities) in
  let summary := default [] (ba_summary brief_analysis) in
  if negb (truthy summary) then
    py "The facts of the case are as follows: [FACTS TO BE FILLED]"
  else
  let sentences := sent_tokenize rt summary in
  let facts_text := py "The facts of the case are as follows:" ++ [NL; NL] in
  let facts_text := facts_text ++
    for_enumerate 1 sentences (fun i sentence => str_of_nat i ++ py ". "
      ++ sentence ++ [NL; NL]) in
  let facts_text :=
    if truthy dates then
      facts_text ++ str_of_nat (length sentences + 1)%nat
        ++ py ". The relevant dates in this matter are: "
        ++ join (py ", ") (take 3 dates) ++ py "." ++ [NL; NL]
    else facts_text in
  let facts_text :=
    if truthy monetary_values &&
       (elem_ofb (py "civil") (default [] (ba_domains brief_analysis))
        || contains (py "contract") (str_lower rt summary))
    then
      facts_text
        ++ str_of_nat (length sentences + (if truthy dates then 1 else 0) + 1)%nat
        ++ py ". The monetary value involved in this dispute is approximately "
        ++ join (py " and ") (take 2 monetary_values) ++ py "." ++ [NL; NL]
    else facts_text in
  facts_text
  end.

Definition _generate_legal_provisions_section
    (law_sections : list LawSection) (info : gmap str str) : str :=
  match override info (py "legal_provisions") with
  | Some text => text
  | None =>
  if negb (truthy law_sections) then
    py "The following legal provisions are applicable to this case: [TO BE FILLED]"
  else
  let legal_provisions_text := py "The following legal provisions are applicable to this case:"
    ++ [NL; NL] in
  legal_provisions_text ++
    for_enumerate 1 law_sections (fun i section =>
      (str_of_nat i ++ py ". " ++ title section ++ py " - Section "
        ++ sectionNumber section ++ py ":" ++ [NL])
      ++ (py "   " ++ content section ++ [NL; NL]))
  end.

Definition _generate_grounds_section (analysis : Analysis)
    (law_sections : list LawSection) (case_histories : list CaseHistory)
    (info : gmap str str) : str :=
  match override info (py "grounds") with
  | Some text => text
  | None =>
  let grounds_text := py "The petition is filed on the following grounds:"
    ++ [NL; NL] in
  let arguments := get_list (an_arguments analysis) in
  let grounds_text := grounds_text ++
    for_enumerate 1 arguments (fun i argument => str_of_nat i ++ py ". "
      ++ argument ++ [NL; NL]) in
  let grounds_text := grounds_text ++
    for_enumerate (length arguments + 1) (take 2 law_sections)
      (fun i section =>
         let content := content section in
         let content := if (150 <? length content)%nat
                        then take 150 content ++ py "..." else content in
         (str_of_nat i ++ py ". As per " ++ title section ++ py " Section "
           ++ sectionNumber section ++ py ", ")
         ++ (py "which states that '" ++ content
           ++ py "', the petitioner has a valid claim." ++ [NL; NL])) in
  let grounds_text := grounds_text ++
    for_enumerate (length arguments + length (take 2 law_sections) + 1)
      (take 2 case_histories)
      (fun i case => str_of_nat i ++ py ". The Hon'ble Court in the case of "
        ++ parties case ++ py " (" ++ citation case ++ py ") has held that "
        ++ holdings case
        ++ py " This precedent directly applies to the present case."
        ++ [NL; NL]) in
  grounds_text
  end.

(** The two numbered reliefs that depend on the domain and on the
    document type. *)
Definition prayer_reliefs (document_type : str) (petition_1 petition_2
    reply_1 reply_2 : str) : str :=
  if is_type document_type [py "petition"] then petition_1 ++ petition_2
  else if is_type document_type [py "reply"; py "written_statement"]
  then reply_1 ++ reply_2
  else [].

Definition _generate_prayer_section (rt : Runtime) (document_type : str)
    (analysis : Analysis) (brief_analysis : BriefAnalysis)
    (info : gmap str str) : str :=
  match override info (py "prayer") with
  | Some text => text
  | None =>
  let domains := get_domains brief_analysis in
  let recommendations := get_list (an_recommendations analysis) in
  let prayer_text := py "In light of the facts and circumstances of the case, it is most respectfully prayed that this Hon'ble Court may be pleased to:"
    ++ [NL; NL] in
  let prayer_text := prayer_text ++
    (if elem_ofb (py "criminal") domains then
       prayer_reliefs document_type
         (py "1. Direct the respondent to register an FIR and conduct a fair investigation into the matter;"
           ++ [NL; NL])
         (py "2. Grant compensation to the petitioner for the losses suffered;"
           ++ [NL; NL])
         (py "1. Dismiss the petition/complaint as it is devoid of merits;"
           ++ [NL; NL])
         (py "2. Exonerate the respondent/defendant from all charges;"
           ++ [NL; NL])
     else if elem_ofb (py "civil") domains then
       prayer_reliefs document_type
         (py "1. Declare that the petitioner is entitled to the reliefs claimed;"
           ++ [NL; NL])
         (py "2. Direct the respondent to pay damages/compensation as deemed fit by this Hon'ble Court;"
           ++ [NL; NL])
         (py "1. Dismiss the suit with costs as it is devoid of merits;"
           ++ [NL; NL])
         (py "2. Declare that the plaintiff is not entitled to any of the reliefs claimed;"
           ++ [NL; NL])
     else if elem_ofb (py "constitutional") domains then
       prayer_reliefs document_type
         (py "1. Issue a writ of mandamus or any other appropriate writ directing the respondent to perform its statutory duties;"
           ++ [NL; NL])
         (py "2. Declare the actions of the respondent as illegal, arbitrary, and violative of the petitioner's fundamental rights;"
           ++ [NL; NL])
         (py "1. Dismiss the writ petition as it is not maintainable;"
           ++ [NL; NL])
         (py "2. Declare that the respondent has acted within the framework of law;"
           ++ [NL; NL])
     else
       prayer_reliefs document_type
         (py "1. Grant the reliefs as prayed for in the petition;"
           ++ [NL; NL])
         (py "2. Award costs of the proceedings to the petitioner;"
           ++ [NL; NL])
         (py "1. Dismiss the petition/suit with costs;" ++ [NL; NL])
         (py "2. Grant such other relief as deemed fit in favor of the respondent/defendant;"
           ++ [NL; NL])) in
  let prayer_text :=
    if truthy recommendations then
      fst (fold_left
        (fun '(prayer_text, rec_index) rec =>
           if contains (py "prayer") (str_lower rt rec)
              || contains (py "relief") (str_lower rt rec)
           then (prayer_text ++ str_of_nat rec_index ++ py ". " ++ rec
             ++ [NL; NL], S rec_index)
           else (prayer_text, rec_index))
        (take 2 recommendations) (prayer_text, 3%nat))
    else prayer_text in
  prayer_text ++ str_of_nat (count (py ";" ++ [NL; NL]) prayer_text + 1)%nat
    ++ py ". Pass any other order or direction as this Hon'ble Court may deem fit and proper in the interest of justice."
  end.

Definition _generate_verification_section (rt : Runtime)
    (document_type : str) (entities : Entities) (info : gmap str str)
  : result str :=
  match override info (py "verification") with
  | Some text => Ok text
  | None =>
  let locations := get_list (e_locations entities) in
  let location := first_or locations (py "[PLACE]") in
  let today := today rt in
  let potential_parties := get_parties entities in
  if is_type document_type [py "petition"; py "rejoinder"] then
    verifier ← index0 (default [py "[PETITIONER NAME]"]
                          (pp_petitioners potential_parties));
    Ok (py "Verified at " ++ location ++ py " on this " ++ today
      ++ py " that the contents of the above petition are true and correct to the best of my knowledge and belief and nothing material has been concealed therefrom."
      ++ [NL; NL] ++ verifier ++ [NL] ++ py "PETITIONER")
  else if is_type document_type [py "reply"; py "written_statement"] then
    verifier ← index0 (default [py "[RESPONDENT NAME]"]
                          (pp_respondents potential_parties));
    Ok (py "Verified at " ++ location ++ py " on this " ++ today
      ++ py " that the contents of the above reply are true and correct to the best of my knowledge and belief and nothing material has been concealed therefrom."
      ++ [NL; NL] ++ verifier ++ [NL] ++ py "RESPONDENT")
  else
    Ok (py "Verified at " ++ location ++ py " on this " ++ today
      ++ py " that the contents of the above document are true and correct to the best of my knowledge and belief and nothing material has been concealed therefrom."
      ++ [NL; NL] ++ py "[NAME]" ++ [NL] ++ py "[DESIGNATION]")
  end.

Definition _generate_preliminary_objections (analysis : Analysis)
    (info : gmap str str) : str :=
  match override info (py "preliminary_objections") with
  | Some text => text
  | None =>
  let challenges := get_list (an_challenges analysis) in
  let objections_text := py "The respondent/defendant raises the following preliminary objections:"
    ++ [NL; NL] in
  if truthy challenges then
    objections_text ++
      for_enumerate 1 challenges (fun i challenge => str_of_nat i ++ py ". "
        ++ challenge ++ [NL; NL])
  else
    objections_text
      ++ (py "1. The petition/plaint is not maintainable in law and on facts."
        ++ [NL; NL])
      ++ (py "2. The petition/plaint is barred by limitation." ++ [NL; NL])
        ++ (py "3. The petitioner/plaintiff has no locus standi to file the present petition/suit."
        ++ [NL; NL])
        ++ (py "4. The petition/plaint does not disclose any cause of action against the respondent/defendant."
        ++ [NL; NL])
  end.

Definition _generate_facts_rebuttal (brief_analysis : BriefAnalysis)
    (info : gmap str str) : str :=
  match override info (py "facts_rebuttal") with
  | Some text => text
  | None =>
  let rebuttal_text := py "The respondent/defendant submits the following in response to the alleged facts:"
    ++ [NL; NL] in
  let rebuttal_text := rebuttal_text
    ++ py "1. The facts stated in the petition/plaint are denied as incorrect and misleading, except those that are specifically admitted herein."
    ++ [NL; NL] in
  let rebuttal_text := rebuttal_text
    ++ py "2. The respondent/defendant denies all allegations of wrongdoing or liability as alleged in the petition/plaint."
    ++ [NL; NL] in
  let domains := get_domains brief_analysis in
  if elem_ofb (py "criminal") domains then
    rebuttal_text
        ++ (py "3. The allegations of criminal conduct are vehemently denied as false and baseless. The respondent/defendant has not committed any offense as alleged."
        ++ [NL; NL])
        ++ (py "4. The complaint is filed with malafide intentions to harass and pressurize the respondent/defendant."
        ++ [NL; NL])
  else if elem_ofb (py "civil") domains then
    rebuttal_text
        ++ (py "3. The alleged breach of contract/agreement is denied. The respondent/defendant has fulfilled all obligations as per the terms of the agreement."
        ++ [NL; NL])
        ++ (py "4. The petitioner/plaintiff has failed to disclose material facts and has approached this Hon'ble Court with unclean hands."
        ++ [NL; NL])
  else if elem_ofb (py "constitutional") domains then
    rebuttal_text
        ++ (py "3. The respondent has acted within the framework of law and constitutional provisions. No fundamental right of the petitioner has been violated."
        ++ [NL; NL])
        ++ (py "4. The petitioner has alternative remedies available which have not been exhausted before approaching this Hon'ble Court."
        ++ [NL; NL])
  else rebuttal_text
  end.

Definition counter_argument (arg : str) : str :=
  let counter_arg := replace (py "establishes") (py "fails to establish") arg in
  let counter_arg := replace (py "clearly") (py "allegedly") counter_arg in
  let counter_arg := replace (py "proves") (py "attempts to prove") counter_arg in
  let counter_arg :=
    replace (py "demonstrates") (py "claims to demonstrate") counter_arg in
  counter_arg.

Definition _generate_legal_arguments (analysis : Analysis)
    (law_sections : list LawSection) (case_histories : list CaseHistory)
    (info : gmap str str) : str :=
  match override info (py "legal_arguments") with
  | Some text => text
  | None =>
  let arguments_text := py "The following legal arguments are submitted for consideration:"
    ++ [NL; NL] in
  let counter_arguments :=
    counter_argument <$> get_list (an_arguments analysis) in
  let arguments_text := arguments_text ++
    for_enumerate 1 (take 3 counter_arguments)
      (fun i argument => str_of_nat i ++ py ". " ++ argument ++ [NL; NL]) in
  let arguments_text := arguments_text ++
    for_enumerate (length (take 3 counter_arguments) + 1)
      (take 2 law_sections)
      (fun i section =>
         (str_of_nat i ++ py ". With respect to " ++ title section
           ++ py " Section " ++ sectionNumber section ++ py ", ")
           ++ (py "the correct interpretation does not support the petitioner's/plaintiff's claim because [SPECIFIC LEGAL REASONING]."
           ++ [NL; NL])) in
  let arguments_text := arguments_text ++
    for_enumerate (length (take 3 counter_arguments)
                   + length (take 2 law_sections) + 1)
      (take 2 case_histories)
      (fun i case => str_of_nat i ++ py ". The case of " ++ parties case
        ++ py " (" ++ citation case
        ++ py ") cited by the petitioner/plaintiff is distinguishable from the present case because the facts and circumstances are materially different."
        ++ [NL; NL]) in
  arguments_text
  end.

Definition _generate_rebuttal_to_reply (analysis : Analysis)
    (info : gmap str str) : str :=
  match override info (py "rebuttal_to_reply") with
  | Some text => text
  | None =>
  let rebuttal_text := py "The petitioner/plaintiff submits the following in response to the reply/written statement:"
    ++ [NL; NL] in
  let rebuttal_text := rebuttal_text
    ++ py "1. The preliminary objections raised in the reply/written statement are misconceived and liable to be rejected."
    ++ [NL; NL] in
  let rebuttal_text := rebuttal_text
    ++ py "2. The respondent/defendant has failed to specifically deny the material allegations in the petition/plaint, which amounts to admission of those facts."
    ++ [NL; NL] in
  let challenges := get_list (an_challenges analysis) in
  rebuttal_text ++
    for_enumerate 3 (take 2 challenges) (fun i challenge => str_of_nat i
      ++ py ". The respondent's/defendant's contention that " ++ challenge
      ++ py " is incorrect and misleading because [SPECIFIC REBUTTAL]."
      ++ [NL; NL])
  end.

Definition _generate_additional_facts (brief_analysis : BriefAnalysis)
    (info : gmap str str) : str :=
  match override info (py "additional_facts") with
  | Some text => text
  | None =>
  let additional_facts_text := py "The petitioner/plaintiff submits the following additional facts that have come to light:"
    ++ [NL; NL] in
  let additional_facts_text := additional_facts_text
    ++ py "1. After filing the petition/plaint, the petitioner/plaintiff has discovered additional evidence that further strengthens the case."
    ++ [NL; NL] in
  let additional_facts_text := additional_facts_text
    ++ py "2. The respondent/defendant has continued with the alleged illegal activities even after notice of this proceeding."
    ++ [NL; NL] in
  let domains := get_domains brief_analysis in
  if elem_ofb (py "criminal") domains then
    additional_facts_text
      ++ py "3. New witnesses have come forward who can testify to the respondent's/defendant's involvement in the alleged offense."
      ++ [NL; NL]
  else if elem_ofb (py "civil") domains then
    additional_facts_text
      ++ py "3. Additional documents have been discovered that conclusively prove the breach of contract/agreement by the respondent/defendant."
      ++ [NL; NL]
  else if elem_ofb (py "constitutional") domains then
    additional_facts_text
      ++ py "3. Recent actions by the respondent further demonstrate the pattern of constitutional violations alleged in the petition."
      ++ [NL; NL]
  else additional_facts_text
  end.

Definition _generate_deponent_details (entities : Entities)
    (info : gmap str str) : str :=
  match override info (py "deponent_details") with
  | Some text => text
  | None =>
  let potential_parties := get_parties entities in
  let persons := get_list (e_persons entities) in
  let deponent :=
    match get_list (pp_petitioners potential_parties),
          get_list (pp_plaintiffs potential_parties), persons with
    | petitioner :: _, _, _ => petitioner
    | [], plaintiff :: _, _ => plaintiff
    | [], [], person :: _ => person
    | [], [], [] => py "[DEPONENT NAME]"
    end in
  let locations := get_list (e_locations entities) in
  let location := first_or locations (py "[ADDRESS]") in
  py "I, " ++ deponent
    ++ py ", aged about [AGE] years, [OCCUPATION], [NATIONALITY], resident of "
    ++ location ++ py ", do hereby solemnly affirm and declare as under:"
  end.

Definition _generate_affidavit_statements (rt : Runtime)
    (brief_analysis : BriefAnalysis) (info : gmap str str) : str :=
  match override info (py "statements") with
  | Some text => text
  | None =>
  let summary := default [] (ba_summary brief_analysis) in
  let sentences := sent_tokenize rt summary in
  let statements_text : str := [] in
  let statements_text := statements_text ++
    for_enumerate 1 sentences (fun i sentence => str_of_nat i ++ py ". "
      ++ sentence ++ [NL; NL]) in
  let statements_text := statements_text
    ++ str_of_nat (length sentences + 1)%nat
    ++ py ". I am well conversant with the facts and circumstances of the case and am competent to swear this affidavit."
    ++ [NL; NL] in
  let statements_text := statements_text
    ++ str_of_nat (length sentences + 2)%nat
    ++ py ". I have read and understood the contents of the accompanying petition/application and the same are true and correct to my knowledge."
    ++ [NL; NL] in
  let statements_text := statements_text
    ++ str_of_nat (length sentences + 3)%nat
    ++ py ". The annexures attached to the petition/application are true copies of their respective originals."
    ++ [NL; NL] in
  statements_text
  end.

Definition _generate_affidavit_declaration (info : gmap str str) : str :=
  match override info (py "declaration") with
  | Some text => text
  | None => py "I, the deponent above named, do hereby verify that the contents of this affidavit are true and correct to my knowledge, no part of it is false and nothing material has been concealed therefrom."
  end.

Definition _generate_attestation (rt : Runtime) (info : gmap str str)
  : str :=
  match override info (py "attestation") with
  | Some text => text
  | None =>
  let today := today rt in
  py "Solemnly affirmed and signed before me on this " ++ today
    ++ py " at [PLACE]." ++ [NL; NL] ++ py "NOTARY PUBLIC/OATH COMMISSIONER"
  end.

Definition _generate_sender_details (entities : Entities)
    (info : gmap str str) : str :=
  match override info (py "sender_details") with
  | Some text => text
  | None =>
  let potential_parties := get_parties entities in
  let persons := get_list (e_persons entities) in
  let sender :=
    match get_list (pp_petitioners potential_parties),
          get_list (pp_plaintiffs potential_parties), persons with
    | petitioner :: _, _, _ => petitioner
    | [], plaintiff :: _, _ => plaintiff
    | [], [], person :: _ => person
    | [], [], [] => py "[SENDER NAME]"
    end in
  py "FROM:" ++ [NL] ++ sender ++ [NL] ++ py "[ADDRESS]" ++ [NL]
    ++ py "[CONTACT DETAILS]" ++ [NL; NL] ++ py "THROUGH:" ++ [NL]
    ++ py "[ADVOCATE NAME]" ++ [NL] ++ py "[ADVOCATE ADDRESS]" ++ [NL]
    ++ py "[ADVOCATE CONTACT DETAILS]"
  end.

Definition _generate_recipient_details (entities : Entities)
    (info : gmap str str) : str :=
  match override info (py "recipient_details") with
  | Some text => text
  | None =>
  let potential_parties := get_parties entities in
  let recipient :=
    match get_list (pp_respondents potential_parties),
          get_list (pp_defendants potential_parties) with
    | respondent :: _, _ => respondent
    | [], defendant :: _ => defendant
    | [], [] => py "[RECIPIENT NAME]"
    end in
  py "TO:" ++ [NL] ++ recipient ++ [NL] ++ py "[ADDRESS]" ++ [NL]
    ++ py "[CONTACT DETAILS]"
  end.

Definition _generate_notice_subject (rt : Runtime)
    (brief_analysis : BriefAnalysis) (info : gmap str str) : str :=
  match override info (py "subject") with
  | Some text => text
  | None =>
  let domains := get_domains brief_analysis in
  let acts := get_list (ba_acts brief_analysis) in
  let subject_text := py "SUBJECT: " in
  let subject_text := subject_text ++
    (if elem_ofb (py "criminal") domains then
       py "LEGAL NOTICE FOR FILING CRIMINAL COMPLAINT"
     else if elem_ofb (py "civil") domains then
       (if contains (py "contract") (str_lower rt (join (py " ") domains))
        then py "LEGAL NOTICE FOR BREACH OF CONTRACT AND RECOVERY OF DAMAGES"
        else py "LEGAL NOTICE FOR CIVIL DISPUTE")
     else if elem_ofb (py "corporate") domains then
       py "LEGAL NOTICE FOR CORPORATE DISPUTE"
     else py "LEGAL NOTICE") in
  match acts with
  | act0 :: _ => subject_text ++ py " UNDER " ++ act0
  | [] => subject_text
  end
  end.

Definition _generate_notice_demand (analysis : Analysis)
    (info : gmap str str) : str :=
  match override info (py "demand") with
  | Some text => text
  | None =>
  let recommendations := get_list (an_recommendations analysis) in
  let demand_text := py "In view of the above facts and circumstances, you are hereby called upon to:"
    ++ [NL; NL] in
  if truthy recommendations then
    demand_text ++
      for_enumerate 1 (take 3 recommendations) (fun i rec => str_of_nat i
        ++ py ". " ++ rec ++ [NL; NL])
  else
    demand_text
      ++ (py "1. [SPECIFIC DEMAND 1]" ++ [NL; NL])
      ++ (py "2. [SPECIFIC DEMAND 2]" ++ [NL; NL])
      ++ (py "3. Pay the legal costs of this notice." ++ [NL; NL])
  end.

Definition _generate_notice_timeline (info : gmap str str) : str :=
  match override info (py "timeline") with
  | Some text => text
  | None => py "You are hereby given [NUMBER] days from the receipt of this notice to comply with the above demands, failing which my client will be constrained to initiate appropriate legal proceedings against you, both civil and criminal, in the appropriate forum, at your risk and cost."
  end.

Definition _generate_notice_consequences (law_sections : list LawSection)
    (info : gmap str str) : str :=
  match override info (py "consequences") with
  | Some text => text
  | None =>
  let consequences_text := py "Please note that if you fail to comply with the above demands within the stipulated time, you will be liable for the following consequences:"
    ++ [NL; NL] in
  let consequences_text :=
    if truthy law_sections then
      consequences_text ++
        for_enumerate 1 (take 2 law_sections) (fun i section => str_of_nat i
          ++ py ". Legal action under " ++ title section ++ py " Section "
          ++ sectionNumber section ++ py "." ++ [NL; NL])
    else consequences_text in
  let consequences_text := consequences_text
    ++ str_of_nat (length (take 2 law_sections) + 1)%nat
    ++ py ". Payment of damages, compensation, and legal costs."
    ++ [NL; NL] in
  let consequences_text := consequences_text
    ++ str_of_nat (length (take 2 law_sections) + 2)%nat
    ++ py ". Any other legal remedy available under the law." ++ [NL; NL] in
  consequences_text
  end.

(** *** [_generate_document_sections] *)

Definition document_structures : list (str * list str) :=
  [ (py "petition",
     py <$> [ "title"; "jurisdiction"; "parties"; "facts"; "grounds";
              "legal_provisions"; "prayer"; "verification" ]%string);
    (py "reply",
     py <$> [ "title"; "parties"; "preliminary_objections";
              "facts_rebuttal"; "legal_arguments"; "prayer";
              "verification" ]%string);
    (py "rejoinder",
     py <$> [ "title"; "parties"; "rebuttal_to_reply"; "additional_facts";
              "legal_arguments"; "prayer"; "verification" ]%string);
    (py "affidavit",
     py <$> [ "title"; "deponent_details"; "verification"; "statements";
              "declaration"; "attestation" ]%string);
    (py "legal_notice",
     py <$> [ "sender_details"; "recipient_details"; "subject"; "facts";
              "legal_provisions"; "demand"; "timeline";
              "consequences" ]%string);
    (py "written_statement",
     py <$> [ "title"; "parties"; "preliminary_objections"; "facts";
              "defense_arguments"; "legal_provisions"; "prayer";
              "verification" ]%string) ].

Definition dict_has {V} (d : list (str * V)) (k : str) : bool :=
  bool_decide (is_Some (dict_get d k)).

(** [if name in sections: sections[name] = builder(...)]. *)
Definition assign_if_present (name : str) (text : result str)
    (sections : list (str * str)) : result (list (str * str)) :=
  if dict_has sections name
  then text ← text; Ok (dict_set sections name text)
  else Ok sections.

Definition _generate_document_sections (rt : Runtime)
    (document_type : str) (brief_analysis : BriefAnalysis)
    (law_sections : list LawSection) (case_histories : list CaseHistory)
    (analysis : Analysis) (entities : Entities)
    (additional_info : option (gmap str str))
  : result (list (str * str)) :=
  let sections : list (str * str) :=
    fold_left (fun sections section => dict_set sections section [])
      (default [] (dict_get document_structures document_type)) [] in
  let info := default ∅ additional_info in
  sections ← assign_if_present (py "title")
    (Ok (_generate_title document_type brief_analysis entities info))
    sections;
  sections ← assign_if_present (py "parties")
    (Ok (_generate_parties_section document_type entities info)) sections;
  sections ← assign_if_present (py "facts")
    (Ok (_generate_facts_section rt document_type brief_analysis entities
           info)) sections;
  sections ← assign_if_present (py "legal_provisions")
    (Ok (_generate_legal_provisions_section law_sections info)) sections;
  sections ← assign_if_present (py "prayer")
    (Ok (_generate_prayer_section rt document_type analysis brief_analysis
           info)) sections;
  sections ← assign_if_present (py "verification")
    (_generate_verification_section rt document_type entities info)
    sections;
  if is_type document_type [py "petition"] then
    sections ← assign_if_present (py "jurisdiction")
      (Ok (_generate_jurisdiction_section brief_analysis entities info))
      sections;
    assign_if_present (py "grounds")
      (Ok (_generate_grounds_section analysis law_sections case_histories
             info)) sections
  else if is_type document_type [py "reply"; py "written_statement"] then
    sections ← assign_if_present (py "preliminary_objections")
      (Ok (_generate_preliminary_objections analysis info)) sections;
    sections ← assign_if_present (py "facts_rebuttal")
      (Ok (_generate_facts_rebuttal brief_analysis info)) sections;
    assign_if_present (py "legal_arguments")
      (Ok (_generate_legal_arguments analysis law_sections case_histories
             info)) sections
  else if is_type document_type [py "rejoinder"] then
    sections ← assign_if_present (py "rebuttal_to_reply")
      (Ok (_generate_rebuttal_to_reply analysis info)) sections;
    sections ← assign_if_present (py "additional_facts")
      (Ok (_generate_additional_facts brief_analysis info)) sections;
    assign_if_present (py "legal_arguments")
      (Ok (_generate_legal_arguments analysis law_sections case_histories
             info)) sections
  else if is_type document_type [py "affidavit"] then
    sections ← assign_if_present (py "deponent_details")
      (Ok (_generate_deponent_details entities info)) sections;
    sections ← assign_if_present (py "statements")
      (Ok (_generate_affidavit_statements rt brief_analysis info)) sections;
    sections ← assign_if_present (py "declaration")
      (Ok (_generate_affidavit_declaration info)) sections;
    assign_if_present (py "attestation")
      (Ok (_generate_attestation rt info)) sections
  else if is_type document_type [py "legal_notice"] then
    sections ← assign_if_present (py "sender_details")
      (Ok (_generate_sender_details entities info)) sections;
    sections ← assign_if_present (py "recipient_details")
      (Ok (_generate_recipient_details entities info)) sections;
    sections ← assign_if_present (py "subject")
      (Ok (_generate_notice_subject rt brief_analysis info)) sections;
    sections ← assign_if_present (py "demand")
      (Ok (_generate_notice_demand analysis info)) sections;
    sections ← assign_if_present (py "timeline")
      (Ok (_generate_notice_timeline info)) sections;
    assign_if_present (py "consequences")
      (Ok (_generate_notice_consequences law_sections info)) sections
  else Ok sections.

(** *** Templates *)

Definition default_petition_template : str :=
  [NL] ++ py "                IN THE [COURT NAME]" ++ [NL]
    ++ py "                " ++ [NL] ++ py "                [JURISDICTION]"
    ++ [NL] ++ py "                " ++ [NL]
    ++ py "                [CASE NUMBER]" ++ [NL] ++ py "                "
    ++ [NL] ++ py "                IN THE MATTER OF:" ++ [NL]
    ++ py "                " ++ [NL]
    ++ py "                [PETITIONER NAME]                                ... PETITIONER"
    ++ [NL] ++ py "                " ++ [NL] ++ py "                VERSUS"
    ++ [NL] ++ py "                " ++ [NL]
    ++ py "                [RESPONDENT NAME]                               ... RESPONDENT"
    ++ [NL] ++ py "                " ++ [NL]
    ++ py "                PETITION UNDER [RELEVANT LAW/SECTION]" ++ [NL]
    ++ py "                " ++ [NL]
    ++ py "                MOST RESPECTFULLY SHOWETH:" ++ [NL]
    ++ py "                " ++ [NL] ++ py "                1. PARTIES:"
    ++ [NL] ++ py "                   [PARTIES_PLACEHOLDER]" ++ [NL]
    ++ py "                " ++ [NL] ++ py "                2. JURISDICTION:"
    ++ [NL] ++ py "                   [JURISDICTION_PLACEHOLDER]" ++ [NL]
    ++ py "                " ++ [NL]
    ++ py "                3. FACTS OF THE CASE:" ++ [NL]
    ++ py "                   [FACTS_PLACEHOLDER]" ++ [NL]
    ++ py "                " ++ [NL] ++ py "                4. GROUNDS:"
    ++ [NL] ++ py "                   [GROUNDS_PLACEHOLDER]" ++ [NL]
    ++ py "                " ++ [NL]
    ++ py "                5. LEGAL PROVISIONS APPLICABLE:" ++ [NL]
    ++ py "                   [LEGAL_PROVISIONS_PLACEHOLDER]" ++ [NL]
    ++ py "                " ++ [NL] ++ py "                6. PRAYER:"
    ++ [NL] ++ py "                   [PRAYER_PLACEHOLDER]" ++ [NL]
    ++ py "                " ++ [NL] ++ py "                VERIFICATION:"
    ++ [NL] ++ py "                " ++ [NL]
    ++ py "                Verified at [PLACE] on this [DATE] that the contents of the above petition are true and correct to the best of my knowledge and belief and nothing material has been concealed therefrom."
    ++ [NL] ++ py "                " ++ [NL]
    ++ py "                [PETITIONER/ADVOCATE NAME]" ++ [NL]
    ++ py "                ".

Definition default_reply_template : str :=
  [NL] ++ py "                IN THE [COURT NAME]" ++ [NL]
    ++ py "                " ++ [NL] ++ py "                [JURISDICTION]"
    ++ [NL] ++ py "                " ++ [NL]
    ++ py "                [CASE NUMBER]" ++ [NL] ++ py "                "
    ++ [NL] ++ py "                IN THE MATTER OF:" ++ [NL]
    ++ py "                " ++ [NL]
    ++ py "                [PLAINTIFF/PETITIONER NAME]                     ... PLAINTIFF/PETITIONER"
    ++ [NL] ++ py "                " ++ [NL] ++ py "                VERSUS"
    ++ [NL] ++ py "                " ++ [NL]
    ++ py "                [DEFENDANT/RESPONDENT NAME]                     ... DEFENDANT/RESPONDENT"
    ++ [NL] ++ py "                " ++ [NL]
    ++ py "                REPLY ON BEHALF OF THE [DEFENDANT/RESPONDENT]"
    ++ [NL] ++ py "                " ++ [NL]
    ++ py "                MOST RESPECTFULLY SHOWETH:" ++ [NL]
    ++ py "                " ++ [NL] ++ py "                1. PARTIES:"
    ++ [NL] ++ py "                   [PARTIES_PLACEHOLDER]" ++ [NL]
    ++ py "                " ++ [NL]
    ++ py "                2. PRELIMINARY OBJECTIONS:" ++ [NL]
    ++ py "                   [PRELIMINARY_OBJECTIONS_PLACEHOLDER]" ++ [NL]
    ++ py "                " ++ [NL]
    ++ py "                3. REPLY TO FACTS:" ++ [NL]
    ++ py "                   [FACTS_REBUTTAL_PLACEHOLDER]" ++ [NL]
    ++ py "                " ++ [NL]
    ++ py "                4. LEGAL ARGUMENTS:" ++ [NL]
    ++ py "                   [LEGAL_ARGUMENTS_PLACEHOLDER]" ++ [NL]
    ++ py "                " ++ [NL] ++ py "                5. PRAYER:"
    ++ [NL] ++ py "                   [PRAYER_PLACEHOLDER]" ++ [NL]
    ++ py "                " ++ [NL] ++ py "                VERIFICATION:"
    ++ [NL] ++ py "                " ++ [NL]
    ++ py "                Verified at [PLACE] on this [DATE] that the contents of the above reply are true and correct to the best of my knowledge and belief and nothing material has been concealed therefrom."
    ++ [NL] ++ py "                " ++ [NL]
    ++ py "                [DEFENDANT/RESPONDENT/ADVOCATE NAME]" ++ [NL]
    ++ py "                ".

Definition default_affidavit_template : str :=
  [NL] ++ py "                BEFORE THE [COURT/AUTHORITY NAME]" ++ [NL]
    ++ py "                " ++ [NL] ++ py "                [JURISDICTION]"
    ++ [NL] ++ py "                " ++ [NL]
    ++ py "                [CASE NUMBER]" ++ [NL] ++ py "                "
    ++ [NL] ++ py "                AFFIDAVIT" ++ [NL] ++ py "                "
    ++ [NL]
    ++ py "                I, [DEPONENT NAME], [AGE], [OCCUPATION], [NATIONALITY], resident of [ADDRESS], do hereby solemnly affirm and declare as under:"
    ++ [NL] ++ py "                " ++ [NL]
    ++ py "                1. [STATEMENT_1_PLACEHOLDER]" ++ [NL]
    ++ py "                " ++ [NL]
    ++ py "                2. [STATEMENT_2_PLACEHOLDER]" ++ [NL]
    ++ py "                " ++ [NL]
    ++ py "                3. [STATEMENT_3_PLACEHOLDER]" ++ [NL]
    ++ py "                " ++ [NL] ++ py "                VERIFICATION:"
    ++ [NL] ++ py "                " ++ [NL]
    ++ py "                I, the deponent above named, do hereby verify that the contents of this affidavit are true and correct to my knowledge, no part of it is false and nothing material has been concealed therefrom."
    ++ [NL] ++ py "                " ++ [NL]
    ++ py "                Verified at [PLACE] on this [DATE]." ++ [NL]
    ++ py "                " ++ [NL] ++ py "                DEPONENT" ++ [NL]
    ++ py "                " ++ [NL] ++ py "                ATTESTATION:"
    ++ [NL] ++ py "                " ++ [NL]
    ++ py "                Solemnly affirmed and signed before me on this [DATE] at [PLACE]."
    ++ [NL] ++ py "                " ++ [NL]
    ++ py "                NOTARY PUBLIC/OATH COMMISSIONER" ++ [NL]
    ++ py "                ".

Definition _load_template (rt : Runtime) (template_name : str) : str :=
  match read_template rt (py "templates/" ++ template_name ++ py ".txt") with
  | Some text => text
  | None =>
      if str_eqb template_name (py "petition") then default_petition_template
      else if str_eqb template_name (py "reply") then default_reply_template
      else if str_eqb template_name (py "affidavit")
      then default_affidavit_template
      else [NL] ++ py "                [TITLE OF THE "
        ++ str_upper rt template_name ++ py "]" ++ [NL]
        ++ py "                " ++ [NL]
        ++ py "                [CONTENT_PLACEHOLDER]" ++ [NL]
        ++ py "                " ++ [NL] ++ py "                [DATE]"
        ++ [NL] ++ py "                " ++ [NL]
        ++ py "                [SIGNATURE]" ++ [NL] ++ py "                "
  end.

(** [self.templates], as [__init__] builds it. *)
Definition templates (rt : Runtime) : list (str * str) :=
  (fun name => (name, _load_template rt name))
  <$> (py <$> [ "petition"; "reply"; "rejoinder"; "affidavit";
                "legal_notice"; "written_statement" ]%string).

Definition _fill_template (rt : Runtime) (document_type : str)
    (sections : list (str * str)) : str :=
  let template := default [] (dict_get (templates rt) document_type) in
  let template :=
    fold_left
      (fun template '(section, content) =>
         let placeholder := py "[" ++ str_upper rt section
           ++ py "_PLACEHOLDER]" in
         replace placeholder content template)
      sections template in
  let template := re_sub rt (py "\[\w+_PLACEHOLDER\]") [] template in
  let today := today rt in
  let template := replace (py "[DATE]") today template in
  let template := re_sub rt (py "\n{3,}") [NL; NL] template in
  let template := re_sub rt (py " {2,}") (py " ") template in
  strip template.

(** *** [draft_case_file] *)

Record Metadata : Type := {
  document_type_ : str;
  generated_at : str;
  based_on_brief : str;
  law_sections_used : list str;
  case_histories_used : list str
}.

Record DraftedDocument : Type := {
  doc_content : str;
  doc_metadata : Metadata;
  doc_sections : list (str * str)
}.

Definition draft_case_file (rt : Runtime) (document_type : str)
    (brief_analysis : BriefAnalysis) (law_sections : list LawSection)
    (case_histories : list CaseHistory) (analysis : Analysis)
    (brief_content : str) (additional_info : option (gmap str str))
  : result DraftedDocument :=
  if negb (dict_has (templates rt) document_type) then
    Raise (ValueError (py "Unsupported document type: " ++ document_type))
  else
  let entities := _extract_entities rt brief_content in
  document_sections ← _generate_document_sections rt document_type
    brief_analysis law_sections case_histories analysis entities
    additional_info;
  let document_content := _fill_template rt document_type document_sections in
  let metadata :=
    {| document_type_ := document_type;
       generated_at := now_isoformat rt;
       based_on_brief :=
         if (100 <? length brief_content)%nat
         then take 100 brief_content ++ py "..." else brief_content;
       law_sections_used :=
         (fun section => title section ++ py " Section "
           ++ sectionNumber section) <$> take 3 law_sections;
       case_histories_used :=
         (fun case => parties case ++ py " (" ++ citation case
           ++ py ")") <$> take 3 case_histories |} in
  Ok {| doc_content := document_content;
        doc_metadata := metadata;
        doc_sections := document_sections |}.

End DraftingAgent.

(** ** [api/case_file_drafter.py] *)

Module ApiDrafter.

Record Parties : Type := { petitioner : str; respondent : str }.

(** The dictionaries built by [_extract_legal_provisions] and
    [_extract_case_precedents]. *)
Record Provision : Type := { p_act : str; p_section : str; p_content : str }.
Record Precedent : Type := {
  c_citation : str; c_parties : str; c_holdings : str
}.

(** [analysis_results] and [options]; an absent key is [None]. *)
Record RawSection : Type := {
  rs_title : option str;
  rs_sectionNumber : option str;
  rs_content : option str
}.

Record RawCase : Type := {
  rc_citation : option str;
  rc_parties : option str;
  rc_holdings : option str
}.

Record AnalysisResults : Type := {
  ar_lawSections : option (list RawSection);
  ar_caseHistories : option (list RawCase);
  ar_analysis : option (option (list str))    (* analysis, then arguments *)
}.

Record Options : Type := {
  opt_document_type : option str;
  opt_court : option str;
  opt_include_arguments : option bool;
  opt_include_prayer : option bool
}.

(** What the drafter obtains from outside: the interpreter's case
    mappings (on ASCII text, [str.lower] is the ASCII one), the clock, and
    the two extractors that search the brief with regular expressions. *)
Record Runtime : Type := {
  str_lower : str -> str;
  str_upper : str -> str;
  str_lower_ascii :
    forall s, Forall (fun c => c < 128) s -> str_lower s = ascii_lower s;
  strftime : str -> str;               (* datetime.now().strftime(format) *)
  _extract_parties : str -> Parties;
  _extract_facts : str -> list str
}.

Definition _extract_legal_provisions (analysis_results : AnalysisResults)
  : list Provision :=
  let legal_provisions : list Provision := [] in
  match ar_lawSections analysis_results with
  | Some lawSections =>
      if truthy lawSections then
        legal_provisions ++
        ((fun section =>
            {| p_act := default (py "Unknown Act") (rs_title section);
               p_section := default (py "N/A") (rs_sectionNumber section);
               p_content := default [] (rs_content section) |})
         <$> lawSections)
      else legal_provisions
  | None => legal_provisions
  end.

Definition _extract_case_precedents (analysis_results : AnalysisResults)
  : list Precedent :=
  let case_precedents : list Precedent := [] in
  match ar_caseHistories analysis_results with
  | Some caseHistories =>
      if truthy caseHistories then
        case_precedents ++
        ((fun case =>
            {| c_citation :=
                 default (py "Unknown Citation") (rc_citation case);
               c_parties := default (py "Unknown Parties") (rc_parties case);
               c_holdings := default [] (rc_holdings case) |})
         <$> caseHistories)
      else case_precedents
  | None => case_precedents
  end.

Definition _extract_arguments (analysis_results : AnalysisResults)
  : list str :=
  match ar_analysis analysis_results with
  | Some (Some arguments) => if truthy arguments then arguments else []
  | _ => []
  end.

Definition _generate_petition (rt : Runtime) (parties : Parties)
    (facts : list str) (legal_provisions : list Provision)
    (case_precedents : list Precedent) (arguments : list str) (court : str)
    (include_arguments : bool) (include_prayer : bool)
  : str :=
  let content : list str := [] in
  let content := content ++
    [ py "IN THE " ++ str_upper rt court;
      [];
      py "PETITION NO. _____ OF _____";
      [];
      py "IN THE MATTER OF:";
      [];
      petitioner parties;
      py "... PETITIONER";
      [];
      py "VERSUS";
      [];
      respondent parties;
      py "... RESPONDENT";
      [];
      py "PETITION UNDER _____";
      [];
      py "MOST RESPECTFULLY SHOWETH:";
      [];
      py "1. FACTS OF THE CASE:";
      [] ] in
  let content := content ++
    for_enumerate 1 facts (fun i fact =>
      [ py "   " ++ str_of_nat i ++ py ". " ++ fact ]) in
  let content := content ++
    [ [];
      py "2. GROUNDS:";
      [] ] in
  let content :=
    if truthy legal_provisions then
      let content := content ++
        [ py "   A. APPLICABLE LEGAL PROVISIONS:";
          [] ] in
      let content := content ++
        for_enumerate 1 legal_provisions (fun i provision =>
          [ py "      " ++ str_of_nat i ++ py ". " ++ p_act provision
            ++ py ", Section " ++ p_section provision ++ py ":";
            py "         " ++ p_content provision;
            [] ]) in
      content
    else content in
  let content :=
    if truthy case_precedents then
      let content := content ++
        [ py "   B. RELEVANT CASE LAW:";
          [] ] in
      let content := content ++
        for_enumerate 1 case_precedents (fun i case =>
          [ py "      " ++ str_of_nat i ++ py ". " ++ c_parties case
            ++ py " (" ++ c_citation case ++ py "):";
            py "         " ++ c_holdings case;
            [] ]) in
      content
    else content in
  let content :=
    if include_arguments && truthy arguments then
      let content := content ++
        [ py "   C. ARGUMENTS:";
          [] ] in
      let content := content ++
        for_enumerate 1 arguments (fun i argument =>
          [ py "      " ++ str_of_nat i ++ py ". " ++ argument ]) in
      let content := content ++
        [ [] ] in
      content
    else content in
  let content :=
    if include_prayer then
      let content := content ++
        [ py "3. PRAYER:";
          [];
          py "   In view of the facts and circumstances of the case and the grounds mentioned above,";
          py "   it is most respectfully prayed that this Hon'ble Court may be pleased to:";
          [];
          py "   a) [SPECIFIC RELIEF SOUGHT]";
          [];
          py "   b) Pass any other order(s) as this Hon'ble Court may deem fit and proper in the";
          py "      interest of justice.";
          [] ] in
      content
    else content in
  let content := content ++
    [ py "FILED BY:";
      [];
      [];
      py "ADVOCATE FOR THE PETITIONER";
      [];
      py "PLACE: _____";
      py "DATE: " ++ strftime rt (py "%d/%m/%Y") ] in
  join [NL] content.

Definition _generate_reply (rt : Runtime) (parties : Parties)
    (facts : list str) (legal_provisions : list Provision)
    (case_precedents : list Precedent) (arguments : list str) (court : str)
    (include_arguments : bool)
  : str :=
  let content : list str := [] in
  let content := content ++
    [ py "IN THE " ++ str_upper rt court;
      [];
      py "CASE NO. _____ OF _____";
      [];
      py "IN THE MATTER OF:";
      [];
      petitioner parties;
      py "... PETITIONER/PLAINTIFF";
      [];
      py "VERSUS";
      [];
      respondent parties;
      py "... RESPONDENT/DEFENDANT";
      [];
      py "REPLY ON BEHALF OF THE RESPONDENT/DEFENDANT";
      [];
      py "1. PRELIMINARY OBJECTIONS:";
      [];
      py "   The Respondent/Defendant submits the following preliminary objections:";
      [];
      py "   a) The petition/plaint is not maintainable in law and on facts.";
      py "   b) The petition/plaint is barred by limitation.";
      py "   c) The petition/plaint does not disclose any cause of action.";
      [];
      py "2. REPLY TO FACTS:";
      [] ] in
  let content := content ++
    for_enumerate 1 facts (fun i fact =>
      [ py "   " ++ str_of_nat i ++ py ". With reference to paragraph "
        ++ str_of_nat i ++ py " of the petition/plaint, it is submitted that";
        py "      " ++ fact
          ++ py " - This is denied. The correct position is that [COUNTER FACT].";
        [] ]) in
  let content :=
    if truthy legal_provisions then
      let content := content ++
        [ py "3. APPLICABLE LEGAL PROVISIONS:";
          [] ] in
      let content := content ++
        for_enumerate 1 legal_provisions (fun i provision =>
          [ py "   " ++ str_of_nat i ++ py ". " ++ p_act provision
            ++ py ", Section " ++ p_section provision ++ py ":";
            py "      The Petitioner/Plaintiff has misinterpreted this provision. The correct";
            py "      interpretation is that [INTERPRETATION].";
            [] ]) in
      content
    else content in
  let content :=
    if truthy case_precedents then
      let content := content ++
        [ py "4. RELEVANT CASE LAW:";
          [] ] in
      let content := content ++
        for_enumerate 1 case_precedents (fun i case =>
          [ py "   " ++ str_of_nat i ++ py ". " ++ c_parties case ++ py " ("
            ++ c_citation case ++ py "):";
            py "      This case is distinguishable on facts as [DISTINCTION].";
            [] ]) in
      content
    else content in
  let content :=
    if include_arguments && truthy arguments then
      let content := content ++
        [ py "5. COUNTER ARGUMENTS:";
          [] ] in
      let content := content ++
        for_enumerate 1 arguments (fun i argument =>
          [ py "   " ++ str_of_nat i
            ++ py ". In response to the argument that " ++ argument
            ++ py ", it is submitted that";
            py "      [COUNTER ARGUMENT]." ]) in
      let content := content ++
        [ [] ] in
      content
    else content in
  let content := content ++
    [ py "6. PRAYER:";
      [];
      py "   In view of the above submissions, it is most respectfully prayed that this Hon'ble";
      py "   Court may be pleased to dismiss the petition/plaint with costs.";
      [];
      py "FILED BY:";
      [];
      [];
      py "ADVOCATE FOR THE RESPONDENT/DEFENDANT";
      [];
      py "PLACE: _____";
      py "DATE: " ++ strftime rt (py "%d/%m/%Y") ] in
  join [NL] content.

Definition _generate_rejoinder (rt : Runtime) (parties : Parties)
    (facts : list str) (legal_provisions : list Provision)
    (case_precedents : list Precedent) (arguments : list str) (court : str)
    (include_arguments : bool)
  : str :=
  let content : list str := [] in
  let content := content ++
    [ py "IN THE " ++ str_upper rt court;
      [];
      py "CASE NO. _____ OF _____";
      [];
      py "IN THE MATTER OF:";
      [];
      petitioner parties;
      py "... PETITIONER/PLAINTIFF";
      [];
      py "VERSUS";
      [];
      respondent parties;
      py "... RESPONDENT/DEFENDANT";
      [];
      py "REJOINDER ON BEHALF OF THE PETITIONER/PLAINTIFF";
      [];
      py "1. INTRODUCTION:";
      [];
      py "   The Petitioner/Plaintiff submits this rejoinder to the reply filed by the";
      py "   Respondent/Defendant and reiterates the submissions made in the petition/plaint.";
      py "   The Petitioner/Plaintiff further submits as under:";
      [];
      py "2. REJOINDER TO PRELIMINARY OBJECTIONS:";
      [];
      py "   a) The objection that the petition/plaint is not maintainable is baseless as";
      py "      [REASON].";
      py "   b) The petition/plaint is well within the limitation period as [REASON].";
      py "   c) The petition/plaint clearly discloses a cause of action as [REASON].";
      [];
      py "3. REJOINDER TO REPLY ON FACTS:";
      [] ] in
  let content := content ++
    for_enumerate 1 facts (fun i fact =>
      [ py "   " ++ str_of_nat i
        ++ py ". The Respondent/Defendant has denied the fact that " ++ fact
        ++ py ".";
        py "      This denial is false and misleading. The truth is that [EXPLANATION].";
        [] ]) in
  let content :=
    if truthy legal_provisions then
      let content := content ++
        [ py "4. CORRECT INTERPRETATION OF LEGAL PROVISIONS:";
          [] ] in
      let content := content ++
        for_enumerate 1 legal_provisions (fun i provision =>
          [ py "   " ++ str_of_nat i ++ py ". " ++ p_act provision
            ++ py ", Section " ++ p_section provision ++ py ":";
            py "      The Respondent/Defendant has misinterpreted this provision. The correct";
            py "      interpretation, as submitted in the petition/plaint, is that [INTERPRETATION].";
            [] ]) in
      content
    else content in
  let content :=
    if truthy case_precedents then
      let content := content ++
        [ py "5. APPLICABILITY OF CASE LAW:";
          [] ] in
      let content := content ++
        for_enumerate 1 case_precedents (fun i case =>
          [ py "   " ++ str_of_nat i ++ py ". " ++ c_parties case ++ py " ("
            ++ c_citation case ++ py "):";
            py "      The Respondent/Defendant's attempt to distinguish this case is misconceived.";
            py "      The ratio of this case is squarely applicable as [EXPLANATION].";
            [] ]) in
      content
    else content in
  let content :=
    if include_arguments && truthy arguments then
      let content := content ++
        [ py "6. REBUTTAL TO COUNTER ARGUMENTS:";
          [] ] in
      let content := content ++
        for_enumerate 1 arguments (fun i argument =>
          [ py "   " ++ str_of_nat i
            ++ py ". The Respondent/Defendant's counter to the argument that "
            ++ argument;
            py "      is untenable because [REBUTTAL]." ]) in
      let content := content ++
        [ [] ] in
      content
    else content in
  let content := content ++
    [ py "7. CONCLUSION:";
      [];
      py "   In view of the above submissions, the Petitioner/Plaintiff reiterates the prayer";
      py "   made in the petition/plaint and requests this Hon'ble Court to grant the relief";
      py "   sought therein.";
      [];
      py "FILED BY:";
      [];
      [];
      py "ADVOCATE FOR THE PETITIONER/PLAINTIFF";
      [];
      py "PLACE: _____";
      py "DATE: " ++ strftime rt (py "%d/%m/%Y") ] in
  join [NL] content.

Definition _generate_written_statement (rt : Runtime) (parties : Parties)
    (facts : list str) (legal_provisions : list Provision)
    (case_precedents : list Precedent) (arguments : list str) (court : str)
    (include_arguments : bool)
  : str :=
  let content : list str := [] in
  let content := content ++
    [ py "IN THE " ++ str_upper rt court;
      [];
      py "SUIT NO. _____ OF _____";
      [];
      py "IN THE MATTER OF:";
      [];
      petitioner parties;
      py "... PLAINTIFF";
      [];
      py "VERSUS";
      [];
      respondent parties;
      py "... DEFENDANT";
      [];
      py "WRITTEN STATEMENT ON BEHALF OF THE DEFENDANT";
      [];
      py "1. PRELIMINARY OBJECTIONS:";
      [];
      py "   The Defendant raises the following preliminary objections:";
      [];
      py "   a) This Hon'ble Court has no jurisdiction to try and entertain the present suit.";
      py "   b) The suit is barred by limitation.";
      py "   c) The plaint does not disclose any cause of action against the Defendant.";
      py "   d) The suit is bad for non-joinder of necessary parties.";
      [];
      py "2. PARAGRAPH-WISE REPLY:";
      [] ] in
  let content := content ++
    for_enumerate 1 facts (fun i fact =>
      [ py "   " ++ str_of_nat i ++ py ". With reference to paragraph "
        ++ str_of_nat i ++ py " of the plaint, it is submitted that";
        py "      " ++ fact
          ++ py " - This is denied. The correct position is that [COUNTER FACT].";
        [] ]) in
  let content := content ++
    [ py "3. ADDITIONAL FACTS:";
      [];
      py "   a) [ADDITIONAL FACT 1]";
      py "   b) [ADDITIONAL FACT 2]";
      py "   c) [ADDITIONAL FACT 3]";
      [] ] in
  let content :=
    if truthy legal_provisions then
      let content := content ++
        [ py "4. LEGAL SUBMISSIONS:";
          [] ] in
      let content := content ++
        for_enumerate 1 legal_provisions (fun i provision =>
          [ py "   " ++ str_of_nat i ++ py ". " ++ p_act provision
            ++ py ", Section " ++ p_section provision ++ py ":";
            py "      The Plaintiff has misinterpreted this provision. The correct";
            py "      interpretation is that [INTERPRETATION].";
            [] ]) in
      content
    else content in
  let content :=
    if truthy case_precedents then
      let content := content ++
        [ py "5. CASE LAW:";
          [] ] in
      let content := content ++
        for_enumerate 1 case_precedents (fun i case =>
          [ py "   " ++ str_of_nat i ++ py ". " ++ c_parties case ++ py " ("
            ++ c_citation case ++ py "):";
            py "      This case is distinguishable on facts as [DISTINCTION].";
            [] ]) in
      content
    else content in
  let content :=
    if include_arguments && truthy arguments then
      let content := content ++
        [ py "6. COUNTER ARGUMENTS:";
          [] ] in
      let content := content ++
        for_enumerate 1 arguments (fun i argument =>
          [ py "   " ++ str_of_nat i
            ++ py ". In response to the argument that " ++ argument
            ++ py ", it is submitted that";
            py "      [COUNTER ARGUMENT]." ]) in
      let content := content ++
        [ [] ] in
      content
    else content in
  let content := content ++
    [ py "7. PRAYER:";
      [];
      py "   In view of the above submissions, it is most respectfully prayed that this Hon'ble";
      py "   Court may be pleased to dismiss the suit with costs.";
      [];
      py "VERIFICATION:";
      [];
      py "I, [NAME], the Defendant above named, do hereby verify that the contents of";
      py "paragraphs 1 to 7 are true and correct to the best of my knowledge and belief";
      py "and nothing material has been concealed therefrom.";
      [];
      py "Verified at [PLACE] on this " ++ strftime rt (py "%d")
        ++ py " day of " ++ strftime rt (py "%B %Y") ++ py ".";
      [];
      py "DEFENDANT";
      [];
      py "FILED BY:";
      [];
      [];
      py "ADVOCATE FOR THE DEFENDANT";
      [];
      py "PLACE: _____";
      py "DATE: " ++ strftime rt (py "%d/%m/%Y") ] in
  join [NL] content.

Definition _generate_legal_notice (rt : Runtime) (parties : Parties)
    (facts : list str) (legal_provisions : list Provision)
    (include_arguments : bool) (include_prayer : bool)
  : str :=
  let content : list str := [] in
  let content := content ++
    [ py "LEGAL NOTICE";
      [];
      py "Date: " ++ strftime rt (py "%d/%m/%Y");
      [];
      py "To,";
      respondent parties;
      py "[ADDRESS]";
      [];
      py "From,";
      petitioner parties;
      py "[ADDRESS]";
      [];
      py "Through,";
      py "[ADVOCATE NAME]";
      py "[ADVOCATE ADDRESS]";
      [];
      py "Subject: Legal Notice for [SUBJECT MATTER]";
      [];
      py "Sir/Madam,";
      [];
      py "Under instructions from and on behalf of my client, I hereby serve upon you the following legal notice:";
      [];
      py "1. FACTS:";
      [] ] in
  let content := content ++
    for_enumerate 1 facts (fun i fact =>
      [ py "   " ++ str_of_nat i ++ py ". " ++ fact ]) in
  let content := content ++
    [ [] ] in
  let content :=
    if truthy legal_provisions then
      let content := content ++
        [ py "2. LEGAL PROVISIONS:";
          [] ] in
      let content := content ++
        for_enumerate 1 legal_provisions (fun i provision =>
          [ py "   " ++ str_of_nat i ++ py ". As per " ++ p_act provision
            ++ py ", Section " ++ p_section provision ++ py ":";
            py "      " ++ p_content provision;
            [] ]) in
      content
    else content in
  let content := content ++
    [ py "3. DEMAND:";
      [];
      py "   In view of the above facts and legal provisions, my client hereby calls upon you to:";
      [];
      py "   a) [SPECIFIC DEMAND 1]";
      py "   b) [SPECIFIC DEMAND 2]";
      py "   c) [SPECIFIC DEMAND 3]";
      [];
      py "4. TIME LIMIT:";
      [];
      py "   You are hereby called upon to comply with the above demands within [NUMBER] days";
      py "   from the receipt of this notice, failing which my client will be constrained to";
      py "   initiate appropriate legal proceedings against you, civil and/or criminal, at your";
      py "   risk, cost, and consequences.";
      [];
      py "5. RESERVATION OF RIGHTS:";
      [];
      py "   This notice is being issued without prejudice to any other rights and remedies";
      py "   available to my client under law, which are expressly reserved.";
      [];
      py "Yours faithfully,";
      [];
      [];
      py "[ADVOCATE NAME]";
      py "Advocate for the Noticee" ] in
  join [NL] content.

Definition _generate_affidavit (rt : Runtime) (parties : Parties)
    (facts : list str) (court : str)
  : str :=
  let content : list str := [] in
  let content := content ++
    [ py "IN THE " ++ str_upper rt court;
      [];
      py "CASE NO. _____ OF _____";
      [];
      py "IN THE MATTER OF:";
      [];
      petitioner parties;
      py "... PETITIONER/PLAINTIFF";
      [];
      py "VERSUS";
      [];
      respondent parties;
      py "... RESPONDENT/DEFENDANT";
      [];
      py "AFFIDAVIT";
      [];
      py "I, [NAME], aged about [AGE] years, [OCCUPATION], resident of [ADDRESS], do hereby";
      py "solemnly affirm and state on oath as under:";
      [] ] in
  let content := content ++
    for_enumerate 1 facts (fun i fact =>
      [ str_of_nat i ++ py ". " ++ fact ]) in
  let content := content ++
    [ [];
      py "VERIFICATION:";
      [];
      py "I, the deponent above named, do hereby verify that the contents of paragraphs 1 to";
      str_of_nat (length facts)
        ++ py " are true and correct to my knowledge and belief and nothing material";
      py "has been concealed therefrom.";
      [];
      py "Verified at [PLACE] on this " ++ strftime rt (py "%d")
        ++ py " day of " ++ strftime rt (py "%B %Y") ++ py ".";
      [];
      py "DEPONENT" ] in
  join [NL] content.

Record Document : Type := {
  doc_title : str;
  doc_content : str;
  doc_document_type : str;
  doc_court : str;
  doc_date : str;
  doc_parties : Parties
}.

Definition draft_case_file (rt : Runtime) (brief_text : str)
    (analysis_results : AnalysisResults) (options : Options)
  : result Document :=
  let parties := _extract_parties rt brief_text in
  let facts := _extract_facts rt brief_text in
  let legal_provisions := _extract_legal_provisions analysis_results in
  let case_precedents := _extract_case_precedents analysis_results in
  let arguments := _extract_arguments analysis_results in
  let document_type :=
    str_lower rt (default (py "petition") (opt_document_type options)) in
  let court := default (py "High Court") (opt_court options) in
  let include_arguments := default true (opt_include_arguments options) in
  let include_prayer := default true (opt_include_prayer options) in
  let versus := petitioner parties ++ py " vs. " ++ respondent parties in
  let '(content, title) :=
    if str_eqb document_type (py "petition") then
      (_generate_petition rt parties facts legal_provisions case_precedents
         arguments court include_arguments include_prayer,
       py "PETITION - " ++ versus)
    else if str_eqb document_type (py "reply") then
      (_generate_reply rt parties facts legal_provisions case_precedents
         arguments court include_arguments,
       py "REPLY - " ++ versus)
    else if str_eqb document_type (py "rejoinder") then
      (_generate_rejoinder rt parties facts legal_provisions case_precedents
         arguments court include_arguments,
       py "REJOINDER - " ++ versus)
    else if str_eqb document_type (py "written_statement") then
      (_generate_written_statement rt parties facts legal_provisions
         case_precedents arguments court include_arguments,
       py "WRITTEN STATEMENT - " ++ versus)
    else if str_eqb document_type (py "legal_notice") then
      (_generate_legal_notice rt parties facts legal_provisions
         include_arguments include_prayer,
       py "LEGAL NOTICE - " ++ petitioner parties ++ py " to "
         ++ respondent parties)
    else if str_eqb document_type (py "affidavit") then
      (_generate_affidavit rt parties facts court,
       py "AFFIDAVIT - " ++ petitioner parties)
    else
      (* Default to petition if document type is not recognized *)
      (_generate_petition rt parties facts legal_provisions case_precedents
         arguments court include_arguments include_prayer,
       py "PETITION - " ++ versus) in
  Ok {| doc_title := title;
        doc_content := content;
        doc_document_type := document_type;
        doc_court := court;
        doc_date := strftime rt (py "%d %B %Y");
        doc_parties := parties |}.

End ApiDrafter.

(** ** Vocabulary of the properties *)

Module Props.

(** A text in which every whitespace code point is a single space that
    follows a non-whitespace code point ([prev] tells whether the code
    point before the text was whitespace). *)
Fixpoint single_spaced (prev : bool) (s : str) : bool :=
  match s with
  | [] => true
  | c :: s' =>
      if isspace c
      then negb prev && (c =? SPACE) && single_spaced true s'
      else single_spaced false s'
  end.

Definition no_leading_space (s : str) : bool :=
  match s with
  | [] => true
  | c :: _ => negb (isspace c)
  end.

(** [v] is, among the records of [p] with its key, the first one of
    maximal relevance. *)
Definition first_max {A K : Type} (key : A -> K) (rel : A -> Z)
    (p : list A) (v : A) : Prop :=
  exists p1 p2, p = p1 ++ v :: p2 /\
    (forall x, x ∈ p1 -> key x = key v -> (rel x < rel v)%Z) /\
    (forall x, x ∈ p2 -> key x = key v -> (rel x <= rel v)%Z).

(** The invariant of the deduplication loop after the records [p]. *)
Definition dedup_inv {A K : Type} `{EqDecision K} (key : A -> K)
    (rel : A -> Z) (p : list A) (d : list (K * A)) : Prop :=
  NoDup d.*1 /\
  (forall k v, Backend.dict_get d k = Some v ->
               key v = k /\ first_max key rel p v) /\
  (forall r, r ∈ p -> is_Some (Backend.dict_get d (key r))).

(** The records returned by the connectors that did not raise, in the
    order in which the connectors are queried. *)
Definition gathered {A : Type}
    (call : Backend.LegalDatabaseConnector -> result (list A))
    (connectors : list Backend.LegalDatabaseConnector) : list A :=
  concat ((fun c => match call c with Ok rs => rs | Raise _ => [] end)
          <$> connectors).

Definition succeeds {A : Type}
    (call : Backend.LegalDatabaseConnector -> result (list A))
    (c : Backend.LegalDatabaseConnector) : bool :=
  is_ok (call c).

(** The lines printed for the connectors that raised, in the order in
    which the connectors are queried. *)
Definition failure_lines {A : Type}
    (call : Backend.LegalDatabaseConnector -> result (list A))
    (connectors : list Backend.LegalDatabaseConnector) : list str :=
  omap (fun c =>
          match call c with
          | Ok _ => None
          | Raise (ValueError m) | Raise (IndexError m)
          | Raise (Exception m) =>
              Some (py "Error querying connector " ++ Backend.class_name c
                    ++ py ": " ++ m)
          end) connectors.

(** Descending order of relevance. *)
Definition descending {A : Type} (rel : A -> Z) (l : list A) : Prop :=
  StronglySorted (fun a b => (rel b <= rel a)%Z) l.

(** The fields a citation dictionary carries: a four-digit year and a
    page for every reporter, a volume exactly for SCC. *)
Definition citation_fields (c : BriefAnalyzer.Citation) : Prop :=
  length (BriefAnalyzer.year c) = 4%nat /\
  forallb isdecimal (BriefAnalyzer.year c) = true /\
  BriefAnalyzer.page c <> [] /\
  forallb isdecimal (BriefAnalyzer.page c) = true /\
  match BriefAnalyzer.type c with
  | BriefAnalyzer.SCC =>
      exists v, BriefAnalyzer.volume c = Some v /\ v <> [] /\
                forallb isdecimal v = true
  | _ => BriefAnalyzer.volume c = None
  end.

(** An SCC citation without its volume. *)
Definition lacks_volume (c : BriefAnalyzer.Citation) : Prop :=
  BriefAnalyzer.type c = BriefAnalyzer.SCC /\ BriefAnalyzer.volume c = None.

(** Inputs for the query generator: the Companies Act with [n]
    different sections, and five noun phrases. *)
Definition companies_act_sections (n : nat) : list BriefAnalyzer.ActSection :=
  (fun i => {| BriefAnalyzer.act := py "Companies Act";
               BriefAnalyzer.section := str_of_nat i |}) <$> seq 1 n.

Definition five_phrases : list str :=
  py <$> [ "breach of contract"; "the agreed date";
           "significant financial losses"; "a penalty clause";
           "late delivery" ]%string.

(** The twenty-three section builders of the drafting agent, the key of
    [additional_info] each of them consults, and what each returns. *)
Inductive builder : Type :=
| Title | Parties | Facts | LegalProvisions | Prayer | Verification
| Jurisdiction | Grounds | PreliminaryObjections | FactsRebuttal
| LegalArguments | RebuttalToReply | AdditionalFacts | DeponentDetails
| Statements | Declaration | Attestation | SenderDetails
| RecipientDetails | Subject | Demand | Timeline | Consequences.

Definition builder_key (b : builder) : str :=
  py match b with
     | Title => "title" | Parties => "parties" | Facts => "facts"
     | LegalProvisions => "legal_provisions" | Prayer => "prayer"
     | Verification => "verification" | Jurisdiction => "jurisdiction"
     | Grounds => "grounds"
     | PreliminaryObjections => "preliminary_objections"
     | FactsRebuttal => "facts_rebuttal"
     | LegalArguments => "legal_arguments"
     | RebuttalToReply => "rebuttal_to_reply"
     | AdditionalFacts => "additional_facts"
     | DeponentDetails => "deponent_details"
     | Statements => "statements" | Declaration => "declaration"
     | Attestation => "attestation" | SenderDetails => "sender_details"
     | RecipientDetails => "recipient_details" | Subject => "subject"
     | Demand => "demand" | Timeline => "timeline"
     | Consequences => "consequences"
     end%string.

Record BuilderInputs : Type := {
  bi_document_type : str;
  bi_brief_analysis : Backend.BriefAnalysis;
  bi_law_sections : list Backend.LawSection;
  bi_case_histories : list Backend.CaseHistory;
  bi_analysis : DraftingAgent.Analysis;
  bi_entities : DraftingAgent.Entities
}.

Definition run_builder (rt : DraftingAgent.Runtime) (b : builder)
    (x : BuilderInputs) (info : gmap str str) : result str :=
  let dt := bi_document_type x in
  let ba := bi_brief_analysis x in
  let ls := bi_law_sections x in
  let chs := bi_case_histories x in
  let an := bi_analysis x in
  let en := bi_entities x in
  match b with
  | Title => Ok (DraftingAgent._generate_title dt ba en info)
  | Parties => Ok (DraftingAgent._generate_parties_section dt en info)
  | Facts => Ok (DraftingAgent._generate_facts_section rt dt ba en info)
  | LegalProvisions =>
      Ok (DraftingAgent._generate_legal_provisions_section ls info)
  | Prayer => Ok (DraftingAgent._generate_prayer_section rt dt an ba info)
  | Verification =>
      DraftingAgent._generate_verification_section rt dt en info
  | Jurisdiction =>
      Ok (DraftingAgent._generate_jurisdiction_section ba en info)
  | Grounds => Ok (DraftingAgent._generate_grounds_section an ls chs info)
  | PreliminaryObjections =>
      Ok (DraftingAgent._generate_preliminary_objections an info)
  | FactsRebuttal => Ok (DraftingAgent._generate_facts_rebuttal ba info)
  | LegalArguments =>
      Ok (DraftingAgent._generate_legal_arguments an ls chs info)
  | RebuttalToReply => Ok (DraftingAgent._generate_rebuttal_to_reply an info)
  | AdditionalFacts => Ok (DraftingAgent._generate_additional_facts ba info)
  | DeponentDetails => Ok (DraftingAgent._generate_deponent_details en info)
  | Statements =>
      Ok (DraftingAgent._generate_affidavit_statements rt ba info)
  | Declaration => Ok (DraftingAgent._generate_affidavit_declaration info)
  | Attestation => Ok (DraftingAgent._generate_attestation rt info)
  | SenderDetails => Ok (DraftingAgent._generate_sender_details en info)
  | RecipientDetails =>
      Ok (DraftingAgent._generate_recipient_details en info)
  | Subject => Ok (DraftingAgent._generate_notice_subject rt ba info)
  | Demand => Ok (DraftingAgent._generate_notice_demand an info)
  | Timeline => Ok (DraftingAgent._generate_notice_timeline info)
  | Consequences =>
      Ok (DraftingAgent._generate_notice_consequences ls info)
  end.

(** The fixed catalog of document types. *)
Definition document_types : list str :=
  py <$> [ "petition"; "reply"; "rejoinder"; "written_statement";
           "legal_notice"; "affidavit" ]%string.

(** What [_extract_entities] returns for a brief in which nothing is
    recognised: every key present, every list empty. *)
Definition no_entities : DraftingAgent.Entities :=
  {| DraftingAgent.e_persons := Some [];
     DraftingAgent.e_organizations := Some [];
     DraftingAgent.e_dates := Some [];
     DraftingAgent.e_locations := Some [];
     DraftingAgent.e_monetary_values := Some [];
     DraftingAgent.e_potential_parties :=
       Some {| DraftingAgent.pp_petitioners := Some [];
               DraftingAgent.pp_respondents := Some [];
               DraftingAgent.pp_plaintiffs := Some [];
               DraftingAgent.pp_defendants := Some [] |} |}.

(** The same with one respondent. *)
Definition entities_with_respondent (name : str) : DraftingAgent.Entities :=
  {| DraftingAgent.e_persons := Some [];
     DraftingAgent.e_organizations := Some [];
     DraftingAgent.e_dates := Some [];
     DraftingAgent.e_locations := Some [];
     DraftingAgent.e_monetary_values := Some [];
     DraftingAgent.e_potential_parties :=
       Some {| DraftingAgent.pp_petitioners := Some [];
               DraftingAgent.pp_respondents := Some [name];
               DraftingAgent.pp_plaintiffs := Some [];
               DraftingAgent.pp_defendants := Some [] |} |}.

(** A sample runtime: no template files, one sentence per text, ASCII
    case mappings, a fixed clock, substitutions that find no match. *)
Definition sample_runtime : DraftingAgent.Runtime :=
  {| DraftingAgent.sent_tokenize :=
       fun s => if truthy s then [s] else [];
     DraftingAgent.today := py "03/11/2026";
     DraftingAgent.now_isoformat := py "2026-11-03T10:00:00";
     DraftingAgent.str_lower := ascii_lower;
     DraftingAgent.str_upper := ascii_upper;
     DraftingAgent.re_sub := fun _ _ s => s;
     DraftingAgent.read_template := fun _ => None;
     DraftingAgent._extract_entities := fun _ => no_entities |}.

Definition no_analysis : DraftingAgent.Analysis :=
  {| DraftingAgent.an_arguments := None;
     DraftingAgent.an_challenges := None;
     DraftingAgent.an_recommendations := None |}.

Definition no_brief_analysis : Backend.BriefAnalysis :=
  {| Backend.ba_domains := None; Backend.ba_acts := None;
     Backend.ba_summary := None |}.

(** What a run of [_generate_document_sections] for a written statement
    can end in: an [IndexError], or sections whose ["defense_arguments"]
    entry is the empty string. *)
Definition IndexError_out_of_range : exn :=
  IndexError (py "list index out of range").

Definition raises_only_IndexError {A} (r : result A) : Prop :=
  match r with
  | Ok _ => True
  | Raise e => e = IndexError_out_of_range
  end.

Definition defense_arguments_left_empty
    (r : result (list (str * str))) : Prop :=
  match r with
  | Ok sections =>
      Backend.dict_get sections (py "defense_arguments") = Some []
  | Raise e => e = IndexError_out_of_range
  end.

(** Every section of [sections] that is still the empty string has its
    name in [remaining]. *)
Definition filled_except (remaining : list str)
    (sections : list (str * str)) : Prop :=
  forall k, Backend.dict_get sections k = Some [] -> k ∈ remaining.

(** The document types whose schema has a builder for every section. *)
Definition fully_built_types : list str :=
  py <$> [ "petition"; "reply"; "rejoinder"; "affidavit";
           "legal_notice" ]%string.

(** The API drafter: options that only name a document type, empty
    analysis results, and a sample runtime. *)
Definition options_for (document_type : str) : ApiDrafter.Options :=
  {| ApiDrafter.opt_document_type := Some document_type;
     ApiDrafter.opt_court := None;
     ApiDrafter.opt_include_arguments := None;
     ApiDrafter.opt_include_prayer := None |}.

Definition no_analysis_results : ApiDrafter.AnalysisResults :=
  {| ApiDrafter.ar_lawSections := None;
     ApiDrafter.ar_caseHistories := None;
     ApiDrafter.ar_analysis := None |}.

Definition api_sample_runtime : ApiDrafter.Runtime :=
  {| ApiDrafter.str_lower := ascii_lower;
     ApiDrafter.str_upper := ascii_upper;
     ApiDrafter.str_lower_ascii := fun s _ => eq_refl;
     ApiDrafter.strftime := fun _ => py "03 November 2026";
     ApiDrafter._extract_parties := fun _ =>
       {| ApiDrafter.petitioner := py "The Petitioner";
          ApiDrafter.respondent := py "The Respondent" |};
     ApiDrafter._extract_facts := fun _ => [] |}.

(** The document the API drafter returns when it drafts a petition. *)
Definition petition_by_default (rt : ApiDrafter.Runtime) (brief_text : str)
    (analysis_results : ApiDrafter.AnalysisResults)
    (options : ApiDrafter.Options) : ApiDrafter.Document :=
  let parties := ApiDrafter._extract_parties rt brief_text in
  {| ApiDrafter.doc_title :=
       py "PETITION - " ++ ApiDrafter.petitioner parties ++ py " vs. "
         ++ ApiDrafter.respondent parties;
     ApiDrafter.doc_content :=
       ApiDrafter._generate_petition rt parties
         (ApiDrafter._extract_facts rt brief_text)
         (ApiDrafter._extract_legal_provisions analysis_results)
         (ApiDrafter._extract_case_precedents analysis_results)
         (ApiDrafter._extract_arguments analysis_results)
         (default (py "High Court") (ApiDrafter.opt_court options))
         (default true (ApiDrafter.opt_include_arguments options))
         (default true (ApiDrafter.opt_include_prayer options));
     ApiDrafter.doc_document_type :=
       ApiDrafter.str_lower rt
         (default (py "petition") (ApiDrafter.opt_document_type options));
     ApiDrafter.doc_court :=
       default (py "High Court") (ApiDrafter.opt_court options);
     ApiDrafter.doc_date := ApiDrafter.strftime rt (py "%d %B %Y");
     ApiDrafter.doc_parties := parties |}.

(** Sample connectors: one that answers, one that answers with an
    overlapping result set, one whose transport fails. *)
Definition ipc_420 : Backend.LawSection :=
  {| Backend.title := py "Indian Penal Code"; Backend.sectionNumber := py "420";
     Backend.content := py "Whoever cheats and thereby dishonestly induces the person deceived to deliver any property";
     Backend.relevance := 9 |}.

Definition contract_73 : Backend.LawSection :=
  {| Backend.title := py "Indian Contract Act"; Backend.sectionNumber := py "73";
     Backend.content := py "When a contract has been broken, the party who suffers by such breach is entitled to receive compensation";
     Backend.relevance := 7 |}.

Definition evidence_65b : Backend.LawSection :=
  {| Backend.title := py "Indian Evidence Act"; Backend.sectionNumber := py "65B";
     Backend.content := py "Admissibility of electronic records";
     Backend.relevance := 8 |}.

Definition contract_73_mirror : Backend.LawSection :=
  {| Backend.title := py "Indian Contract Act"; Backend.sectionNumber := py "73";
     Backend.content := py "Compensation for loss or damage caused by breach of contract";
     Backend.relevance := 7 |}.

Definition ipc_420_weaker : Backend.LawSection :=
  {| Backend.title := py "Indian Penal Code"; Backend.sectionNumber := py "420";
     Backend.content := py "Cheating and dishonestly inducing delivery of property";
     Backend.relevance := 5 |}.

Definition mehta_v_patel (rel : Z) : Backend.CaseHistory :=
  {| Backend.citation := py "AIR 2017 SC 567";
     Backend.parties := py "Mehta vs. Patel & Others";
     Backend.holdings := py "The aggrieved party must prove actual damages suffered.";
     Backend.case_relevance := rel;
     Backend.date := Some (py "05 Aug 2017") |}.

Definition answering_connector : Backend.LegalDatabaseConnector :=
  {| Backend.class_name := py "ManupatraConnector";
     Backend.connector_search_law_sections := fun _ =>
       Ok [contract_73; ipc_420; evidence_65b];
     Backend.connector_search_case_history := fun _ =>
       Ok [mehta_v_patel 6] |}.

Definition mirror_connector : Backend.LegalDatabaseConnector :=
  {| Backend.class_name := py "IndianKanoonConnector";
     Backend.connector_search_law_sections := fun _ =>
       Ok [contract_73_mirror; ipc_420_weaker];
     Backend.connector_search_case_history := fun _ =>
       Ok [mehta_v_patel 8] |}.

Definition failing_connector : Backend.LegalDatabaseConnector :=
  {| Backend.class_name := py "IndianKanoonConnector";
     Backend.connector_search_law_sections := fun _ =>
       Raise (Exception (py "API request failed: 503"));
     Backend.connector_search_case_history := fun _ =>
       Raise (Exception (py "API request failed: 503")) |}.

Definition no_params : Backend.QueryParams :=
  {| Backend.keywords := []; Backend.acts := []; Backend.sections := [];
     Backend.domains := [] |}.

End Props.

(** ** [case_file_drafting_agent.py]: the dispatch of the section builders *)

(** [_generate_document_sections] calls the six common builders and then
    those of the document type, each of which fills its key if the schema
    has it: the same computation, written as a loop over the builders. *)
Module Dispatch.

Import Backend Props DraftingAgent.

#[export] Instance builder_eq_dec : EqDecision builder.
Proof. solve_decision. Defined.

Definition common_builders : list builder :=
  [Title; Parties; Facts; LegalProvisions; Prayer; Verification].

Definition specific_builders (document_type : str) : list builder :=
  if is_type document_type [py "petition"] then [Jurisdiction; Grounds]
  else if is_type document_type [py "reply"; py "written_statement"]
  then [PreliminaryObjections; FactsRebuttal; LegalArguments]
  else if is_type document_type [py "rejoinder"]
  then [RebuttalToReply; AdditionalFacts; LegalArguments]
  else if is_type document_type [py "affidavit"]
  then [DeponentDetails; Statements; Declaration; Attestation]
  else if is_type document_type [py "legal_notice"]
  then [SenderDetails; RecipientDetails; Subject; Demand; Timeline;
        Consequences]
  else [].

Definition dispatched (document_type : str) : list builder :=
  common_builders ++ specific_builders document_type.

Fixpoint run_builders (rt : DraftingAgent.Runtime) (x : BuilderInputs)
    (info : gmap str str) (builders : list builder)
    (sections : list (str * str)) : result (list (str * str)) :=
  match builders with
  | [] => Ok sections
  | b :: builders =>
      sections ← assign_if_present (builder_key b) (run_builder rt b x info)
        sections;
      run_builders rt x info builders sections
  end.

Definition empty_sections (document_type : str) : list (str * str) :=
  fold_left (fun sections section => dict_set sections section [])
    (default [] (dict_get document_structures document_type)) [].

End Dispatch.

(** ** [legal_backend.py]: brief analyzer, connectors and service *)

Module BackendService.

Import Backend BriefAnalyzer.

(** *** What [legal_backend.py] obtains from outside *)

(** The outcome of [json.load(open(name))]: the file may be missing (the
    code then falls back on built-in records), or reading it may raise. *)
Inductive file_read (A : Type) : Type :=
| Loaded (data : A)
| FileNotFound
| ReadError (e : exn).
Arguments Loaded {A} data.
Arguments FileNotFound {A}.
Arguments ReadError {A} e.

(** spaCy's entities as (text, label) pairs, NLTK's sentence splitter,
    [_extract_keywords] (NLTK's tokenizer, stop-word corpus and frequency
    distribution), the interpreter's [str.lower], the two mock files and
    the two environment variables. [_preprocess_text] is among them
    because the method is not Python as the file has it
    ([preprocess_text_line_88]): what it would return is left open, and
    what is proved of its callers holds whatever it returns. *)
Record Runtime : Type := {
  _preprocess_text : str -> str;
  str_lower : str -> str;
  nlp_ents : str -> list (str * str);
  sent_tokenize : str -> list str;
  _extract_keywords : str -> list str;
  mock_law_sections : file_read (list LawSection);
  mock_case_histories : file_read (list CaseHistory);
  MANUPATRA_API_KEY : str;
  INDIANKANOON_API_KEY : str
}.

(** *** Patterns of [LegalBriefAnalyzer.__init__] *)

Definition is_upper (c : chr) : bool := (65 <=? c) && (c <=? 90).
Definition is_lower (c : chr) : bool := (97 <=? c) && (c <=? 122).
Definition is_digit (c : chr) : bool := (48 <=? c) && (c <=? 57).

(** The longest prefix in a class, and the rest. *)
Fixpoint span (p : chr -> bool) (s : str) : str * str :=
  match s with
  | c :: s' =>
      if p c then let '(d, r) := span p s' in (c :: d, r) else ([], s)
  | [] => ([], [])
  end.

(** [x+] for a class [x]. *)
Definition class_plus (p : chr -> bool) : matcher unit := fun s =>
  match span p s with
  | ([], _) => None
  | (_, r) => Some (tt, r)
  end.

(** [m?], where what follows cannot match if [m] is given up. *)
Definition optional (m : matcher unit) : matcher unit := fun s =>
  match m s with
  | Some r => Some r
  | None => Some (tt, s)
  end.

(** A group around the whole of [m]: the text [m] consumed. *)
Definition capture (m : matcher unit) : matcher str := fun s =>
  '(_, rest) ← m s;
  Some (take (length s - length rest) s, rest).

(** [[A-Z][a-z]+] *)
Definition capitalized_word : matcher unit := fun s =>
  match s with
  | c :: s' => if is_upper c then class_plus is_lower s' else None
  | [] => None
  end.

(** [ Act,? (?:of )?\d{4}] *)
Definition act_tail : matcher unit := fun s =>
  '(_, s) ← lit (py " Act") s;
  '(_, s) ← optional (lit (py ",")) s;
  '(_, s) ← lit (py " ") s;
  '(_, s) ← optional (lit (py "of ")) s;
  '(_, s) ← digits_4 s;
  Some (tt, s).

(** [(?: [A-Z][a-z]+)* Act,? (?:of )?\d{4}]: the repetition takes as many
    words as it can and gives them back one by one until the tail
    matches ([fuel] bounds the number of words). *)
Fixpoint act_words (fuel : nat) : matcher unit := fun s =>
  match fuel with
  | O => act_tail s
  | S fuel' =>
      match ('(_, s1) ← lit (py " ") s; capitalized_word s1) with
      | Some (_, s') =>
          match act_words fuel' s' with
          | Some r => Some r
          | None => act_tail s
          end
      | None => act_tail s
      end
  end.

(** [([A-Z][a-z]+(?: [A-Z][a-z]+)* Act,? (?:of )?\d{4})] *)
Definition legal_act_pattern : matcher str :=
  capture (fun s => '(_, s1) ← capitalized_word s; act_words (length s1) s1).

(** [[Ss]ection (G)(?:\([a-z0-9]+\))?], where [G] is [\d+[A-Za-z]*]. *)
Definition section_pattern : matcher str := fun s =>
  '(_, s) ← match s with
            | c :: s' => if (c =? 83) || (c =? 115) then Some (tt, s')
                         else None
            | [] => None
            end;
  '(_, s) ← lit (py "ection ") s;
  '(d, s) ← digits_plus s;
  let '(l, s) := span (fun c => is_upper c || is_lower c) s in
  '(_, s) ← optional (fun s =>
              '(_, s) ← lit (py "(") s;
              '(_, s) ← class_plus (fun c => is_lower c || is_digit c) s;
              lit (py ")") s) s;
  Some (d ++ l, s).

(** [(\(\d{4}\) \d+ SCC \d+|AIR \d{4} SC \d+)] *)
Definition case_citation_pattern : matcher str :=
  capture (fun s =>
    match ('(_, s) ← lit (py "(") s;
           '(_, s) ← digits_4 s;
           '(_, s) ← lit (py ") ") s;
           '(_, s) ← digits_plus s;
           '(_, s) ← lit (py " SCC ") s;
           '(_, s) ← digits_plus s;
           Some (tt, s)) with
    | Some r => Some r
    | None =>
        '(_, s) ← lit (py "AIR ") s;
        '(_, s) ← digits_4 s;
        '(_, s) ← lit (py " SC ") s;
        '(_, s) ← digits_plus s;
        Some (tt, s)
    end).

(** [pattern.findall(text)] for a pattern with one group. *)
Definition findall (pattern : matcher str) (text : str) : list str :=
  finditer pattern O text.

(** [list(dict.fromkeys(l))]: the first occurrence of every item, in
    order. *)
Definition fromkeys {A} `{EqDecision A} (l : list A) : list A :=
  (fold_left (fun d k => dict_set d k tt) l []).*1.

(** *** [LegalBriefAnalyzer] *)

Definition _extract_acts (text : str) : list str :=
  fromkeys (findall legal_act_pattern text).

Definition _extract_sections (text : str) : list str :=
  fromkeys (findall section_pattern text).

Definition _extract_citations (text : str) : list str :=
  fromkeys (findall case_citation_pattern text).

(** An entity dictionary [{"text": ..., "type": ...}] as a pair. The loop
    keeps the entities not yet in [seen]. *)
Definition unique_step (st : list (str * str) * gset (str * str))
    (entity : str * str) : list (str * str) * gset (str * str) :=
  let '(unique_entities, seen) := st in
  if decide (entity ∈ seen) then st
  else (unique_entities ++ [entity], seen ∪ {[ entity ]}).

Definition _extract_legal_entities (rt : Runtime) (text : str)
  : list (str * str) :=
  let entities :=
    filter (fun ent => ent.2 ∈ [py "PERSON"; py "ORG"; py "GPE"; py "DATE"])
      (nlp_ents rt text) in
  (fold_left unique_step entities ([], ∅)).1.

Definition domain_keywords : list (str * list str) :=
  [ (py "criminal",
     py <$> [ "murder"; "theft"; "robbery"; "assault"; "criminal"; "ipc";
              "bail"; "arrest" ]%string);
    (py "civil",
     py <$> [ "contract"; "property"; "damages"; "breach"; "agreement";
              "specific"; "performance" ]%string);
    (py "constitutional",
     py <$> [ "fundamental"; "rights"; "constitution"; "article"; "writ";
              "petition" ]%string);
    (py "corporate",
     py <$> [ "company"; "director"; "shareholder"; "board"; "corporate";
              "sebi" ]%string);
    (py "tax",
     py <$> [ "income"; "tax"; "gst"; "evasion"; "assessment";
              "return" ]%string);
    (py "family",
     py <$> [ "divorce"; "custody"; "maintenance"; "marriage";
              "adoption" ]%string);
    (py "intellectual_property",
     py <$> [ "patent"; "copyright"; "trademark"; "infringement";
              "design" ]%string);
    (py "labor",
     py <$> [ "employee"; "employer"; "dismissal"; "compensation";
              "industrial"; "dispute" ]%string) ].

(** [domain_scores[domain] += n]; the key is always present. *)
Definition add_score (domain_scores : list (str * Z)) (domain : str)
    (n : Z) : list (str * Z) :=
  match dict_get domain_scores domain with
  | Some score => dict_set domain_scores domain (score + n)%Z
  | None => domain_scores
  end.

(** The scores after the keyword loop and the act loop. *)
Definition domain_scores (rt : Runtime) (text : str) (acts : list str)
  : list (str * Z) :=
  let domain_scores : list (str * Z) :=
    (fun entry => (entry.1, 0%Z)) <$> domain_keywords in
  let text_lower := str_lower rt text in
  let domain_scores :=
    fold_left
      (fun domain_scores '(domain, kw_list) =>
         fold_left
           (fun domain_scores kw =>
              if contains kw text_lower
              then add_score domain_scores domain
                     (Z.of_nat (count kw text_lower))
              else domain_scores)
           kw_list domain_scores)
      domain_keywords domain_scores in
  fold_left
    (fun domain_scores act =>
       let act_lower := str_lower rt act in
       let has (w : string) := contains (py w) act_lower in
       if has "penal"%string || has "criminal"%string
       then add_score domain_scores (py "criminal") 3
       else if has "contract"%string || has "civil"%string
       then add_score domain_scores (py "civil") 3
       else if has "constitution"%string
       then add_score domain_scores (py "constitutional") 3
       else if has "companies"%string
       then add_score domain_scores (py "corporate") 3
       else if has "income tax"%string || has "goods and services"%string
       then add_score domain_scores (py "tax") 3
       else if has "marriage"%string || has "family"%string
       then add_score domain_scores (py "family") 3
       else if has "patent"%string || has "copyright"%string || has "trademark"%string
       then add_score domain_scores (py "intellectual_property") 3
       else if has "industrial"%string || has "labor"%string || has "factory"%string
       then add_score domain_scores (py "labor") 3
       else domain_scores)
    acts domain_scores.

Definition _identify_legal_domains (rt : Runtime) (text : str)
    (acts : list str) (keywords : list str) : list str :=
  let relevant_domains :=
    fst <$> filter (fun entry => (0 < entry.2)%Z)
              (sorted_desc snd (domain_scores rt text acts)) in
  if truthy relevant_domains then take 3 relevant_domains
  else [py "general"].

Definition _generate_summary (rt : Runtime) (text : str) : str :=
  let sentences := sent_tokenize rt text in
  if (length sentences <=? 3)%nat then text
  else join (py " ") (take 2 sentences ++ [default [] (last sentences)]).

(** The dictionary returned by [analyze_brief]. *)
Record BriefReport : Type := {
  report_acts : list str;
  report_sections : list str;
  report_citations : list str;
  report_legal_entities : list (str * str);
  report_keywords : list str;
  report_domains : list str;
  report_summary : str
}.

Definition analyze_brief (rt : Runtime) (brief_text : str) : BriefReport :=
  let clean_text := _preprocess_text rt brief_text in
  let acts := _extract_acts clean_text in
  let sections := _extract_sections clean_text in
  let citations := _extract_citations clean_text in
  let legal_entities := _extract_legal_entities rt clean_text in
  let keywords := _extract_keywords rt clean_text in
  let domains := _identify_legal_domains rt clean_text acts keywords in
  {| report_acts := acts;
     report_sections := sections;
     report_citations := citations;
     report_legal_entities := legal_entities;
     report_keywords := keywords;
     report_domains := domains;
     report_summary := _generate_summary rt clean_text |}.

(** *** [ManupatraConnector] and [IndianKanoonConnector] *)

Definition builtin_law_sections : list LawSection :=
  [ {| title := py "Indian Penal Code"; sectionNumber := py "420";
       content := py "Whoever cheats and thereby dishonestly induces the person deceived to deliver any property to any person, or to make, alter or destroy the whole or any part of a valuable security, or anything which is signed or sealed, and which is capable of being converted into a valuable security, shall be punished with imprisonment of either description for a term which may extend to seven years, and shall also be liable to fine.";
       relevance := 9 |};
    {| title := py "Indian Contract Act"; sectionNumber := py "73";
       content := py "When a contract has been broken, the party who suffers by such breach is entitled to receive, from the party who has broken the contract, compensation for any loss or damage caused to him thereby, which naturally arose in the usual course of things from such breach, or which the parties knew, when they made the contract, to be likely to result from the breach of it.";
       relevance := 7 |} ].

Definition builtin_case_histories : list CaseHistory :=
  [ {| citation := py "AIR 2019 SC 1234"; parties := py "Sharma vs. State of Maharashtra";
       holdings := py "The Supreme Court held that for an offense under Section 420 of IPC, the intention to deceive should be present from the beginning of the transaction.";
       case_relevance := 8; date := Some (py "12 Mar 2019") |};
    {| citation := py "AIR 2017 SC 567"; parties := py "Mehta vs. Patel & Others";
       holdings := py "The Court established that in cases of contractual breach, the aggrieved party must prove actual damages suffered to claim compensation under Section 73 of the Indian Contract Act.";
       case_relevance := 6; date := Some (py "05 Aug 2017") |} ].

(** The records read from a mock file, the built-in ones when the file
    is missing. *)
Definition load_mock {A} (file : file_read A) (builtin : A) : result A :=
  match file with
  | Loaded data => Ok data
  | FileNotFound => Ok builtin
  | ReadError e => Raise e
  end.

Definition law_section_score (rt : Runtime) (keywords acts : list str)
    (section : LawSection) : Z :=
  let relevance := 0%Z in
  let relevance :=
    if truthy acts &&
       existsb (fun act => contains (str_lower rt act)
                             (str_lower rt (title section))) acts
    then (relevance + 5)%Z else relevance in
  fold_left
    (fun relevance keyword =>
       if contains (str_lower rt keyword) (str_lower rt (content section))
       then (relevance + 1)%Z else relevance)
    keywords relevance.

Definition _simulate_law_section_results (rt : Runtime)
    (query_params : QueryParams) : result (list LawSection) :=
  all_sections ← load_mock (mock_law_sections rt) builtin_law_sections;
  let keywords := keywords query_params in
  let acts := acts query_params in
  let results :=
    fold_left
      (fun results section =>
         let relevance := law_section_score rt keywords acts section in
         if (0 <? relevance)%Z
         then results ++ [ {| title := title section;
                              sectionNumber := sectionNumber section;
                              content := content section;
                              relevance := Z.min 10 relevance |} ]
         else results)
      all_sections [] in
  let results := sorted_desc relevance results in
  Ok (take 5 results).

Definition case_history_score (rt : Runtime) (keywords sections : list str)
    (case : CaseHistory) : Z :=
  let relevance := 0%Z in
  let relevance :=
    fold_left
      (fun relevance section =>
         if contains (py "Section " ++ section) (holdings case)
         then (relevance + 5)%Z else relevance)
      sections relevance in
  fold_left
    (fun relevance keyword =>
       if contains (str_lower rt keyword) (str_lower rt (holdings case))
       then (relevance + 1)%Z else relevance)
    keywords relevance.

Definition _simulate_case_history_results (rt : Runtime)
    (query_params : QueryParams) : result (list CaseHistory) :=
  all_cases ← load_mock (mock_case_histories rt) builtin_case_histories;
  let keywords := keywords query_params in
  let sections := sections query_params in
  let results :=
    fold_left
      (fun results case =>
         let relevance := case_history_score rt keywords sections case in
         if (0 <? relevance)%Z
         then results ++ [ {| citation := citation case;
                              parties := parties case;
                              holdings := holdings case;
                              case_relevance := Z.min 10 relevance;
                              date := date case |} ]
         else results)
      all_cases [] in
  let results := sorted_desc case_relevance results in
  Ok (take 5 results).

Definition ManupatraConnector (rt : Runtime) : LegalDatabaseConnector :=
  {| class_name := py "ManupatraConnector";
     connector_search_law_sections := _simulate_law_section_results rt;
     connector_search_case_history := _simulate_case_history_results rt |}.

(** [IndianKanoonConnector] delegates to a fresh [ManupatraConnector]. *)
Definition IndianKanoonConnector (rt : Runtime) : LegalDatabaseConnector :=
  {| class_name := py "IndianKanoonConnector";
     connector_search_law_sections :=
       connector_search_law_sections (ManupatraConnector rt);
     connector_search_case_history :=
       connector_search_case_history (ManupatraConnector rt) |}.

(** *** [LegalAnalysisGenerator.generate_analysis] *)

Definition generic_conclusion : str :=
  py " Based on the analysis of applicable laws and precedents, there are several legal strategies that could be pursued in this matter.".

(** The sentences of the summary, before they are joined. *)
Definition summary_parts (brief_analysis : BriefAnalysis)
    (law_sections : list LawSection) (case_histories : list CaseHistory)
  : list str :=
  let domains := default [py "general"] (ba_domains brief_analysis) in
  let acts := default [] (ba_acts brief_analysis) in
  let summary_parts : list str := [] in
  let summary_parts :=
    match domains with
    | d :: _ =>
        if negb (str_eqb d (py "general"))
        then summary_parts ++ [ py "This case involves "
                                  ++ join (py ", ") domains
                                  ++ py " law issues." ]
        else summary_parts
    | [] => summary_parts
    end in
  let summary_parts :=
    if truthy acts then
      let acts_str := join (py ", ") (take 2 acts) in
      let acts_str :=
        if (2 <? length acts)%nat
        then acts_str ++ py ", and " ++ str_of_nat (length acts - 2)
               ++ py " other acts"
        else acts_str in
      summary_parts ++ [ py "The relevant legislation includes " ++ acts_str
                           ++ py "." ]
    else summary_parts in
  let summary_parts :=
    if truthy law_sections then
      let top_sections :=
        (fun section => title section ++ py " Section "
                          ++ sectionNumber section)
        <$> take 2 law_sections in
      let sections_str := join (py ", ") top_sections in
      let sections_str :=
        if (2 <? length law_sections)%nat
        then sections_str ++ py ", and "
               ++ str_of_nat (length law_sections - 2)
               ++ py " other sections"
        else sections_str in
      summary_parts ++ [ py "Key applicable provisions include "
                           ++ sections_str ++ py "." ]
    else summary_parts in
  let summary_parts :=
    if truthy case_histories then
      let top_cases :=
        (fun case => parties case ++ py " (" ++ citation case ++ py ")")
        <$> take 1 case_histories in
      let cases_str := join (py ", ") top_cases in
      let cases_str :=
        if (1 <? length case_histories)%nat
        then cases_str ++ py ", and "
               ++ str_of_nat (length case_histories - 1)
               ++ py " other relevant precedents"
        else cases_str in
      summary_parts ++ [ py "Relevant case law includes " ++ cases_str
                           ++ py "." ]
    else summary_parts in
  summary_parts.

Definition _generate_analysis_summary (brief_analysis : BriefAnalysis)
    (law_sections : list LawSection) (case_histories : list CaseHistory)
  : str :=
  let summary_parts :=
    summary_parts brief_analysis law_sections case_histories in
  let summary := join (py " ") summary_parts in
  if (length summary <? 100)%nat then summary ++ generic_conclusion
  else summary.

(** The dictionary returned by [generate_analysis]. *)
Record AnalysisReport : Type := {
  analysis_summary : str;
  analysis_arguments : list str;
  analysis_challenges : list str;
  analysis_recommendations : list str
}.

Definition generate_analysis (brief_analysis : BriefAnalysis)
    (law_sections : list LawSection) (case_histories : list CaseHistory)
  : AnalysisReport :=
  {| analysis_summary :=
       _generate_analysis_summary brief_analysis law_sections case_histories;
     analysis_arguments :=
       LegalAnalysisGenerator._generate_arguments brief_analysis
         law_sections case_histories;
     analysis_challenges :=
       LegalAnalysisGenerator._generate_challenges brief_analysis
         law_sections case_histories;
     analysis_recommendations :=
       LegalAnalysisGenerator._generate_recommendations brief_analysis
         law_sections case_histories |}.

(** *** [LegalBackendService] *)

(** The connectors chosen by [__init__]. *)
Definition service_connectors (rt : Runtime) : list LegalDatabaseConnector :=
  let connectors : list LegalDatabaseConnector := [] in
  let connectors :=
    if truthy (MANUPATRA_API_KEY rt)
    then connectors ++ [ManupatraConnector rt] else connectors in
  let connectors :=
    if truthy (INDIANKANOON_API_KEY rt)
    then connectors ++ [IndianKanoonConnector rt] else connectors in
  if truthy connectors then connectors
  else [ManupatraConnector rt; IndianKanoonConnector rt].

(** The [brief_analysis] dictionary as [generate_analysis] reads it. *)
Definition as_brief_analysis (report : BriefReport) : BriefAnalysis :=
  {| ba_domains := Some (report_domains report);
     ba_acts := Some (report_acts report);
     ba_summary := Some (report_summary report) |}.

(** What [process_brief] returns, and what the aggregator printed. *)
Record ServiceResult : Type := {
  service_brief_analysis : BriefReport;
  service_law_sections : list LawSection;
  service_case_histories : list CaseHistory;
  service_analysis : AnalysisReport;
  service_stdout : list str
}.

Definition process_brief (rt : Runtime) (brief_text : str) : ServiceResult :=
  let brief_analysis := analyze_brief rt brief_text in
  let search_params :=
    {| keywords := report_keywords brief_analysis;
       acts := report_acts brief_analysis;
       sections := report_sections brief_analysis;
       domains := report_domains brief_analysis |} in
  let '(out1, law_sections) :=
    LegalDataAggregator.search_law_sections (service_connectors rt)
      search_params in
  let '(out2, case_histories) :=
    LegalDataAggregator.search_case_history (service_connectors rt)
      search_params in
  let analysis :=
    generate_analysis (as_brief_analysis brief_analysis) law_sections
      case_histories in
  {| service_brief_analysis := brief_analysis;
     service_law_sections := law_sections;
     service_case_histories := case_histories;
     service_analysis := analysis;
     service_stdout := out1 ++ out2 |}.

End BackendService.

(** ** [legal_brief_analyzer.py]: entities, documents and research *)

Module BriefResearch.

Import Backend BriefAnalyzer BackendService.

(** *** What the rest of [legal_brief_analyzer.py] obtains from outside *)

(** A document of a search result and the details of a document, as the
    Indian Kanoon client returns them (the keys that are read; an absent
    key is [None]). *)
Record Doc : Type := {
  tid : option str;
  doc_title : option str;
  docsource : option str
}.

Record SearchResults : Type := { docs : option (list Doc) }.

Record DocDetails : Type := { doc : option str }.

(** spaCy's entities as (text, label) pairs and its noun chunks, NLTK's
    sentence splitter, the two calls of the API client ([search] with its
    query and [doc_types], its [max_cites] being 5 at every call, and
    [get_document] with a document id; each may raise), and three methods that are left to the [re] engine:
    [_parse_act_section_from_title] and [_extract_holdings], whose
    patterns are matched lazily and without regard to case, and
    [_extract_citation]. *)
Record Runtime : Type := {
  nlp_ents : str -> list (str * str);
  nlp_noun_chunks : str -> list str;
  sent_tokenize : str -> list str;
  api_search : str -> str -> result SearchResults;
  api_get_document : str -> result DocDetails;
  _parse_act_section_from_title : str -> ActSection;
  _extract_holdings : str -> str;
  _extract_citation : str -> str
}.

(** *** [_extract_entities] *)

(** The loop over [doc.ents]: a list per label, without repetition. *)
Definition add_entity (entities : list (str * list str))
    (ent : str * str) : list (str * list str) :=
  let '(text, label) := ent in
  let entities :=
    if bool_decide (is_Some (dict_get entities label)) then entities
    else dict_set entities label [] in
  let texts := default [] (dict_get entities label) in
  if bool_decide (text ∈ texts) then entities
  else dict_set entities label (texts ++ [text]).

Definition _extract_entities (rt : Runtime) (text : str)
  : list (str * list str) :=
  let entities := fold_left add_entity (nlp_ents rt text) [] in
  let legal_entities : list (str * list str) :=
    [ (py "PERSON", []); (py "ORG", []); (py "DATE", []);
      (py "LOCATION", []) ] in
  fold_left
    (fun legal_entities key =>
       match dict_get entities key with
       | Some texts =>
           dict_set legal_entities key
             (default [] (dict_get legal_entities key) ++ texts)
       | None => legal_entities
       end)
    (legal_entities.*1) legal_entities.

(** *** [_extract_clean_content] *)

Definition LT : chr := 60.
Definition GT : chr := 62.

(** [re.sub(r'<[^>]+>', ' ', html)]: a tag is a [<], at least one code
    point other than [>], and the next [>]; [skip] counts the code
    points of the tag still to be stepped over. *)
Fixpoint sub_tags (skip : nat) (s : str) : str :=
  match s with
  | [] => []
  | c :: s' =>
      match skip with
      | S k => sub_tags k s'
      | O =>
          if c =? LT then
            let '(body, rest) := span (fun x => negb (x =? GT)) s' in
            if truthy body && truthy rest
            then SPACE :: sub_tags (S (length body)) s'
            else c :: sub_tags O s'
          else c :: sub_tags O s'
      end
  end.

Definition _extract_clean_content (html_content : str) : str :=
  let text := sub_tags O html_content in
  let text := strip (sub_ws_runs false text) in
  if (1000 <? length text)%nat then take 997 text ++ py "..." else text.

(** *** [_extract_date] *)

(** [re.search]: the leftmost match. *)
Fixpoint search {A} (m : matcher A) (s : str) : option A :=
  match m s with
  | Some (a, _) => Some a
  | None =>
      match s with
      | [] => None
      | _ :: s' => search m s'
      end
  end.

(** [(\d{1,2})]: two digits when there are two. *)
Definition digits_1_2 : matcher str := fun s =>
  match s with
  | a :: s' =>
      if isdecimal a then
        match s' with
        | b :: s'' => if isdecimal b then Some ([a; b], s'')
                      else Some ([a], s')
        | [] => Some ([a], [])
        end
      else None
  | [] => None
  end.

(** [\s+] *)
Definition ws_plus : matcher unit := fun s =>
  match s with
  | c :: _ => if isspace c then Some (tt, lstrip s) else None
  | [] => None
  end.

(** [(w1|w2|...)] for literals none of which is a prefix of another. *)
Fixpoint one_of (words : list str) : matcher str := fun s =>
  match words with
  | [] => None
  | w :: words' =>
      match lit w s with
      | Some (_, rest) => Some (w, rest)
      | None => one_of words' s
      end
  end.

Definition month_names : list str :=
  py <$> [ "January"; "February"; "March"; "April"; "May"; "June"; "July";
           "August"; "September"; "October"; "November";
           "December" ]%string.

Definition month_abbreviations : list str :=
  py <$> [ "Jan"; "Feb"; "Mar"; "Apr"; "May"; "Jun"; "Jul"; "Aug"; "Sep";
           "Oct"; "Nov"; "Dec" ]%string.

(** [(\d{1,2})(?:st|nd|rd|th)?\s+(M),?\s+(\d{4})] for the alternation [M]
    of the month names. *)
Definition date_pattern (months : list str) : matcher (str * str * str) :=
  fun s =>
  '(day, s) ← digits_1_2 s;
  '(_, s) ← optional (fun s => '(_, s) ← one_of (py <$> [ "st"; "nd"; "rd";
                                                       "th" ]%string) s;
                               Some (tt, s)) s;
  '(_, s) ← ws_plus s;
  '(month, s) ← one_of months s;
  '(_, s) ← optional (lit (py ",")) s;
  '(_, s) ← ws_plus s;
  '(year, s) ← digits_4 s;
  Some ((day, month, year), s).

Definition month_map : list (str * str) :=
  [ (py "Jan", py "Jan"); (py "January", py "Jan");
    (py "Feb", py "Feb"); (py "February", py "Feb");
    (py "Mar", py "Mar"); (py "March", py "Mar");
    (py "Apr", py "Apr"); (py "April", py "Apr");
    (py "May", py "May");
    (py "Jun", py "Jun"); (py "June", py "Jun");
    (py "Jul", py "Jul"); (py "July", py "Jul");
    (py "Aug", py "Aug"); (py "August", py "Aug");
    (py "Sep", py "Sep"); (py "September", py "Sep");
    (py "Oct", py "Oct"); (py "October", py "Oct");
    (py "Nov", py "Nov"); (py "November", py "Nov");
    (py "Dec", py "Dec"); (py "December", py "Dec") ].

Definition format_date (match_ : str * str * str) : str :=
  let '(day, month, year) := match_ in
  let standardized_month := default month (dict_get month_map month) in
  day ++ py " " ++ standardized_month ++ py " " ++ year.

Definition _extract_date (html_content : str) : str :=
  let text := _extract_clean_content html_content in
  match search (date_pattern month_names) text with
  | Some match_ => format_date match_
  | None =>
      match search (date_pattern month_abbreviations) text with
      | Some match_ => format_date match_
      | None => []
      end
  end.

(** *** [_search_law_sections] and [_search_case_histories] *)

Record FoundSection : Type := {
  fs_title : str;
  fs_sectionNumber : str;
  fs_content : str;
  fs_relevance : Z;
  fs_source : str;
  fs_docId : str
}.

Record FoundCase : Type := {
  fc_citation : str;
  fc_parties : str;
  fc_holdings : str;
  fc_relevance : Z;
  fc_date : str;
  fc_source : str;
  fc_docId : str
}.

(** [str(e)] in the handlers. *)
Definition str_of_raised (r : raised) : str :=
  match r with
  | ApiError (ValueError m) | ApiError (IndexError m)
  | ApiError (Exception m) => m
  | KeyError_volume => py "'volume'"
  end.

(** The list being built and the lines given to [logger.error]. *)
Record SearchState (A : Type) : Type := {
  found : list A;
  log : list str
}.
Arguments found {A} _.
Arguments log {A} _.

(** A block of statements updates the state and completes or raises; what
    was appended before an exception stays. *)
Definition block (A : Type) : Type :=
  SearchState A -> SearchState A * option raised.

Definition pass {A} : block A := fun st => (st, None).

Definition raise {A} (r : raised) : block A := fun st => (st, Some r).

Definition then_ {A} (a b : block A) : block A := fun st =>
  match a st with
  | (st', None) => b st'
  | stopped => stopped
  end.

Definition call {A B} (r : result B) (k : B -> block A) : block A :=
  match r with
  | Ok b => k b
  | Raise e => raise (ApiError e)
  end.

(** [try: body / except Exception as e: handler] *)
Definition try_except {A} (body : block A) (handler : raised -> block A)
  : block A := fun st =>
  match body st with
  | (st', Some e) => handler e st'
  | completed => completed
  end.

Fixpoint for_each {A B} (l : list B) (body : B -> block A) : block A :=
  match l with
  | [] => pass
  | x :: l' => then_ (body x) (for_each l' body)
  end.

Definition if_ {A} (b : bool) (body : block A) : block A :=
  if b then body else pass.

Definition with_state {A} (k : SearchState A -> block A) : block A :=
  fun st => k st st.

Definition append {A} (x : A) : block A := fun st =>
  ({| found := found st ++ [x]; log := log st |}, None).

Definition logger_error {A} (msg : str) : block A := fun st =>
  ({| found := found st; log := log st ++ [msg] |}, None).

(** What a search method returns or raises once its loops are done, with
    the lines it has logged; the list is sorted by relevance. *)
Definition run_search {A} (rel : A -> Z) (body : block A)
  : outcome (list A) * list str :=
  let '(st, stopped) := body {| found := []; log := [] |} in
  match stopped with
  | Some r => (Raised r, log st)
  | None => (Returned (sorted_desc rel (found st)), log st)
  end.

(** One iteration of the first loop of [_search_law_sections]: the search
    for an act and section of the brief. *)
Definition exact_matches (rt : Runtime) (item : ActSection)
  : block FoundSection :=
  let query := act_section_query item in
  try_except
    (call (api_search rt query (py "laws")) (fun results =>
       match docs results with
       | Some ds =>
           if_ (truthy ds)
             (for_each (take 3 ds) (fun d =>
                match tid d with
                | Some t =>
                    call (api_get_document rt t) (fun doc_details =>
                      match doc doc_details with
                      | Some html =>
                          append {| fs_title := act item;
                                    fs_sectionNumber := section item;
                                    fs_content := _extract_clean_content html;
                                    fs_relevance := 9;
                                    fs_source := py "Indian Kanoon";
                                    fs_docId := t |}
                      | None => pass
                      end)
                | None => pass
                end))
       | None => pass
       end))
    (fun e =>
       logger_error
         (py "Error searching for law section: " ++ str_of_raised e)).

(** One iteration of its second loop: the search for a query that is not
    the query of an act and section. The dictionary of
    [_parse_act_section_from_title] has both of its keys, so the defaults
    of the two [get] calls are never used. *)
Definition concept_matches (rt : Runtime) (acts_sections : list ActSection)
    (query : str) : block FoundSection :=
  if_ (negb (existsb (fun item => bool_decide (query = act_section_query item))
                     acts_sections))
    (try_except
       (call (api_search rt query (py "laws")) (fun results =>
          match docs results with
          | Some ds =>
              if_ (truthy ds)
                (for_each (take 2 ds) (fun d =>
                   with_state (fun st =>
                     if_ (negb (existsb
                                  (fun section =>
                                     bool_decide (Some (fs_docId section) = tid d))
                                  (found st)))
                       match tid d with
                       | Some t =>
                           call (api_get_document rt t) (fun doc_details =>
                             match doc doc_details with
                             | Some html =>
                                 let act_section :=
                                   _parse_act_section_from_title rt
                                     (default [] (doc_title d)) in
                                 append
                                   {| fs_title := act act_section;
                                      fs_sectionNumber := section act_section;
                                      fs_content := _extract_clean_content html;
                                      fs_relevance := 7;
                                      fs_source := py "Indian Kanoon";
                                      fs_docId := t |}
                             | None => pass
                             end)
                       | None => pass
                       end)))
          | None => pass
          end))
       (fun e =>
          logger_error
            (py "Error searching for law section: " ++ str_of_raised e))).

Definition _search_law_sections (rt : Runtime) (queries : list str)
    (acts_sections : list ActSection)
  : outcome (list FoundSection) * list str :=
  run_search fs_relevance
    (then_ (for_each acts_sections (exact_matches rt))
           (for_each queries (concept_matches rt acts_sections))).

(** [citation_str] of the first loop of [_search_case_histories]: the
    ["volume"] of an SCC citation is read with [item['volume']]. *)
Definition citation_str {A} (item : Citation) (k : str -> block A)
  : block A :=
  match type item with
  | AIR => k (year item ++ py " AIR " ++ page item)
  | SCC =>
      match volume item with
      | Some v =>
          k (py "(" ++ year item ++ py ") " ++ v ++ py " SCC " ++ page item)
      | None => raise KeyError_volume
      end
  | SCR => k (year item ++ py " SCR " ++ page item)
  end.

(** One iteration of that loop; [citation_str] is computed before the
    [try]. *)
Definition cited_cases (rt : Runtime) (item : Citation) : block FoundCase :=
  citation_str item (fun citation_str =>
  try_except
    (call (api_search rt citation_str (py "judgments")) (fun results =>
       match docs results with
       | Some ds =>
           if_ (truthy ds)
             (for_each (take 2 ds) (fun d =>
                match tid d with
                | Some t =>
                    call (api_get_document rt t) (fun doc_details =>
                      match doc doc_details with
                      | Some html =>
                          let parties :=
                            default (py "Unknown Parties") (doc_title d) in
                          append {| fc_citation := citation_str;
                                    fc_parties := parties;
                                    fc_holdings := _extract_holdings rt html;
                                    fc_relevance := 9;
                                    fc_date := _extract_date html;
                                    fc_source := py "Indian Kanoon";
                                    fc_docId := t |}
                      | None => pass
                      end)
                | None => pass
                end))
       | None => pass
       end))
    (fun e =>
       logger_error
         (py "Error searching for case history: " ++ str_of_raised e))).

(** One iteration of the second loop. *)
Definition concept_cases (rt : Runtime) (query : str) : block FoundCase :=
  try_except
    (call (api_search rt query (py "judgments")) (fun results =>
       match docs results with
       | Some ds =>
           if_ (truthy ds)
             (for_each (take 2 ds) (fun d =>
                with_state (fun st =>
                  if_ (negb (existsb
                               (fun case =>
                                  bool_decide (Some (fc_docId case) = tid d))
                               (found st)))
                    match tid d with
                    | Some t =>
                        call (api_get_document rt t) (fun doc_details =>
                          match doc doc_details with
                          | Some html =>
                              let citation := _extract_citation rt html in
                              append
                                {| fc_citation :=
                                     if truthy citation then citation
                                     else default (py "Unknown Citation")
                                            (docsource d);
                                   fc_parties :=
                                     default (py "Unknown Parties")
                                       (doc_title d);
                                   fc_holdings := _extract_holdings rt html;
                                   fc_relevance := 7;
                                   fc_date := _extract_date html;
                                   fc_source := py "Indian Kanoon";
                                   fc_docId := t |}
                          | None => pass
                          end)
                    | None => pass
                    end)))
       | None => pass
       end))
    (fun e =>
       logger_error
         (py "Error searching for case history: " ++ str_of_raised e)).

Definition _search_case_histories (rt : Runtime) (queries : list str)
    (citations : list Citation) : outcome (list FoundCase) * list str :=
  run_search fc_relevance
    (then_ (for_each citations (cited_cases rt))
           (for_each queries (concept_cases rt))).

(** *** [_generate_arguments], [_generate_challenges],
        [_generate_recommendations] *)

Definition section_text (section : FoundSection) : str :=
  fs_title section ++ py ", Section " ++ fs_sectionNumber section.

Definition case_text (case : FoundCase) : str :=
  fc_parties case ++ py " (" ++ fc_citation case ++ py ")".

Definition generic_arguments : list str :=
  py <$> [ "The facts presented in the brief clearly establish the elements required for the legal claim.";
           "The timeline of events demonstrates a clear causal relationship between the actions and the resulting damages.";
           "The documentary evidence supports the legal position outlined in the brief.";
           "The opposing party's actions constitute a clear violation of the applicable legal standards.";
           "The legal precedents consistently support the interpretation of the law as presented in the brief."
         ]%string.

Definition section_argument (rt : Runtime) (section : FoundSection)
  : list str :=
  if truthy (fs_content section) then
    let arg := py "Under " ++ section_text section ++ py ", " in
    let key_phrases :=
      filter (fun chunk => (2 <= count_words false chunk)%nat /\
                           (count_words false chunk <= 5)%nat)
             (nlp_noun_chunks rt (fs_content section)) in
    let arg :=
      match key_phrases with
      | phrase :: _ =>
          arg ++ py "the elements of " ++ phrase
              ++ py " are applicable to this case."
      | [] =>
          arg ++ py "the legal provisions are applicable to the facts of this case."
      end in
    [arg]
  else [].

Definition case_argument (rt : Runtime) (case : FoundCase) : list str :=
  if truthy (fc_holdings case) then
    let arg := py "The precedent established in " ++ case_text case
                 ++ py " supports the position that " in
    let sentences := sent_tokenize rt (fc_holdings case) in
    let arg :=
      match sentences with
      | sentence :: _ => arg ++ sentence
      | [] => arg ++ py "similar legal principles apply to the current case."
      end in
    [arg]
  else [].

Definition _generate_arguments (rt : Runtime) (brief_text : str)
    (law_sections : list FoundSection) (case_histories : list FoundCase)
    (legal_issues : list str) : list str :=
  let arguments : list str := [] in
  let arguments :=
    arguments ++ (section ← take 3 law_sections; section_argument rt section) in
  let arguments :=
    arguments ++ (case ← take 3 case_histories; case_argument rt case) in
  let arguments :=
    if (length arguments <? 3)%nat
    then arguments ++ take (3 - length arguments) generic_arguments
    else arguments in
  take 5 arguments.

Definition generic_challenges : list str :=
  py <$> [ "The evidence presented may be insufficient to establish all elements of the legal claim.";
           "There may be procedural hurdles that need to be addressed before the substantive issues can be resolved.";
           "The interpretation of the relevant statutes may be contested by the opposing party.";
           "The causal connection between the alleged actions and the claimed damages may be difficult to establish.";
           "The timeline of events may present challenges in establishing the sequence necessary for the legal claim."
         ]%string.

Definition _generate_challenges (rt : Runtime) (brief_text : str)
    (law_sections : list FoundSection) (case_histories : list FoundCase)
    (legal_issues : list str) : list str :=
  let challenges : list str := [] in
  let challenges :=
    challenges ++
    ((fun section =>
        py "The opposing party may argue that " ++ section_text section
          ++ py " "
          ++ py "does not apply due to specific factual differences in this case.")
       <$> take 2 law_sections) in
  let challenges :=
    challenges ++
    ((fun case =>
        py "The precedent in " ++ fc_parties case
          ++ py " may be distinguished on grounds that "
          ++ py "the factual circumstances differ significantly from the current case.")
       <$> take 2 case_histories) in
  let challenges :=
    if (length challenges <? 3)%nat
    then challenges ++ take (3 - length challenges) generic_challenges
    else challenges in
  take 5 challenges.

Definition general_recommendations : list str :=
  py <$> [ "Gather and organize all documentary evidence that supports the factual claims made in the brief.";
           "Consider obtaining expert testimony to strengthen the technical aspects of the case.";
           "Prepare for potential settlement discussions, as many cases are resolved before trial.";
           "Develop counter-arguments to address the potential challenges identified above.";
           "Ensure all procedural requirements are met to avoid unnecessary delays in the legal proceedings."
         ]%string.

Definition _generate_recommendations (rt : Runtime) (brief_text : str)
    (law_sections : list FoundSection) (case_histories : list FoundCase)
    (legal_issues : list str) : list str :=
  let recommendations : list str := [] in
  let recommendations :=
    if truthy law_sections then
      let rec := py "Strengthen the legal argument by specifically citing " in
      let section_texts := section_text <$> take 2 law_sections in
      let rec := rec ++ join (py " and ") section_texts
                   ++ py " and explaining how the facts of the case satisfy the legal requirements." in
      recommendations ++ [rec]
    else recommendations in
  let recommendations :=
    if truthy case_histories then
      let rec := py "Cite relevant precedents such as " in
      let case_texts := case_text <$> take 2 case_histories in
      let rec := rec ++ join (py " and ") case_texts
                   ++ py " to support the legal arguments." in
      recommendations ++ [rec]
    else recommendations in
  let recommendations := recommendations ++ general_recommendations in
  take 7 recommendations.

End BriefResearch.

(** ** Further notions used by the properties *)

Module DispatchProps.

Import Backend Props DraftingAgent Dispatch.

(** The verification builder fails exactly on an empty list of parties. *)
Definition no_verifier (dt : str) (en : Entities) : Prop :=
  (dt ∈ [py "petition"; py "rejoinder"] /\
   pp_petitioners (get_parties en) = Some []) \/
  (dt ∈ [py "reply"; py "written_statement"] /\
   pp_respondents (get_parties en) = Some []).

Definition all_builders : list builder :=
  [ Title; Parties; Facts; LegalProvisions; Prayer; Verification;
    Jurisdiction; Grounds; PreliminaryObjections; FactsRebuttal;
    LegalArguments; RebuttalToReply; AdditionalFacts; DeponentDetails;
    Statements; Declaration; Attestation; SenderDetails; RecipientDetails;
    Subject; Demand; Timeline; Consequences ].

(** The builder that consults the key [k], if any. *)
Definition builder_of_key (k : str) : option builder :=
  list_find (fun b => builder_key b = k) all_builders ≫= fun p => Some p.2.

End DispatchProps.

Module ServiceProps.

Import Backend Props BackendService.

(** The score of a domain after the two scoring loops. *)
Definition domain_score (rt : BackendService.Runtime) (text : str)
    (acts : list str) (domain : str) : Z :=
  default 0%Z (dict_get (domain_scores rt text acts) domain).

Definition domain_names : list str :=
  py <$> [ "criminal"; "civil"; "constitutional"; "corporate"; "tax";
           "family"; "intellectual_property"; "labor" ]%string.

(** The scoring loops keep the eight keys and never lower a score. *)
Definition scores_inv (scores : list (str * Z)) : Prop :=
  scores.*1 = domain_names /\ Forall (fun entry => (0 <= entry.2)%Z) scores.

(** A record of a simulated search: a record of the catalog whose
    relevance is its score, capped at 10. *)
Definition rescored_law_section (rt : BackendService.Runtime)
    (query_params : QueryParams) (section : LawSection) : LawSection :=
  {| title := title section; sectionNumber := sectionNumber section;
     content := content section;
     relevance :=
       Z.min 10 (law_section_score rt (keywords query_params)
                   (acts query_params) section) |}.

Definition rescored_case_history (rt : BackendService.Runtime)
    (query_params : QueryParams) (case : CaseHistory) : CaseHistory :=
  {| citation := citation case; parties := parties case;
     holdings := holdings case;
     case_relevance :=
       Z.min 10 (case_history_score rt (keywords query_params)
                   (sections query_params) case);
     date := date case |}.

(** [results] holds the (at most) five most relevant of [candidates], in
    descending order of relevance. *)
Definition top5_of {A : Type} (rel : A -> Z) (candidates results : list A)
  : Prop :=
  (length results <= 5)%nat /\
  descending rel results /\
  results ⊆ candidates /\
  (forall c, c ∈ candidates ->
     c ∈ results \/
     length results = 5%nat /\
     Forall (fun r => (rel c <= rel r)%Z) results).

End ServiceProps.

Module ResearchProps.

Import Backend Props BriefAnalyzer BackendService BriefResearch.

(** What a matcher leaves is a suffix of what it was given. *)
Definition consumes {A} (m : matcher A) : Prop :=
  forall s a rest, m s = Some (a, rest) -> rest `suffix_of` s.

(** No tag is left in a text: a [<] is followed at once by [>], or by no
    [>] at all. *)
Fixpoint tagless (s : str) : Prop :=
  match s with
  | [] => True
  | c :: s' => (c = LT -> head s' = Some GT \/ GT ∉ s') /\ tagless s'
  end.

(** The groups of a date: a day of one or two digits, a month of
    [months] and a year of four digits. *)
Definition date_fields (months : list str) (m : str * str * str) : Prop :=
  let '(day, month, year) := m in
  ((1 <= length day <= 2)%nat /\ forallb isdecimal day = true) /\
  month ∈ months /\
  (length year = 4%nat /\ forallb isdecimal year = true).

(** The texts of the entities with a label, each once, in the order of
    their first occurrence. *)
Definition texts_of (label : str) (ents : list (str * str)) : list str :=
  fromkeys ((filter (fun ent => ent.2 = label) ents).*1).

(** The items of a list in the order of their first occurrence: an item
    is kept unless it is in [seen] or has occurred before. *)
Fixpoint first_occurrences {A} `{EqDecision A} (seen l : list A) : list A :=
  match l with
  | [] => []
  | x :: l' =>
      if decide (x ∈ seen) then first_occurrences seen l'
      else x :: first_occurrences (x :: seen) l'
  end.

(** The texts that the recognizer gives with a label, in its order. *)
Definition labelled (label : str) (ents : list (str * str)) : list str :=
  (filter (fun ent => ent.2 = label) ents).*1.

(** What a block may add to the state: at most [n] results, each with
    [P], and at most [g] log lines, each with [L]; with [fresh], the
    results added have document ids that differ from one another and from
    those already in the list. *)
Definition extends_by {A} (docId : A -> str) (P : A -> Prop)
    (L : str -> Prop) (fresh : bool) (n g : nat) (st st' : SearchState A)
  : Prop :=
  exists new lg,
    found st' = found st ++ new /\
    log st' = log st ++ lg /\
    (length new <= n)%nat /\ (length lg <= g)%nat /\
    Forall P new /\ Forall L lg /\
    (fresh = true ->
     NoDup (docId <$> new) /\
     forall x, x ∈ new -> docId x ∉ docId <$> found st).

(** The search for [query] lists the document [d] among its first [k]. *)
Definition lists (rt : Runtime) (query doc_types : str) (k : nat) (d : Doc)
  : Prop :=
  exists results ds,
    api_search rt query doc_types = Ok results /\
    docs results = Some ds /\ d ∈ take k ds.

(** The document [d] has the id [t], and fetching it gives the text
    [html]. *)
Definition fetched (rt : Runtime) (d : Doc) (t html : str) : Prop :=
  tid d = Some t /\
  exists details, api_get_document rt t = Ok details /\
                  doc details = Some html.

(** Fetching the document [d] does not raise. *)
Definition fetchable (rt : Runtime) (d : Doc) : Prop :=
  forall t, tid d = Some t -> is_ok (api_get_document rt t) = true.

(** The search for [query] lists [d] among its first [k] documents, and
    every document it lists before [d] can be fetched. *)
Definition reaches (rt : Runtime) (query doc_types : str) (k : nat) (d : Doc)
  : Prop :=
  exists results ds before after,
    api_search rt query doc_types = Ok results /\
    docs results = Some ds /\
    take k ds = before ++ d :: after /\
    Forall (fetchable rt) before.

(** The records that the four loops append for a document with the id
    [t] and the text [html]. *)
Definition exact_section (item : ActSection) (t html : str) : FoundSection :=
  {| fs_title := act item;
     fs_sectionNumber := section item;
     fs_content := _extract_clean_content html;
     fs_relevance := 9;
     fs_source := py "Indian Kanoon";
     fs_docId := t |}.

Definition concept_section (rt : Runtime) (d : Doc) (t html : str)
  : FoundSection :=
  {| fs_title :=
       act (_parse_act_section_from_title rt (default [] (doc_title d)));
     fs_sectionNumber :=
       section (_parse_act_section_from_title rt (default [] (doc_title d)));
     fs_content := _extract_clean_content html;
     fs_relevance := 7;
     fs_source := py "Indian Kanoon";
     fs_docId := t |}.

Definition cited_case (rt : Runtime) (citation_str : str) (d : Doc)
    (t html : str) : FoundCase :=
  {| fc_citation := citation_str;
     fc_parties := default (py "Unknown Parties") (doc_title d);
     fc_holdings := _extract_holdings rt html;
     fc_relevance := 9;
     fc_date := _extract_date html;
     fc_source := py "Indian Kanoon";
     fc_docId := t |}.

Definition concept_case (rt : Runtime) (d : Doc) (t html : str) : FoundCase :=
  {| fc_citation :=
       if truthy (_extract_citation rt html) then _extract_citation rt html
       else default (py "Unknown Citation") (docsource d);
     fc_parties := default (py "Unknown Parties") (doc_title d);
     fc_holdings := _extract_holdings rt html;
     fc_relevance := 7;
     fc_date := _extract_date html;
     fc_source := py "Indian Kanoon";
     fc_docId := t |}.

(** Where the results of [_search_law_sections] come from: a section of
    its first loop from a document listed for an act and section of the
    brief, a section of its second loop from a document listed for a
    query that is not the query of an act and section. *)
Definition is_exact (rt : Runtime) (acts_sections : list ActSection)
    (s : FoundSection) : Prop :=
  exists item d t html,
    item ∈ acts_sections /\
    lists rt (act_section_query item) (py "laws") 3 d /\
    fetched rt d t html /\
    s = exact_section item t html.

Definition is_concept (rt : Runtime) (acts_sections : list ActSection)
    (queries : list str) (s : FoundSection) : Prop :=
  exists query d t html,
    query ∈ queries /\
    (query ∉ act_section_query <$> acts_sections) /\
    lists rt query (py "laws") 2 d /\
    fetched rt d t html /\
    s = concept_section rt d t html.

(** Where the results of [_search_case_histories] come from. *)
Definition is_cited (rt : Runtime) (citations : list Citation)
    (c : FoundCase) : Prop :=
  exists item query d t html,
    item ∈ citations /\
    citation_query item = Returned query /\
    lists rt query (py "judgments") 2 d /\
    fetched rt d t html /\
    c = cited_case rt query d t html.

Definition is_concept_case (rt : Runtime) (queries : list str)
    (c : FoundCase) : Prop :=
  exists query d t html,
    query ∈ queries /\
    lists rt query (py "judgments") 2 d /\
    fetched rt d t html /\
    c = concept_case rt d t html.

(** An exception that a call of the API client raised. *)
Definition client_raised (rt : Runtime) (r : raised) : Prop :=
  exists e, r = ApiError e /\
    ((exists query doc_types, api_search rt query doc_types = Raise e) \/
     (exists t, api_get_document rt t = Raise e)).

(** A line of the log: what the handler of a search writes about an
    exception of the API client. *)
Definition is_error_line (rt : Runtime) (message line : str) : Prop :=
  exists r, client_raised rt r /\ line = message ++ str_of_raised r.

(** [Q] holds of a list and of every list that extends it. *)
Definition kept {A} (Q : list A -> Prop) : Prop :=
  forall l1 l2, Q l1 -> l1 `prefix_of` l2 -> Q l2.

(** A block only appends to the list, completes, raises only what [E]
    allows. *)
Definition grows {A} (b : block A) : Prop :=
  forall st, found st `prefix_of` found (b st).1.

Definition completes {A} (b : block A) : Prop :=
  forall st, (b st).2 = None.

Definition raises_only {A} (E : raised -> Prop) (b : block A) : Prop :=
  forall st r, (b st).2 = Some r -> E r.

(** A sample client. For the laws it knows one query, with two
    documents, and for the judgments one citation, with one document;
    every other search raises. It returns the text of the first law
    document and of the judgment, and raises for every other id. *)
Definition ipc_420_item : ActSection :=
  {| act := py "Indian Penal Code"; section := py "420" |}.

Definition air_2017_567 : Citation :=
  {| type := AIR; year := py "2017"; volume := None; page := py "567" |}.

Definition scc_without_volume : Citation :=
  {| type := SCC; year := py "2019"; volume := None; page := py "123" |}.

Definition sample_law_doc : Doc :=
  {| tid := Some (py "101");
     doc_title := Some (py "Indian Penal Code, Section 420");
     docsource := None |}.

Definition sample_lost_doc : Doc :=
  {| tid := Some (py "102"); doc_title := None; docsource := None |}.

Definition sample_judgment_doc : Doc :=
  {| tid := Some (py "201");
     doc_title := Some (py "State v. Rao");
     docsource := Some (py "Supreme Court of India") |}.

Definition sample_client : Runtime :=
  {| nlp_ents := fun _ => [];
     nlp_noun_chunks := fun _ => [];
     sent_tokenize := fun _ => [];
     api_search := fun query doc_types =>
       if bool_decide (query = py "Indian Penal Code section 420" /\
                       doc_types = py "laws")
       then Ok {| docs := Some [sample_law_doc; sample_lost_doc] |}
       else if bool_decide (query = py "2017 AIR 567" /\
                            doc_types = py "judgments")
       then Ok {| docs := Some [sample_judgment_doc] |}
       else Raise (Exception (py "timed out"));
     api_get_document := fun t =>
       if bool_decide (t = py "101")
       then Ok {| doc := Some (py "<p>Whoever  cheats</p>") |}
       else if bool_decide (t = py "201")
       then Ok {| doc := Some (py "<b>Decided on 12 March, 2017</b>") |}
       else Raise (Exception (py "not found"));
     _parse_act_section_from_title := fun title =>
       {| act := title; section := [] |};
     _extract_holdings := fun _ => py "The appeal is dismissed.";
     _extract_citation := fun _ => [] |}.

End ResearchProps.

(* ===================================================================== *)
(** * Part II: properties                                                 *)
(* ===================================================================== *)

Import Backend Props.

Example str_of_nat_samples :
  str_of_nat 0 = py "0" /\ str_of_nat 7 = py "7" /\
  str_of_nat 10 = py "10" /\ str_of_nat 2017 = py "2017".
Proof. repeat split; reflexivity. Qed.

(** ** Whitespace *)

Arguments isspace : simpl never.
Arguments SPACE : simpl never.

Lemma isspace_SPACE : isspace SPACE = true.
Proof. reflexivity. Qed.

Lemma sub_ws_runs_single_spaced b s :
  single_spaced b (sub_ws_runs b s) = true.
Proof.
  revert b. induction s as [|c s IH]; intros b; simpl; [done|].
  destruct (isspace c) eqn:Hc.
  - destruct b; [apply IH|].
    cbn [single_spaced]. rewrite isspace_SPACE, N.eqb_refl. apply IH.
  - cbn [single_spaced]. rewrite Hc. apply IH.
Qed.

Lemma single_spaced_fixed b s :
  single_spaced b s = true -> sub_ws_runs b s = s.
Proof.
  revert b. induction s as [|c s IH]; intros b; simpl; [done|].
  destruct (isspace c) eqn:Hc.
  - rewrite !andb_true_iff, negb_true_iff, N.eqb_eq.
    intros [[-> ->] Hs]. f_equal. by apply IH.
  - intros Hs. f_equal. by apply IH.
Qed.

Lemma single_spaced_weaken b s :
  single_spaced b s = true -> single_spaced false s = true.
Proof.
  destruct s as [|c s]; simpl; [done|].
  destruct (isspace c); [|done].
  rewrite !andb_true_iff. intros [[_ ->] ->]. done.
Qed.

Lemma single_spaced_lstrip s :
  single_spaced false s = true -> single_spaced false (lstrip s) = true.
Proof.
  induction s as [|c s IH]; [done|].
  intros Hs. simpl in *. destruct (isspace c) eqn:Hc.
  - apply IH. apply andb_true_iff in Hs as [_ Hs].
    by apply single_spaced_weaken with true.
  - simpl. by rewrite Hc.
Qed.

Lemma single_spaced_rstrip b s :
  single_spaced b s = true -> single_spaced b (rstrip s) = true.
Proof.
  revert b. induction s as [|c s IH]; intros b; [done|].
  simpl. destruct (isspace c) eqn:Hc.
  - rewrite !andb_true_iff. intros [Hb Hs]. apply IH in Hs.
    destruct (rstrip s) as [|x r]; [done|].
    cbn [single_spaced] in *. rewrite Hc. destruct Hb as [-> ->]. done.
  - intros Hs. apply IH in Hs.
    destruct (rstrip s); cbn [single_spaced]; by rewrite Hc.
Qed.

Lemma no_leading_space_lstrip s : no_leading_space (lstrip s) = true.
Proof.
  induction s as [|c s IH]; simpl; [done|].
  destruct (isspace c) eqn:Hc; [done|]. simpl. by rewrite Hc.
Qed.

Lemma no_leading_space_fixed s :
  no_leading_space s = true -> lstrip s = s.
Proof.
  destruct s as [|c s]; simpl; [done|]. by intros ->%negb_true_iff.
Qed.

Lemma no_leading_space_rstrip s :
  no_leading_space s = true -> no_leading_space (rstrip s) = true.
Proof.
  destruct s as [|c s]; simpl; [done|]. intros Hc.
  destruct (rstrip s); [|done].
  apply negb_true_iff in Hc as Hc'. rewrite Hc'. done.
Qed.

Lemma rstrip_idempotent s : rstrip (rstrip s) = rstrip s.
Proof.
  induction s as [|c s IH]; simpl; [done|].
  destruct (rstrip s) as [|x r] eqn:Hr.
  - destruct (isspace c) eqn:Hc; simpl; [done|]. by rewrite Hc.
  - change (rstrip (c :: x :: r)) with
      (match rstrip (x :: r) with
       | [] => if isspace c then [] else [c]
       | r' => c :: r'
       end).
    by rewrite IH.
Qed.

Lemma strip_idempotent s : strip (strip s) = strip s.
Proof.
  unfold strip.
  rewrite (no_leading_space_fixed (rstrip (lstrip s))).
  - apply rstrip_idempotent.
  - apply no_leading_space_rstrip, no_leading_space_lstrip.
Qed.

(** Collapsing and trimming is idempotent. *)
Lemma strip_sub_ws_idempotent s :
  strip (sub_ws_runs false (strip (sub_ws_runs false s)))
  = strip (sub_ws_runs false s).
Proof.
  rewrite (single_spaced_fixed false (strip (sub_ws_runs false s))).
  - apply strip_idempotent.
  - apply single_spaced_rstrip, single_spaced_lstrip,
      sub_ws_runs_single_spaced.
Qed.

(** ** Text normalizer *)

Import PyLex.

(** C8. The text normalizer cannot be idempotent, for it is not a
    function: line 88 of [legal_backend.py], its apostrophe substitution,
    is no Python statement. The line reads as the strings [r'['] and [''],
    a closing bracket that meets the open parenthesis of the call, a
    string that holds a comma, a space and a double quote, and then a
    double quote that opens a string which the line does not close. Lines
    84 and 87, the whitespace and double-quote substitutions, do read as
    statements. *)
Theorem preprocess_text_line_88_is_not_python :
  lex Code preprocess_text_line_88
  = UnterminatedString
      [ Name (py "text"); Op 61; Name (py "re"); Op 46; Name (py "sub");
        Op 40; String_ (py "r") (py "["); String_ [] []; Op 93;
        String_ [] (py ", " ++ [DQUOTE]) ]
      [] DQUOTE (py ", text)") /\
  brackets []
    [ Name (py "text"); Op 61; Name (py "re"); Op 46; Name (py "sub");
      Op 40; String_ (py "r") (py "["); String_ [] []; Op 93 ] = None /\
  (exists ts, lex Code preprocess_text_line_84 = Tokens ts /\
              brackets [] ts = Some []) /\
  lex Code preprocess_text_line_87
  = Tokens
      [ Name (py "text"); Op 61; Name (py "re"); Op 46; Name (py "sub");
        Op 40;
        String_ (py "r") (py "[" ++ [DQUOTE; DQUOTE; DQUOTE] ++ py "]");
        Op 44; String_ [] [DQUOTE]; Op 44; Name (py "text"); Op 41 ].
Proof.
  split; [vm_compute; reflexivity|].
  split; [vm_compute; reflexivity|].
  split.
  - eexists. split; vm_compute; reflexivity.
  - vm_compute. reflexivity.
Qed.

(** ** Analysis generator *)

Import LegalAnalysisGenerator.

Lemma generate_arguments_length ba ls chs :
  (3 <= length (_generate_arguments ba ls chs) <= 5)%nat.
Proof.
  unfold _generate_arguments.
  rewrite length_take. simpl app.
  set (args := _ ++ _).
  assert (length args <= 5)%nat as Hargs.
  { subst args. rewrite length_app, !length_fmap, !length_take. lia. }
  destruct (Nat.ltb_spec (length args) 3) as [Hlt|Hge].
  - rewrite length_app, length_take.
    change (length generic_arguments) with 3%nat. lia.
  - lia.
Qed.

Lemma generate_challenges_length ba ls chs :
  (3 <= length (_generate_challenges ba ls chs) <= 4)%nat.
Proof.
  unfold _generate_challenges.
  destruct (elem_ofb (py "criminal") _), (elem_ofb (py "civil") _),
    (elem_ofb (py "constitutional") _); cbn [app length Nat.ltb Nat.leb];
    cbv [generic_challenges]; cbn [Nat.sub take app length]; lia.
Qed.

Lemma generate_recommendations_length ba ls chs :
  (4 <= length (_generate_recommendations ba ls chs) <= 5)%nat.
Proof.
  unfold _generate_recommendations.
  destruct (elem_ofb (py "criminal") _), (elem_ofb (py "civil") _),
    (elem_ofb (py "corporate") _), chs as [|top_case chs];
    cbn [app length Nat.ltb Nat.leb];
    cbv [generic_recommendations]; cbn [Nat.sub take app length]; lia.
Qed.

(** C4. Whatever the brief analysis, the law sections and the case
    histories (both lists possibly empty), the analysis generator returns
    at least 3 and at most 5 arguments, at least 3 and at most 4
    challenges, and at least 4 and at most 5 recommendations; with no
    research result and no recognised domain the lists are the generic
    entries alone. *)
Theorem analysis_lists_padded
    (ba : BriefAnalysis) (ls : list LawSection) (chs : list CaseHistory) :
  (3 <= length (_generate_arguments ba ls chs) <= 5)%nat /\
  (3 <= length (_generate_challenges ba ls chs) <= 4)%nat /\
  (4 <= length (_generate_recommendations ba ls chs) <= 5)%nat /\
  _generate_arguments ba [] [] = generic_arguments /\
  _generate_challenges no_brief_analysis [] [] = take 3 generic_challenges /\
  _generate_recommendations no_brief_analysis [] []
  = take 4 generic_recommendations.
Proof.
  split; [apply generate_arguments_length|].
  split; [apply generate_challenges_length|].
  split; [apply generate_recommendations_length|].
  split; [reflexivity|]. split; vm_compute; reflexivity.
Qed.

(** ** Insertion-ordered dictionaries *)

Section DictFacts.

Context {K V : Type} `{EqDecision K}.
Implicit Types (d : list (K * V)) (k : K) (v : V).

Lemma dict_get_set d k v k' :
  dict_get (dict_set d k v) k'
  = if decide (k' = k) then Some v else dict_get d k'.
Proof.
  induction d as [|[k0 v0] d IH]; simpl.
  - done.
  - destruct (decide (k = k0)) as [->|Hne]; simpl.
    + by destruct (decide (k' = k0)).
    + destruct (decide (k' = k0)) as [->|Hne'].
      * by rewrite decide_False.
      * apply IH.
Qed.

Lemma dict_get_None d k : dict_get d k = None <-> k ∉ d.*1.
Proof.
  induction d as [|[k0 v0] d IH]; simpl.
  - split; [intros _; apply not_elem_of_nil|done].
  - rewrite not_elem_of_cons. destruct (decide (k = k0)); [|tauto].
    split; [done|tauto].
Qed.

Lemma dict_set_keys d k v :
  (dict_set d k v).*1 = if decide (k ∈ d.*1) then d.*1 else d.*1 ++ [k].
Proof.
  induction d as [|[k0 v0] d IH].
  - destruct (decide (k ∈ ([] : list (K * V)).*1)) as [Hin|_]; [|done].
    by apply elem_of_nil in Hin.
  - cbn [dict_set]. rewrite !fmap_cons. cbn [fst].
    destruct (decide (k = k0)) as [->|Hne].
    + rewrite decide_True; [done|apply list_elem_of_here].
    + rewrite fmap_cons, IH. cbn [fst].
      destruct (decide (k ∈ d.*1)) as [Hin|Hnin].
      * rewrite decide_True; [done|by apply list_elem_of_further].
      * rewrite decide_False; [done|]. rewrite elem_of_cons. tauto.
Qed.

Lemma dict_set_NoDup d k v : NoDup d.*1 -> NoDup (dict_set d k v).*1.
Proof.
  intros Hd. rewrite dict_set_keys. case_decide as Hk; [done|].
  apply NoDup_app. split; [done|]. split.
  - intros x Hx ->%list_elem_of_singleton. done.
  - apply NoDup_singleton.
Qed.

Lemma dict_elem_get d k v :
  NoDup d.*1 -> (k, v) ∈ d -> dict_get d k = Some v.
Proof.
  induction d as [|[k0 v0] d IH]; simpl.
  - intros _ Hin. by apply elem_of_nil in Hin.
  - rewrite NoDup_cons, elem_of_cons. intros [Hk0 Hd] [Heq|Hin].
    + inversion Heq; subst. by rewrite decide_True.
    + rewrite decide_False; [by apply IH|].
      intros ->. apply Hk0. apply list_elem_of_fmap. by exists (k0, v).
Qed.

Lemma dict_values_get d v :
  NoDup d.*1 -> v ∈ dict_values d -> exists k, dict_get d k = Some v.
Proof.
  intros Hd ([k v'] & -> & Hin)%list_elem_of_fmap.
  exists k. by apply dict_elem_get.
Qed.

Lemma dict_get_values d k v : dict_get d k = Some v -> v ∈ dict_values d.
Proof.
  induction d as [|[k0 v0] d IH]; [done|].
  unfold dict_values in *. rewrite fmap_cons. cbn [dict_get snd].
  destruct (decide (k = k0)).
  - intros [= ->]. apply list_elem_of_here.
  - intros Hg. apply list_elem_of_further. by apply IH.
Qed.

Lemma dict_set_absent d k v :
  dict_get d k = None -> dict_set d k v = d ++ [(k, v)].
Proof.
  induction d as [|[k0 v0] d IH]; [done|]. cbn [dict_get dict_set].
  destruct (decide (k = k0)); [done|]. intros Hd. by rewrite IH.
Qed.

End DictFacts.

(** ** Research aggregator *)

Section AggregateFacts.

Context {A K : Type} `{EqDecision K}.
Variable key : A -> K.
Variable rel : A -> Z.

Lemma first_max_snoc p v r :
  first_max key rel p v ->
  (key r = key v -> (rel r <= rel v)%Z) ->
  first_max key rel (p ++ [r]) v.
Proof.
  intros (p1 & p2 & -> & H1 & H2) Hr.
  exists p1, (p2 ++ [r]). split; [by rewrite <- app_assoc|].
  split; [done|].
  intros x [Hx| ->%list_elem_of_singleton]%elem_of_app; auto.
Qed.

Lemma first_max_new p r :
  (forall x, x ∈ p -> key x = key r -> (rel x < rel r)%Z) ->
  first_max key rel (p ++ [r]) r.
Proof.
  intros Hp. exists p, []. split; [done|]. split; [done|].
  intros x Hx. by apply elem_of_nil in Hx.
Qed.

Lemma first_max_bound p v x :
  first_max key rel p v -> x ∈ p -> key x = key v -> (rel x <= rel v)%Z.
Proof.
  intros (p1 & p2 & -> & H1 & H2).
  rewrite elem_of_app, elem_of_cons. intros [Hx|[->|Hx]] Hk.
  - specialize (H1 x Hx Hk). lia.
  - lia.
  - by apply H2.
Qed.

Lemma first_max_elem p v : first_max key rel p v -> v ∈ p.
Proof.
  intros (p1 & p2 & -> & _). rewrite elem_of_app, elem_of_cons. auto.
Qed.

Lemma dedup_step_inv p d r :
  dedup_inv key rel p d ->
  dedup_inv key rel (p ++ [r]) (dedup_step key rel d r).
Proof.
  intros (Hnd & Hget & Hall). unfold dedup_step.
  destruct (dict_get d (key r)) as [kept|] eqn:Hkept.
  - destruct (Hget _ _ Hkept) as [Hkk Hfm].
    destruct (Z.ltb_spec (rel kept) (rel r)) as [Hlt|Hge].
    + split; [by apply dict_set_NoDup|]. split.
      * intros k v. rewrite dict_get_set. case_decide as Hk.
        -- intros [= <-]. split; [done|]. apply first_max_new.
           intros x Hx Hxk.
           assert (rel x <= rel kept)%Z; [|lia].
           apply (first_max_bound p); [done..|congruence].
        -- intros Hv. destruct (Hget _ _ Hv) as [Hvk Hvm].
           split; [done|]. apply first_max_snoc; [done|]. congruence.
      * intros x Hx. rewrite dict_get_set. case_decide; [done|].
        apply elem_of_app in Hx as [Hx| ->%list_elem_of_singleton];
          [by apply Hall|done].
    + split; [done|]. split.
      * intros k v Hv. destruct (Hget _ _ Hv) as [Hvk Hvm].
        split; [done|]. apply first_max_snoc; [done|].
        intros Hrv. assert (v = kept) as -> by congruence. done.
      * intros x [Hx| ->%list_elem_of_singleton]%elem_of_app;
          [by apply Hall|by rewrite Hkept].
  - split; [by apply dict_set_NoDup|]. split.
    + intros k v. rewrite dict_get_set. case_decide as Hk.
      * intros [= <-]. split; [done|]. apply first_max_new.
        intros x Hx Hxk. destruct (Hall x Hx) as [w Hw].
        congruence.
      * intros Hv. destruct (Hget _ _ Hv) as [Hvk Hvm].
        split; [done|]. apply first_max_snoc; [done|]. congruence.
    + intros x Hx. rewrite dict_get_set. case_decide; [done|].
      apply elem_of_app in Hx as [Hx| ->%list_elem_of_singleton];
        [by apply Hall|done].
Qed.

Lemma deduplicate_inv p : dedup_inv key rel p (deduplicate key rel p).
Proof.
  unfold deduplicate. induction p as [|r p IH] using rev_ind.
  - split; [apply NoDup_nil_2|]. split; [done|].
    intros r Hr. by apply elem_of_nil in Hr.
  - rewrite fold_left_app. by apply dedup_step_inv.
Qed.

(** The values of the dictionary have pairwise distinct keys. *)
Lemma deduplicate_keys p :
  key <$> dict_values (deduplicate key rel p) = (deduplicate key rel p).*1.
Proof.
  destruct (deduplicate_inv p) as (Hnd & Hget & _).
  unfold dict_values. rewrite <- list_fmap_compose.
  apply list_fmap_ext. intros i [k v] Hi. simpl.
  apply list_elem_of_lookup_2 in Hi.
  by destruct (Hget k v (dict_elem_get _ _ _ Hnd Hi)).
Qed.

Lemma deduplicate_NoDup p :
  NoDup (key <$> dict_values (deduplicate key rel p)).
Proof.
  rewrite deduplicate_keys. by destruct (deduplicate_inv p).
Qed.

Lemma deduplicate_first_max p v :
  v ∈ dict_values (deduplicate key rel p) -> first_max key rel p v.
Proof.
  destruct (deduplicate_inv p) as (Hnd & Hget & _).
  intros [k Hk]%dict_values_get; [|done].
  by destruct (Hget k v Hk).
Qed.

Lemma deduplicate_covers p r :
  r ∈ p ->
  exists v, v ∈ dict_values (deduplicate key rel p) /\
            key v = key r /\ (rel r <= rel v)%Z.
Proof.
  destruct (deduplicate_inv p) as (Hnd & Hget & Hall).
  intros Hr. destruct (Hall r Hr) as [v Hv]. exists v.
  destruct (Hget _ _ Hv) as [Hk Hfm].
  split; [by eapply dict_get_values|]. split; [done|].
  by apply (first_max_bound p).
Qed.

(** Sorting. *)
Lemma insert_desc_Permutation x l : insert_desc rel x l ≡ₚ x :: l.
Proof.
  induction l as [|y l IH]; simpl; [done|].
  destruct (rel x <? rel y)%Z; [|done].
  rewrite IH. apply Permutation_swap.
Qed.

Lemma sorted_desc_Permutation l : sorted_desc rel l ≡ₚ l.
Proof.
  induction l as [|x l IH]; simpl; [done|].
  by rewrite insert_desc_Permutation, IH.
Qed.

Lemma insert_desc_descending x l :
  descending rel l -> descending rel (insert_desc rel x l).
Proof.
  unfold descending. induction 1 as [|y l Hl IH Hy]; simpl.
  - repeat constructor.
  - destruct (Z.ltb_spec (rel x) (rel y)) as [Hlt|Hge].
    + constructor; [done|].
      rewrite insert_desc_Permutation. constructor; [lia|done].
    + constructor; [by constructor|].
      constructor; [done|].
      eapply Forall_impl; [exact Hy|]. simpl. intros z Hz. lia.
Qed.

Lemma sorted_desc_descending l : descending rel (sorted_desc rel l).
Proof.
  induction l as [|x l IH]; simpl.
  - constructor.
  - by apply insert_desc_descending.
Qed.

(** The connector loop. *)
Variable call : LegalDatabaseConnector -> result (list A).

Lemma query_step_results cs out acc :
  (fold_left (query_step call) cs (out, acc)).2 = acc ++ gathered call cs.
Proof.
  revert out acc. induction cs as [|c cs IH]; intros out acc.
  - by rewrite app_nil_r.
  - cbn [fold_left]. unfold query_step at 2, gathered.
    rewrite fmap_cons, concat_cons.
    destruct (call c) as [rs|e]; rewrite IH; unfold gathered.
    + by rewrite <- app_assoc.
    + done.
Qed.

Lemma query_step_stdout cs out acc :
  length (fold_left (query_step call) cs (out, acc)).1
  = (length out + length (filter (fun c => succeeds call c = false) cs))%nat.
Proof.
  revert out acc. induction cs as [|c cs IH]; intros out acc.
  - simpl. lia.
  - cbn [fold_left]. unfold query_step at 2.
    destruct (call c) as [rs|e] eqn:Hc; rewrite IH.
    + rewrite filter_cons_False; [done|]. unfold succeeds. by rewrite Hc.
    + rewrite filter_cons_True; [|unfold succeeds; by rewrite Hc].
      rewrite length_app. simpl. lia.
Qed.

Lemma aggregate_results cs :
  (aggregate key rel call cs).2
  = sorted_desc rel (dict_values (deduplicate key rel (gathered call cs))).
Proof.
  unfold aggregate, query_connectors.
  pose proof (query_step_results cs [] []) as Hq.
  destruct (fold_left _ _ _) as [out all]. simpl in *. by subst.
Qed.

Lemma gathered_filter cs :
  gathered call (filter (fun c => succeeds call c = true) cs)
  = gathered call cs.
Proof.
  unfold gathered. induction cs as [|c cs IH]; [done|].
  rewrite fmap_cons, concat_cons.
  destruct (call c) as [rs|e] eqn:Hc.
  - rewrite filter_cons_True; [|unfold succeeds; by rewrite Hc].
    by rewrite fmap_cons, concat_cons, Hc, IH.
  - rewrite filter_cons_False; [done|]. unfold succeeds. by rewrite Hc.
Qed.

Lemma gathered_elem cs r :
  r ∈ gathered call cs <-> exists c rs, c ∈ cs /\ call c = Ok rs /\ r ∈ rs.
Proof.
  unfold gathered. induction cs as [|c cs IH].
  - split; [by intros ?%elem_of_nil|]. by intros (? & ? & ?%elem_of_nil & _).
  - rewrite fmap_cons, concat_cons, elem_of_app, IH. split.
    + intros [Hr|(c' & rs & Hc' & Hok & Hr)].
      * destruct (call c) as [rs|e] eqn:Hc; [|by apply elem_of_nil in Hr].
        exists c, rs. split; [apply list_elem_of_here|done].
      * exists c', rs. split; [by apply list_elem_of_further|done].
    + intros (c' & rs & Hc' & Hok & Hr).
      apply elem_of_cons in Hc' as [->|Hc'].
      * left. by rewrite Hok.
      * right. by exists c', rs.
Qed.

Lemma gathered_all_fail cs :
  (forall c, c ∈ cs -> succeeds call c = false) -> gathered call cs = [].
Proof.
  intros Hall. unfold gathered. induction cs as [|c cs IH]; [done|].
  rewrite fmap_cons, concat_cons, IH.
  - specialize (Hall c (list_elem_of_here _ _)). unfold succeeds in Hall.
    by destruct (call c).
  - intros c' Hc'. apply Hall. by apply list_elem_of_further.
Qed.

End AggregateFacts.

Import LegalDataAggregator.

Section AggregateOutput.

Context {A K : Type} `{EqDecision K}.
Variable key : A -> K.
Variable rel : A -> Z.
Variable call : LegalDatabaseConnector -> result (list A).
Variable cs : list LegalDatabaseConnector.

Lemma aggregate_elem r :
  r ∈ (aggregate key rel call cs).2
  <-> r ∈ dict_values (deduplicate key rel (gathered call cs)).
Proof. by rewrite aggregate_results, sorted_desc_Permutation. Qed.

Lemma aggregate_NoDup : NoDup (key <$> (aggregate key rel call cs).2).
Proof.
  rewrite aggregate_results, sorted_desc_Permutation.
  apply deduplicate_NoDup.
Qed.

Lemma aggregate_descending : descending rel (aggregate key rel call cs).2.
Proof. rewrite aggregate_results. apply sorted_desc_descending. Qed.

Lemma aggregate_first_max r :
  r ∈ (aggregate key rel call cs).2 ->
  first_max key rel (gathered call cs) r.
Proof. rewrite aggregate_elem. apply deduplicate_first_max. Qed.

Lemma aggregate_from_input r :
  r ∈ (aggregate key rel call cs).2 ->
  exists c rs, c ∈ cs /\ call c = Ok rs /\ r ∈ rs.
Proof.
  intros Hr%aggregate_first_max%first_max_elem. by apply gathered_elem.
Qed.

Lemma aggregate_keeps_max c rs r :
  c ∈ cs -> call c = Ok rs -> r ∈ rs ->
  exists r', r' ∈ (aggregate key rel call cs).2 /\
             key r' = key r /\ (rel r <= rel r')%Z.
Proof.
  intros Hc Hok Hr.
  destruct (deduplicate_covers key rel (gathered call cs) r)
    as (v & Hv & Hk & Hrel).
  { apply gathered_elem. eauto. }
  exists v. by rewrite aggregate_elem.
Qed.

Lemma aggregate_only_successes :
  (aggregate key rel call cs).2
  = (aggregate key rel call
       (filter (fun c => succeeds call c = true) cs)).2.
Proof. by rewrite !aggregate_results, gathered_filter. Qed.

Lemma aggregate_all_fail :
  (forall c, c ∈ cs -> succeeds call c = false) ->
  (aggregate key rel call cs).2 = [].
Proof.
  intros Hall. by rewrite aggregate_results, gathered_all_fail.
Qed.

Lemma aggregate_stdout :
  length (aggregate key rel call cs).1
  = length (filter (fun c => succeeds call c = false) cs).
Proof.
  unfold aggregate, query_connectors.
  pose proof (query_step_stdout call cs [] []) as Hq.
  destruct (fold_left _ _ _) as [out all]. simpl in *. lia.
Qed.

End AggregateOutput.

Section AggregateDistinct.

Context {A K : Type} `{EqDecision K}.
Variable key : A -> K.
Variable rel : A -> Z.

(** Records with pairwise distinct keys all stay, in their order. *)
Lemma deduplicate_distinct p :
  NoDup (key <$> p) -> dict_values (deduplicate key rel p) = p.
Proof.
  induction p as [|r p IH] using rev_ind; [done|].
  rewrite fmap_app. intros (Hp & Hr & _)%NoDup_app.
  unfold deduplicate. rewrite fold_left_app. cbn [fold_left].
  fold (deduplicate key rel p). unfold dedup_step.
  destruct (dict_get (deduplicate key rel p) (key r)) as [kept|] eqn:Hkept.
  - destruct (deduplicate_inv key rel p) as (_ & Hget & _).
    destruct (Hget _ _ Hkept) as [Hk Hfm%first_max_elem].
    exfalso. apply (Hr (key r)); [|left].
    apply list_elem_of_fmap. by exists kept.
  - rewrite dict_set_absent by done. unfold dict_values in *.
    rewrite fmap_app. by rewrite IH.
Qed.

Variable call : LegalDatabaseConnector -> result (list A).

Lemma query_step_lines cs out acc :
  (fold_left (query_step call) cs (out, acc)).1
  = out ++ failure_lines call cs.
Proof.
  revert out acc. induction cs as [|c cs IH]; intros out acc.
  - by rewrite app_nil_r.
  - cbn [fold_left]. unfold query_step at 2, failure_lines.
    cbn [omap list_omap].
    destruct (call c) as [rs|[m|m|m]]; rewrite IH; unfold failure_lines;
      by rewrite <- ?app_assoc.
Qed.

Lemma aggregate_lines cs :
  (aggregate key rel call cs).1 = failure_lines call cs.
Proof.
  unfold aggregate, query_connectors.
  pose proof (query_step_lines cs [] []) as Hq.
  destruct (fold_left _ _ _) as [out all]. by simpl in *.
Qed.

Lemma aggregate_distinct cs :
  NoDup (key <$> gathered call cs) ->
  (aggregate key rel call cs).2 = sorted_desc rel (gathered call cs).
Proof.
  intros Hnd. by rewrite aggregate_results, deduplicate_distinct.
Qed.

End AggregateDistinct.

(** C2. Whatever the connectors return, no two law sections of the
    aggregated list share a (title, sectionNumber) key and no two case
    histories share a citation; and for every record returned by a
    connector the output holds a record with the same key, at least as
    relevant, which is itself one of the connectors' records. *)
Theorem aggregator_deduplicates
    (connectors : list LegalDatabaseConnector) (query_params : QueryParams) :
  let laws := (search_law_sections connectors query_params).2 in
  let cases := (search_case_history connectors query_params).2 in
  NoDup (law_key <$> laws) /\
  NoDup (citation <$> cases) /\
  (forall c rs r,
      c ∈ connectors ->
      connector_search_law_sections c query_params = Ok rs -> r ∈ rs ->
      exists r', r' ∈ laws /\ law_key r' = law_key r /\
                 (relevance r <= relevance r')%Z) /\
  (forall c rs r,
      c ∈ connectors ->
      connector_search_case_history c query_params = Ok rs -> r ∈ rs ->
      exists r', r' ∈ cases /\ citation r' = citation r /\
                 (case_relevance r <= case_relevance r')%Z) /\
  (forall r', r' ∈ laws ->
      exists c rs, c ∈ connectors /\
        connector_search_law_sections c query_params = Ok rs /\ r' ∈ rs) /\
  (forall r', r' ∈ cases ->
      exists c rs, c ∈ connectors /\
        connector_search_case_history c query_params = Ok rs /\ r' ∈ rs).
Proof.
  cbv zeta. unfold search_law_sections, search_case_history.
  split; [apply aggregate_NoDup|].
  split; [apply aggregate_NoDup|].
  split.
  { intros c rs r. exact (aggregate_keeps_max law_key relevance
      (fun c => connector_search_law_sections c query_params) _ c rs r). }
  split.
  { intros c rs r. exact (aggregate_keeps_max citation case_relevance
      (fun c => connector_search_case_history c query_params) _ c rs r). }
  split; intros r'.
  - exact (aggregate_from_input law_key relevance
      (fun c => connector_search_law_sections c query_params) _ r').
  - exact (aggregate_from_input citation case_relevance
      (fun c => connector_search_case_history c query_params) _ r').
Qed.

(** C9. Ties are broken in favour of the first record encountered: a
    record of the aggregated list is, among the gathered records with its
    key (taken connector by connector in query order), strictly more
    relevant than every earlier one and at least as relevant as every
    later one. *)
Theorem aggregator_ties_keep_first
    (connectors : list LegalDatabaseConnector) (query_params : QueryParams) :
  (forall r, r ∈ (search_law_sections connectors query_params).2 ->
     exists before after,
       gathered (fun c => connector_search_law_sections c query_params)
                connectors = before ++ r :: after /\
       (forall x, x ∈ before -> law_key x = law_key r ->
                  (relevance x < relevance r)%Z) /\
       (forall x, x ∈ after -> law_key x = law_key r ->
                  (relevance x <= relevance r)%Z)) /\
  (forall r, r ∈ (search_case_history connectors query_params).2 ->
     exists before after,
       gathered (fun c => connector_search_case_history c query_params)
                connectors = before ++ r :: after /\
       (forall x, x ∈ before -> citation x = citation r ->
                  (case_relevance x < case_relevance r)%Z) /\
       (forall x, x ∈ after -> citation x = citation r ->
                  (case_relevance x <= case_relevance r)%Z)).
Proof.
  split; intros r Hr.
  - exact (aggregate_first_max law_key relevance _ _ r Hr).
  - exact (aggregate_first_max citation case_relevance _ _ r Hr).
Qed.

(** C3. Connectors that raise are skipped one by one: the aggregated
    lists are those obtained from the connectors that succeeded alone,
    they are free of duplicate keys and in descending order of relevance,
    one line is printed per failed connector, and when every connector
    fails both lists are empty. Every record of a connector that
    succeeded is represented in the list by a record with its key that is
    at least as relevant, and every record of the list is a record of a
    connector that succeeded; when the records of the connectors that
    succeeded have pairwise distinct keys, the list is these records,
    sorted. What is printed is one line for each connector that raised,
    with its class name and the text of its exception, in the order in
    which the connectors are queried. *)
Theorem aggregator_tolerates_failures
    (connectors : list LegalDatabaseConnector) (query_params : QueryParams) :
  let law_call := fun c => connector_search_law_sections c query_params in
  let case_call := fun c => connector_search_case_history c query_params in
  let laws := search_law_sections connectors query_params in
  let cases := search_case_history connectors query_params in
  laws.2 = (search_law_sections
              (filter (fun c => succeeds law_call c = true) connectors)
              query_params).2 /\
  cases.2 = (search_case_history
               (filter (fun c => succeeds case_call c = true) connectors)
               query_params).2 /\
  descending relevance laws.2 /\ NoDup (law_key <$> laws.2) /\
  descending case_relevance cases.2 /\ NoDup (citation <$> cases.2) /\
  length laws.1
    = length (filter (fun c => succeeds law_call c = false) connectors) /\
  length cases.1
    = length (filter (fun c => succeeds case_call c = false) connectors) /\
  ((forall c, c ∈ connectors -> succeeds law_call c = false) ->
   laws.2 = []) /\
  ((forall c, c ∈ connectors -> succeeds case_call c = false) ->
   cases.2 = []) /\
  (forall c rs r,
     c ∈ connectors -> law_call c = Ok rs -> r ∈ rs ->
     exists r', r' ∈ laws.2 /\ law_key r' = law_key r /\
                (relevance r <= relevance r')%Z) /\
  (forall c rs r,
     c ∈ connectors -> case_call c = Ok rs -> r ∈ rs ->
     exists r', r' ∈ cases.2 /\ citation r' = citation r /\
                (case_relevance r <= case_relevance r')%Z) /\
  (forall r', r' ∈ laws.2 ->
     exists c rs, c ∈ connectors /\ law_call c = Ok rs /\ r' ∈ rs) /\
  (forall r', r' ∈ cases.2 ->
     exists c rs, c ∈ connectors /\ case_call c = Ok rs /\ r' ∈ rs) /\
  (NoDup (law_key <$> gathered law_call connectors) ->
   laws.2 = sorted_desc relevance (gathered law_call connectors)) /\
  (NoDup (citation <$> gathered case_call connectors) ->
   cases.2 = sorted_desc case_relevance (gathered case_call connectors)) /\
  laws.1 = failure_lines law_call connectors /\
  cases.1 = failure_lines case_call connectors.
Proof.
  cbv zeta. unfold search_law_sections, search_case_history.
  split; [apply aggregate_only_successes|].
  split; [apply aggregate_only_successes|].
  split; [apply aggregate_descending|].
  split; [apply aggregate_NoDup|].
  split; [apply aggregate_descending|].
  split; [apply aggregate_NoDup|].
  split; [apply aggregate_stdout|].
  split; [apply aggregate_stdout|].
  split; [apply aggregate_all_fail|].
  split; [apply aggregate_all_fail|].
  split.
  { intros c rs r. exact (aggregate_keeps_max law_key relevance
      (fun c => connector_search_law_sections c query_params) _ c rs r). }
  split.
  { intros c rs r. exact (aggregate_keeps_max citation case_relevance
      (fun c => connector_search_case_history c query_params) _ c rs r). }
  split.
  { intros r'. exact (aggregate_from_input law_key relevance
      (fun c => connector_search_law_sections c query_params) _ r'). }
  split.
  { intros r'. exact (aggregate_from_input citation case_relevance
      (fun c => connector_search_case_history c query_params) _ r'). }
  split; [apply aggregate_distinct|].
  split; [apply aggregate_distinct|].
  split; apply aggregate_lines.
Qed.

(** The scenarios of the specification on the sample connectors. *)
Example aggregate_partial_failure :
  search_law_sections [failing_connector; answering_connector] no_params
  = ([py "Error querying connector IndianKanoonConnector: API request failed: 503"],
     [ipc_420; evidence_65b; contract_73]).
Proof. vm_compute. reflexivity. Qed.

Example aggregate_overlap :
  (search_law_sections [answering_connector; mirror_connector] no_params).2
  = [ipc_420; evidence_65b; contract_73] /\
  (search_law_sections [mirror_connector; answering_connector] no_params).2
  = [ipc_420; evidence_65b; contract_73_mirror] /\
  (search_case_history [answering_connector; mirror_connector] no_params).2
  = [mehta_v_patel 8].
Proof. repeat split; vm_compute; reflexivity. Qed.

Lemma aggregator_deduplicates_witness :
  exists r',
    r' ∈ (search_law_sections [answering_connector; mirror_connector]
            no_params).2 /\
    law_key r' = law_key contract_73_mirror /\
    (relevance contract_73_mirror <= relevance r')%Z.
Proof.
  apply (proj1 (proj2 (proj2
           (aggregator_deduplicates [answering_connector; mirror_connector]
              no_params)))
           mirror_connector [contract_73_mirror; ipc_420_weaker]).
  - apply list_elem_of_further, list_elem_of_here.
  - reflexivity.
  - apply list_elem_of_here.
Defined.

Lemma aggregator_ties_keep_first_witness :
  contract_73
  ∈ (search_law_sections [answering_connector; mirror_connector]
       no_params).2 /\
  exists before after,
    [contract_73; ipc_420; evidence_65b; contract_73_mirror; ipc_420_weaker]
    = before ++ contract_73 :: after /\
    (forall x, x ∈ before -> law_key x = law_key contract_73 ->
               (relevance x < relevance contract_73)%Z) /\
    (forall x, x ∈ after -> law_key x = law_key contract_73 ->
               (relevance x <= relevance contract_73)%Z).
Proof.
  assert (contract_73
          ∈ (search_law_sections [answering_connector; mirror_connector]
               no_params).2) as Hin.
  { change (contract_73 ∈ [ipc_420; evidence_65b; contract_73]).
    apply list_elem_of_further, list_elem_of_further, list_elem_of_here. }
  split; [exact Hin|].
  exact (proj1 (aggregator_ties_keep_first
                  [answering_connector; mirror_connector] no_params)
           contract_73 Hin).
Defined.

Lemma aggregator_tolerates_failures_witness :
  (NoDup (law_key <$> [contract_73; ipc_420; evidence_65b]) /\
   search_law_sections [failing_connector; answering_connector] no_params
   = ([py "Error querying connector IndianKanoonConnector: API request failed: 503"],
      [ipc_420; evidence_65b; contract_73])) /\
  ((forall c, c ∈ [failing_connector; failing_connector] ->
      succeeds (fun c => connector_search_law_sections c no_params) c = false)
   /\
   (search_law_sections [failing_connector; failing_connector] no_params).2
   = []).
Proof.
  split.
  - assert (NoDup (law_key <$> [contract_73; ipc_420; evidence_65b])) as Hnd.
    { refine (bool_decide_unpack
                (NoDup (law_key <$> [contract_73; ipc_420; evidence_65b])) _).
      vm_compute. exact I. }
    split; [exact Hnd|].
    destruct (aggregator_tolerates_failures
                [failing_connector; answering_connector] no_params)
      as (_ & _ & _ & _ & _ & _ & _ & _ & _ & _ & _ & _ & _ & _ & Hlaws & _
          & Hlines & _).
    rewrite (surjective_pairing (search_law_sections _ _)).
    rewrite Hlines, (Hlaws Hnd). reflexivity.
  - assert (forall c, c ∈ [failing_connector; failing_connector] ->
              succeeds (fun c => connector_search_law_sections c no_params) c
              = false) as Hfail.
    { intros c Hc. rewrite !elem_of_cons, elem_of_nil in Hc.
      by destruct Hc as [->|[->|[]]]. }
    split; [exact Hfail|].
    destruct (aggregator_tolerates_failures
                [failing_connector; failing_connector] no_params)
      as (_ & _ & _ & _ & _ & _ & _ & _ & Hlaws & _).
    exact (Hlaws Hfail).
Defined.

(** ** Citation extractor *)

Import BriefAnalyzer.

Example extract_year_first_forms :
  _extract_citations (py "see 2017 AIR 567 and (2019) 4 SCC 123; 1950SCR 88")
  = [ {| type := AIR; year := py "2017"; volume := None; page := py "567" |};
      {| type := SCC; year := py "2019"; volume := Some (py "4");
         page := py "123" |};
      {| type := SCR; year := py "1950"; volume := None; page := py "88" |} ].
Proof. vm_compute. reflexivity. Qed.

Example extract_air_sc_form : _extract_citations (py "AIR 2017 SC 567") = [].
Proof. vm_compute. reflexivity. Qed.

Example extract_example_brief : _extract_citations example_brief = [].
Proof. vm_compute. reflexivity. Qed.

Lemma finditer_Forall {A} (P : A -> Prop) (m : matcher A) :
  (forall s a rest, m s = Some (a, rest) -> P a) ->
  forall skip s, Forall P (finditer m skip s).
Proof.
  intros Hm skip s. revert skip.
  induction s as [|c s IH]; intros skip; simpl; [constructor|].
  destruct skip as [|k]; [|apply IH].
  destruct (m (c :: s)) as [[a rest]|] eqn:Hms; [|apply IH].
  constructor; [by eapply Hm|apply IH].
Qed.

Lemma digits_4_spec s d rest :
  digits_4 s = Some (d, rest) ->
  length d = 4%nat /\ forallb isdecimal d = true.
Proof.
  unfold digits_4.
  destruct (Nat.eqb_spec (length (take 4 s)) 4) as [Hlen|]; [|done].
  destruct (forallb isdecimal (take 4 s)) eqn:Hd; [|done].
  simpl. by intros [= <- _].
Qed.

Lemma span_decimal_spec s d rest :
  span_decimal s = (d, rest) -> forallb isdecimal d = true.
Proof.
  revert d rest. induction s as [|c s IH]; intros d rest; simpl.
  - by intros [= <- _].
  - destruct (isdecimal c) eqn:Hc; [|by intros [= <- _]].
    destruct (span_decimal s) as [d' r']. intros [= <- _].
    simpl. rewrite Hc. by eapply IH.
Qed.

Lemma digits_plus_spec s d rest :
  digits_plus s = Some (d, rest) ->
  d <> [] /\ forallb isdecimal d = true.
Proof.
  unfold digits_plus. destruct (span_decimal s) as [d' r'] eqn:Hs.
  destruct d' as [|c d']; [done|]. intros [= <- _].
  split; [done|]. by eapply span_decimal_spec.
Qed.

Ltac match_step H :=
  match type of H with
  | context [digits_4 ?s] =>
      let Hd := fresh "Hd" in
      destruct (digits_4 s) as [[? ?]|] eqn:Hd; [|done];
      apply digits_4_spec in Hd; cbn [mbind option_bind] in H
  | context [digits_plus ?s] =>
      let Hd := fresh "Hd" in
      destruct (digits_plus s) as [[? ?]|] eqn:Hd; [|done];
      apply digits_plus_spec in Hd; cbn [mbind option_bind] in H
  | context [lit ?w ?s] =>
      destruct (lit w s) as [[? ?]|]; [|done];
      cbn [mbind option_bind] in H
  | context [ws_star ?s] =>
      destruct (ws_star s) as [[? ?]|]; [|done];
      cbn [mbind option_bind] in H
  end.

Lemma air_pattern_fields s c rest :
  air_pattern s = Some (c, rest) -> citation_fields c.
Proof.
  unfold air_pattern. intros H. cbn [mbind option_bind] in H.
  repeat match_step H.
  injection H as <- _. unfold citation_fields. simpl. intuition eauto.
Qed.

Lemma scr_pattern_fields s c rest :
  scr_pattern s = Some (c, rest) -> citation_fields c.
Proof.
  unfold scr_pattern. intros H. cbn [mbind option_bind] in H.
  repeat match_step H.
  injection H as <- _. unfold citation_fields. simpl. intuition eauto.
Qed.

Lemma scc_pattern_fields s c rest :
  scc_pattern s = Some (c, rest) -> citation_fields c.
Proof.
  unfold scc_pattern. intros H. cbn [mbind option_bind] in H.
  repeat match_step H.
  injection H as <- _. unfold citation_fields. simpl. intuition eauto.
Qed.

Lemma extract_citations_fields text :
  Forall citation_fields (_extract_citations text).
Proof.
  unfold _extract_citations. simpl app.
  repeat apply Forall_app_2; apply finditer_Forall.
  - apply air_pattern_fields.
  - apply scc_pattern_fields.
  - apply scr_pattern_fields.
Qed.

(** C6. The citation extractor on the brief "AIR 2017 SC 567", and on the
    example brief of its own module, which cites that case: no citation is
    returned, because the AIR pattern wants the year before the reporter
    ("2017 AIR 567"). What a pattern does match always carries a year and
    a page, and a volume exactly for SCC. *)
Theorem extract_citations_misses_air_sc :
  _extract_citations (py "AIR 2017 SC 567") = [] /\
  _extract_citations example_brief = [] /\
  _extract_citations (py "2017 AIR 567")
  = [ {| type := AIR; year := py "2017"; volume := None;
         page := py "567" |} ] /\
  forall text, Forall citation_fields (_extract_citations text).
Proof.
  split; [vm_compute; reflexivity|].
  split; [vm_compute; reflexivity|].
  split; [vm_compute; reflexivity|].
  apply extract_citations_fields.
Qed.

(** ** Query generator *)

Lemma citation_query_cases (c : Citation) :
  (lacks_volume c /\ citation_query c = Raised KeyError_volume) \/
  (~ lacks_volume c /\ exists q, citation_query c = Returned q).
Proof.
  unfold lacks_volume, citation_query.
  destruct (type c) eqn:Ht, (volume c) eqn:Hv;
    try (right; split; [intros [? ?]; congruence|by eexists]).
  left. done.
Qed.

Lemma citation_queries_returned (citations : list Citation) :
  Forall (fun c => ~ lacks_volume c) citations ->
  exists qs,
    mapM citation_query citations = Returned qs /\
    Forall2 (fun c q => citation_query c = Returned q) citations qs.
Proof.
  induction 1 as [|c l Hc Hl (qs & Hqs & Hall)].
  - exists []. split; [done|constructor].
  - destruct (citation_query_cases c) as [[Hlack _]|[_ [q Hq]]]; [done|].
    exists (q :: qs). split; [|by constructor].
    cbn [mapM]. rewrite Hq. cbn [mbind outcome_bind].
    change (mapM citation_query l) with (mapM citation_query l).
    rewrite Hqs. done.
Qed.

(** The loop over the citations stops with the first SCC citation that
    has no volume. *)
Lemma citation_queries_raised (citations : list Citation) :
  Exists lacks_volume citations ->
  mapM citation_query citations = Raised KeyError_volume.
Proof.
  induction citations as [|c l IH]; [by intros ?%Exists_nil|].
  intros Hex. cbn [mapM].
  destruct (citation_query_cases c) as [[_ ->]|[Hc [q ->]]]; [done|].
  cbn [mbind outcome_bind].
  apply Exists_cons in Hex as [Hex|Hex]; [done|].
  change (mapM citation_query l) with (mapM citation_query l).
  by rewrite (IH Hex).
Qed.

Lemma citation_fields_volume c : citation_fields c -> ~ lacks_volume c.
Proof.
  intros (_ & _ & _ & _ & Hv) [Ht Hn]. rewrite Ht in Hv.
  destruct Hv as (v & Hv & _). congruence.
Qed.

Lemma extract_citations_volume text :
  Forall (fun c => ~ lacks_volume c) (_extract_citations text).
Proof.
  eapply Forall_impl; [apply extract_citations_fields|].
  apply citation_fields_volume.
Qed.

Section Queries.

Variable rt : Runtime.
Variable text : str.
Variable entities : list (str * list str).
Variable acts_sections : list ActSection.
Variable citations : list Citation.

Lemma candidate_queries_raised :
  Exists lacks_volume citations ->
  candidate_queries rt text entities acts_sections citations
  = Raised KeyError_volume.
Proof.
  intros Hex. unfold candidate_queries. cbv zeta.
  by rewrite (citation_queries_raised _ Hex).
Qed.

Lemma candidate_queries_returned :
  Forall (fun c => ~ lacks_volume c) citations ->
  exists noun_phrases citation_queries entity_queries,
    (length noun_phrases <= 5)%nat /\
    Forall2 (fun c q => citation_query c = Returned q)
      citations citation_queries /\
    candidate_queries rt text entities acts_sections citations
    = Returned (noun_phrases ++ (act_section_query <$> acts_sections)
                  ++ citation_queries ++ entity_queries).
Proof.
  intros Hall. unfold candidate_queries. cbv zeta.
  destruct (citation_queries_returned _ Hall) as (qs & -> & Hqs).
  cbn [mbind outcome_bind].
  match goal with
  | |- context [(((([] ++ ?np) ++ _) ++ _) ++ ?eq)] => exists np, qs, eq
  end.
  split; [rewrite length_take; lia|]. split; [done|].
  by rewrite <- !app_assoc.
Qed.

(** What is returned when the candidates are [pool]. *)
Variable pool : list str.
Hypothesis pool_returned :
  candidate_queries rt text entities acts_sections citations = Returned pool.

Let queries := take 10 (set_to_list rt pool).

Lemma search_queries_returned :
  _generate_search_queries rt text entities acts_sections citations
  = Returned queries.
Proof. unfold _generate_search_queries. by rewrite pool_returned. Qed.

Lemma search_queries_length : (length queries <= 10)%nat.
Proof. subst queries. rewrite length_take. lia. Qed.

Lemma search_queries_NoDup : NoDup queries.
Proof.
  subst queries.
  eapply sublist_NoDup; [apply set_to_list_NoDup|apply sublist_take].
Qed.

Lemma search_queries_from_pool q : q ∈ queries -> q ∈ pool.
Proof.
  subst queries.
  intros Hq. apply (set_to_list_elem rt).
  eapply elem_of_sublist; [exact Hq|apply sublist_take].
Qed.

Lemma set_to_list_length l :
  length (set_to_list rt l) = length (remove_dups l).
Proof.
  apply Permutation_length, NoDup_Permutation.
  - apply set_to_list_NoDup.
  - apply NoDup_remove_dups.
  - intros x. by rewrite set_to_list_elem, elem_of_remove_dups.
Qed.

Lemma search_queries_all_when_few q :
  (length (remove_dups pool) <= 10)%nat -> q ∈ pool -> q ∈ queries.
Proof.
  subst queries.
  intros Hlen Hq. rewrite take_ge.
  - by apply set_to_list_elem.
  - by rewrite set_to_list_length.
Qed.

End Queries.

(** C7, as the code has it. An SCC citation without a volume makes the
    query generator raise the KeyError of the missing key. On every other
    input it returns at most 10 pairwise distinct strings, each of them
    one of the candidate queries; when the candidates comprise at most 10
    distinct strings, all of them are returned. The candidates are, in
    this order, at most five noun phrases, the act/section queries, the
    citation queries and the entity queries. The citations of the
    citation extractor all qualify. *)
Theorem search_queries_bounded_distinct
    (rt : Runtime) (text : str) (entities : list (str * list str))
    (acts_sections : list ActSection) (citations : list Citation) :
  (Exists lacks_volume citations ->
   _generate_search_queries rt text entities acts_sections citations
   = Raised KeyError_volume) /\
  (Forall (fun c => ~ lacks_volume c) citations ->
   exists pool queries,
     candidate_queries rt text entities acts_sections citations
     = Returned pool /\
     _generate_search_queries rt text entities acts_sections citations
     = Returned queries /\
     (length queries <= 10)%nat /\
     NoDup queries /\
     (forall q, q ∈ queries -> q ∈ pool) /\
     ((length (remove_dups pool) <= 10)%nat ->
      forall q, q ∈ pool -> q ∈ queries) /\
     (exists noun_phrases citation_queries entity_queries,
        (length noun_phrases <= 5)%nat /\
        Forall2 (fun c q => citation_query c = Returned q)
          citations citation_queries /\
        pool = noun_phrases ++ (act_section_query <$> acts_sections)
                 ++ citation_queries ++ entity_queries)) /\
  (forall brief,
     Forall (fun c => ~ lacks_volume c) (_extract_citations brief)).
Proof.
  split; [|split].
  - intros Hex. unfold _generate_search_queries.
    by rewrite (candidate_queries_raised rt text entities acts_sections
                  citations Hex).
  - intros Hall.
    destruct (candidate_queries_returned rt text entities acts_sections
                citations Hall) as (np & cq & eq & Hnp & Hcq & Hpool).
    eexists _, _. split; [exact Hpool|].
    split; [by apply search_queries_returned|].
    split; [apply search_queries_length|].
    split; [apply search_queries_NoDup|].
    split; [apply search_queries_from_pool|].
    split; [intros Hlen q; by apply search_queries_all_when_few|].
    by exists np, cq, eq.
  - apply extract_citations_volume.
Qed.

Lemma search_queries_bounded_distinct_witness :
  let rt := insertion_order_runtime five_phrases in
  let citations :=
    [ {| type := SCC; year := py "2017"; volume := Some (py "3");
         page := py "567" |} ] in
  Forall (fun c => ~ lacks_volume c) citations /\
  exists pool queries,
    candidate_queries rt [] [] (companies_act_sections 3) citations
    = Returned pool /\
    _generate_search_queries rt [] [] (companies_act_sections 3) citations
    = Returned queries /\
    (length queries <= 10)%nat /\
    NoDup queries /\
    (forall q, q ∈ queries -> q ∈ pool) /\
    ((length (remove_dups pool) <= 10)%nat ->
     forall q, q ∈ pool -> q ∈ queries) /\
    (exists noun_phrases citation_queries entity_queries,
       (length noun_phrases <= 5)%nat /\
       Forall2 (fun c q => citation_query c = Returned q)
         citations citation_queries /\
       pool = noun_phrases
                ++ (act_section_query <$> companies_act_sections 3)
                ++ citation_queries ++ entity_queries).
Proof.
  cbv zeta.
  assert (Forall (fun c => ~ lacks_volume c)
            [ {| type := SCC; year := py "2017"; volume := Some (py "3");
                 page := py "567" |} ]) as Hall.
  { apply Forall_singleton. intros [_ Hv]. discriminate Hv. }
  split; [exact Hall|].
  exact (proj1 (proj2 (search_queries_bounded_distinct
                         (insertion_order_runtime five_phrases) [] []
                         (companies_act_sections 3) _)) Hall).
Defined.

(** C7, counterexample. With eleven act/section pairs and nothing else,
    whatever the set order, some act/section query is dropped; and with
    five noun phrases and six act/section pairs, under insertion order,
    the five noun phrases are all kept while an act/section query is
    dropped: the noun phrases are appended first. And the generator does
    not return on every input: an SCC citation without a volume makes it
    raise. *)
Lemma search_queries_cap_drops_act_queries :
  (forall rt : BriefAnalyzer.Runtime,
     exists pool queries,
       candidate_queries rt [] [] (companies_act_sections 11) []
       = Returned pool /\
       _generate_search_queries rt [] [] (companies_act_sections 11) []
       = Returned queries /\
       (10 < length (remove_dups pool))%nat /\
       exists item, item ∈ companies_act_sections 11 /\
                    act_section_query item ∉ queries) /\
  (exists pool queries,
     candidate_queries (insertion_order_runtime five_phrases)
       [] [] (companies_act_sections 6) [] = Returned pool /\
     _generate_search_queries (insertion_order_runtime five_phrases)
       [] [] (companies_act_sections 6) [] = Returned queries /\
     (forall phrase, phrase ∈ five_phrases -> phrase ∈ queries) /\
     (py "Companies Act section 6" ∉ queries) /\
     take 5 pool = five_phrases) /\
  _generate_search_queries (insertion_order_runtime five_phrases) [] [] []
    [ {| type := SCC; year := py "2017"; volume := None;
         page := py "567" |} ]
  = Raised KeyError_volume.
Proof.
  split; [|split].
  - intros rt.
    assert (Forall (fun c : Citation => ~ lacks_volume c) []) as Hnil
      by constructor.
    destruct (candidate_queries_returned rt [] [] (companies_act_sections 11)
                [] Hnil) as (np & cq & eq & Hnp & Hcq & Hpool).
    set (pool := np ++ (act_section_query <$> companies_act_sections 11)
                   ++ cq ++ eq) in *.
    exists pool, (take 10 (set_to_list rt pool)).
    split; [done|]. split; [by apply search_queries_returned|].
    set (qs := take 10 (set_to_list rt pool)).
    assert (NoDup (act_section_query <$> companies_act_sections 11)) as Hnd.
    { apply (bool_decide_unpack _). vm_compute. exact I. }
    assert (forall item, item ∈ companies_act_sections 11 ->
                         act_section_query item ∈ pool) as Hin.
    { intros item Hi. subst pool. rewrite !elem_of_app. right. left.
      by apply list_elem_of_fmap_2. }
    split.
    + assert (act_section_query <$> companies_act_sections 11
              ⊆+ remove_dups pool) as Hsub.
      { apply NoDup_submseteq; [done|].
        intros q (item & -> & Hi)%list_elem_of_fmap.
        apply elem_of_remove_dups. by apply Hin. }
      apply submseteq_length in Hsub. rewrite length_fmap in Hsub.
      change (length (companies_act_sections 11)) with 11%nat in Hsub. lia.
    + destruct (decide (Forall (fun item => act_section_query item ∈ qs)
                               (companies_act_sections 11))) as [Hall|Hex].
      * exfalso.
        assert (act_section_query <$> companies_act_sections 11 ⊆+ qs)
          as Hsub.
        { apply NoDup_submseteq; [done|].
          intros q (item & -> & Hi)%list_elem_of_fmap.
          by apply (proj1 (Forall_forall _ _) Hall). }
        apply submseteq_length in Hsub. rewrite length_fmap in Hsub.
        change (length (companies_act_sections 11)) with 11%nat in Hsub.
        pose proof (search_queries_length rt pool) as Hlen.
        fold qs in Hlen. lia.
      * destruct (decide (Exists (fun item => act_section_query item ∉ qs)
                                 (companies_act_sections 11)))
          as [Hsome|Hnone].
        -- apply Exists_exists in Hsome as (item & Hi & Hq).
           by exists item.
        -- exfalso. apply Hex. apply Forall_forall. intros item Hi.
           apply dec_stable. intros Hq. apply Hnone.
           apply Exists_exists. by exists item.
  - eexists _, _. split; [vm_compute; reflexivity|].
    split; [vm_compute; reflexivity|]. split; [|split].
    + apply Forall_forall. apply (bool_decide_unpack _). vm_compute. exact I.
    + apply (bool_decide_unpack _). vm_compute. exact I.
    + vm_compute. reflexivity.
  - vm_compute. reflexivity.
Qed.

(** ** Drafting agent: section builders *)

Import DraftingAgent.

Lemma override_insert_empty (info : gmap str str) k :
  override (<[k := []]> info) k = None.
Proof. unfold override. by rewrite lookup_insert_eq. Qed.

Lemma override_delete (info : gmap str str) k :
  override (delete k info) k = None.
Proof. unfold override. by rewrite lookup_delete_eq. Qed.

Lemma py_nonempty a s : py (String a s) <> [].
Proof. done. Qed.

Lemma app_nonempty_l (a b : str) : a <> [] -> a ++ b <> [].
Proof. by destruct a. Qed.

Lemma app_nonempty_r (a b : str) : b <> [] -> a ++ b <> [].
Proof. destruct a; [done|]. by intros _. Qed.

(** A text is not empty when one of the pieces it is appended from is a
    non-empty literal. *)
Ltac solve_nonempty :=
  lazymatch goal with
  | |- py (String _ _) <> [] => apply py_nonempty
  | |- _ :: _ <> [] => discriminate
  | |- (if ?b then _ else _) <> [] => destruct b; solve_nonempty
  | |- _ ++ _ <> [] =>
      first [ apply app_nonempty_r; solve_nonempty
            | apply app_nonempty_l; solve_nonempty ]
  end.

Ltac unfold_builders :=
  unfold _generate_title, _generate_parties_section,
    _generate_facts_section, _generate_legal_provisions_section,
    _generate_prayer_section, _generate_verification_section,
    _generate_jurisdiction_section, _generate_grounds_section,
    _generate_preliminary_objections, _generate_facts_rebuttal,
    _generate_legal_arguments, _generate_rebuttal_to_reply,
    _generate_additional_facts, _generate_deponent_details,
    _generate_affidavit_statements, _generate_affidavit_declaration,
    _generate_attestation, _generate_sender_details,
    _generate_recipient_details, _generate_notice_subject,
    _generate_notice_demand, _generate_notice_timeline,
    _generate_notice_consequences.

Lemma run_builder_insert_empty (rt : DraftingAgent.Runtime) (b : builder)
    (x : BuilderInputs) (info : gmap str str) :
  run_builder rt b x (<[builder_key b := []]> info)
  = run_builder rt b x (delete (builder_key b) info).
Proof.
  destruct b; unfold run_builder; cbv zeta; unfold_builders;
    rewrite override_insert_empty, override_delete; try reflexivity.
  rewrite lookup_insert_ne, lookup_delete_ne; [reflexivity|done..].
Qed.

Lemma run_builder_nonempty (rt : DraftingAgent.Runtime) (b : builder)
    (x : BuilderInputs) (info : gmap str str) (text : str) :
  override info (builder_key b) = None ->
  run_builder rt b x info = Ok text -> text <> [].
Proof.
  intros Hov.
  destruct b; unfold builder_key in Hov; unfold run_builder; cbv zeta;
    unfold_builders; rewrite Hov; cbv zeta.
  all: try (intros [= <-]; repeat case_match; solve_nonempty).
  destruct (is_type _ _); [|destruct (is_type _ _)];
    try (destruct (index0 _) as [verifier|e]; [|done]);
    cbn [mbind result_bind]; intros [= <-]; solve_nonempty.
Qed.

(** C10. An override whose value is the empty string is ignored by every
    section builder: the builder does what it does when the key is absent,
    and the text it returns is never empty; an override with a non-empty
    value is returned as it is. *)
Theorem empty_override_is_ignored
    (rt : DraftingAgent.Runtime) (b : builder) (x : BuilderInputs)
    (info : gmap str str) :
  run_builder rt b x (<[builder_key b := []]> info)
  = run_builder rt b x (delete (builder_key b) info) /\
  (forall text,
     run_builder rt b x (<[builder_key b := []]> info) = Ok text ->
     text <> []) /\
  (forall c text,
     run_builder rt b x (<[builder_key b := c :: text]> info)
     = Ok (c :: text)).
Proof.
  split; [apply run_builder_insert_empty|]. split.
  - intros text. apply run_builder_nonempty, override_insert_empty.
  - intros c text.
    assert (override (<[builder_key b := c :: text]> info) (builder_key b)
            = Some (c :: text)) as Hov.
    { unfold override. by rewrite lookup_insert_eq. }
    destruct b; unfold builder_key in Hov; unfold run_builder; cbv zeta;
      unfold_builders; unfold builder_key; by rewrite Hov.
Qed.

(** ** Drafting agent: the sections of a document *)

Lemma assign_if_present_other (name : str) (text : result str)
    (sections sections' : list (str * str)) (k : str) :
  assign_if_present name text sections = Ok sections' ->
  k <> name ->
  dict_get sections' k = dict_get sections k.
Proof.
  unfold assign_if_present. destruct (dict_has sections name); [|congruence].
  destruct text as [t|e]; [|done]. cbn [mbind result_bind].
  intros [= <-] Hk. rewrite dict_get_set. by rewrite decide_False.
Qed.

Lemma assign_if_present_left_empty (name : str) (text : result str)
    (sections : list (str * str)) :
  name <> py "defense_arguments" ->
  raises_only_IndexError text ->
  dict_get sections (py "defense_arguments") = Some [] ->
  defense_arguments_left_empty (assign_if_present name text sections).
Proof.
  intros Hname Htext Hs.
  destruct (assign_if_present name text sections) as [s'|e] eqn:Ha.
  - simpl. by rewrite (assign_if_present_other _ _ _ _ _ Ha).
  - unfold assign_if_present in Ha. revert Ha.
    destruct (dict_has sections name); [|done].
    destruct text as [t|e']; [done|]. cbn in Htext |- *. congruence.
Qed.

Lemma left_empty_bind r (k : list (str * str) -> result (list (str * str))) :
  defense_arguments_left_empty r ->
  (forall sections,
     dict_get sections (py "defense_arguments") = Some [] ->
     defense_arguments_left_empty (k sections)) ->
  defense_arguments_left_empty (r ≫= k).
Proof.
  intros Hr Hk. destruct r as [s|e]; cbn [mbind result_bind].
  - by apply Hk.
  - exact Hr.
Qed.

Lemma verification_raises_only_IndexError rt dt en info :
  raises_only_IndexError (_generate_verification_section rt dt en info).
Proof.
  unfold _generate_verification_section.
  destruct (override info _); [done|].
  destruct (is_type dt _); [|destruct (is_type dt _)]; [| |done].
  - by destruct (default _ _).
  - by destruct (default _ _).
Qed.

Ltac left_empty_step :=
  first
    [ apply left_empty_bind;
      [ apply assign_if_present_left_empty;
        [ intros Heq; vm_compute in Heq; discriminate
        | first [ exact I | apply verification_raises_only_IndexError ]
        | assumption ]
      | let s := fresh "sections" in
        let Hs := fresh "Hs" in
        clear; intros s Hs ]
    | apply assign_if_present_left_empty;
      [ intros Heq; vm_compute in Heq; discriminate
      | first [ exact I | apply verification_raises_only_IndexError ]
      | assumption ] ].

Lemma written_statement_left_empty rt ba ls chs an en info :
  defense_arguments_left_empty
    (_generate_document_sections rt (py "written_statement")
       ba ls chs an en info).
Proof.
  unfold _generate_document_sections. cbv zeta.
  change (is_type (py "written_statement") [py "petition"]) with false.
  change (is_type (py "written_statement")
            [py "reply"; py "written_statement"]) with true.
  cbv iota.
  set (init := fold_left _ _ _).
  assert (dict_get init (py "defense_arguments") = Some []) as Hinit.
  { vm_compute. reflexivity. }
  clearbody init.
  repeat left_empty_step.
Qed.

(** Every builder returns a non-empty text, override or not. *)
Lemma run_builder_text_nonempty (rt : DraftingAgent.Runtime) (b : builder)
    (x : BuilderInputs) (info : gmap str str) (text : str) :
  run_builder rt b x info = Ok text -> text <> [].
Proof.
  destruct (override info (builder_key b)) as [t|] eqn:Hov.
  - assert (t <> []) as Ht.
    { unfold override in Hov. destruct (info !! builder_key b) as [t'|];
        [|done]. destruct t'; [done|]. by injection Hov as <-. }
    destruct b; unfold builder_key in Hov; unfold run_builder; cbv zeta;
      unfold_builders; rewrite Hov; by intros [= <-].
  - by apply run_builder_nonempty.
Qed.

Lemma bind_Ok_inv {A B} (r : result A) (k : A -> result B) (b : B) :
  r ≫= k = Ok b -> exists a, r = Ok a /\ k a = Ok b.
Proof. destruct r as [a|e]; [|done]. intros Hk. by exists a. Qed.

Lemma filled_except_assign (name : str) (text : result str)
    (sections sections' : list (str * str)) (remaining : list str) :
  assign_if_present name text sections = Ok sections' ->
  (forall t, text = Ok t -> t <> []) ->
  filled_except remaining sections ->
  filled_except (filter (fun k => k <> name) remaining) sections'.
Proof.
  unfold assign_if_present, dict_has. intros Ha Htext Hs k Hk.
  apply list_elem_of_filter. revert Ha. case_bool_decide as Hhas.
  - destruct text as [t|e]; [|done]. cbn [mbind result_bind].
    intros [= <-]. rewrite dict_get_set in Hk.
    case_decide as Hkn.
    + injection Hk as ->. by destruct (Htext [] eq_refl).
    + split; [done|]. by apply Hs.
  - intros [= <-]. split; [|by apply Hs].
    intros ->. apply Hhas. by rewrite Hk.
Qed.

Lemma filled_except_init (names : list str) :
  filled_except names
    (fold_left (fun sections section => dict_set sections section [])
       names ([] : list (str * str))).
Proof.
  assert (forall (init : list (str * str)) k v,
            dict_get (fold_left (fun sections section =>
                                   dict_set sections section [])
                        names init) k = Some v ->
            k ∈ names \/ dict_get init k = Some v) as Hgen.
  { induction names as [|n names IH]; intros init k v; cbn [fold_left].
    - auto.
    - intros [Hk|Hk]%IH; [left; by apply list_elem_of_further|].
      rewrite dict_get_set in Hk. case_decide as Hkn.
      + subst. left. apply list_elem_of_here.
      + auto. }
  intros k Hk. by destruct (Hgen [] k [] Hk).
Qed.

(** The text handed to [assign_if_present] is a builder's. *)
Ltac builder_text rt dt ba ls chs an en info :=
  let t := fresh "t" in
  let Ht := fresh "Ht" in
  intros t Ht;
  first
    [ exact (run_builder_text_nonempty rt Title
               (Build_BuilderInputs dt ba ls chs an en) info t Ht)
    | exact (run_builder_text_nonempty rt Parties
               (Build_BuilderInputs dt ba ls chs an en) info t Ht)
    | exact (run_builder_text_nonempty rt Facts
               (Build_BuilderInputs dt ba ls chs an en) info t Ht)
    | exact (run_builder_text_nonempty rt LegalProvisions
               (Build_BuilderInputs dt ba ls chs an en) info t Ht)
    | exact (run_builder_text_nonempty rt Prayer
               (Build_BuilderInputs dt ba ls chs an en) info t Ht)
    | exact (run_builder_text_nonempty rt Verification
               (Build_BuilderInputs dt ba ls chs an en) info t Ht)
    | exact (run_builder_text_nonempty rt Jurisdiction
               (Build_BuilderInputs dt ba ls chs an en) info t Ht)
    | exact (run_builder_text_nonempty rt Grounds
               (Build_BuilderInputs dt ba ls chs an en) info t Ht)
    | exact (run_builder_text_nonempty rt PreliminaryObjections
               (Build_BuilderInputs dt ba ls chs an en) info t Ht)
    | exact (run_builder_text_nonempty rt FactsRebuttal
               (Build_BuilderInputs dt ba ls chs an en) info t Ht)
    | exact (run_builder_text_nonempty rt LegalArguments
               (Build_BuilderInputs dt ba ls chs an en) info t Ht)
    | exact (run_builder_text_nonempty rt RebuttalToReply
               (Build_BuilderInputs dt ba ls chs an en) info t Ht)
    | exact (run_builder_text_nonempty rt AdditionalFacts
               (Build_BuilderInputs dt ba ls chs an en) info t Ht)
    | exact (run_builder_text_nonempty rt DeponentDetails
               (Build_BuilderInputs dt ba ls chs an en) info t Ht)
    | exact (run_builder_text_nonempty rt Statements
               (Build_BuilderInputs dt ba ls chs an en) info t Ht)
    | exact (run_builder_text_nonempty rt Declaration
               (Build_BuilderInputs dt ba ls chs an en) info t Ht)
    | exact (run_builder_text_nonempty rt Attestation
               (Build_BuilderInputs dt ba ls chs an en) info t Ht)
    | exact (run_builder_text_nonempty rt SenderDetails
               (Build_BuilderInputs dt ba ls chs an en) info t Ht)
    | exact (run_builder_text_nonempty rt RecipientDetails
               (Build_BuilderInputs dt ba ls chs an en) info t Ht)
    | exact (run_builder_text_nonempty rt Subject
               (Build_BuilderInputs dt ba ls chs an en) info t Ht)
    | exact (run_builder_text_nonempty rt Demand
               (Build_BuilderInputs dt ba ls chs an en) info t Ht)
    | exact (run_builder_text_nonempty rt Timeline
               (Build_BuilderInputs dt ba ls chs an en) info t Ht)
    | exact (run_builder_text_nonempty rt Consequences
               (Build_BuilderInputs dt ba ls chs an en) info t Ht) ].

(** One assignment of the dispatcher: the hypothesis [H] on the rest of
    the run is replaced by one on what follows the assignment, and the
    invariant [Hf] moves to the new sections. *)
Ltac filled_step rt dt ba ls chs an en info H Hf :=
  let s' := fresh "sections" in
  let Ha := fresh "Ha" in
  first
    [ apply bind_Ok_inv in H; destruct H as (s' & Ha & H)
    | rename H into Ha ];
  eapply filled_except_assign in Hf;
    [ | exact Ha | builder_text rt dt ba ls chs an en info ];
  clear Ha.

Lemma fully_built_sections_nonempty rt dt ba ls chs an en info sections :
  dt ∈ fully_built_types ->
  _generate_document_sections rt dt ba ls chs an en info = Ok sections ->
  forall k, dict_get sections k <> Some [].
Proof.
  intros Hdt H k Hk.
  unfold fully_built_types in Hdt. cbn [fmap list_fmap] in Hdt.
  rewrite !elem_of_cons, elem_of_nil in Hdt.
  unfold _generate_document_sections in H. cbv zeta in H.
  pose proof (filled_except_init
                (default [] (dict_get document_structures dt))) as Hf.
  set (info' := default ∅ info) in *.
  destruct Hdt as [->|[->|[->|[->|[->|[]]]]]].
  all: repeat
         match type of H with
         | context [is_type ?d ?l] =>
             let b := eval vm_compute in (is_type d l) in
             change (is_type d l) with b in H; cbv iota in H
         end.
  all: lazymatch type of H with
       | context [_generate_title ?d _ _ _] =>
           repeat filled_step rt d ba ls chs an en info' H Hf
       end.
  all: apply Hf in Hk; vm_compute in Hk.
  all: by repeat (apply elem_of_cons in Hk as [Hk|Hk]; [discriminate|]);
       apply elem_of_nil in Hk.
Qed.

(** C5. The sections generated for a written statement: whatever the
    inputs, the run ends either in an [IndexError] or with the
    ["defense_arguments"] section mapped to the empty string, no builder
    being dispatched for it. With one respondent found and nothing else,
    the sections are returned with that entry empty; for a petition with no
    party found, the verification builder indexes an empty list and the
    run raises. For the five other document types, the sections that are
    returned are all non-empty. *)
Theorem written_statement_defense_arguments_empty :
  (forall rt ba ls chs an en info,
     defense_arguments_left_empty
       (_generate_document_sections rt (py "written_statement")
          ba ls chs an en info)) /\
  (forall rt, exists sections,
     _generate_document_sections rt (py "written_statement")
       no_brief_analysis [] [] no_analysis
       (entities_with_respondent (py "XYZ Ltd")) None = Ok sections /\
     dict_get sections (py "defense_arguments") = Some [] /\
     sections.*1 = py <$> [ "title"; "parties"; "preliminary_objections";
                            "facts"; "defense_arguments";
                            "legal_provisions"; "prayer";
                            "verification" ]%string) /\
  (forall rt,
     _generate_document_sections rt (py "petition")
       no_brief_analysis [] [] no_analysis no_entities None
     = Raise IndexError_out_of_range) /\
  (forall rt dt ba ls chs an en info sections,
     dt ∈ fully_built_types ->
     _generate_document_sections rt dt ba ls chs an en info = Ok sections ->
     forall k, dict_get sections k <> Some []).
Proof.
  split; [apply written_statement_left_empty|]. split; [|split].
  - intros rt. eexists. split; [vm_compute; reflexivity|].
    split; vm_compute; reflexivity.
  - intros rt. vm_compute. reflexivity.
  - apply fully_built_sections_nonempty.
Qed.

(** ** Drafting agent: validation of the document type *)

Lemma dict_get_tabulate {V} (f : str -> V) (names : list str) (k : str) :
  dict_get ((fun name => (name, f name)) <$> names) k
  = if decide (k ∈ names) then Some (f k) else None.
Proof.
  induction names as [|n names IH].
  - rewrite decide_False; [done|apply not_elem_of_nil].
  - rewrite fmap_cons. cbn [dict_get].
    destruct (decide (k = n)) as [->|Hne].
    + rewrite decide_True; [done|apply list_elem_of_here].
    + rewrite IH. destruct (decide (k ∈ names)) as [Hin|Hnin].
      * rewrite decide_True; [done|by apply list_elem_of_further].
      * rewrite decide_False; [done|]. rewrite elem_of_cons. tauto.
Qed.

Lemma templates_supported rt (document_type : str) :
  dict_has (templates rt) document_type
  = bool_decide (document_type ∈ document_types).
Proof.
  unfold dict_has, templates. rewrite dict_get_tabulate.
  apply bool_decide_ext.
  set (names := py <$> _).
  assert (document_type ∈ names <-> document_type ∈ document_types) as <-.
  { subst names. unfold document_types. cbn [fmap list_fmap].
    rewrite !elem_of_cons, !elem_of_nil. tauto. }
  case_decide as Hin.
  - split; [done|]. intros _. by eexists.
  - split; [by intros [? ?]|done].
Qed.

Lemma assign_if_present_raises_only (name : str) (text : result str)
    (sections : list (str * str)) :
  raises_only_IndexError text ->
  raises_only_IndexError (assign_if_present name text sections).
Proof.
  unfold assign_if_present. intros Htext.
  destruct (dict_has sections name); [|done]. by destruct text.
Qed.

Lemma bind_raises_only {A B} (r : result A) (k : A -> result B) :
  raises_only_IndexError r ->
  (forall a, raises_only_IndexError (k a)) ->
  raises_only_IndexError (r ≫= k).
Proof. intros Hr Hk. destruct r; [apply Hk|exact Hr]. Qed.

Ltac raises_only_step :=
  first
    [ apply assign_if_present_raises_only;
      first [ exact I | apply verification_raises_only_IndexError ]
    | apply bind_raises_only;
      [ apply assign_if_present_raises_only;
        first [ exact I | apply verification_raises_only_IndexError ]
      | intros ? ] ].

Lemma generate_document_sections_raises_only rt dt ba ls chs an en info :
  raises_only_IndexError
    (_generate_document_sections rt dt ba ls chs an en info).
Proof.
  unfold _generate_document_sections. cbv zeta.
  repeat raises_only_step.
  repeat (destruct (is_type dt _); [repeat raises_only_step|]).
  exact I.
Qed.

Lemma agent_accepts_supported
    (rt : DraftingAgent.Runtime) (document_type : str)
    (brief_analysis : BriefAnalysis) (law_sections : list LawSection)
    (case_histories : list CaseHistory) (analysis : Analysis)
    (brief_content : str) (additional_info : option (gmap str str)) :
  document_type ∈ document_types ->
  raises_only_IndexError
    (draft_case_file rt document_type brief_analysis law_sections
       case_histories analysis brief_content additional_info).
Proof.
  intros Hdt. unfold draft_case_file.
  rewrite templates_supported, bool_decide_eq_true_2 by done.
  cbn [negb]. apply bind_raises_only; [|done].
  apply generate_document_sections_raises_only.
Qed.

Lemma agent_rejects_unsupported
    (rt : DraftingAgent.Runtime) (document_type : str)
    (brief_analysis : BriefAnalysis) (law_sections : list LawSection)
    (case_histories : list CaseHistory) (analysis : Analysis)
    (brief_content : str) (additional_info : option (gmap str str)) :
  document_type ∉ document_types ->
  draft_case_file rt document_type brief_analysis law_sections
    case_histories analysis brief_content additional_info
  = Raise (ValueError (py "Unsupported document type: " ++ document_type)).
Proof.
  intros Hdt. unfold draft_case_file.
  rewrite templates_supported, bool_decide_eq_false_2; done.
Qed.

(** ** API drafter: no validation of the document type *)

Lemma api_drafter_default
    (rt : ApiDrafter.Runtime) (brief_text : str)
    (analysis_results : ApiDrafter.AnalysisResults)
    (options : ApiDrafter.Options) :
  ApiDrafter.str_lower rt
    (default (py "petition") (ApiDrafter.opt_document_type options))
  ∉ document_types ->
  ApiDrafter.draft_case_file rt brief_text analysis_results options
  = Ok (petition_by_default rt brief_text analysis_results options).
Proof.
  unfold ApiDrafter.draft_case_file, petition_by_default. cbv zeta.
  set (dt := ApiDrafter.str_lower rt _). intros Hdt.
  unfold document_types in Hdt. cbn [fmap list_fmap] in Hdt.
  rewrite !not_elem_of_cons in Hdt.
  destruct Hdt as (H1 & H2 & H3 & H4 & H5 & H6 & _).
  unfold str_eqb. rewrite !bool_decide_eq_false_2 by done. done.
Qed.

Lemma summons_unsupported : py "summons" ∉ document_types.
Proof. apply (bool_decide_unpack _). vm_compute. exact I. Qed.

Lemma summons_lower (rt : ApiDrafter.Runtime) :
  ApiDrafter.str_lower rt (py "summons") = py "summons".
Proof.
  rewrite ApiDrafter.str_lower_ascii; [reflexivity|].
  apply Forall_forall. intros c Hc. apply (bool_decide_unpack _).
  revert c Hc. apply Forall_forall. apply (bool_decide_unpack _).
  vm_compute. exact I.
Qed.

(** C1, as the code has it. For every document type outside the catalog
    of six, [CaseFileDraftingAgent.draft_case_file] raises
    [ValueError("Unsupported document type: X")] and returns no document.
    The API-level [CaseFileDrafter.draft_case_file] compares the lowercased
    type with the six names and, when none matches, drafts a petition.
    For a type of the catalog the agent raises no validation error. *)
Theorem unsupported_document_type :
  (forall (rt : DraftingAgent.Runtime) (document_type : str)
          (brief_analysis : BriefAnalysis) (law_sections : list LawSection)
          (case_histories : list CaseHistory) (analysis : Analysis)
          (brief_content : str) (additional_info : option (gmap str str)),
     document_type ∉ document_types ->
     draft_case_file rt document_type brief_analysis law_sections
       case_histories analysis brief_content additional_info
     = Raise (ValueError
                (py "Unsupported document type: " ++ document_type))) /\
  (forall (rt : ApiDrafter.Runtime) (brief_text : str)
          (analysis_results : ApiDrafter.AnalysisResults)
          (options : ApiDrafter.Options),
     ApiDrafter.str_lower rt
       (default (py "petition") (ApiDrafter.opt_document_type options))
     ∉ document_types ->
     ApiDrafter.draft_case_file rt brief_text analysis_results options
     = Ok (petition_by_default rt brief_text analysis_results options)) /\
  (forall (rt : DraftingAgent.Runtime) (document_type : str)
          (brief_analysis : BriefAnalysis) (law_sections : list LawSection)
          (case_histories : list CaseHistory) (analysis : Analysis)
          (brief_content : str) (additional_info : option (gmap str str))
          (msg : str),
     document_type ∈ document_types ->
     draft_case_file rt document_type brief_analysis law_sections
       case_histories analysis brief_content additional_info
     <> Raise (ValueError msg)).
Proof.
  split; [apply agent_rejects_unsupported|].
  split; [apply api_drafter_default|].
  intros rt dt ba ls chs an brief info msg Hdt Hraise.
  pose proof (agent_accepts_supported rt dt ba ls chs an brief info Hdt)
    as Hok.
  rewrite Hraise in Hok. discriminate Hok.
Qed.

Lemma unsupported_document_type_witness :
  (py "summons" ∉ document_types) /\
  draft_case_file sample_runtime (py "summons") no_brief_analysis [] []
    no_analysis (py "A vs B. Breach of contract.") None
  = Raise (ValueError (py "Unsupported document type: summons")) /\
  ApiDrafter.draft_case_file api_sample_runtime
    (py "A vs B. Breach of contract.") no_analysis_results
    (options_for (py "summons"))
  = Ok (petition_by_default api_sample_runtime
          (py "A vs B. Breach of contract.") no_analysis_results
          (options_for (py "summons"))).
Proof.
  split; [exact summons_unsupported|]. split.
  - exact (proj1 unsupported_document_type sample_runtime (py "summons")
             no_brief_analysis [] [] no_analysis
             (py "A vs B. Breach of contract.") None summons_unsupported).
  - apply (proj1 (proj2 unsupported_document_type) api_sample_runtime).
    exact summons_unsupported.
Defined.

(** C1, counterexample: the API drafter does not validate. With
    [document_type = "summons"], outside the catalog, it raises nothing
    and returns a document titled as a petition, whose content is the
    generated petition and whose recorded type is still "summons". *)
Lemma api_drafter_drafts_summons_as_petition :
  (py "summons" ∉ document_types) /\
  (forall (rt : ApiDrafter.Runtime) (brief_text : str)
          (analysis_results : ApiDrafter.AnalysisResults),
     exists doc,
       ApiDrafter.draft_case_file rt brief_text analysis_results
         (options_for (py "summons")) = Ok doc /\
       ApiDrafter.doc_document_type doc = py "summons" /\
       ApiDrafter.doc_title doc
       = py "PETITION - "
             ++ ApiDrafter.petitioner (ApiDrafter._extract_parties rt brief_text)
           ++ py " vs. "
             ++ ApiDrafter.respondent (ApiDrafter._extract_parties rt brief_text) /\
       ApiDrafter.doc_content doc
       = ApiDrafter._generate_petition rt
           (ApiDrafter._extract_parties rt brief_text)
           (ApiDrafter._extract_facts rt brief_text)
           (ApiDrafter._extract_legal_provisions analysis_results)
           (ApiDrafter._extract_case_precedents analysis_results)
           (ApiDrafter._extract_arguments analysis_results)
           (py "High Court") true true) /\
  ApiDrafter.doc_title <$>
    (match ApiDrafter.draft_case_file api_sample_runtime
             (py "A vs B. Breach of contract.") no_analysis_results
             (options_for (py "summons")) with
     | Ok doc => Some doc
     | Raise _ => None
     end)
  = Some (py "PETITION - The Petitioner vs. The Respondent").
Proof.
  split; [exact summons_unsupported|]. split.
  - intros rt brief_text analysis_results. eexists. split.
    + apply api_drafter_default. cbn [options_for ApiDrafter.opt_document_type default].
      rewrite summons_lower. exact summons_unsupported.
    + unfold petition_by_default.
      cbn [ApiDrafter.doc_document_type ApiDrafter.doc_title
           ApiDrafter.doc_content options_for ApiDrafter.opt_document_type
           ApiDrafter.opt_court ApiDrafter.opt_include_arguments
           ApiDrafter.opt_include_prayer default].
      rewrite summons_lower. done.
  - vm_compute. reflexivity.
Qed.

(* ===================================================================== *)
(** * Part III: further properties of the code                            *)
(* ===================================================================== *)

(** ** Drafting agent: the builders as a loop *)

Section DraftingDispatch.

Import Backend Props DraftingAgent Dispatch DispatchProps.

Lemma result_bind_ext {A B} (r : result A) (k k' : A -> result B) :
  (forall a, k a = k' a) -> r ≫= k = r ≫= k'.
Proof. intros Hk. destruct r; [apply Hk|done]. Qed.

Lemma result_bind_ret {A} (r : result A) : r ≫= (fun a => Ok a) = r.
Proof. by destruct r. Qed.

Lemma generate_document_sections_dispatch rt dt ba ls chs an en info :
  _generate_document_sections rt dt ba ls chs an en info
  = run_builders rt
      {| bi_document_type := dt; bi_brief_analysis := ba;
         bi_law_sections := ls; bi_case_histories := chs;
         bi_analysis := an; bi_entities := en |}
      (default ∅ info) (dispatched dt) (empty_sections dt).
Proof.
  unfold _generate_document_sections, dispatched, specific_builders,
    common_builders, empty_sections.
  cbv zeta. cbn [app run_builders].
  repeat (apply result_bind_ext; intros ?).
  repeat (destruct (is_type dt _)); cbn [app run_builders];
    repeat (apply result_bind_ext; intros ?);
    first [ reflexivity | symmetry; apply result_bind_ret ].
Qed.

(** Facts on [run_builders]. *)

Lemma assign_if_present_keys (name : str) (text : result str)
    (sections sections' : list (str * str)) :
  assign_if_present name text sections = Ok sections' ->
  sections'.*1 = sections.*1.
Proof.
  unfold assign_if_present, dict_has. case_bool_decide as Hhas.
  - destruct text as [t|e]; [|done]. cbn [mbind result_bind].
    intros [= <-]. rewrite dict_set_keys. rewrite decide_True; [done|].
    destruct (decide (name ∈ sections.*1)) as [|Hn]; [done|].
    apply dict_get_None in Hn. rewrite Hn in Hhas. by destruct Hhas.
  - by intros [= <-].
Qed.

Lemma dict_has_keys {V} (d : list (str * V)) (k : str) :
  dict_has d k = bool_decide (k ∈ d.*1).
Proof.
  unfold dict_has. apply bool_decide_ext.
  destruct (dict_get d k) as [v|] eqn:Hg.
  - split; [intros _|by eexists].
    destruct (decide (k ∈ d.*1)) as [|Hn]; [done|].
    apply dict_get_None in Hn. congruence.
  - apply dict_get_None in Hg. split; [by intros [? ?]|done].
Qed.

Lemma run_builders_keys rt x info bs (sections sections' : list (str * str)) :
  run_builders rt x info bs sections = Ok sections' ->
  sections'.*1 = sections.*1.
Proof.
  revert sections. induction bs as [|b bs IH]; intros sections.
  - by intros [= <-].
  - cbn [run_builders]. intros (s1 & H1 & H2)%bind_Ok_inv.
    rewrite (IH _ H2). by apply assign_if_present_keys in H1.
Qed.

(** Only the verification builder can raise. *)
Lemma run_builder_raise rt b x info e :
  run_builder rt b x info = Raise e -> b = Verification.
Proof. by destruct b. Qed.

Lemma run_builders_ok rt x info bs (sections : list (str * str)) :
  (Verification ∈ bs -> py "verification" ∈ sections.*1 ->
   is_ok (run_builder rt Verification x info) = true) ->
  is_ok (run_builders rt x info bs sections) = true.
Proof.
  revert sections. induction bs as [|b bs IH]; intros sections Hv; [done|].
  cbn [run_builders].
  destruct (assign_if_present _ _ sections) as [s1|e] eqn:H1.
  - cbn [mbind result_bind]. apply IH. intros Hin Hk. apply Hv.
    + by apply list_elem_of_further.
    + by rewrite <- (assign_if_present_keys _ _ _ _ H1).
  - exfalso. unfold assign_if_present in H1. rewrite dict_has_keys in H1.
    case_bool_decide as Hk; [|done].
    destruct (run_builder rt b x info) as [t|e'] eqn:Hb; [done|].
    pose proof (run_builder_raise _ _ _ _ _ Hb) as ->.
    assert (is_ok (run_builder rt Verification x info) = true) as Hok.
    { apply Hv; [apply list_elem_of_here|done]. }
    by rewrite Hb in Hok.
Qed.

Lemma run_builders_raise rt x info bs (sections : list (str * str)) e :
  Verification ∈ bs -> py "verification" ∈ sections.*1 ->
  run_builder rt Verification x info = Raise e ->
  run_builders rt x info bs sections = Raise e.
Proof.
  revert sections. induction bs as [|b bs IH]; intros sections Hin Hk Hv.
  - by apply elem_of_nil in Hin.
  - cbn [run_builders].
    destruct (decide (b = Verification)) as [->|Hb].
    + unfold assign_if_present. rewrite dict_has_keys.
      rewrite bool_decide_eq_true_2 by done. by rewrite Hv.
    + apply elem_of_cons in Hin as [?|Hin]; [done|].
      destruct (assign_if_present _ _ sections) as [s1|e'] eqn:H1.
      * cbn [mbind result_bind]. apply IH; [done| |done].
        by rewrite (assign_if_present_keys _ _ _ _ H1).
      * unfold assign_if_present in H1. revert H1.
        destruct (dict_has _ _); [|done].
        destruct (run_builder rt b x info) eqn:Hr; [done|].
        by apply run_builder_raise in Hr.
Qed.

(** A section keeps the text of its builder: no later builder writes to
    the same key. *)
Lemma run_builders_untouched rt x info bs (sections sections' : list (str * str)) k :
  run_builders rt x info bs sections = Ok sections' ->
  k ∉ builder_key <$> bs ->
  dict_get sections' k = dict_get sections k.
Proof.
  revert sections. induction bs as [|b bs IH]; intros sections.
  - by intros [= <-].
  - cbn [run_builders]. intros (s1 & H1 & H2)%bind_Ok_inv.
    rewrite fmap_cons, not_elem_of_cons. intros [Hk Hks].
    rewrite (IH _ H2 Hks). by apply (assign_if_present_other _ _ _ _ _ H1).
Qed.

Lemma run_builders_get rt x info bs (sections sections' : list (str * str)) b :
  run_builders rt x info bs sections = Ok sections' ->
  NoDup (builder_key <$> bs) ->
  b ∈ bs -> builder_key b ∈ sections.*1 ->
  exists text, run_builder rt b x info = Ok text /\
               dict_get sections' (builder_key b) = Some text.
Proof.
  revert sections. induction bs as [|b0 bs IH]; intros sections.
  - intros _ _ Hin. by apply elem_of_nil in Hin.
  - cbn [run_builders]. intros (s1 & H1 & H2)%bind_Ok_inv.
    rewrite fmap_cons, NoDup_cons. intros [Hb0 Hnd].
    intros [->|Hin]%elem_of_cons Hk.
    + rewrite (run_builders_untouched _ _ _ _ _ _ _ H2 Hb0).
      unfold assign_if_present in H1. rewrite dict_has_keys in H1.
      rewrite bool_decide_eq_true_2 in H1 by done.
      destruct (run_builder rt b0 x info) as [t|e]; [|done].
      injection H1 as <-. exists t. split; [done|].
      rewrite dict_get_set. by rewrite decide_True.
    + apply (IH s1); [done..|].
      by rewrite (assign_if_present_keys _ _ _ _ H1).
Qed.

(** The schema: the keys of the initial dictionary. *)
Lemma fold_dict_set_keys (names : list str) (init : list (str * str)) :
  NoDup (init.*1 ++ names) ->
  (fold_left (fun sections section => dict_set sections section [])
     names init).*1 = init.*1 ++ names.
Proof.
  revert init. induction names as [|n names IH]; intros init Hnd.
  - by rewrite app_nil_r.
  - cbn [fold_left]. rewrite IH.
    + rewrite dict_set_keys. rewrite decide_False.
      * by rewrite <- app_assoc.
      * apply NoDup_app in Hnd as (_ & Hd & _). intros Hn.
        apply (Hd _ Hn). apply list_elem_of_here.
    + rewrite dict_set_keys. rewrite decide_False.
      * by rewrite <- app_assoc.
      * apply NoDup_app in Hnd as (_ & Hd & _). intros Hn.
        apply (Hd _ Hn). apply list_elem_of_here.
Qed.

Lemma document_structures_NoDup :
  Forall (fun entry => NoDup entry.2) document_structures.
Proof. apply (bool_decide_unpack _). vm_compute. exact I. Qed.

Lemma dict_get_elem {V} (d : list (str * V)) k v :
  dict_get d k = Some v -> (k, v) ∈ d.
Proof.
  induction d as [|[k0 v0] d IH]; [done|]. cbn [dict_get].
  destruct (decide (k = k0)) as [->|].
  - intros [= ->]. apply list_elem_of_here.
  - intros Hg. apply list_elem_of_further. by apply IH.
Qed.

Lemma empty_sections_keys dt :
  (empty_sections dt).*1 = default [] (dict_get document_structures dt).
Proof.
  unfold empty_sections. rewrite fold_dict_set_keys; [done|].
  cbn [fmap list_fmap app].
  destruct (dict_get document_structures dt) as [names|] eqn:Hg.
  - apply dict_get_elem in Hg.
    pose proof document_structures_NoDup as Hall.
    rewrite Forall_forall in Hall. apply (Hall _ Hg).
  - apply NoDup_nil_2.
Qed.

Lemma dispatched_NoDup dt : NoDup (builder_key <$> dispatched dt).
Proof.
  unfold dispatched, specific_builders.
  repeat (destruct (is_type dt _));
    apply (bool_decide_unpack _); vm_compute; exact I.
Qed.

Lemma Verification_dispatched dt : Verification ∈ dispatched dt.
Proof.
  unfold dispatched, common_builders. apply elem_of_app. left.
  rewrite !elem_of_cons. tauto.
Qed.

Lemma document_structures_known dt names :
  dict_get document_structures dt = Some names -> dt ∈ document_types.
Proof.
  intros Hg%dict_get_elem.
  assert (dt ∈ document_structures.*1) as Hin.
  { apply list_elem_of_fmap. by exists (dt, names). }
  revert Hin. unfold document_structures, document_types.
  cbn [fmap list_fmap fst]. rewrite !elem_of_cons, !elem_of_nil. tauto.
Qed.

Lemma document_structures_unknown dt :
  dt ∉ document_types -> dict_get document_structures dt = None.
Proof.
  intros Hdt. destruct (dict_get document_structures dt) eqn:Hg; [|done].
  by apply document_structures_known in Hg.
Qed.

Lemma is_type_spec dt names : is_type dt names = true <-> dt ∈ names.
Proof. unfold is_type. apply bool_decide_eq_true. Qed.

Lemma verification_section_outcome rt dt en info :
  (override info (py "verification") = None /\ no_verifier dt en ->
   _generate_verification_section rt dt en info
   = Raise IndexError_out_of_range) /\
  (~ (override info (py "verification") = None /\ no_verifier dt en) ->
   is_ok (_generate_verification_section rt dt en info) = true).
Proof.
  unfold _generate_verification_section, no_verifier.
  destruct (override info _) as [t|] eqn:Hov.
  { split; [by intros [? _]|done]. }
  destruct (is_type dt [py "petition"; py "rejoinder"]) eqn:H1.
  - apply is_type_spec in H1.
    assert (dt ∉ [py "reply"; py "written_statement"]) as H2.
    { revert H1. rewrite !elem_of_cons, !elem_of_nil.
      intros [->|[->|[]]] [H|[H|[]]]; vm_compute in H; discriminate. }
    destruct (pp_petitioners (get_parties en)) as [[|p ps]|] eqn:Hp;
      cbn [default index0 mbind result_bind is_ok].
    + split; [done|]. intros Hn. exfalso. apply Hn. split; [done|]. by left.
    + split; [|done]. by intros [_ [[_ ?]|[? _]]].
    + split; [|done]. by intros [_ [[_ ?]|[? _]]].
  - assert (dt ∉ [py "petition"; py "rejoinder"]) as H1'.
    { intros Hin%is_type_spec. congruence. }
    destruct (is_type dt [py "reply"; py "written_statement"]) eqn:H2.
    + apply is_type_spec in H2.
      destruct (pp_respondents (get_parties en)) as [[|p ps]|] eqn:Hp;
        cbn [default index0 mbind result_bind is_ok].
      * split; [done|]. intros Hn. exfalso. apply Hn. split; [done|].
        by right.
      * split; [|done]. by intros [_ [[? _]|[_ ?]]].
      * split; [|done]. by intros [_ [[? _]|[_ ?]]].
    + assert (dt ∉ [py "reply"; py "written_statement"]) as H2'.
      { intros Hin%is_type_spec. congruence. }
      split; [|done]. by intros [_ [[? _]|[? _]]].
Qed.

Lemma no_verifier_schema dt en :
  no_verifier dt en -> py "verification" ∈ (empty_sections dt).*1.
Proof.
  rewrite empty_sections_keys. unfold no_verifier.
  rewrite !elem_of_cons, !elem_of_nil.
  intros [[[->|[->|[]]] _]|[[->|[->|[]]] _]];
    apply (bool_decide_unpack _); vm_compute; exact I.
Qed.

(** X1. Building the sections of a document fails in exactly one
    situation: no non-empty "verification" text is supplied and the
    verifying party is looked up in an empty list (petitioners for a
    petition or rejoinder, respondents for a reply or written statement).
    The failure is then the IndexError of the empty list; nothing else is
    ever raised. *)
Theorem document_sections_fail_only_on_verification
    (rt : DraftingAgent.Runtime) (document_type : str)
    (brief_analysis : BriefAnalysis) (law_sections : list LawSection)
    (case_histories : list CaseHistory) (analysis : Analysis)
    (entities : Entities) (additional_info : option (gmap str str)) :
  let info := default ∅ additional_info in
  let parties := get_parties entities in
  let sections :=
    _generate_document_sections rt document_type brief_analysis
      law_sections case_histories analysis entities additional_info in
  (sections = Raise IndexError_out_of_range <->
   (info !! py "verification" = None \/
    info !! py "verification" = Some []) /\
   ((document_type ∈ [py "petition"; py "rejoinder"] /\
     pp_petitioners parties = Some []) \/
    (document_type ∈ [py "reply"; py "written_statement"] /\
     pp_respondents parties = Some []))) /\
  (is_ok sections = false -> sections = Raise IndexError_out_of_range).
Proof.
  cbv zeta. rewrite generate_document_sections_dispatch.
  set (x := Build_BuilderInputs _ _ _ _ _ _).
  set (info := default ∅ additional_info).
  assert ((info !! py "verification" = None \/
           info !! py "verification" = Some [])
          <-> override info (py "verification") = None) as Hov.
  { unfold override. destruct (info !! py "verification") as [[|c t]|];
      cbn [truthy]; split; try done; try tauto.
    - by intros [|]. }
  rewrite Hov. fold (no_verifier document_type entities).
  destruct (verification_section_outcome rt document_type entities info)
    as [Hraise Hok].
  assert (Decision (override info (py "verification") = None /\
                    no_verifier document_type entities)) as Hdec.
  { unfold no_verifier. apply _. }
  destruct Hdec as [Hc|Hc].
  - assert (run_builders rt x info (dispatched document_type)
              (empty_sections document_type)
            = Raise IndexError_out_of_range) as ->.
    { apply run_builders_raise.
      - apply Verification_dispatched.
      - destruct Hc as [_ Hnv]. by apply (no_verifier_schema _ entities).
      - by apply Hraise. }
    done.
  - assert (is_ok (run_builders rt x info (dispatched document_type)
                     (empty_sections document_type)) = true) as Hrun.
    { apply run_builders_ok. intros _ _. by apply Hok. }
    destruct (run_builders _ _ _ _ _); [|done]. split; [|done].
    split; [done|]. intros ?. by destruct Hc.
Qed.

Lemma builder_of_key_spec k b :
  builder_of_key k = Some b -> builder_key b = k.
Proof.
  unfold builder_of_key.
  destruct (list_find _ _) as [[i b']|] eqn:Hf; [|done].
  cbn. intros [= <-]. by apply list_find_Some in Hf as (_ & ? & _).
Qed.

Lemma run_builder_override (rt : DraftingAgent.Runtime) (b : builder)
    (x : BuilderInputs) (info : gmap str str) (text : str) :
  info !! builder_key b = Some text -> text <> [] ->
  run_builder rt b x info = Ok text.
Proof.
  intros Hi Ht.
  assert (override info (builder_key b) = Some text) as Hov.
  { unfold override. unfold str in Hi |- *. rewrite Hi. by destruct text. }
  destruct b; unfold builder_key in Hov; unfold run_builder; cbv zeta;
    unfold_builders; by rewrite Hov.
Qed.

(** Every section of a schema other than ["defense_arguments"] has its
    builder among those dispatched for the type. *)
Lemma schema_builder (dt : str) (names : list str) (k : str) :
  dict_get document_structures dt = Some names -> k ∈ names ->
  k <> py "defense_arguments" ->
  exists b, b ∈ dispatched dt /\ builder_key b = k.
Proof.
  intros Hg Hk Hne. pose proof (document_structures_known _ _ Hg) as Hdt.
  revert Hg Hk. unfold document_types in Hdt. cbn [fmap list_fmap] in Hdt.
  rewrite !elem_of_cons, elem_of_nil in Hdt.
  destruct Hdt as [->|[->|[->|[->|[->|[->|[]]]]]]]; intros [= <-];
    cbn [fmap list_fmap]; rewrite !elem_of_cons, elem_of_nil;
    intros Hk;
    repeat (destruct Hk as [->|Hk]);
    try (by destruct Hk); try done;
    match goal with
    | |- exists b, _ /\ builder_key b = ?k =>
        let r := eval vm_compute in (builder_of_key k) in
        match r with
        | Some ?b => exists b; split;
            [ apply (bool_decide_unpack _); vm_compute; exact I
            | reflexivity ]
        end
    end.
Qed.

(** X2. A non-empty text supplied under the name of a section of the
    document's schema (other than "defense_arguments", which no builder
    consults) is the text of that section in every document that is
    built. *)
Theorem section_override_reaches_document
    (rt : DraftingAgent.Runtime) (document_type : str)
    (brief_analysis : BriefAnalysis) (law_sections : list LawSection)
    (case_histories : list CaseHistory) (analysis : Analysis)
    (entities : Entities) (info : gmap str str)
    (schema : list str) (name text : str) (sections : list (str * str)) :
  dict_get document_structures document_type = Some schema ->
  name ∈ schema -> name <> py "defense_arguments" ->
  info !! name = Some text -> text <> [] ->
  _generate_document_sections rt document_type brief_analysis law_sections
    case_histories analysis entities (Some info) = Ok sections ->
  dict_get sections name = Some text.
Proof.
  intros Hschema Hname Hne Hinfo Htext.
  rewrite generate_document_sections_dispatch. cbn [default].
  intros Hrun.
  destruct (schema_builder _ _ _ Hschema Hname Hne) as (b & Hb & <-).
  destruct (run_builders_get _ _ _ _ _ _ b Hrun) as (t & Ht & Hget).
  - apply dispatched_NoDup.
  - done.
  - rewrite empty_sections_keys, Hschema. done.
  - rewrite (run_builder_override _ _ _ _ _ Hinfo Htext) in Ht.
    by injection Ht as <-.
Qed.

Lemma section_override_reaches_document_witness :
  exists sections,
    _generate_document_sections sample_runtime (py "legal_notice")
      no_brief_analysis [] [] no_analysis no_entities
      (Some (<[py "subject" := py "Notice of default"]> ∅)) = Ok sections /\
    dict_get sections (py "subject") = Some (py "Notice of default").
Proof.
  eexists. split; [vm_compute; reflexivity|].
  apply (section_override_reaches_document sample_runtime (py "legal_notice")
           no_brief_analysis [] [] no_analysis no_entities
           (<[py "subject" := py "Notice of default"]> ∅)
           (py <$> [ "sender_details"; "recipient_details"; "subject";
                     "facts"; "legal_provisions"; "demand"; "timeline";
                     "consequences" ]%string)).
  - reflexivity.
  - apply (bool_decide_unpack _). vm_compute. exact I.
  - intros H. vm_compute in H. discriminate.
  - vm_compute. reflexivity.
  - intros H. vm_compute in H. discriminate.
  - vm_compute. reflexivity.
Defined.

Lemma document_structures_supported dt :
  dt ∈ document_types -> is_Some (dict_get document_structures dt).
Proof.
  unfold document_types. cbn [fmap list_fmap].
  rewrite !elem_of_cons, elem_of_nil.
  intros [->|[->|[->|[->|[->|[->|[]]]]]]]; vm_compute; by eexists.
Qed.

Lemma generate_document_sections_keys rt dt ba ls chs an en info sections :
  _generate_document_sections rt dt ba ls chs an en info = Ok sections ->
  sections.*1 = default [] (dict_get document_structures dt).
Proof.
  rewrite generate_document_sections_dispatch.
  intros Hrun%run_builders_keys. by rewrite Hrun, empty_sections_keys.
Qed.

(** X3. A drafted document follows the schema of its type: its sections
    are exactly the section names of the schema, in the order of the
    schema and without repetition, whatever was supplied as additional
    information. Its metadata names the type asked for, quotes at most
    the first 100 characters of the brief (followed by "..." when cut)
    and lists at most three law sections and three case histories. When
    no document is drafted, the type is unsupported (a ValueError that
    names it) or the verification section failed (the IndexError). *)
Theorem drafted_document_follows_schema
    (rt : DraftingAgent.Runtime) (document_type : str)
    (brief_analysis : BriefAnalysis) (law_sections : list LawSection)
    (case_histories : list CaseHistory) (analysis : Analysis)
    (brief_content : str) (additional_info : option (gmap str str)) :
  match draft_case_file rt document_type brief_analysis law_sections
          case_histories analysis brief_content additional_info with
  | Ok document =>
      dict_get document_structures document_type
      = Some (doc_sections document).*1 /\
      NoDup (doc_sections document).*1 /\
      document_type_ (doc_metadata document) = document_type /\
      (length (based_on_brief (doc_metadata document)) <= 103)%nat /\
      ((length brief_content <= 100)%nat ->
       based_on_brief (doc_metadata document) = brief_content) /\
      ((100 < length brief_content)%nat ->
       based_on_brief (doc_metadata document)
       = take 100 brief_content ++ py "...") /\
      length (law_sections_used (doc_metadata document))
      = Nat.min 3 (length law_sections) /\
      length (case_histories_used (doc_metadata document))
      = Nat.min 3 (length case_histories)
  | Raise e =>
      ((document_type ∉ document_types) /\
       e = ValueError (py "Unsupported document type: " ++ document_type)) \/
      (document_type ∈ document_types /\ e = IndexError_out_of_range)
  end.
Proof.
  unfold draft_case_file. rewrite templates_supported.
  case_bool_decide as Hdt; cbn [negb]; [|by left].
  pose proof (generate_document_sections_raises_only rt document_type
                brief_analysis law_sections case_histories analysis
                (_extract_entities rt brief_content) additional_info) as Hr.
  destruct (_generate_document_sections _ _ _ _ _ _ _ _) as [sections|e]
    eqn:Hs; cbn [mbind result_bind] in *.
  - apply generate_document_sections_keys in Hs.
    destruct (document_structures_supported _ Hdt) as [schema Hg].
    rewrite Hg in Hs. cbn [default] in Hs.
    cbn [doc_sections doc_metadata document_type_ based_on_brief
           law_sections_used case_histories_used].
    rewrite Hs. split; [done|]. split.
    { pose proof document_structures_NoDup as Hall.
      rewrite Forall_forall in Hall.
      apply (Hall (document_type, schema)). by apply dict_get_elem. }
    split; [done|].
    rewrite !length_fmap, !length_take.
    destruct (100 <? length brief_content)%nat eqn:Hlen.
    + apply Nat.ltb_lt in Hlen. rewrite length_app, length_take.
      change (length (py "...")) with 3%nat.
      repeat split; first [lia|done].
    + apply Nat.ltb_ge in Hlen. repeat split; first [lia|done].
  - right. by split.
Qed.

End DraftingDispatch.

(** ** Research aggregator: connectors that add nothing *)

Section Absorption.

Import Backend Props DraftingAgent Dispatch DispatchProps.

Section Absorb.

Context {A K : Type} `{EqDecision K}.
Variable key : A -> K.
Variable rel : A -> Z.

Lemma dedup_step_dominated p r r' :
  r' ∈ p -> key r' = key r -> (rel r <= rel r')%Z ->
  dedup_step key rel (deduplicate key rel p) r = deduplicate key rel p.
Proof.
  intros Hin Hk Hrel. destruct (deduplicate_inv key rel p) as (_ & Hget & Hall).
  unfold dedup_step. destruct (Hall r' Hin) as [kept Hkept].
  rewrite <- Hk, Hkept.
  destruct (Hget _ _ Hkept) as [Hkk Hfm].
  pose proof (first_max_bound key rel p kept r' Hfm Hin) as Hb.
  destruct (Z.ltb_spec (rel kept) (rel r)) as [Hlt|]; [|done].
  specialize (Hb (eq_sym Hkk)). lia.
Qed.

Lemma deduplicate_dominated p q :
  (forall r, r ∈ q ->
     exists r', r' ∈ p /\ key r' = key r /\ (rel r <= rel r')%Z) ->
  deduplicate key rel (p ++ q) = deduplicate key rel p.
Proof.
  induction q as [|r q IH] using rev_ind; intros Hq.
  - by rewrite app_nil_r.
  - rewrite app_assoc. unfold deduplicate at 1. rewrite fold_left_app.
    cbn [fold_left]. fold (deduplicate key rel (p ++ q)). rewrite IH.
    + destruct (Hq r) as (r' & Hin & Hk & Hrel).
      { apply elem_of_app. right. apply list_elem_of_here. }
      by apply (dedup_step_dominated p r r').
    + intros x Hx. apply Hq. apply elem_of_app. by left.
Qed.

Variable call : LegalDatabaseConnector -> result (list A).

Lemma gathered_app cs cs' :
  gathered call (cs ++ cs') = gathered call cs ++ gathered call cs'.
Proof. unfold gathered. by rewrite fmap_app, concat_app. Qed.

Lemma aggregate_dominated cs cs' :
  (forall r, r ∈ gathered call cs' ->
     exists r', r' ∈ gathered call cs /\ key r' = key r /\
                (rel r <= rel r')%Z) ->
  (aggregate key rel call (cs ++ cs')).2 = (aggregate key rel call cs).2.
Proof.
  intros Hd. rewrite !aggregate_results, gathered_app.
  by rewrite deduplicate_dominated.
Qed.

End Absorb.

Import LegalDataAggregator.

(** X4. Connectors whose every record is matched by a record of the
    earlier connectors with the same key and at least its relevance change
    nothing in the aggregated results; in particular, querying the same
    connectors twice gives the results of querying them once. *)
Theorem aggregator_ignores_dominated_connectors
    (connectors more : list LegalDatabaseConnector)
    (query_params : QueryParams) :
  let law_call := fun c => connector_search_law_sections c query_params in
  let case_call := fun c => connector_search_case_history c query_params in
  ((forall r, r ∈ gathered law_call more ->
      exists r', r' ∈ gathered law_call connectors /\
                 law_key r' = law_key r /\
                 (relevance r <= relevance r')%Z) ->
   (search_law_sections (connectors ++ more) query_params).2
   = (search_law_sections connectors query_params).2) /\
  ((forall r, r ∈ gathered case_call more ->
      exists r', r' ∈ gathered case_call connectors /\
                 citation r' = citation r /\
                 (case_relevance r <= case_relevance r')%Z) ->
   (search_case_history (connectors ++ more) query_params).2
   = (search_case_history connectors query_params).2) /\
  (search_law_sections (connectors ++ connectors) query_params).2
  = (search_law_sections connectors query_params).2 /\
  (search_case_history (connectors ++ connectors) query_params).2
  = (search_case_history connectors query_params).2.
Proof.
  cbv zeta. unfold search_law_sections, search_case_history.
  split; [apply aggregate_dominated|]. split; [apply aggregate_dominated|].
  split; apply aggregate_dominated; intros r Hr; exists r; split; try done;
    split; try done; lia.
Qed.

End Absorption.

(** ** Backend analyzer: legal domains *)

Section LegalDomains.

Import Backend Props BackendService ServiceProps.

Lemma fold_left_preserves {A B} (P : A -> Prop) (f : A -> B -> A)
    (l : list B) (init : A) :
  P init -> (forall acc x, P acc -> P (f acc x)) -> P (fold_left f l init).
Proof.
  intros Hinit Hstep. revert init Hinit.
  induction l as [|x l IH]; intros init Hinit; [done|].
  cbn [fold_left]. apply IH. by apply Hstep.
Qed.

Lemma StronglySorted_sublist {A} (R : relation A) (l k : list A) :
  l `sublist_of` k -> StronglySorted R k -> StronglySorted R l.
Proof.
  induction 1 as [|x l k Hs IH|x l k Hs IH]; intros Hk.
  - constructor.
  - apply StronglySorted_cons in Hk as [Hx Hk].
    apply StronglySorted_cons. split; [|by apply IH].
    rewrite Forall_forall in Hx |- *. intros y Hy. apply Hx.
    by apply (sublist_subseteq _ _ Hs).
  - apply StronglySorted_cons in Hk as [_ Hk]. by apply IH.
Qed.

Lemma dict_set_Forall {V} (P : str * V -> Prop) (d : list (str * V)) k v :
  Forall P d -> P (k, v) -> Forall P (dict_set d k v).
Proof.
  intros Hd Hkv. induction d as [|[k0 v0] d IH]; cbn [dict_set].
  - by constructor.
  - apply Forall_cons in Hd as [H0 Hd].
    destruct (decide (k = k0)); constructor; auto.
Qed.

Lemma add_score_inv scores domain n :
  (0 <= n)%Z -> scores_inv scores -> scores_inv (add_score scores domain n).
Proof.
  intros Hn [Hk Hall]. unfold add_score.
  destruct (dict_get scores domain) as [score|] eqn:Hg; [|done].
  split.
  - rewrite dict_set_keys. rewrite decide_True; [exact Hk|].
    destruct (decide (domain ∈ scores.*1)) as [|Hnin]; [done|].
    apply dict_get_None in Hnin. congruence.
  - apply dict_set_Forall; [done|]. cbn.
    assert (0 <= score)%Z; [|lia].
    rewrite Forall_forall in Hall.
    apply (Hall (domain, score)). by apply dict_get_elem.
Qed.

Lemma domain_scores_inv rt text acts : scores_inv (domain_scores rt text acts).
Proof.
  unfold domain_scores. cbv zeta.
  apply fold_left_preserves.
  - apply fold_left_preserves.
    + split; [reflexivity|]. apply (bool_decide_unpack _). vm_compute. exact I.
    + intros acc [domain kw_list] Hacc. apply fold_left_preserves; [done|].
      intros acc' kw Hacc'. destruct (contains _ _); [|done].
      apply add_score_inv; [lia|done].
  - intros acc act Hacc.
    repeat (match goal with
            | |- scores_inv (if ?b then _ else _) => destruct b
            end; [apply add_score_inv; [lia|done]|]).
    done.
Qed.

Lemma StronglySorted_impl {A} (R R' : relation A) (l : list A) :
  (forall x y, x ∈ l -> y ∈ l -> R x y -> R' x y) ->
  StronglySorted R l -> StronglySorted R' l.
Proof.
  induction l as [|x l IH]; intros Himpl Hl; [constructor|].
  apply StronglySorted_cons in Hl as [Hx Hl]. apply StronglySorted_cons.
  split.
  - rewrite Forall_forall in Hx |- *. intros y Hy.
    apply Himpl; [apply list_elem_of_here|by apply list_elem_of_further|].
    by apply Hx.
  - apply IH; [|done]. intros a b Ha Hb. apply Himpl;
      by apply list_elem_of_further.
Qed.

Lemma StronglySorted_fmap {A B} (R : relation B) (f : A -> B) (l : list A) :
  StronglySorted (fun a b => R (f a) (f b)) l -> StronglySorted R (f <$> l).
Proof.
  induction 1 as [|x l Hl IH Hx]; [constructor|].
  rewrite fmap_cons. constructor; [done|]. by apply Forall_fmap.
Qed.

Section Domains.

Variable rt : BackendService.Runtime.
Variables (text : str) (acts : list str).

Local Abbreviation scores := (domain_scores rt text acts).
Local Abbreviation ranked :=
  (filter (fun entry : str * Z => (0 < entry.2)%Z) (sorted_desc snd scores)).

Lemma scores_keys_NoDup : NoDup scores.*1.
Proof.
  destruct (domain_scores_inv rt text acts) as [-> _].
  apply (bool_decide_unpack _). vm_compute. exact I.
Qed.

Lemma domain_score_elem d sc :
  (d, sc) ∈ scores -> domain_score rt text acts d = sc.
Proof.
  intros Hin. unfold domain_score.
  by rewrite (dict_elem_get _ _ _ scores_keys_NoDup Hin).
Qed.

Lemma domain_score_nonneg d : (0 <= domain_score rt text acts d)%Z.
Proof.
  unfold domain_score.
  destruct (dict_get scores d) as [sc|] eqn:Hg; [|done]. cbn.
  destruct (domain_scores_inv rt text acts) as [_ Hall].
  rewrite Forall_forall in Hall.
  apply (Hall (d, sc)). by apply dict_get_elem.
Qed.

Lemma ranked_elem d sc :
  (d, sc) ∈ ranked <-> (d, sc) ∈ scores /\ (0 < sc)%Z.
Proof.
  rewrite list_elem_of_filter, sorted_desc_Permutation.
  cbn. tauto.
Qed.

Lemma ranked_positive d :
  (0 < domain_score rt text acts d)%Z -> d ∈ ranked.*1.
Proof.
  intros Hpos. unfold domain_score in Hpos.
  destruct (dict_get scores d) as [sc|] eqn:Hg; [|done]. cbn in Hpos.
  apply list_elem_of_fmap. exists (d, sc). split; [done|].
  apply ranked_elem. split; [by apply dict_get_elem|done].
Qed.

Lemma ranked_domain d :
  d ∈ ranked.*1 -> d ∈ domain_names /\ (0 < domain_score rt text acts d)%Z.
Proof.
  intros ([d' sc] & -> & [Hin Hpos]%ranked_elem)%list_elem_of_fmap.
  cbn [fst]. rewrite (domain_score_elem _ _ Hin). split; [|done].
  destruct (domain_scores_inv rt text acts) as [<- _].
  apply list_elem_of_fmap. by exists (d', sc).
Qed.

Lemma ranked_NoDup : NoDup ranked.*1.
Proof.
  apply (sublist_NoDup _ ((sorted_desc snd scores).*1)).
  - rewrite (sorted_desc_Permutation snd scores). apply scores_keys_NoDup.
  - apply fmap_sublist, sublist_filter.
Qed.

Lemma ranked_descending :
  descending (domain_score rt text acts) ranked.*1.
Proof.
  unfold descending. apply StronglySorted_fmap.
  apply (StronglySorted_impl (fun a b : str * Z => (b.2 <= a.2)%Z)).
  - intros [d1 s1] [d2 s2] [H1 _]%ranked_elem [H2 _]%ranked_elem. cbn.
    by rewrite (domain_score_elem _ _ H1), (domain_score_elem _ _ H2).
  - apply (StronglySorted_sublist _ _ (sorted_desc snd scores)).
    + apply sublist_filter.
    + apply sorted_desc_descending.
Qed.

End Domains.

Lemma identify_legal_domains_length
    (rt : BackendService.Runtime) (text : str) (acts keywords : list str) :
  (1 <= length (_identify_legal_domains rt text acts keywords) <= 3)%nat.
Proof.
  unfold _identify_legal_domains. cbv zeta.
  destruct (fst <$> _) as [|d r]; cbn [truthy]; [cbn [length]; lia|].
  rewrite length_take. cbn [length]. lia.
Qed.

(** X5. The domains of a brief: between one and three, pairwise
    distinct, in descending order of score. Scores are never negative;
    when no keyword and no act scored the answer is ["general"] alone,
    otherwise it is the (at most) three best-scoring domains of the
    catalog, each with a positive score. *)
Theorem identify_legal_domains_top3
    (rt : BackendService.Runtime) (text : str) (acts keywords : list str) :
  let domains := _identify_legal_domains rt text acts keywords in
  let score := domain_score rt text acts in
  (1 <= length domains <= 3)%nat /\
  NoDup domains /\
  descending score domains /\
  (forall d, (0 <= score d)%Z) /\
  ((forall d, d ∈ domain_names -> score d = 0%Z) ->
   domains = [py "general"]) /\
  (forall d, (0 < score d)%Z ->
     Forall (fun d' => d' ∈ domain_names /\ (0 < score d')%Z) domains /\
     (d ∈ domains \/
      length domains = 3%nat /\
      Forall (fun d' => (score d <= score d')%Z) domains)).
Proof.
  cbv zeta. split; [apply identify_legal_domains_length|].
  unfold _identify_legal_domains. cbv zeta.
  set (ranked := filter _ _).
  pose proof (ranked_positive rt text acts) as Hpos. fold ranked in Hpos.
  pose proof (ranked_domain rt text acts) as Hdom. fold ranked in Hdom.
  pose proof (ranked_NoDup rt text acts) as Hnd. fold ranked in Hnd.
  pose proof (ranked_descending rt text acts) as Hdesc. fold ranked in Hdesc.
  clearbody ranked.
  split; [|split; [|split; [|split]]].
  - destruct (ranked.*1) as [|d r] eqn:Hr; cbn [truthy].
    + apply NoDup_singleton.
    + rewrite <- Hr in *. apply (sublist_NoDup _ (ranked.*1)); [done|].
      apply sublist_take.
  - destruct (ranked.*1) as [|d r] eqn:Hr; cbn [truthy].
    + repeat constructor.
    + rewrite <- Hr in *. apply (StronglySorted_sublist _ _ (ranked.*1));
        [apply sublist_take|done].
  - apply domain_score_nonneg.
  - intros Hzero. destruct (ranked.*1) as [|d r] eqn:Hr; cbn [truthy]; [done|].
    destruct (Hdom d) as [Hd Hp]; [apply list_elem_of_here|].
    rewrite (Hzero d Hd) in Hp. lia.
  - intros d Hd. specialize (Hpos d Hd).
    destruct (ranked.*1) as [|d0 r] eqn:Hr; [by apply elem_of_nil in Hpos|].
    cbn [truthy]. rewrite <- Hr in *. split.
    + apply Forall_forall. intros d' Hd'. apply Hdom.
      by apply (sublist_subseteq _ _ (sublist_take (ranked.*1) 3)).
    + rewrite <- (take_drop 3 (ranked.*1)) in Hpos, Hdesc.
      apply elem_of_app in Hpos as [Hin|Hin]; [by left|right]. split.
      * rewrite length_take. apply Nat.min_l.
        destruct (decide (3 <= length ranked.*1)%nat) as [|Hlt]; [done|].
        rewrite drop_ge in Hin by lia. by apply elem_of_nil in Hin.
      * apply Forall_forall. intros d' Hd'.
        apply (StronglySorted_app_1_elem_of _ _ _ d' d Hdesc Hd' Hin).
Qed.

End LegalDomains.

(** ** Analysis generator: the summary *)

Section AnalysisSummary.

Import Backend Props BackendService.

Lemma analysis_summary_length
    (brief_analysis : BriefAnalysis) (law_sections : list LawSection)
    (case_histories : list CaseHistory) :
  (100 <= length (_generate_analysis_summary brief_analysis law_sections
                    case_histories))%nat.
Proof.
  unfold _generate_analysis_summary. cbv zeta.
  destruct (Nat.ltb_spec (length (join (py " ")
              (summary_parts brief_analysis law_sections case_histories)))
              100) as [Hlt|Hge]; [|done].
  rewrite length_app. change (length generic_conclusion) with 130%nat. lia.
Qed.

(** X6. The summary of an analysis has at least 100 characters: the
    joined sentences when they are that long, otherwise the joined
    sentences followed by the generic conclusion of 130 characters, which
    (with its leading space) is the whole summary when nothing was
    found. *)
Theorem analysis_summary_at_least_100
    (brief_analysis : BriefAnalysis) (law_sections : list LawSection)
    (case_histories : list CaseHistory) :
  let body :=
    join (py " ") (summary_parts brief_analysis law_sections case_histories) in
  let summary :=
    _generate_analysis_summary brief_analysis law_sections case_histories in
  (100 <= length summary)%nat /\
  ((100 <= length body)%nat -> summary = body) /\
  ((length body < 100)%nat -> summary = body ++ generic_conclusion) /\
  _generate_analysis_summary no_brief_analysis [] [] = generic_conclusion /\
  length generic_conclusion = 130%nat.
Proof.
  cbv zeta. unfold _generate_analysis_summary. cbv zeta.
  set (body := join _ _).
  assert (length generic_conclusion = 130%nat) as Hc by reflexivity.
  destruct (Nat.ltb_spec (length body) 100) as [Hlt|Hge].
  - split; [rewrite length_app; lia|]. split; [lia|]. split; [done|].
    split; [reflexivity|done].
  - split; [done|]. split; [done|]. split; [lia|].
    split; [reflexivity|done].
Qed.

End AnalysisSummary.

(** ** Connectors: the simulated searches *)

Section SimulatedSearch.

Import Backend Props BackendService ServiceProps.

Section Selection.

Context {A : Type}.
Variables (score : A -> Z) (rescore : A -> A) (rel : A -> Z).

Lemma select_spec all init :
  fold_left (fun results x =>
               if (0 <? score x)%Z then results ++ [rescore x] else results)
    all init
  = init ++ (rescore <$> filter (fun x => (0 < score x)%Z) all).
Proof.
  revert init. induction all as [|x all IH]; intros init.
  - by rewrite app_nil_r.
  - cbn [fold_left]. rewrite IH.
    destruct (Z.ltb_spec 0 (score x)).
    + rewrite filter_cons_True by done. by rewrite fmap_cons, <- app_assoc.
    + rewrite filter_cons_False by lia. done.
Qed.

Lemma take5_sorted_top5 (candidates : list A) :
  top5_of rel candidates (take 5 (sorted_desc rel candidates)).
Proof.
  pose proof (sorted_desc_descending rel candidates) as Hdesc.
  pose proof (sorted_desc_Permutation rel candidates) as Hperm.
  set (sorted := sorted_desc rel candidates) in *.
  split; [rewrite length_take; lia|]. split; [|split].
  - apply (StronglySorted_sublist _ _ sorted); [apply sublist_take|done].
  - intros r Hr.
    apply (sublist_subseteq _ _ (sublist_take sorted 5)) in Hr.
    by rewrite Hperm in Hr.
  - intros c Hc. rewrite <- Hperm in Hc.
    rewrite <- (take_drop 5 sorted) in Hc, Hdesc.
    apply elem_of_app in Hc as [Hin|Hin]; [by left|right]. split.
    + rewrite length_take. apply Nat.min_l.
      destruct (decide (5 <= length sorted)%nat) as [|Hlt]; [done|].
      rewrite drop_ge in Hin by lia. by apply elem_of_nil in Hin.
    + apply Forall_forall. intros r Hr.
      apply (StronglySorted_app_1_elem_of _ _ _ r c Hdesc Hr Hin).
Qed.

Lemma select_top5 all :
  top5_of rel (rescore <$> filter (fun x => (0 < score x)%Z) all)
    (take 5 (sorted_desc rel
               (fold_left (fun results x =>
                             if (0 <? score x)%Z then results ++ [rescore x]
                             else results) all []))).
Proof. rewrite select_spec. apply take5_sorted_top5. Qed.

End Selection.

Lemma fold_left_id {A B} (f : A -> B -> A) (l : list B) (init : A) :
  (forall acc x, f acc x = acc) -> fold_left f l init = init.
Proof.
  intros Hf. induction l as [|x l IH]; [done|]. cbn. by rewrite Hf.
Qed.

Lemma law_section_score_range rt kws acts section :
  (0 <= law_section_score rt kws acts section)%Z.
Proof.
  unfold law_section_score. cbv zeta.
  apply (fold_left_preserves (fun z => (0 <= z)%Z)).
  - destruct (_ && _); lia.
  - intros acc x Hacc. destruct (contains _ _); lia.
Qed.

Lemma case_history_score_range rt kws sections case :
  (0 <= case_history_score rt kws sections case)%Z.
Proof.
  unfold case_history_score. cbv zeta.
  apply (fold_left_preserves (fun z => (0 <= z)%Z)).
  - apply (fold_left_preserves (fun z => (0 <= z)%Z)); [lia|].
    intros acc x Hacc. destruct (contains _ _); lia.
  - intros acc x Hacc. destruct (contains _ _); lia.
Qed.

Lemma top5_of_Forall {A} (rel : A -> Z) (P : A -> Prop)
    (candidates results : list A) :
  top5_of rel candidates results -> Forall P candidates -> Forall P results.
Proof.
  intros (_ & _ & Hsub & _). rewrite !Forall_forall. intros Hc r Hr.
  by apply Hc, Hsub.
Qed.

Lemma top5_of_nil {A} (rel : A -> Z) (results : list A) :
  top5_of rel [] results -> results = [].
Proof.
  intros (_ & _ & Hsub & _). destruct results as [|r rs]; [done|].
  specialize (Hsub r (list_elem_of_here _ _)). by apply elem_of_nil in Hsub.
Qed.

Lemma filter_none {A} (P : A -> Prop) `{forall x, Decision (P x)}
    (l : list A) :
  (forall x, ~ P x) -> filter P l = [].
Proof.
  intros HP. induction l as [|x l IH]; [done|].
  by rewrite filter_cons_False.
Qed.

Lemma simulated_law_sections_top5 rt (query_params : QueryParams)
    (all_sections : list LawSection) :
  let candidates :=
    rescored_law_section rt query_params
    <$> filter (fun section =>
                  (0 < law_section_score rt (keywords query_params)
                         (acts query_params) section)%Z) all_sections in
  let results :=
    take 5 (sorted_desc relevance
      (fold_left
         (fun results section =>
            let relevance :=
              law_section_score rt (keywords query_params)
                (acts query_params) section in
            if (0 <? relevance)%Z
            then results ++ [ {| title := title section;
                                 sectionNumber := sectionNumber section;
                                 content := content section;
                                 relevance := Z.min 10 relevance |} ]
            else results) all_sections [])) in
  top5_of relevance candidates results /\
  Forall (fun r => (1 <= relevance r <= 10)%Z) results /\
  (keywords query_params = [] -> acts query_params = [] -> results = []).
Proof.
  cbv zeta.
  pose proof (select_top5
                (law_section_score rt (keywords query_params)
                   (acts query_params))
                (rescored_law_section rt query_params) relevance
                all_sections) as Htop.
  split; [exact Htop|]. split.
  - apply (top5_of_Forall _ _ _ _ Htop). apply Forall_forall.
    intros r (x & -> & [Hs _]%list_elem_of_filter)%list_elem_of_fmap.
    cbn [rescored_law_section relevance]. lia.
  - intros Hk Ha. apply (top5_of_nil relevance).
    rewrite filter_none in Htop; [exact Htop|].
    intros x. rewrite Hk, Ha. cbv. discriminate.
Qed.

Lemma simulated_case_histories_top5 rt (query_params : QueryParams)
    (all_cases : list CaseHistory) :
  let candidates :=
    rescored_case_history rt query_params
    <$> filter (fun case =>
                  (0 < case_history_score rt (keywords query_params)
                         (sections query_params) case)%Z) all_cases in
  let results :=
    take 5 (sorted_desc case_relevance
      (fold_left
         (fun results case =>
            let relevance :=
              case_history_score rt (keywords query_params)
                (sections query_params) case in
            if (0 <? relevance)%Z
            then results ++ [ {| citation := citation case;
                                 parties := parties case;
                                 holdings := holdings case;
                                 case_relevance := Z.min 10 relevance;
                                 date := date case |} ]
            else results) all_cases [])) in
  top5_of case_relevance candidates results /\
  Forall (fun r => (1 <= case_relevance r <= 10)%Z) results /\
  (keywords query_params = [] -> sections query_params = [] -> results = []).
Proof.
  cbv zeta.
  pose proof (select_top5
                (case_history_score rt (keywords query_params)
                   (sections query_params))
                (rescored_case_history rt query_params) case_relevance
                all_cases) as Htop.
  split; [exact Htop|]. split.
  - apply (top5_of_Forall _ _ _ _ Htop). apply Forall_forall.
    intros r (x & -> & [Hs _]%list_elem_of_filter)%list_elem_of_fmap.
    cbn [rescored_case_history case_relevance]. lia.
  - intros Hk Ha. apply (top5_of_nil case_relevance).
    rewrite filter_none in Htop; [exact Htop|].
    intros x. rewrite Hk, Ha. cbv. discriminate.
Qed.

Lemma simulated_law_sections_range rt (query_params : QueryParams) rs :
  _simulate_law_section_results rt query_params = Ok rs ->
  (length rs <= 5)%nat /\ Forall (fun r => (1 <= relevance r <= 10)%Z) rs.
Proof.
  unfold _simulate_law_section_results.
  destruct (load_mock _ _) as [all|e]; [|done].
  cbn [mbind result_bind]. intros [= <-].
  destruct (simulated_law_sections_top5 rt query_params all)
    as ((Hlen & _) & Hrange & _). done.
Qed.

Lemma simulated_case_histories_range rt (query_params : QueryParams) rs :
  _simulate_case_history_results rt query_params = Ok rs ->
  (length rs <= 5)%nat /\
  Forall (fun r => (1 <= case_relevance r <= 10)%Z) rs.
Proof.
  unfold _simulate_case_history_results.
  destruct (load_mock _ _) as [all|e]; [|done].
  cbn [mbind result_bind]. intros [= <-].
  destruct (simulated_case_histories_top5 rt query_params all)
    as ((Hlen & _) & Hrange & _). done.
Qed.

Lemma simulated_search_read_error rt (query_params : QueryParams) :
  ((forall e, mock_law_sections rt <> ReadError e) ->
   is_ok (_simulate_law_section_results rt query_params) = true) /\
  ((forall e, mock_case_histories rt <> ReadError e) ->
   is_ok (_simulate_case_history_results rt query_params) = true).
Proof.
  unfold _simulate_law_section_results, _simulate_case_history_results.
  split; intros Hf.
  - destruct (mock_law_sections rt) as [| |e]; [done..|]. by destruct (Hf e).
  - destruct (mock_case_histories rt) as [| |e]; [done..|]. by destruct (Hf e).
Qed.

(** X7. A simulated search fails only when reading its mock file fails
    (a missing file is replaced by the built-in catalog). Otherwise it
    returns the five best-scoring records among those of positive score,
    in descending order, each with a relevance between 1 and 10; an empty
    query returns nothing. *)
Theorem simulated_search_selects_top5
    (rt : BackendService.Runtime) (query_params : QueryParams) :
  match _simulate_law_section_results rt query_params with
  | Ok results =>
      exists all_sections,
        load_mock (mock_law_sections rt) builtin_law_sections
        = Ok all_sections /\
        top5_of relevance
          (rescored_law_section rt query_params
           <$> filter (fun section =>
                         (0 < law_section_score rt (keywords query_params)
                                (acts query_params) section)%Z)
                 all_sections)
          results /\
        Forall (fun r => (1 <= relevance r <= 10)%Z) results /\
        (keywords query_params = [] -> acts query_params = [] ->
         results = [])
  | Raise e => mock_law_sections rt = ReadError e
  end /\
  match _simulate_case_history_results rt query_params with
  | Ok results =>
      exists all_cases,
        load_mock (mock_case_histories rt) builtin_case_histories
        = Ok all_cases /\
        top5_of case_relevance
          (rescored_case_history rt query_params
           <$> filter (fun case =>
                         (0 < case_history_score rt (keywords query_params)
                                (sections query_params) case)%Z)
                 all_cases)
          results /\
        Forall (fun r => (1 <= case_relevance r <= 10)%Z) results /\
        (keywords query_params = [] -> sections query_params = [] ->
         results = [])
  | Raise e => mock_case_histories rt = ReadError e
  end.
Proof.
  split.
  - unfold _simulate_law_section_results.
    destruct (mock_law_sections rt) as [data| |e] eqn:Hfile;
      cbn [load_mock mbind result_bind]; [| |done].
    + exists data. split; [done|]. apply simulated_law_sections_top5.
    + exists builtin_law_sections. split; [done|].
      apply simulated_law_sections_top5.
  - unfold _simulate_case_history_results.
    destruct (mock_case_histories rt) as [data| |e] eqn:Hfile;
      cbn [load_mock mbind result_bind]; [| |done].
    + exists data. split; [done|]. apply simulated_case_histories_top5.
    + exists builtin_case_histories. split; [done|].
      apply simulated_case_histories_top5.
Qed.

End SimulatedSearch.

(** ** First occurrences *)

Section FirstOccurrences.

Import Backend Props BackendService LegalDataAggregator.

(** *** [dict.fromkeys] *)

Section Fromkeys.

Context {A : Type} `{EqDecision A}.
Implicit Types l : list A.

Lemma fromkeys_snoc l x :
  fromkeys (l ++ [x])
  = if decide (x ∈ fromkeys l) then fromkeys l else fromkeys l ++ [x].
Proof. unfold fromkeys. rewrite fold_left_app. cbn. apply dict_set_keys. Qed.

Lemma fromkeys_NoDup l : NoDup (fromkeys l).
Proof.
  induction l as [|x l IH] using rev_ind; [apply NoDup_nil_2|].
  rewrite fromkeys_snoc. case_decide as Hx; [done|].
  apply NoDup_app. split; [done|]. split; [|apply NoDup_singleton].
  by intros y Hy ->%list_elem_of_singleton.
Qed.

Lemma fromkeys_elem l x : x ∈ fromkeys l <-> x ∈ l.
Proof.
  induction l as [|y l IH] using rev_ind; [done|].
  rewrite fromkeys_snoc, elem_of_app, list_elem_of_singleton.
  case_decide as Hy.
  - rewrite IH. split; [tauto|]. intros [?| ->]; [done|]. by apply IH.
  - by rewrite elem_of_app, list_elem_of_singleton, IH.
Qed.

Lemma fromkeys_sublist l : fromkeys l `sublist_of` l.
Proof.
  induction l as [|y l IH] using rev_ind; [done|].
  rewrite fromkeys_snoc. case_decide.
  - by apply sublist_inserts_r.
  - by apply sublist_app.
Qed.

(** The first occurrence is the one that is kept. *)
Lemma fromkeys_app l1 l2 :
  fromkeys (l1 ++ l2)
  = fromkeys l1 ++ filter (fun x => x ∉ l1) (fromkeys l2).
Proof.
  induction l2 as [|y l2 IH] using rev_ind.
  - by rewrite !app_nil_r.
  - rewrite app_assoc, !fromkeys_snoc, IH.
    destruct (decide (y ∈ fromkeys l2)) as [Hy|Hy].
    + rewrite decide_True; [done|].
      destruct (decide (y ∈ l1)) as [H1|H1].
      * apply elem_of_app. left. by apply fromkeys_elem.
      * apply elem_of_app. right. by apply list_elem_of_filter.
    + rewrite filter_app, filter_cons. cbn [filter list_filter].
      destruct (decide (y ∈ l1)) as [H1|H1].
      * rewrite decide_True by (apply elem_of_app; left; by apply fromkeys_elem).
        rewrite decide_False by (by intros H; apply H).
        by rewrite app_nil_r.
      * rewrite decide_False.
        -- rewrite decide_True by done. by rewrite app_assoc.
        -- rewrite elem_of_app, list_elem_of_filter, fromkeys_elem. tauto.
Qed.

End Fromkeys.

(** *** Entities *)

Lemma unique_step_spec (entities : list (str * str)) :
  let st := fold_left unique_step entities ([], ∅) in
  st.1 = fromkeys entities /\ (forall e, e ∈ st.2 <-> e ∈ entities).
Proof.
  cbv zeta. induction entities as [|x l [IH1 IH2]] using rev_ind.
  - split; [done|]. intros e. cbn [fold_left snd]. set_solver.
  - rewrite fold_left_app. cbn [fold_left]. rewrite fromkeys_snoc.
    destruct (fold_left unique_step l ([], ∅)) as [unique seen].
    cbn [fst snd] in *. unfold unique_step.
    destruct (decide (x ∈ seen)) as [Hx|Hx]; cbn [fst snd].
    + rewrite decide_True by (by apply fromkeys_elem, IH2).
      split; [done|]. intros e. rewrite IH2, elem_of_app, list_elem_of_singleton.
      split; [tauto|]. intros [?| ->]; [done|]. by apply IH2.
    + rewrite decide_False by (by rewrite fromkeys_elem, <- IH2).
      split; [by rewrite IH1|]. intros e.
      rewrite elem_of_union, elem_of_singleton, IH2, elem_of_app,
        list_elem_of_singleton. tauto.
Qed.

Lemma extract_legal_entities_fromkeys rt text :
  _extract_legal_entities rt text
  = fromkeys (filter (fun ent => ent.2 ∈ [py "PERSON"; py "ORG"; py "GPE";
                                           py "DATE"])
                (nlp_ents rt text)).
Proof. unfold _extract_legal_entities. apply unique_step_spec. Qed.

(** *** Connectors that answer alike *)

Section Alike.

Context {A K : Type} `{EqDecision K}.
Variable key : A -> K.
Variable rel : A -> Z.
Variable call : LegalDatabaseConnector -> result (list A).

Lemma dict_set_length {V} (d : list (K * V)) k v :
  (length (dict_set d k v) <= S (length d))%nat.
Proof.
  induction d as [|[k0 v0] d IH]; cbn [dict_set length]; [lia|].
  destruct (decide (k = k0)); cbn [length]; lia.
Qed.

Lemma deduplicate_length p :
  (length (deduplicate key rel p) <= length p)%nat.
Proof.
  unfold deduplicate. induction p as [|r p IH] using rev_ind; [done|].
  rewrite fold_left_app, length_app. cbn [fold_left length].
  unfold dedup_step at 1.
  destruct (dict_get _ _) as [kept|].
  - destruct (_ <? _)%Z; [|lia].
    pose proof (dict_set_length (fold_left (dedup_step key rel) p [])
                  (key r) r). lia.
  - pose proof (dict_set_length (fold_left (dedup_step key rel) p [])
                  (key r) r). lia.
Qed.

Lemma aggregate_alike cs c rs :
  c ∈ cs -> (forall c', c' ∈ cs -> call c' = Ok rs) ->
  (aggregate key rel call cs).2
  = sorted_desc rel (dict_values (deduplicate key rel rs)) /\
  (aggregate key rel call cs).1 = [].
Proof.
  intros Hc Hall. split.
  - destruct cs as [|c0 cs]; [by apply elem_of_nil in Hc|].
    change (c0 :: cs) with ([c0] ++ cs).
    rewrite aggregate_dominated.
    + rewrite aggregate_results. unfold gathered. cbn.
      rewrite (Hall c0) by apply list_elem_of_here. by rewrite app_nil_r.
    + intros r (c' & rs' & Hc' & Hok & Hr)%gathered_elem.
      exists r. split; [|split; [done|lia]].
      apply gathered_elem. exists c0, rs. split; [apply list_elem_of_here|].
      split; [apply Hall, list_elem_of_here|].
      rewrite Hall in Hok by (by apply list_elem_of_further).
      by injection Hok as ->.
  - apply length_zero_iff_nil. rewrite aggregate_stdout.
    apply length_zero_iff_nil.
    clear Hc. induction cs as [|c0 cs' IH]; [done|].
    rewrite filter_cons_False.
    + apply IH. intros c' Hc'. apply Hall. by apply list_elem_of_further.
    + unfold succeeds. rewrite (Hall c0) by apply list_elem_of_here. done.
Qed.

End Alike.

End FirstOccurrences.

(** ** Backend service: [process_brief] *)

Section ProcessBrief.

Import Backend Props BackendService LegalDataAggregator LegalAnalysisGenerator ServiceProps.

Lemma service_connectors_alike rt :
  service_connectors rt <> [] /\
  forall c, c ∈ service_connectors rt ->
    connector_search_law_sections c = _simulate_law_section_results rt /\
    connector_search_case_history c = _simulate_case_history_results rt.
Proof.
  unfold service_connectors. cbv zeta.
  destruct (truthy (MANUPATRA_API_KEY rt)),
    (truthy (INDIANKANOON_API_KEY rt)); cbn [app truthy];
    (split; [done|]); intros c; rewrite ?elem_of_cons, elem_of_nil;
    intros Hc; repeat destruct Hc as [->|Hc]; try done.
Qed.

Section ServiceSearch.

Context {A K : Type} `{EqDecision K}.
Variable key : A -> K.
Variable rel : A -> Z.
Variable call : LegalDatabaseConnector -> result (list A).
Variable cs : list LegalDatabaseConnector.
Variable outcome : result (list A).
Hypothesis cs_nonempty : cs <> [].
Hypothesis cs_alike : forall c, c ∈ cs -> call c = outcome.

Lemma service_search_results (P : A -> Prop) (n : nat) :
  (forall rs, outcome = Ok rs -> (length rs <= n)%nat /\ Forall P rs) ->
  (length (aggregate key rel call cs).2 <= n)%nat /\
  Forall P (aggregate key rel call cs).2 /\
  descending rel (aggregate key rel call cs).2 /\
  NoDup (key <$> (aggregate key rel call cs).2).
Proof.
  intros Hout. split; [|split; [|split]].
  - destruct outcome as [rs|e] eqn:Ho.
    + destruct cs as [|c0 cs'] eqn:Hcs; [done|].
      destruct (aggregate_alike key rel call (c0 :: cs') c0 rs) as [-> _];
        [apply list_elem_of_here|done|].
      rewrite (sorted_desc_Permutation rel). unfold dict_values.
      rewrite length_fmap.
      pose proof (deduplicate_length key rel rs).
      destruct (Hout rs eq_refl). lia.
    + rewrite aggregate_all_fail; [cbn; lia|].
      intros c Hc. unfold succeeds. by rewrite cs_alike.
  - apply Forall_forall. intros r (c & rs & Hc & Hok & Hr)%aggregate_from_input.
    rewrite cs_alike in Hok by done.
    destruct (Hout rs Hok) as [_ HP]. rewrite Forall_forall in HP. by apply HP.
  - apply aggregate_descending.
  - apply aggregate_NoDup.
Qed.

Lemma service_search_stdout :
  is_ok outcome = true -> (aggregate key rel call cs).1 = [].
Proof.
  destruct outcome as [rs|e] eqn:Ho; [intros _|done].
  destruct cs as [|c0 cs'] eqn:Hcs; [done|].
  destruct (aggregate_alike key rel call (c0 :: cs') c0 rs) as [_ ->];
    [apply list_elem_of_here|done|done].
Qed.

End ServiceSearch.

(** X8. [process_brief], for every brief, for every function in the
    place of the text normalizer (which is not Python as written, see
    C8) and for every environment whose mock files hold records of the
    data model: the items it extracts are pairwise distinct, it names
    one to three domains, it returns at most five law sections and five
    case histories, free of duplicate keys, in descending order of a
    relevance between 1 and 10, and an analysis with a summary of at
    least 100 characters, 3 to 5 arguments, 3 to 4 challenges and 4 to 5
    recommendations; nothing is printed unless reading a mock file
    fails. *)
Theorem process_brief_well_formed
    (rt : BackendService.Runtime) (brief_text : str) :
  let result := process_brief rt brief_text in
  let report := service_brief_analysis result in
  let law_sections := service_law_sections result in
  let case_histories := service_case_histories result in
  let analysis := service_analysis result in
  (NoDup (report_acts report) /\ NoDup (report_sections report) /\
   NoDup (report_citations report) /\
   NoDup (report_legal_entities report) /\
   (1 <= length (report_domains report) <= 3)%nat) /\
  ((length law_sections <= 5)%nat /\
   Forall (fun r => (1 <= relevance r <= 10)%Z) law_sections /\
   descending relevance law_sections /\
   NoDup (law_key <$> law_sections)) /\
  ((length case_histories <= 5)%nat /\
   Forall (fun r => (1 <= case_relevance r <= 10)%Z) case_histories /\
   descending case_relevance case_histories /\
   NoDup (citation <$> case_histories)) /\
  ((100 <= length (analysis_summary analysis))%nat /\
   (3 <= length (analysis_arguments analysis) <= 5)%nat /\
   (3 <= length (analysis_challenges analysis) <= 4)%nat /\
   (4 <= length (analysis_recommendations analysis) <= 5)%nat) /\
  ((forall e, mock_law_sections rt <> ReadError e) ->
   (forall e, mock_case_histories rt <> ReadError e) ->
   service_stdout result = []).
Proof.
  cbv zeta. unfold process_brief. cbv zeta.
  set (report := analyze_brief rt brief_text).
  set (q := Build_QueryParams _ _ _ _).
  destruct (service_connectors_alike rt) as [Hne Halike].
  pose proof (service_search_results law_key relevance
                (fun c => connector_search_law_sections c q)
                (service_connectors rt)
                (_simulate_law_section_results rt q) Hne
                (fun c Hc => f_equal (fun f => f q) (proj1 (Halike c Hc)))
                (fun r => (1 <= relevance r <= 10)%Z) 5) as Hlaw.
  pose proof (service_search_results citation case_relevance
                (fun c => connector_search_case_history c q)
                (service_connectors rt)
                (_simulate_case_history_results rt q) Hne
                (fun c Hc => f_equal (fun f => f q) (proj2 (Halike c Hc)))
                (fun r => (1 <= case_relevance r <= 10)%Z) 5) as Hcase.
  pose proof (service_search_stdout law_key relevance
                (fun c => connector_search_law_sections c q)
                (service_connectors rt)
                (_simulate_law_section_results rt q) Hne
                (fun c Hc => f_equal (fun f => f q) (proj1 (Halike c Hc))))
    as Hout1.
  pose proof (service_search_stdout citation case_relevance
                (fun c => connector_search_case_history c q)
                (service_connectors rt)
                (_simulate_case_history_results rt q) Hne
                (fun c Hc => f_equal (fun f => f q) (proj2 (Halike c Hc))))
    as Hout2.
  pose proof (simulated_search_read_error rt q) as [Hread1 Hread2].
  fold (search_law_sections (service_connectors rt) q) in Hlaw, Hout1.
  fold (search_case_history (service_connectors rt) q) in Hcase, Hout2.
  destruct (search_law_sections (service_connectors rt) q)
    as [out1 law_sections].
  destruct (search_case_history (service_connectors rt) q)
    as [out2 case_histories].
  cbn [service_brief_analysis service_law_sections service_case_histories
       service_analysis service_stdout fst snd] in *.
  split; [|split; [|split; [|split]]].
  - subst report. unfold analyze_brief. cbv zeta.
    cbn [report_acts report_sections report_citations report_legal_entities
         report_domains].
    split; [apply fromkeys_NoDup|]. split; [apply fromkeys_NoDup|].
    split; [apply fromkeys_NoDup|].
    split; [rewrite extract_legal_entities_fromkeys; apply fromkeys_NoDup|].
    apply identify_legal_domains_length.
  - apply Hlaw. apply simulated_law_sections_range.
  - apply Hcase. apply simulated_case_histories_range.
  - unfold generate_analysis.
    cbn [analysis_summary analysis_arguments analysis_challenges
         analysis_recommendations].
    split; [apply analysis_summary_length|].
    split; [apply generate_arguments_length|].
    split; [apply generate_challenges_length|].
    apply generate_recommendations_length.
  - intros Hf1 Hf2. rewrite Hout1, Hout2; auto.
Qed.

End ProcessBrief.

(** ** Matchers and scans *)

Section Matching.

Import Backend Props BriefAnalyzer.

(** *** Matchers: what is consumed *)

Lemma startswith_spec p s : startswith p s = true <-> exists r, s = p ++ r.
Proof.
  revert s. induction p as [|a p IH]; intros s; cbn [startswith].
  - split; [intros _; by exists s|done].
  - destruct s as [|b s]; [split; [done|by intros [r ?]]|].
    rewrite andb_true_iff, N.eqb_eq, IH. split.
    + intros [-> [r ->]]. by exists r.
    + intros [r [= -> ->]]. split; [done|by exists r].
Qed.

Lemma startswith_app p r : startswith p (p ++ r) = true.
Proof. apply startswith_spec. by exists r. Qed.

Lemma contains_spec sub s :
  contains sub s = true <-> exists pre post, s = pre ++ sub ++ post.
Proof.
  induction s as [|c s IH]; cbn [contains].
  - rewrite orb_false_r, startswith_spec. split.
    + intros [r Hr]. by exists [], r.
    + intros (pre & post & Hs). destruct pre; [by exists post|done].
  - rewrite orb_true_iff, startswith_spec, IH. split.
    + intros [[r Hr]|(pre & post & ->)]; [by exists [], r|].
      by exists (c :: pre), post.
    + intros (pre & post & Hs). destruct pre as [|c' pre].
      * left. by exists post.
      * right. injection Hs as -> ->. by exists pre, post.
Qed.

Lemma lit_Some w s u rest : lit w s = Some (u, rest) -> s = w ++ rest.
Proof.
  unfold lit. destruct (startswith w s) eqn:Hw; [|done].
  apply startswith_spec in Hw as [r ->]. intros [= _ <-].
  by rewrite drop_app_length.
Qed.

Lemma lit_app w r : lit w (w ++ r) = Some (tt, r).
Proof. unfold lit. by rewrite startswith_app, drop_app_length. Qed.

Lemma lstrip_suffix s : lstrip s `suffix_of` s.
Proof.
  induction s as [|c s IH]; cbn [lstrip]; [done|].
  destruct (isspace c); [by apply suffix_cons_r|done].
Qed.

Lemma span_decimal_app s d rest : span_decimal s = (d, rest) -> s = d ++ rest.
Proof.
  revert d rest. induction s as [|c s IH]; intros d rest; cbn [span_decimal].
  - by intros [= <- <-].
  - destruct (isdecimal c); [|by intros [= <- <-]].
    destruct (span_decimal s) as [d' r'] eqn:Hs. intros [= <- <-].
    cbn. f_equal. by apply IH.
Qed.

Lemma digits_plus_Some s d rest : digits_plus s = Some (d, rest) -> s = d ++ rest.
Proof.
  unfold digits_plus. destruct (span_decimal s) as [d' r'] eqn:Hs.
  apply span_decimal_app in Hs. destruct d'; [done|]. by intros [= <- <-].
Qed.

Lemma digits_4_Some s d rest : digits_4 s = Some (d, rest) -> s = d ++ rest.
Proof.
  unfold digits_4. destruct (_ && _); [|done]. intros [= <- <-].
  by rewrite take_drop.
Qed.

(** Decimal digits and whitespace are disjoint classes. *)
Lemma ranges_disjoint (t1 t2 : list (N * N)) c :
  forallb (fun r1 => forallb (fun r2 => (snd r1 <? fst r2) || (snd r2 <? fst r1))
                       t2) t1 = true ->
  in_ranges t1 c = true -> in_ranges t2 c = false.
Proof.
  intros Hd H1. apply not_true_is_false. intros H2.
  unfold in_ranges in *. apply existsb_exists in H1 as (r1 & Hr1 & H1).
  apply existsb_exists in H2 as (r2 & Hr2 & H2).
  rewrite forallb_forall in Hd. specialize (Hd r1 Hr1).
  rewrite forallb_forall in Hd. specialize (Hd r2 Hr2).
  apply andb_true_iff in H1 as [H1a H1b]. apply andb_true_iff in H2 as [H2a H2b].
  apply orb_true_iff in Hd. rewrite !N.ltb_lt in Hd.
  rewrite N.leb_le in *. lia.
Qed.

Lemma isdecimal_not_space c : isdecimal c = true -> isspace c = false.
Proof. apply ranges_disjoint. vm_compute. reflexivity. Qed.

Lemma lstrip_decimal s :
  s <> [] -> forallb isdecimal s = true -> lstrip s = s.
Proof.
  destruct s as [|c s]; [done|]. intros _ Hs. cbn [forallb] in Hs.
  apply andb_true_iff in Hs as [Hc _]. cbn [lstrip].
  by rewrite (isdecimal_not_space _ Hc).
Qed.

Lemma span_decimal_all d rest :
  forallb isdecimal d = true ->
  match rest with c :: _ => isdecimal c = false | [] => True end ->
  span_decimal (d ++ rest) = (d, rest).
Proof.
  intros Hd Hrest. induction d as [|c d IH]; cbn [app span_decimal].
  - destruct rest as [|c r]; [done|]. cbn [span_decimal]. by rewrite Hrest.
  - cbn [forallb] in Hd. apply andb_true_iff in Hd as [Hc Hd].
    by rewrite Hc, IH.
Qed.

Lemma digits_plus_all d rest :
  d <> [] -> forallb isdecimal d = true ->
  match rest with c :: _ => isdecimal c = false | [] => True end ->
  digits_plus (d ++ rest) = Some (d, rest).
Proof.
  intros Hne Hd Hrest. unfold digits_plus.
  rewrite span_decimal_all by done. by destruct d.
Qed.

Lemma digits_4_all d rest :
  length d = 4%nat -> forallb isdecimal d = true ->
  digits_4 (d ++ rest) = Some (d, rest).
Proof.
  intros Hlen Hd. unfold digits_4. cbv zeta.
  rewrite take_app_length', drop_app_length' by done. rewrite Hd.
  unfold chr, str in *. by rewrite Hlen.
Qed.

(** *** [finditer] *)

Lemma finditer_skip_all {A} (m : matcher A) k s :
  (length s <= k)%nat -> finditer m k s = [].
Proof.
  revert k. induction s as [|c s IH]; intros k Hk; [done|].
  cbn [finditer length] in *. destruct k as [|k]; [lia|]. apply IH. lia.
Qed.

Lemma finditer_whole {A} (m : matcher A) s a :
  s <> [] -> m s = Some (a, []) -> finditer m O s = [a].
Proof.
  destruct s as [|c s]; [done|]. intros _ Hm. cbn [finditer].
  rewrite Hm. f_equal. apply finditer_skip_all. cbn [length]. lia.
Qed.

(** A pattern that needs a code point absent from the text finds
    nothing. *)
Lemma finditer_absent {A} (m : matcher A) (c : chr) k s :
  (forall t r, m t = Some r -> c ∈ t) -> c ∉ s -> finditer m k s = [].
Proof.
  intros Hm. revert k. induction s as [|x s IH]; intros k Hs; [done|].
  cbn [finditer]. apply not_elem_of_cons in Hs as [Hx Hs].
  destruct k as [|k]; [|by apply IH].
  destruct (m (x :: s)) as [[a rest]|] eqn:Hms; [|by apply IH].
  apply Hm in Hms. apply elem_of_cons in Hms as [->|?]; done.
Qed.

(** Where the matches of [finditer] come from. *)
Lemma finditer_elem {A} (m : matcher A) k s a :
  a ∈ finditer m k s ->
  exists t rest, t `suffix_of` s /\ m t = Some (a, rest).
Proof.
  revert k. induction s as [|c s IH]; intros k; cbn [finditer].
  - by intros ?%elem_of_nil.
  - assert (forall k', a ∈ finditer m k' s ->
              exists t rest, t `suffix_of` c :: s /\ m t = Some (a, rest)) as IH'.
    { intros k' (t & rest & Ht & Hm)%IH. exists t, rest.
      split; [by apply suffix_cons_r|done]. }
    destruct k as [|k]; [|apply IH'].
    destruct (m (c :: s)) as [[a' rest]|] eqn:Hms; [|apply IH'].
    intros [->|Hin]%elem_of_cons; [|by eapply IH'].
    by exists (c :: s), rest.
Qed.

End Matching.

(** ** What the citation patterns need in a text *)

Section PatternOccurrences.

Import Backend Props BriefAnalyzer.

Lemma elem_of_suffix {A} (l1 l2 : list A) x :
  l1 `suffix_of` l2 -> x ∈ l1 -> x ∈ l2.
Proof. intros [k ->] Hx. apply elem_of_app. by right. Qed.

Lemma decimal_elem d c :
  forallb isdecimal d = true -> c ∈ d -> isdecimal c = true.
Proof.
  rewrite forallb_forall. intros Hd Hc. apply Hd.
  by apply list_elem_of_In.
Qed.

(** Each reporter pattern needs the letters of its reporter. *)
Lemma pattern_needs (t : str) (r : Citation * str) :
  (air_pattern t = Some r -> 65 ∈ t) /\
  (scc_pattern t = Some r -> 40 ∈ t) /\
  (scr_pattern t = Some r -> 83 ∈ t /\ 82 ∈ t).
Proof.
  split; [|split].
  - unfold air_pattern. intros H.
    destruct (digits_4 t) as [[y s1]|] eqn:H1; [|cbn in H; discriminate H].
    apply digits_4_Some in H1 as ->. cbn [mbind option_bind] in H.
    unfold ws_star in H. cbn [mbind option_bind] in H.
    destruct (lit (py "AIR") (lstrip s1)) as [[u s3]|] eqn:H3;
      [|cbn in H; discriminate H].
    apply lit_Some in H3. apply elem_of_app. right.
    apply (elem_of_suffix _ _ _ (lstrip_suffix s1)). rewrite H3.
    apply list_elem_of_here.
  - unfold scc_pattern. intros H.
    destruct (lit (py "(") t) as [[u s1]|] eqn:H1; [|cbn in H; discriminate H].
    apply lit_Some in H1 as ->. apply list_elem_of_here.
  - unfold scr_pattern. intros H.
    destruct (digits_4 t) as [[y s1]|] eqn:H1; [|cbn in H; discriminate H].
    apply digits_4_Some in H1 as ->. cbn [mbind option_bind] in H.
    unfold ws_star in H. cbn [mbind option_bind] in H.
    destruct (lit (py "SCR") (lstrip s1)) as [[u s3]|] eqn:H3;
      [|cbn in H; discriminate H].
    apply lit_Some in H3.
    split; apply elem_of_app; right;
      apply (elem_of_suffix _ _ _ (lstrip_suffix s1)); rewrite H3;
      change (py "SCR" ++ s3) with (83 :: 67 :: 82 :: s3);
      rewrite !elem_of_cons; tauto.
Qed.

End PatternOccurrences.

Ltac absent_chr :=
  rewrite ?elem_of_app, ?elem_of_cons, ?elem_of_nil;
  let H := fresh in
  intros H;
  repeat match type of H with
         | _ \/ _ => destruct H as [H|H]
         end;
  first [ discriminate H
        | done
        | match type of H with
          | _ ∈ ?d =>
              match goal with
              | Hd : forallb isdecimal d = true |- _ =>
                  apply (decimal_elem _ _ Hd) in H; vm_compute in H;
                  discriminate H
              end
          end ].

(** ** Citation queries are parsed back *)

Section CitationQueries.

Import Backend Props BriefAnalyzer.

Lemma extract_citations_air_form (y p : str) :
  length y = 4%nat -> forallb isdecimal y = true ->
  p <> [] -> forallb isdecimal p = true ->
  BriefAnalyzer._extract_citations (y ++ py " AIR " ++ p)
  = [ {| type := AIR; year := y; volume := None; page := p |} ].
Proof.
  intros Hylen Hy Hp0 Hp.
  unfold BriefAnalyzer._extract_citations. cbv zeta. cbn [app].
  rewrite (finditer_absent scc_pattern 40);
    [|intros t r; apply (pattern_needs t r)|].
  2:{ change (py " AIR ") with [32; 65; 73; 82; 32]. absent_chr. }
  rewrite (finditer_absent scr_pattern 83);
    [|intros t r Hr; by apply (proj2 (proj2 (pattern_needs t r)))|].
  2:{ change (py " AIR ") with [32; 65; 73; 82; 32]. absent_chr. }
  rewrite !app_nil_r. apply finditer_whole.
  { destruct y; [done|done]. }
  unfold air_pattern. rewrite digits_4_all by done.
  cbn [mbind option_bind]. unfold ws_star.
  change (py " AIR " ++ p) with (32 :: py "A" ++ py "IR" ++ 32 :: p).
  cbn [mbind option_bind lstrip].
  change (isspace 32) with true. cbv iota.
  change (lstrip (py "A" ++ py "IR" ++ 32 :: p))
    with (py "AIR" ++ 32 :: p).
  rewrite lit_app. cbn [mbind option_bind lstrip].
  change (isspace 32) with true. cbv iota.
  rewrite lstrip_decimal by done.
  rewrite <- (app_nil_r p) at 1. rewrite digits_plus_all by done.
  done.
Qed.

Lemma extract_citations_scc_form (y vol p : str) :
  length y = 4%nat -> forallb isdecimal y = true ->
  vol <> [] -> forallb isdecimal vol = true ->
  p <> [] -> forallb isdecimal p = true ->
  BriefAnalyzer._extract_citations
    (py "(" ++ y ++ py ") " ++ vol ++ py " SCC " ++ p)
  = [ {| type := SCC; year := y; volume := Some vol; page := p |} ].
Proof.
  intros Hylen Hy Hv0 Hv Hp0 Hp.
  unfold BriefAnalyzer._extract_citations. cbv zeta. cbn [app].
  rewrite (finditer_absent air_pattern 65);
    [|intros t r; apply (pattern_needs t r)|].
  2:{ change (py "(") with [40]. change (py ") ") with [41; 32].
      change (py " SCC ") with [32; 83; 67; 67; 32]. absent_chr. }
  rewrite (finditer_absent scr_pattern 82);
    [|intros t r Hr; by apply (proj2 (proj2 (pattern_needs t r)))|].
  2:{ change (py "(") with [40]. change (py ") ") with [41; 32].
      change (py " SCC ") with [32; 83; 67; 67; 32]. absent_chr. }
  rewrite app_nil_r. cbn [app]. apply finditer_whole; [done|].
  unfold scc_pattern. rewrite lit_app.
  cbn [mbind option_bind]. rewrite digits_4_all by done.
  cbn [mbind option_bind].
  change (py ") " ++ vol ++ py " SCC " ++ p)
    with (py ")" ++ 32 :: vol ++ py " SCC " ++ p).
  rewrite lit_app. cbn [mbind option_bind]. unfold ws_star.
  cbn [mbind option_bind lstrip]. change (isspace 32) with true. cbv iota.
  assert (lstrip (vol ++ py " SCC " ++ p) = vol ++ py " SCC " ++ p) as ->.
  { destruct vol as [|d vol]; [done|]. cbn [app lstrip forallb] in *.
    apply andb_true_iff in Hv as [Hd _].
    by rewrite (isdecimal_not_space _ Hd). }
  rewrite digits_plus_all; [|done|done|vm_compute; reflexivity].
  cbn [mbind option_bind].
  change (lstrip (py " SCC " ++ p)) with (py "SCC" ++ 32 :: p).
  rewrite lit_app. cbn [mbind option_bind lstrip].
  change (isspace 32) with true. cbv iota.
  rewrite lstrip_decimal by done.
  rewrite <- (app_nil_r p) at 1. rewrite digits_plus_all by done.
  done.
Qed.

Lemma extract_citations_scr_form (y p : str) :
  length y = 4%nat -> forallb isdecimal y = true ->
  p <> [] -> forallb isdecimal p = true ->
  BriefAnalyzer._extract_citations (y ++ py " SCR " ++ p)
  = [ {| type := SCR; year := y; volume := None; page := p |} ].
Proof.
  intros Hylen Hy Hp0 Hp.
  unfold BriefAnalyzer._extract_citations. cbv zeta. cbn [app].
  rewrite (finditer_absent air_pattern 65);
    [|intros t r; apply (pattern_needs t r)|].
  2:{ change (py " SCR ") with [32; 83; 67; 82; 32]. absent_chr. }
  rewrite (finditer_absent scc_pattern 40);
    [|intros t r; apply (pattern_needs t r)|].
  2:{ change (py " SCR ") with [32; 83; 67; 82; 32]. absent_chr. }
  cbn [app]. apply finditer_whole.
  { destruct y; [done|done]. }
  unfold scr_pattern. rewrite digits_4_all by done.
  cbn [mbind option_bind]. unfold ws_star.
  change (py " SCR " ++ p) with (32 :: py "S" ++ py "CR" ++ 32 :: p).
  cbn [mbind option_bind lstrip].
  change (isspace 32) with true. cbv iota.
  change (lstrip (py "S" ++ py "CR" ++ 32 :: p))
    with (py "SCR" ++ 32 :: p).
  rewrite lit_app. cbn [mbind option_bind lstrip].
  change (isspace 32) with true. cbv iota.
  rewrite lstrip_decimal by done.
  rewrite <- (app_nil_r p) at 1. rewrite digits_plus_all by done.
  done.
Qed.

(** X9. Round trip: the search query built from a well-formed citation
    is parsed back by the citation extractor to that citation, and to
    nothing else. *)
Theorem citation_query_roundtrip (c : Citation) :
  citation_fields c ->
  exists query,
    citation_query c = Returned query /\
    BriefAnalyzer._extract_citations query = [c].
Proof.
  destruct c as [ty y v p]. unfold citation_fields, citation_query.
  cbn [type year volume page].
  intros (Hylen & Hy & Hp0 & Hp & Hv).
  destruct ty.
  - subst v. eexists. split; [reflexivity|].
    by apply extract_citations_air_form.
  - destruct Hv as (vol & -> & Hv0 & Hv). eexists. split; [reflexivity|].
    by apply extract_citations_scc_form.
  - subst v. eexists. split; [reflexivity|].
    by apply extract_citations_scr_form.
Qed.

Lemma citation_query_roundtrip_witness :
  citation_fields {| type := SCC; year := py "2017"; volume := Some (py "3");
                     page := py "567" |} /\
  exists query,
    citation_query {| type := SCC; year := py "2017";
                      volume := Some (py "3"); page := py "567" |}
    = Returned query /\
    BriefAnalyzer._extract_citations query
    = [ {| type := SCC; year := py "2017"; volume := Some (py "3");
           page := py "567" |} ].
Proof.
  assert (citation_fields {| type := SCC; year := py "2017";
                             volume := Some (py "3"); page := py "567" |})
    as Hf.
  { unfold citation_fields. cbn [type year volume page].
    split; [reflexivity|]. split; [vm_compute; reflexivity|].
    split; [discriminate|]. split; [vm_compute; reflexivity|].
    exists (py "3"). split; [reflexivity|]. split; [discriminate|].
    vm_compute. reflexivity. }
  split; [exact Hf|].
  exact (citation_query_roundtrip _ Hf).
Defined.

End CitationQueries.

(** ** Backend analyzer: the extractors *)

Section BackendExtractors.

Import Backend Props BriefAnalyzer BackendService ResearchProps.

(** *** The patterns of the backend analyzer consume a prefix *)

Lemma span_app (p : chr -> bool) s a b : span p s = (a, b) -> s = a ++ b.
Proof.
  revert a b. induction s as [|c s IH]; intros a b; cbn [span].
  - by intros [= <- <-].
  - destruct (p c); [|by intros [= <- <-]].
    destruct (span p s) as [a' b'] eqn:Hs. intros [= <- <-].
    cbn. f_equal. by apply IH.
Qed.

Lemma span_Forall (p : chr -> bool) s a b :
  span p s = (a, b) -> forallb p a = true.
Proof.
  revert a b. induction s as [|c s IH]; intros a b; cbn [span].
  - by intros [= <- <-].
  - destruct (p c) eqn:Hc; [|by intros [= <- <-]].
    destruct (span p s) as [a' b'] eqn:Hs. intros [= <- <-].
    cbn. rewrite Hc. by eapply IH.
Qed.

Lemma consumes_lit w : consumes (lit w).
Proof. intros s a rest ->%lit_Some. by apply suffix_app_r. Qed.

Lemma consumes_digits_4 : consumes digits_4.
Proof. intros s a rest ->%digits_4_Some. by apply suffix_app_r. Qed.

Lemma consumes_digits_plus : consumes digits_plus.
Proof. intros s a rest ->%digits_plus_Some. by apply suffix_app_r. Qed.

Lemma consumes_class_plus p : consumes (class_plus p).
Proof.
  intros s a rest. unfold class_plus.
  destruct (span p s) as [d r] eqn:Hs. apply span_app in Hs as ->.
  destruct d; [done|]. intros [= _ <-]. by apply suffix_app_r.
Qed.

Lemma consumes_optional m : consumes m -> consumes (optional m).
Proof.
  intros Hm s a rest. unfold optional.
  destruct (m s) as [[u r]|] eqn:Hms.
  - intros [= _ <-]. by eapply Hm.
  - by intros [= _ <-].
Qed.

Lemma consumes_bind {A B} (m : matcher A) (k : A -> matcher B) :
  consumes m -> (forall a, consumes (k a)) ->
  consumes (fun s => '(a, s') ← m s; k a s').
Proof.
  intros Hm Hk s b rest H.
  destruct (m s) as [[a s']|] eqn:Hms; [|cbn in H; discriminate H].
  cbn [mbind option_bind] in H. etrans; [by eapply Hk|by eapply Hm].
Qed.

Lemma consumes_capitalized_word : consumes capitalized_word.
Proof.
  intros [|c s] a rest; cbn [capitalized_word]; [done|].
  destruct (is_upper c); [|done]. intros H%consumes_class_plus.
  by apply suffix_cons_r.
Qed.

Lemma consumes_act_tail : consumes act_tail.
Proof.
  unfold act_tail.
  apply (consumes_bind (lit _) (fun _ => _)); [apply consumes_lit|intros _].
  apply (consumes_bind (optional _) (fun _ => _));
    [apply consumes_optional, consumes_lit|intros _].
  apply (consumes_bind (lit _) (fun _ => _)); [apply consumes_lit|intros _].
  apply (consumes_bind (optional _) (fun _ => _));
    [apply consumes_optional, consumes_lit|intros _].
  apply (consumes_bind digits_4 (fun _ => _)); [apply consumes_digits_4|].
  intros _ s a rest [= _ <-]. done.
Qed.

Lemma consumes_act_words fuel : consumes (act_words fuel).
Proof.
  induction fuel as [|fuel IH]; cbn [act_words]; [apply consumes_act_tail|].
  intros s a rest.
  destruct (lit (py " ") s) as [[u s1]|] eqn:H1; cbn [mbind option_bind];
    [|apply consumes_act_tail].
  destruct (capitalized_word s1) as [[u' s']|] eqn:H2;
    [|apply consumes_act_tail].
  destruct (act_words fuel s') as [[u'' r]|] eqn:H3;
    [|apply consumes_act_tail].
  intros [= _ <-]. apply IH in H3. apply consumes_capitalized_word in H2.
  apply consumes_lit in H1. by repeat (etrans; [eassumption|]).
Qed.

Lemma capture_Some (m : matcher unit) s a rest :
  consumes m -> capture m s = Some (a, rest) -> s = a ++ rest.
Proof.
  intros Hm. unfold capture.
  destruct (m s) as [[u r]|] eqn:Hms; [|done]. cbn [mbind option_bind].
  intros [= <- <-]. destruct (Hm _ _ _ Hms) as [k ->].
  rewrite length_app, Nat.add_sub, take_app_length. done.
Qed.

Lemma legal_act_pattern_Some s a rest :
  legal_act_pattern s = Some (a, rest) -> s = a ++ rest.
Proof.
  apply capture_Some.
  apply (consumes_bind capitalized_word (fun _ s1 => act_words (length s1) s1));
    [apply consumes_capitalized_word|].
  intros _ s1 u r. apply consumes_act_words.
Qed.

Lemma case_citation_pattern_Some s a rest :
  case_citation_pattern s = Some (a, rest) -> s = a ++ rest.
Proof.
  apply capture_Some. intros t u r.
  match goal with
  | |- match ?scc with _ => _ end = _ -> _ =>
      destruct scc as [[u1 r1]|] eqn:Hscc
  end.
  - intros [= _ <-]. revert Hscc.
    apply (consumes_bind (lit _) (fun _ => _)); [apply consumes_lit|intros _].
    apply (consumes_bind digits_4 (fun _ => _));
      [apply consumes_digits_4|intros _].
    apply (consumes_bind (lit _) (fun _ => _)); [apply consumes_lit|intros _].
    apply (consumes_bind digits_plus (fun _ => _));
      [apply consumes_digits_plus|intros _].
    apply (consumes_bind (lit _) (fun _ => _)); [apply consumes_lit|intros _].
    apply (consumes_bind digits_plus (fun _ => _));
      [apply consumes_digits_plus|intros _].
    by intros ? ? ? [= _ <-].
  - apply (consumes_bind (lit _) (fun _ => _)); [apply consumes_lit|intros _].
    apply (consumes_bind digits_4 (fun _ => _));
      [apply consumes_digits_4|intros _].
    apply (consumes_bind (lit _) (fun _ => _)); [apply consumes_lit|intros _].
    apply (consumes_bind digits_plus (fun _ => _));
      [apply consumes_digits_plus|intros _].
    by intros ? ? ? [= _ <-].
Qed.

(** A section number: decimal digits, then ASCII letters. *)
Lemma section_pattern_Some s a rest :
  section_pattern s = Some (a, rest) ->
  (exists pre post, s = pre ++ a ++ post) /\
  exists d l, a = d ++ l /\ d <> [] /\ forallb isdecimal d = true /\
              forallb (fun c => is_upper c || is_lower c) l = true.
Proof.
  unfold section_pattern. intros H.
  destruct s as [|c s]; [cbn in H; discriminate H|].
  destruct ((c =? 83) || (c =? 115)); [|cbn in H; discriminate H].
  cbn [mbind option_bind] in H.
  destruct (lit (py "ection ") s) as [[u s1]|] eqn:H1;
    [|cbn in H; discriminate H].
  apply lit_Some in H1 as ->. cbn [mbind option_bind] in H.
  destruct (digits_plus s1) as [[d s2]|] eqn:H2; [|cbn in H; discriminate H].
  pose proof (digits_plus_spec _ _ _ H2) as [Hd0 Hd].
  apply digits_plus_Some in H2 as ->. cbn [mbind option_bind] in H.
  destruct (span _ s2) as [l s3] eqn:H3.
  pose proof (span_Forall _ _ _ _ H3) as Hl. apply span_app in H3 as ->.
  destruct (optional _ s3) as [[u' s4]|]; [|cbn in H; discriminate H].
  cbn [mbind option_bind] in H. injection H as <- <-.
  split; [|by exists d, l].
  exists (c :: py "ection "), s3. cbn [app]. by rewrite <- !app_assoc.
Qed.

Lemma findall_occurs (pattern : matcher str) (text x : str) :
  (forall s a rest, pattern s = Some (a, rest) ->
     exists pre post, s = pre ++ a ++ post) ->
  x ∈ findall pattern text -> contains x text = true.
Proof.
  intros Hp (t & rest & [k ->] & Hm)%finditer_elem.
  apply contains_spec. destruct (Hp _ _ _ Hm) as (pre & post & ->).
  exists (k ++ pre), post. by rewrite <- !app_assoc.
Qed.

(** X10. The three extractors of the backend analyzer return every
    distinct match of their pattern once, in the order of the first
    occurrences, and every item they return occurs in the text; a section
    number is decimal digits followed by ASCII letters. *)
Theorem backend_extractors_distinct_matches (text : str) :
  (forall (A : Type) `{EqDecision A} (l : list A),
     NoDup (fromkeys l) /\ (forall x, x ∈ fromkeys l <-> x ∈ l) /\
     fromkeys l `sublist_of` l /\
     forall l', fromkeys (l ++ l')
                = fromkeys l ++ filter (fun x => x ∉ l) (fromkeys l')) /\
  (BackendService._extract_acts text = fromkeys (findall legal_act_pattern text) /\
   Forall (fun act => contains act text = true)
     (BackendService._extract_acts text)) /\
  (_extract_sections text = fromkeys (findall section_pattern text) /\
   Forall (fun section =>
             contains section text = true /\
             exists d l, section = d ++ l /\ d <> [] /\
               forallb isdecimal d = true /\
               forallb (fun c => is_upper c || is_lower c) l = true)
     (_extract_sections text)) /\
  (BackendService._extract_citations text
   = fromkeys (findall case_citation_pattern text) /\
   Forall (fun citation => contains citation text = true)
     (BackendService._extract_citations text)).
Proof.
  split; [|split; [|split]].
  - intros A ? l. split; [apply fromkeys_NoDup|].
    split; [apply fromkeys_elem|]. split; [apply fromkeys_sublist|].
    apply fromkeys_app.
  - split; [done|]. apply Forall_forall. intros x Hx.
    apply (proj1 (fromkeys_elem _ _)) in Hx.
    apply (findall_occurs legal_act_pattern); [|done].
    intros s a rest ->%legal_act_pattern_Some. by exists [], rest.
  - split; [done|]. apply Forall_forall. intros x Hx.
    apply (proj1 (fromkeys_elem _ _)) in Hx. split.
    + apply (findall_occurs section_pattern); [|done].
      intros s a rest Hs. by apply section_pattern_Some in Hs as [? _].
    + apply finditer_elem in Hx as (t & rest & _ & Hm).
      by apply section_pattern_Some in Hm as [_ ?].
  - split; [done|]. apply Forall_forall. intros x Hx.
    apply (proj1 (fromkeys_elem _ _)) in Hx.
    apply (findall_occurs case_citation_pattern); [|done].
    intros s a rest ->%case_citation_pattern_Some. by exists [], rest.
Qed.

End BackendExtractors.

(** ** The two citation extractors compared *)

Section StandardForms.

Import Backend Props BriefAnalyzer BackendService ResearchProps.

Lemma finditer_none {A} (m : matcher A) k s :
  (forall t, t `suffix_of` s -> m t = None) -> finditer m k s = [].
Proof.
  revert k. induction s as [|c s IH]; intros k Hm; [done|].
  cbn [finditer].
  assert (forall k', finditer m k' s = []) as IH'.
  { intros k'. apply IH. intros t Ht. apply Hm. by apply suffix_cons_r. }
  destruct k as [|k]; [|apply IH'].
  rewrite (Hm (c :: s)) by done. apply IH'.
Qed.

Lemma fromkeys_singleton {A} `{EqDecision A} (x : A) : fromkeys [x] = [x].
Proof. reflexivity. Qed.

(** What follows the year of a year-first pattern, in a text that begins
    with four other code points. *)
Lemma suffix_drop_4 (text t d s1 : str) :
  t `suffix_of` text -> t = d ++ s1 -> length d = 4%nat ->
  s1 `suffix_of` drop 4 text.
Proof.
  intros [k ->] -> Hd. exists (drop 4 (k ++ d)).
  rewrite app_assoc. rewrite drop_app_le; [done|].
  rewrite length_app. lia.
Qed.

Lemma year_first_pattern_tail (t : str) (r : Citation * str) :
  (air_pattern t = Some r ->
   exists d s1, t = d ++ s1 /\ length d = 4%nat /\ 65 ∈ s1) /\
  (scr_pattern t = Some r ->
   exists d s1, t = d ++ s1 /\ length d = 4%nat /\ 82 ∈ s1).
Proof.
  split.
  - unfold air_pattern. intros H.
    destruct (digits_4 t) as [[y s1]|] eqn:H1; [|cbn in H; discriminate H].
    pose proof (digits_4_spec _ _ _ H1) as [Hlen _].
    apply digits_4_Some in H1 as ->. cbn [mbind option_bind] in H.
    unfold ws_star in H. cbn [mbind option_bind] in H.
    destruct (lit (py "AIR") (lstrip s1)) as [[u s3]|] eqn:H3;
      [|cbn in H; discriminate H].
    apply lit_Some in H3. exists y, s1. split; [done|]. split; [done|].
    apply (elem_of_suffix _ _ _ (lstrip_suffix s1)). rewrite H3.
    apply list_elem_of_here.
  - unfold scr_pattern. intros H.
    destruct (digits_4 t) as [[y s1]|] eqn:H1; [|cbn in H; discriminate H].
    pose proof (digits_4_spec _ _ _ H1) as [Hlen _].
    apply digits_4_Some in H1 as ->. cbn [mbind option_bind] in H.
    unfold ws_star in H. cbn [mbind option_bind] in H.
    destruct (lit (py "SCR") (lstrip s1)) as [[u s3]|] eqn:H3;
      [|cbn in H; discriminate H].
    apply lit_Some in H3. exists y, s1. split; [done|]. split; [done|].
    apply (elem_of_suffix _ _ _ (lstrip_suffix s1)). rewrite H3.
    change (py "SCR" ++ s3) with (83 :: 67 :: 82 :: s3).
    rewrite !elem_of_cons. tauto.
Qed.

(** X11. The two citation extractors disagree on the reporter-first
    form "AIR <year> SC <page>": the backend analyzer returns it whole,
    the brief analyzer finds nothing, whatever the year and the page. On
    "(<year>) <volume> SCC <page>" the former returns the text and the
    latter the SCC citation with these fields. *)
Theorem citation_extractors_on_standard_forms (y v p : str) :
  length y = 4%nat -> forallb isdecimal y = true ->
  v <> [] -> forallb isdecimal v = true ->
  p <> [] -> forallb isdecimal p = true ->
  let air_sc := py "AIR " ++ y ++ py " SC " ++ p in
  let scc := py "(" ++ y ++ py ") " ++ v ++ py " SCC " ++ p in
  BackendService._extract_citations air_sc = [air_sc] /\
  BriefAnalyzer._extract_citations air_sc = [] /\
  BackendService._extract_citations scc = [scc] /\
  BriefAnalyzer._extract_citations scc
  = [ {| type := SCC; year := y; volume := Some v; page := p |} ].
Proof.
  intros Hylen Hy Hv0 Hv Hp0 Hp. cbv zeta.
  split; [|split; [|split]].
  - unfold BackendService._extract_citations, findall.
    rewrite (finditer_whole _ _ (py "AIR " ++ y ++ py " SC " ++ p));
      [done|done|].
    unfold case_citation_pattern, capture.
    change (lit (py "(") (py "AIR " ++ y ++ py " SC " ++ p)) with
      (@None (unit * str)).
    cbn [mbind option_bind]. rewrite lit_app. cbn [mbind option_bind].
    rewrite digits_4_all by done. cbn [mbind option_bind].
    rewrite lit_app. cbn [mbind option_bind].
    rewrite <- (app_nil_r p) at 1. rewrite digits_plus_all by done.
    cbn [mbind option_bind length]. rewrite Nat.sub_0_r, firstn_all. done.
  - unfold BriefAnalyzer._extract_citations. cbv zeta. cbn [app].
    assert ((65 ∉ y ++ py " SC " ++ p) /\ (82 ∉ y ++ py " SC " ++ p))
      as [HA HR].
    { change (py " SC ") with [32; 83; 67; 32]. split; absent_chr. }
    rewrite (finditer_none air_pattern), (finditer_absent scc_pattern 40),
      (finditer_none scr_pattern); [done| | | |].
    + intros t Ht. destruct (scr_pattern t) as [r|] eqn:Hr; [|done].
      apply year_first_pattern_tail in Hr as (d & s1 & Hd & Hlen & Hin).
      destruct HR.
      apply (elem_of_suffix _ _ _ (suffix_drop_4 _ _ _ _ Ht Hd Hlen) Hin).
    + intros t r. apply (pattern_needs t r).
    + change (py "AIR ") with [65; 73; 82; 32].
      change (py " SC ") with [32; 83; 67; 32]. absent_chr.
    + intros t Ht. destruct (air_pattern t) as [r|] eqn:Hr; [|done].
      apply year_first_pattern_tail in Hr as (d & s1 & Hd & Hlen & Hin).
      destruct HA.
      apply (elem_of_suffix _ _ _ (suffix_drop_4 _ _ _ _ Ht Hd Hlen) Hin).
  - unfold BackendService._extract_citations, findall.
    rewrite (finditer_whole _ _
               (py "(" ++ y ++ py ") " ++ v ++ py " SCC " ++ p));
      [done|done|].
    unfold case_citation_pattern, capture.
    rewrite lit_app. cbn [mbind option_bind].
    rewrite digits_4_all by done. cbn [mbind option_bind].
    rewrite lit_app. cbn [mbind option_bind].
    rewrite digits_plus_all; [|done|done|vm_compute; reflexivity].
    cbn [mbind option_bind]. rewrite lit_app. cbn [mbind option_bind].
    rewrite <- (app_nil_r p) at 1. rewrite digits_plus_all by done.
    cbn [mbind option_bind length]. rewrite Nat.sub_0_r, firstn_all. done.
  - by apply extract_citations_scc_form.
Qed.

Lemma citation_extractors_on_standard_forms_witness :
  (length (py "2017") = 4%nat /\ forallb isdecimal (py "2017") = true /\
   py "3" <> [] /\ forallb isdecimal (py "3") = true /\
   py "567" <> [] /\ forallb isdecimal (py "567") = true) /\
  BackendService._extract_citations (py "AIR 2017 SC 567")
  = [py "AIR 2017 SC 567"] /\
  BriefAnalyzer._extract_citations (py "AIR 2017 SC 567") = [] /\
  BackendService._extract_citations (py "(2017) 3 SCC 567")
  = [py "(2017) 3 SCC 567"] /\
  BriefAnalyzer._extract_citations (py "(2017) 3 SCC 567")
  = [ {| type := SCC; year := py "2017"; volume := Some (py "3");
         page := py "567" |} ].
Proof.
  assert (length (py "2017") = 4%nat) as H1 by reflexivity.
  assert (forallb isdecimal (py "2017") = true) as H2
    by (vm_compute; reflexivity).
  assert (py "3" <> []) as H3 by discriminate.
  assert (forallb isdecimal (py "3") = true) as H4
    by (vm_compute; reflexivity).
  assert (py "567" <> []) as H5 by discriminate.
  assert (forallb isdecimal (py "567") = true) as H6
    by (vm_compute; reflexivity).
  split; [tauto|].
  exact (citation_extractors_on_standard_forms (py "2017") (py "3")
           (py "567") H1 H2 H3 H4 H5 H6).
Defined.

End StandardForms.

(** ** Research: cleaned content *)

Section CleanContent.

Import Backend Props BriefAnalyzer BackendService BriefResearch ResearchProps.

(** *** [_extract_clean_content] *)

Lemma span_stop (p : chr -> bool) s a c b :
  span p s = (a, c :: b) -> p c = false.
Proof.
  revert a. induction s as [|x s IH]; intros a; cbn [span]; [done|].
  destruct (p x) eqn:Hx.
  - destruct (span p s) as [a' b'] eqn:Hs. intros [= <- ->]. by eapply IH.
  - by intros [= <- <- <-].
Qed.

Lemma sub_tags_elem k s x : x ∈ sub_tags k s -> x = SPACE \/ x ∈ s.
Proof.
  revert k. induction s as [|c s IH]; intros k; cbn [sub_tags].
  - by intros ?%elem_of_nil.
  - destruct k as [|k].
    + assert (x ∈ c :: sub_tags O s -> x = SPACE \/ x ∈ c :: s) as Hkeep.
      { intros [->|Hx]%elem_of_cons; [right; left|].
        apply IH in Hx as [->|Hx]; [by left|right; by right]. }
      destruct (c =? LT); [|done].
      destruct (span _ s) as [body rest].
      destruct (truthy body && truthy rest); [|done].
      intros [->|Hx]%elem_of_cons; [by left|].
      apply IH in Hx as [->|Hx]; [by left|right; by right].
    + intros Hx. apply IH in Hx as [->|Hx]; [by left|right; by right].
Qed.

Lemma sub_tags_tagless k s : tagless (sub_tags k s).
Proof.
  revert k. induction s as [|c s IH]; intros k; cbn [sub_tags]; [done|].
  destruct k as [|k]; [|apply IH].
  destruct (c =? LT) eqn:Hc.
  - destruct (span (fun x => negb (x =? GT)) s) as [body rest] eqn:Hs.
    destruct (truthy body && truthy rest) eqn:Ht.
    + split; [|apply IH]. intros Heq. by compute in Heq.
    + split; [|apply IH]. intros _.
      apply span_app in Hs as Happ. destruct body as [|b body].
      * destruct rest as [|r rest]; cbn in Happ; subst s.
        { right. cbn. apply not_elem_of_nil. }
        apply span_stop in Hs. apply negb_false_iff, N.eqb_eq in Hs.
        subst r. left. cbn [sub_tags]. done.
      * destruct rest as [|r rest]; [|done]. rewrite app_nil_r in Happ.
        subst s. right. intros [Hx|Hx]%sub_tags_elem; [by compute in Hx|].
        apply span_Forall in Hs. rewrite forallb_forall in Hs.
        apply list_elem_of_In, Hs in Hx. by rewrite N.eqb_refl in Hx.
  - split; [|apply IH]. intros ->. by compute in Hc.
Qed.

Lemma span_head_stop (p : chr -> bool) c s :
  p c = false -> span p (c :: s) = ([], c :: s).
Proof. intros Hc. cbn [span]. by rewrite Hc. Qed.

Lemma span_all (p : chr -> bool) s :
  forallb p s = true -> span p s = (s, []).
Proof.
  induction s as [|c s IH]; [done|]. cbn [forallb span].
  intros [-> Hs]%andb_true_iff. by rewrite IH.
Qed.

Lemma tagless_fixed s : tagless s -> sub_tags O s = s.
Proof.
  induction s as [|c s IH]; [done|]. intros [Hc Hs]. cbn [sub_tags].
  rewrite (IH Hs). destruct (c =? LT) eqn:Hlt; [|done].
  apply N.eqb_eq in Hlt. destruct (Hc Hlt) as [Hh|Hn].
  - destruct s as [|x s]; [done|]. injection Hh as ->.
    by rewrite span_head_stop.
  - rewrite span_all; [by rewrite andb_false_r|].
    apply forallb_forall. intros x Hx%list_elem_of_In.
    apply negb_true_iff, N.eqb_neq. by intros ->.
Qed.

Lemma tagless_app_l a b : tagless (a ++ b) -> tagless a.
Proof.
  induction a as [|c a IH]; [done|]. cbn. intros [Hc Ht].
  split; [|by apply IH]. intros Heq. destruct (Hc Heq) as [Hh|Hn].
  - destruct a as [|x a]; [right; apply not_elem_of_nil|by left].
  - right. intros Hx. apply Hn, elem_of_app. by left.
Qed.

Lemma tagless_app_r a b : tagless (a ++ b) -> tagless b.
Proof. induction a as [|c a IH]; [done|]. cbn. intros [_ Ht]. by apply IH. Qed.

Lemma tagless_suffix a s : a `suffix_of` s -> tagless s -> tagless a.
Proof. intros [w ->]. apply tagless_app_r. Qed.

Lemma tagless_prefix a s : a `prefix_of` s -> tagless s -> tagless a.
Proof. intros [w ->]. apply tagless_app_l. Qed.

Lemma rstrip_prefix s : rstrip s `prefix_of` s.
Proof.
  induction s as [|c s IH]; [done|]. cbn [rstrip].
  destruct (rstrip s) as [|x r] eqn:Hr.
  - destruct (isspace c); [apply prefix_nil|].
    apply prefix_cons, prefix_nil.
  - by apply prefix_cons.
Qed.

Lemma sub_ws_runs_elem b s x : x ∈ sub_ws_runs b s -> x = SPACE \/ x ∈ s.
Proof.
  revert b. induction s as [|c s IH]; intros b; cbn [sub_ws_runs].
  - by intros ?%elem_of_nil.
  - destruct (isspace c).
    + destruct b.
      * intros Hx. apply IH in Hx as [->|Hx]; [by left|right; by right].
      * intros [->|Hx]%elem_of_cons; [by left|].
        apply IH in Hx as [->|Hx]; [by left|right; by right].
    + intros [->|Hx]%elem_of_cons; [right; left|].
      apply IH in Hx as [->|Hx]; [by left|right; by right].
Qed.

Lemma isspace_LT : isspace LT = false.
Proof. reflexivity. Qed.

Lemma isspace_GT : isspace GT = false.
Proof. reflexivity. Qed.

Lemma tagless_sub_ws_runs b s : tagless s -> tagless (sub_ws_runs b s).
Proof.
  revert b. induction s as [|c s IH]; intros b; [done|].
  intros [Hc Hs]. cbn [sub_ws_runs]. destruct (isspace c) eqn:Hsp.
  - destruct b; [by apply IH|]. split; [|by apply IH].
    intros Heq. by compute in Heq.
  - split; [|by apply IH]. intros Heq. destruct (Hc Heq) as [Hh|Hn].
    + left. destruct s as [|x s]; [done|]. injection Hh as ->.
      cbn [sub_ws_runs]. by rewrite isspace_GT.
    + right. intros [Hx|Hx]%sub_ws_runs_elem; [by compute in Hx|done].
Qed.

Lemma tagless_strip s : tagless s -> tagless (strip s).
Proof.
  intros Hs. unfold strip.
  eapply tagless_prefix; [apply rstrip_prefix|].
  eapply tagless_suffix; [apply lstrip_suffix|done].
Qed.

Lemma tagless_app_plain a b :
  tagless a -> LT ∉ b -> GT ∉ b -> tagless (a ++ b).
Proof.
  intros Ha Hlt Hgt. induction a as [|c a IH].
  - cbn. clear Hgt. induction b as [|x b IHb]; [done|].
    apply not_elem_of_cons in Hlt as [Hx Hb]. split; [done|by apply IHb].
  - destruct Ha as [Hc Ha]. cbn. split; [|by apply IH].
    intros Heq. destruct (Hc Heq) as [Hh|Hn].
    + left. by destruct a.
    + right. intros [?|?]%elem_of_app; done.
Qed.

Lemma single_spaced_plain b s :
  forallb (fun c => negb (isspace c)) s = true -> single_spaced b s = true.
Proof.
  revert b. induction s as [|c s IH]; intros b; [done|].
  cbn [forallb single_spaced]. intros [Hc Hs]%andb_true_iff.
  apply negb_true_iff in Hc. rewrite Hc. by apply IH.
Qed.

Lemma single_spaced_app_plain b a c :
  single_spaced b a = true ->
  forallb (fun c => negb (isspace c)) c = true ->
  single_spaced b (a ++ c) = true.
Proof.
  revert b. induction a as [|x a IH]; intros b Ha Hc.
  - by apply single_spaced_plain.
  - cbn [app single_spaced] in *. destruct (isspace x).
    + apply andb_true_iff in Ha as [-> Ha]. by apply IH.
    + by apply IH.
Qed.

Lemma single_spaced_take b n s :
  single_spaced b s = true -> single_spaced b (take n s) = true.
Proof.
  revert b n. induction s as [|x s IH]; intros b [|n]; try done.
  cbn [take single_spaced]. destruct (isspace x).
  - intros [-> Hs]%andb_true_iff. by apply IH.
  - by apply IH.
Qed.

Lemma rstrip_app_plain a b :
  rstrip b <> [] -> rstrip (a ++ b) = a ++ rstrip b.
Proof.
  intros Hb. induction a as [|x a IH]; [done|].
  cbn [app rstrip]. rewrite IH. destruct (a ++ rstrip b) eqn:Hab; [|done].
  by apply app_eq_nil in Hab as [_ ?].
Qed.

Lemma strip_fixed s :
  no_leading_space s = true -> rstrip s = s -> strip s = s.
Proof. intros Hl Hr. unfold strip. by rewrite no_leading_space_fixed. Qed.

Lemma no_leading_space_strip s : no_leading_space (strip s) = true.
Proof. apply no_leading_space_rstrip, no_leading_space_lstrip. Qed.

Lemma rstrip_strip s : rstrip (strip s) = strip s.
Proof. apply rstrip_idempotent. Qed.

(** The cleaned text before it is cut. *)
Lemma extract_clean_content_cases html :
  let text := strip (sub_ws_runs false (sub_tags O html)) in
  ((length text <= 1000)%nat /\ _extract_clean_content html = text) \/
  ((1000 < length text)%nat /\
   _extract_clean_content html = take 997 text ++ py "...").
Proof.
  intros text. unfold _extract_clean_content. fold text.
  destruct (1000 <? length text)%nat eqn:Hlen.
  - right. apply Nat.ltb_lt in Hlen. done.
  - left. apply Nat.ltb_ge in Hlen. done.
Qed.

Lemma extract_clean_content_length html :
  (length (_extract_clean_content html) <= 1000)%nat.
Proof.
  destruct (extract_clean_content_cases html) as [[Hl ->]|[Hl ->]]; [done|].
  rewrite length_app, length_take.
  change (length (py "...")) with 3%nat. lia.
Qed.

Lemma extract_clean_content_single_spaced html :
  single_spaced false (_extract_clean_content html) = true.
Proof.
  assert (single_spaced false (strip (sub_ws_runs false (sub_tags O html)))
          = true) as Hs.
  { apply single_spaced_rstrip, single_spaced_lstrip,
      sub_ws_runs_single_spaced. }
  destruct (extract_clean_content_cases html) as [[Hl ->]|[Hl ->]]; [done|].
  apply single_spaced_app_plain; [by apply single_spaced_take|done].
Qed.

Lemma extract_clean_content_stripped html :
  strip (_extract_clean_content html) = _extract_clean_content html.
Proof.
  destruct (extract_clean_content_cases html) as [[Hl ->]|[Hl ->]].
  - apply strip_idempotent.
  - pose proof (no_leading_space_strip (sub_ws_runs false (sub_tags O html)))
      as Hlead.
    destruct (strip (sub_ws_runs false (sub_tags O html))) as [|c t] eqn:Ht.
    { cbn in Hl. lia. }
    apply strip_fixed; [done|]. by rewrite rstrip_app_plain.
Qed.

Lemma extract_clean_content_tagless html :
  tagless (_extract_clean_content html).
Proof.
  assert (tagless (strip (sub_ws_runs false (sub_tags O html)))) as Hs.
  { apply tagless_strip, tagless_sub_ws_runs, sub_tags_tagless. }
  destruct (extract_clean_content_cases html) as [[Hl ->]|[Hl ->]]; [done|].
  apply tagless_app_plain.
  - eapply tagless_prefix; [apply prefix_take|done].
  - by intros Hx%list_elem_of_In; vm_compute in Hx; intuition discriminate.
  - by intros Hx%list_elem_of_In; vm_compute in Hx; intuition discriminate.
Qed.

(** X12. Cleaned content is at most 1000 code points long, has no
    whitespace at either end, has single spaces as its only whitespace
    and contains no tag any more; cleaning it again changes nothing. *)
Theorem extract_clean_content_normal_form (html : str) :
  let text := _extract_clean_content html in
  (length text <= 1000)%nat /\
  strip text = text /\
  single_spaced false text = true /\
  sub_tags O text = text /\
  _extract_clean_content text = text.
Proof.
  intros text.
  pose proof (extract_clean_content_length html) as Hlen.
  pose proof (extract_clean_content_stripped html) as Hstrip.
  pose proof (extract_clean_content_single_spaced html) as Hsp.
  pose proof (tagless_fixed _ (extract_clean_content_tagless html)) as Htag.
  fold text in Hlen, Hstrip, Hsp, Htag.
  repeat split; try done.
  unfold _extract_clean_content at 1.
  rewrite Htag, (single_spaced_fixed false text Hsp), Hstrip.
  apply Nat.ltb_ge in Hlen. by rewrite Hlen.
Qed.

End CleanContent.

(** ** Research: dates *)

Section Dates.

Import Backend Props BriefAnalyzer BackendService BriefResearch ResearchProps.

(** *** [_extract_date] *)

Lemma search_Some {A} (m : matcher A) s a :
  search m s = Some a ->
  exists t rest, t `suffix_of` s /\ m t = Some (a, rest).
Proof.
  induction s as [|c s IH]; cbn [search].
  - destruct (m []) as [[a' r]|] eqn:Hm; [|done].
    intros [= ->]. by exists [], r.
  - destruct (m (c :: s)) as [[a' r]|] eqn:Hm.
    + intros [= ->]. by exists (c :: s), r.
    + intros (t & r & Ht & Hm')%IH. exists t, r.
      split; [by apply suffix_cons_r|done].
Qed.

Lemma digits_1_2_Some s d rest :
  digits_1_2 s = Some (d, rest) ->
  (1 <= length d <= 2)%nat /\ forallb isdecimal d = true.
Proof.
  unfold digits_1_2. destruct s as [|a s]; [done|].
  destruct (isdecimal a) eqn:Ha; [|done].
  destruct s as [|b s].
  - intros [= <- <-]. cbn [length forallb]. rewrite Ha. split; [lia|done].
  - destruct (isdecimal b) eqn:Hb; intros [= <- <-]; cbn [length forallb];
      rewrite Ha, ?Hb; split; (lia || done).
Qed.

Lemma one_of_Some words s w rest :
  one_of words s = Some (w, rest) -> w ∈ words.
Proof.
  induction words as [|x words IH]; cbn [one_of]; [done|].
  destruct (lit x s) as [[u r]|].
  - intros [= <- <-]. left.
  - intros Hw. right. by apply IH.
Qed.

Lemma date_pattern_Some months s m rest :
  date_pattern months s = Some (m, rest) -> date_fields months m.
Proof.
  unfold date_pattern. intros H.
  destruct (digits_1_2 s) as [[day s1]|] eqn:Hday; [|done].
  cbn in H.
  destruct (optional _ s1) as [[u s2]|]; [|done]. cbn in H.
  destruct (ws_plus s2) as [[u' s3]|]; [|done]. cbn in H.
  destruct (one_of months s3) as [[month s4]|] eqn:Hmonth; [|done].
  cbn in H.
  destruct (optional _ s4) as [[u'' s5]|]; [|done]. cbn in H.
  destruct (ws_plus s5) as [[u''' s6]|]; [|done]. cbn in H.
  destruct (digits_4 s6) as [[year s7]|] eqn:Hyear; [|done]. cbn in H.
  injection H as <- <-. repeat split.
  - by apply digits_1_2_Some in Hday as [[? ?] ?].
  - by apply digits_1_2_Some in Hday as [[? ?] ?].
  - by apply digits_1_2_Some in Hday as [? ?].
  - by apply one_of_Some in Hmonth.
  - by apply digits_4_spec in Hyear as [? ?].
  - by apply digits_4_spec in Hyear as [? ?].
Qed.

Lemma month_map_abbreviates month :
  month ∈ month_names ++ month_abbreviations ->
  default month (dict_get month_map month) ∈ month_abbreviations.
Proof.
  revert month. apply Forall_forall.
  refine (bool_decide_unpack
            (Forall (fun month : str =>
                       default month (dict_get month_map month)
                       ∈ month_abbreviations)
                    (month_names ++ month_abbreviations)) _).
  vm_compute. reflexivity.
Qed.

Lemma format_date_fields months m :
  months = month_names \/ months = month_abbreviations ->
  date_fields months m ->
  exists day month year,
    format_date m = day ++ py " " ++ month ++ py " " ++ year /\
    date_fields month_abbreviations (day, month, year).
Proof.
  destruct m as [[day month] year]. intros Hmonths (Hd & Hm & Hy).
  exists day, (default month (dict_get month_map month)), year.
  split; [done|]. split; [done|]. split; [|done].
  apply month_map_abbreviates, elem_of_app.
  destruct Hmonths as [->| ->]; [by left|by right].
Qed.

Lemma format_date_nonempty m : format_date m <> [].
Proof.
  destruct m as [[day month] year]. unfold format_date.
  intros H. apply app_eq_nil in H as [_ H]. done.
Qed.

(** X13. The date of a document is the empty string exactly when
    neither date pattern matches its cleaned text; otherwise it is a day
    of one or two digits, one of the twelve three-letter month
    abbreviations and a year of four digits, separated by single
    spaces. *)
Theorem extract_date_format (html : str) :
  let text := _extract_clean_content html in
  (_extract_date html = [] <->
   search (date_pattern month_names) text = None /\
   search (date_pattern month_abbreviations) text = None) /\
  (_extract_date html <> [] ->
   exists day month year,
     _extract_date html = day ++ py " " ++ month ++ py " " ++ year /\
     (1 <= length day <= 2)%nat /\ forallb isdecimal day = true /\
     month ∈ month_abbreviations /\
     length year = 4%nat /\ forallb isdecimal year = true).
Proof.
  intros text. unfold _extract_date. fold text.
  destruct (search (date_pattern month_names) text) as [m|] eqn:Hn.
  - split.
    + split; [by intros ?%format_date_nonempty|by intros [? _]].
    + intros _. apply search_Some in Hn as (t & r & _ & Hm).
      apply date_pattern_Some in Hm.
      destruct (format_date_fields month_names m) as (d & mo & y & -> & Hf);
        [by left|done|].
      exists d, mo, y. unfold date_fields in Hf. tauto.
  - destruct (search (date_pattern month_abbreviations) text) as [m|] eqn:Ha.
    + split.
      * split; [by intros ?%format_date_nonempty|by intros [_ ?]].
      * intros _. apply search_Some in Ha as (t & r & _ & Hm).
        apply date_pattern_Some in Hm.
        destruct (format_date_fields month_abbreviations m)
          as (d & mo & y & -> & Hf); [by right|done|].
        exists d, mo, y. unfold date_fields in Hf. tauto.
    + split; [done|]. by intros [].
Qed.

End Dates.

(** ** Research: entities *)

Section EntityDictionary.

Import Backend Props BriefAnalyzer BackendService BriefResearch ResearchProps.

(** *** [_extract_entities] *)

Lemma texts_of_absent label (ents : list (str * str)) :
  label ∉ ents.*2 -> texts_of label ents = [].
Proof.
  intros Hl. unfold texts_of.
  replace (filter (fun ent : str * str => ent.2 = label) ents) with
    ([] : list (str * str)); [done|].
  symmetry. induction ents as [|[t l] ents IH]; [done|].
  rewrite fmap_cons in Hl. apply not_elem_of_cons in Hl as [Hne Hl].
  rewrite filter_cons_False; [by apply IH|].
  cbn [snd]. intros Heq. by apply Hne.
Qed.

Lemma add_entity_get (ents : list (str * str)) (label : str) :
  dict_get (fold_left add_entity ents []) label
  = if decide (label ∈ ents.*2) then Some (texts_of label ents) else None.
Proof.
  revert label.
  induction ents as [|[text l] ents IH] using rev_ind; intros label.
  - cbn. rewrite decide_False; [done|apply not_elem_of_nil].
  - rewrite fold_left_app. cbn [fold_left]. unfold add_entity at 1.
    set (D := fold_left add_entity ents []) in *.
    set (D1 := if bool_decide (is_Some (dict_get D l)) then D
               else dict_set D l []).
    assert (forall k, dict_get D1 k
                      = if decide (k = l)
                        then Some (default [] (dict_get D l))
                        else dict_get D k) as HD1.
    { intros k. unfold D1. case_bool_decide as Hl.
      - destruct Hl as [v Hv]. rewrite Hv. cbn.
        destruct (decide (k = l)) as [->|]; done.
      - rewrite dict_get_set. destruct (decide (k = l)); [|done].
        destruct (dict_get D l) eqn:Hg; [|done]. by destruct Hl. }
    assert (default [] (dict_get D l) = texts_of l ents) as Hold.
    { rewrite IH. case_decide as Hl; [done|].
      symmetry. by apply texts_of_absent. }
    assert (texts_of l (ents ++ [(text, l)])
            = if decide (text ∈ texts_of l ents) then texts_of l ents
              else texts_of l ents ++ [text]) as Hnew.
    { unfold texts_of. rewrite filter_app, filter_cons.
      cbn [filter list_filter snd]. rewrite decide_True by done.
      rewrite fmap_app. cbn [fmap list_fmap fst]. apply fromkeys_snoc. }
    rewrite fmap_app. cbn [fmap list_fmap snd].
    rewrite (HD1 l), decide_True by done. cbn [default].
    destruct (decide (label = l)) as [->|Hne].
    + rewrite decide_True by (apply elem_of_app; right; left).
      rewrite Hnew, Hold. case_bool_decide as Ht.
      * rewrite decide_True by done. rewrite HD1, decide_True by done.
        by rewrite Hold.
      * rewrite decide_False by done. rewrite dict_get_set.
        by rewrite decide_True.
    + assert (texts_of label (ents ++ [(text, l)]) = texts_of label ents)
        as Hsame.
      { unfold texts_of. rewrite filter_app, filter_cons.
        cbn [filter list_filter snd]. rewrite decide_False by done.
        by rewrite app_nil_r. }
      rewrite Hsame.
      assert (dict_get D1 label = dict_get D label) as Hget.
      { rewrite HD1. by rewrite decide_False. }
      assert (label ∈ ents.*2 ++ [l] <-> label ∈ ents.*2) as Hmem.
      { rewrite elem_of_app, list_elem_of_singleton. tauto. }
      case_bool_decide.
      * rewrite Hget, IH. by apply decide_ext.
      * rewrite dict_get_set, decide_False by done.
        rewrite Hget, IH. by apply decide_ext.
Qed.

Lemma extract_entities_closed_form rt text :
  _extract_entities rt text
  = (fun label => (label, texts_of label (nlp_ents rt text)))
      <$> [py "PERSON"; py "ORG"; py "DATE"; py "LOCATION"].
Proof.
  unfold _extract_entities.
  pose proof (add_entity_get (nlp_ents rt text)) as Hget.
  set (E := fold_left add_entity (nlp_ents rt text) []) in *.
  assert (forall label,
             match dict_get E label with
             | Some texts => texts
             | None => []
             end = texts_of label (nlp_ents rt text)) as Hd.
  { intros label. rewrite Hget. case_decide; [done|].
    symmetry. by apply texts_of_absent. }
  cbn [fmap list_fmap fst fold_left].
  rewrite <- !Hd. generalize (dict_get E). intros g.
  destruct (g (py "PERSON")), (g (py "ORG")), (g (py "DATE")),
    (g (py "LOCATION")); vm_compute; reflexivity.
Qed.

Lemma fromkeys_cons {A} `{EqDecision A} (x : A) (l : list A) :
  fromkeys (x :: l) = x :: filter (fun y => y ∉ [x]) (fromkeys l).
Proof. change (x :: l) with ([x] ++ l). by rewrite fromkeys_app. Qed.

Lemma first_occurrences_fromkeys {A} `{EqDecision A} (seen l : list A) :
  first_occurrences seen l = filter (fun y => y ∉ seen) (fromkeys l).
Proof.
  revert seen. induction l as [|x l IH]; intros seen; [done|].
  cbn [first_occurrences]. rewrite fromkeys_cons, filter_cons.
  destruct (decide (x ∈ seen)) as [Hx|Hx].
  - rewrite decide_False by (by intros H'; apply H').
    rewrite IH, list_filter_filter. apply list_filter_iff.
    intros y. split; [|tauto]. intros Hy. split; [done|].
    intros ->%list_elem_of_singleton. done.
  - rewrite decide_True by done. f_equal.
    rewrite IH, list_filter_filter. apply list_filter_iff.
    intros y. rewrite not_elem_of_cons, list_elem_of_singleton. tauto.
Qed.

Lemma fromkeys_first_occurrences {A} `{EqDecision A} (l : list A) :
  fromkeys l = first_occurrences [] l.
Proof.
  rewrite first_occurrences_fromkeys. symmetry.
  induction (fromkeys l) as [|x l' IH]; [done|].
  rewrite filter_cons_True by apply not_elem_of_nil. by rewrite IH.
Qed.

(** X14. The entity dictionary has exactly the keys PERSON, ORG, DATE
    and LOCATION, in this order, whatever labels the recognizer gives;
    under each key are the texts of the entities with that label, each
    once, in the order of their first occurrence. *)
Theorem extract_entities_by_label (rt : BriefResearch.Runtime) (text : str) :
  (BriefResearch._extract_entities rt text).*1
  = [py "PERSON"; py "ORG"; py "DATE"; py "LOCATION"] /\
  (forall label,
     label ∈ [py "PERSON"; py "ORG"; py "DATE"; py "LOCATION"] ->
     dict_get (BriefResearch._extract_entities rt text) label
     = Some (first_occurrences []
               (labelled label (BriefResearch.nlp_ents rt text)))) /\
  forall label texts,
    dict_get (BriefResearch._extract_entities rt text) label = Some texts ->
    NoDup texts /\
    (forall t, t ∈ texts <-> (t, label) ∈ BriefResearch.nlp_ents rt text) /\
    texts `sublist_of` (BriefResearch.nlp_ents rt text).*1.
Proof.
  rewrite extract_entities_closed_form. split; [done|]. split.
  - intros label Hlabel. unfold texts_of, labelled.
    rewrite <- fromkeys_first_occurrences.
    cbn [fmap list_fmap dict_get].
    repeat (apply elem_of_cons in Hlabel as [->|Hlabel];
            [by repeat (rewrite decide_True by done
                        || rewrite decide_False by done)|]).
    by apply elem_of_nil in Hlabel.
  - intros label texts Hget.
    assert (texts = texts_of label (nlp_ents rt text)) as ->.
    { cbn [fmap list_fmap dict_get] in Hget.
      repeat (destruct (decide (label = _)) as [->|?] in Hget;
              [by injection Hget as <-|]).
      done. }
    unfold texts_of. split; [apply fromkeys_NoDup|]. split.
    + intros t. rewrite fromkeys_elem, list_elem_of_fmap. split.
      * intros ([t' l] & -> & [Hl Hin]%list_elem_of_filter).
        cbn in Hl. by subst l.
      * intros Hin. exists (t, label). split; [done|].
        by apply list_elem_of_filter.
    + etrans; [apply fromkeys_sublist|].
      apply fmap_sublist, sublist_filter.
Qed.

End EntityDictionary.

(** ** Research: the lists of the analysis *)

Section ResearchLists.

Import Backend Props BriefAnalyzer BackendService BriefResearch ResearchProps.

(** *** The lists of the research analysis *)

Lemma bind_length_filter {A B} (f : A -> list B) (p : A -> bool) (l : list A) :
  (forall x, length (f x) = if p x then 1%nat else 0%nat) ->
  length (l ≫= f) = length (filter (fun x => p x) l).
Proof.
  intros Hf. induction l as [|x l IH]; [done|].
  cbn [mbind list_bind]. rewrite length_app, Hf, filter_cons.
  change (foldr _ _ _) with (l ≫= f). rewrite IH.
  destruct (p x); cbn; done.
Qed.

Lemma section_argument_length rt section :
  length (section_argument rt section)
  = if truthy (fs_content section) then 1%nat else 0%nat.
Proof.
  unfold section_argument. by destruct (truthy (fs_content section)).
Qed.

Lemma case_argument_length rt case :
  length (case_argument rt case)
  = if truthy (fc_holdings case) then 1%nat else 0%nat.
Proof. unfold case_argument. by destruct (truthy (fc_holdings case)). Qed.

Lemma research_arguments_length rt brief_text law_sections case_histories
    legal_issues :
  let n := (length (filter (fun s => truthy (fs_content s))
                      (take 3 law_sections)) +
            length (filter (fun c => truthy (fc_holdings c))
                      (take 3 case_histories)))%nat in
  length (BriefResearch._generate_arguments rt brief_text law_sections
            case_histories legal_issues)
  = Nat.min (Nat.max n 3) 5.
Proof.
  intros n. unfold BriefResearch._generate_arguments.
  rewrite app_nil_l.
  set (args := _ ++ _).
  assert (length args = n) as Hn.
  { unfold args. rewrite length_app.
    rewrite (bind_length_filter _ (fun s => truthy (fs_content s)))
      by apply section_argument_length.
    rewrite (bind_length_filter _ (fun c => truthy (fc_holdings c)))
      by apply case_argument_length.
    done. }
  destruct (length args <? 3)%nat eqn:Hlt.
  - apply Nat.ltb_lt in Hlt.
    rewrite length_take, length_app, length_take.
    change (length BriefResearch.generic_arguments) with 5%nat. lia.
  - apply Nat.ltb_ge in Hlt. rewrite length_take. lia.
Qed.

Lemma research_challenges_length rt brief_text law_sections case_histories
    legal_issues :
  length (BriefResearch._generate_challenges rt brief_text law_sections
            case_histories legal_issues)
  = Nat.max
      (Nat.min (length law_sections) 2 + Nat.min (length case_histories) 2)
      3.
Proof.
  unfold BriefResearch._generate_challenges. rewrite app_nil_l.
  set (chs := _ ++ _).
  assert (length chs
          = (Nat.min (length law_sections) 2
             + Nat.min (length case_histories) 2)%nat)
    as Hn.
  { unfold chs. rewrite length_app, !length_fmap, !length_take. lia. }
  destruct (length chs <? 3)%nat eqn:Hlt.
  - apply Nat.ltb_lt in Hlt.
    rewrite length_take, length_app, length_take.
    change (length BriefResearch.generic_challenges) with 5%nat. lia.
  - apply Nat.ltb_ge in Hlt. rewrite length_take. lia.
Qed.

Lemma research_recommendations_shape rt brief_text law_sections
    case_histories legal_issues :
  exists specific,
    BriefResearch._generate_recommendations rt brief_text law_sections
      case_histories legal_issues
    = specific ++ general_recommendations /\
    length specific
    = ((if truthy law_sections then 1 else 0) +
       (if truthy case_histories then 1 else 0))%nat.
Proof.
  unfold BriefResearch._generate_recommendations.
  destruct (truthy law_sections), (truthy case_histories);
    rewrite take_ge by (rewrite !length_app; cbn; lia);
    eexists; (split; [reflexivity|done]).
Qed.

(** X15. The research analysis gives between three and five arguments
    (one for each of the first three law sections that has content and
    each of the first three cases that has holdings, filled up to three
    with the generic ones and cut at five), three or four challenges
    although up to five are allowed for, and between five and seven
    recommendations that always end with the five general ones. Without
    search results the lists are the first three generic arguments, the
    first three generic challenges and the general recommendations. *)
Theorem research_analysis_lists (rt : BriefResearch.Runtime)
    (brief_text : str) (law_sections : list FoundSection)
    (case_histories : list FoundCase) (legal_issues : list str) :
  let arguments :=
    BriefResearch._generate_arguments rt brief_text law_sections
      case_histories legal_issues in
  let challenges :=
    BriefResearch._generate_challenges rt brief_text law_sections
      case_histories legal_issues in
  let recommendations :=
    BriefResearch._generate_recommendations rt brief_text law_sections
      case_histories legal_issues in
  (length arguments
   = Nat.min
       (Nat.max
          (length (filter (fun s => truthy (fs_content s))
                     (take 3 law_sections)) +
           length (filter (fun c => truthy (fc_holdings c))
                     (take 3 case_histories)))
          3)
       5 /\
   (3 <= length arguments <= 5)%nat) /\
  (length challenges
   = Nat.max
       (Nat.min (length law_sections) 2 + Nat.min (length case_histories) 2)
       3 /\
   (3 <= length challenges <= 4)%nat) /\
  ((exists specific,
      recommendations = specific ++ general_recommendations /\
      length specific
      = ((if truthy law_sections then 1 else 0) +
         (if truthy case_histories then 1 else 0))%nat) /\
   (5 <= length recommendations <= 7)%nat) /\
  (law_sections = [] -> case_histories = [] ->
   arguments = take 3 BriefResearch.generic_arguments /\
   challenges = take 3 BriefResearch.generic_challenges /\
   recommendations = general_recommendations).
Proof.
  intros arguments challenges recommendations.
  pose proof (research_arguments_length rt brief_text law_sections
                case_histories legal_issues) as Ha.
  pose proof (research_challenges_length rt brief_text law_sections
                case_histories legal_issues) as Hc.
  pose proof (research_recommendations_shape rt brief_text law_sections
                case_histories legal_issues) as (specific & Hr & Hs).
  cbv zeta in Ha. fold arguments in Ha. fold challenges in Hc.
  fold recommendations in Hr.
  split; [split; [done|lia]|].
  split; [split; [done|lia]|].
  split.
  - split; [by exists specific|].
    rewrite Hr, length_app.
    change (length general_recommendations) with 5%nat.
    destruct (truthy law_sections), (truthy case_histories); lia.
  - intros -> ->. done.
Qed.

End ResearchLists.

(** ** Research: the searches *)

Section LawSectionSearch.

Import Backend Props BriefAnalyzer BackendService BriefResearch ResearchProps.

(** *** Blocks of statements *)

Section Blocks.

Context {A : Type}.
Variable docId : A -> str.
Variable P : A -> Prop.
Variable L : str -> Prop.
Variable fresh : bool.
Implicit Types st : SearchState A.

Lemma extends_by_refl st : extends_by docId P L fresh 0 0 st st.
Proof.
  exists [], []. rewrite !app_nil_r. repeat split; try done.
  - apply NoDup_nil_2.
  - by intros s ?%elem_of_nil.
Qed.

Lemma extends_by_weaken n g n' g' st st' :
  (n <= n')%nat -> (g <= g')%nat ->
  extends_by docId P L fresh n g st st' ->
  extends_by docId P L fresh n' g' st st'.
Proof.
  intros Hn Hg (new & lg & H1 & H2 & H3 & H4 & H5 & H6 & H7).
  exists new, lg. repeat split; try done; try lia; by apply H7.
Qed.

Lemma extends_by_unchanged n g st : extends_by docId P L fresh n g st st.
Proof.
  apply extends_by_weaken with 0%nat 0%nat; [lia..|apply extends_by_refl].
Qed.

Lemma extends_by_trans n g n' g' st st1 st2 :
  extends_by docId P L fresh n g st st1 ->
  extends_by docId P L fresh n' g' st1 st2 ->
  extends_by docId P L fresh (n + n') (g + g') st st2.
Proof.
  intros (new & lg & H1 & H2 & H3 & H4 & H5 & H6 & H7)
         (new' & lg' & H1' & H2' & H3' & H4' & H5' & H6' & H7').
  exists (new ++ new'), (lg ++ lg').
  rewrite H1', H1, H2', H2, !app_assoc, !length_app.
  split; [done|]. split; [done|]. split; [lia|]. split; [lia|].
  split; [by apply Forall_app|]. split; [by apply Forall_app|].
  intros Hf.
  destruct (H7 Hf) as [Hnd Hfr]. destruct (H7' Hf) as [Hnd' Hfr'].
  rewrite H1 in Hfr'. split.
  - rewrite fmap_app. apply NoDup_app. split; [done|]. split; [|done].
    intros x Hx (s & -> & Hs)%list_elem_of_fmap.
    apply (Hfr' s Hs). rewrite fmap_app, elem_of_app. by right.
  - intros s [Hs|Hs]%elem_of_app; [by apply Hfr|].
    intros Hin. apply (Hfr' s Hs). rewrite fmap_app, elem_of_app. by left.
Qed.

Lemma extends_by_prefix n g st st' :
  extends_by docId P L fresh n g st st' -> found st `prefix_of` found st'.
Proof. intros (new & lg & -> & _). by apply prefix_app_r. Qed.

Lemma for_each_extends {B} n g (body : B -> block A) (l : list B) :
  (forall x st, x ∈ l -> extends_by docId P L fresh n g st (body x st).1) ->
  forall st,
    extends_by docId P L fresh (length l * n) (length l * g) st
      (for_each l body st).1.
Proof.
  induction l as [|x l IH]; intros Hbody st.
  - apply extends_by_refl.
  - cbn [for_each length]. unfold then_.
    pose proof (Hbody x st (list_elem_of_here _ _)) as Hx.
    destruct (body x st) as [st1 [e|]] eqn:Hb; cbn [fst] in *.
    + eapply extends_by_weaken; [| |exact Hx]; lia.
    + replace (S (length l) * n)%nat with (n + length l * n)%nat by lia.
      replace (S (length l) * g)%nat with (g + length l * g)%nat by lia.
      eapply extends_by_trans; [exact Hx|]. apply IH.
      intros y st' Hy. apply Hbody. by right.
Qed.

Lemma extends_by_append x st :
  P x -> (fresh = true -> docId x ∉ docId <$> found st) ->
  extends_by docId P L fresh 1 0 st (append x st).1.
Proof.
  intros Hs Hf. exists [x], []. cbn [append fst found log].
  rewrite app_nil_r. repeat split; try done.
  - by apply Forall_singleton.
  - apply NoDup_singleton.
  - intros s' ->%list_elem_of_singleton. by apply Hf.
Qed.

Lemma extends_by_log msg st :
  L msg -> extends_by docId P L fresh 0 1 st (logger_error msg st).1.
Proof.
  intros Hmsg. exists [], [msg]. cbn [logger_error fst found log].
  rewrite app_nil_r. repeat split; try done.
  - by apply Forall_singleton.
  - apply NoDup_nil_2.
  - by intros s ?%elem_of_nil.
Qed.

(** A [try] whose handler logs one line completes, and adds what its body
    had added when it stopped. *)
Lemma try_log_extends n (body : block A) (E : raised -> Prop)
    (msg : raised -> str) st :
  raises_only E body ->
  (forall e, E e -> L (msg e)) ->
  (forall st, extends_by docId P L fresh n 0 st (body st).1) ->
  extends_by docId P L fresh n 1 st
    (try_except body (fun e => logger_error (msg e)) st).1.
Proof.
  intros Hraises Hmsg Hbody. unfold try_except.
  specialize (Hbody st). specialize (Hraises st).
  destruct (body st) as [st1 [e|]]; cbn [fst snd] in *.
  - replace n with (n + 0)%nat by lia. change 1%nat with (0 + 1)%nat.
    eapply extends_by_trans; [exact Hbody|].
    apply extends_by_log. apply Hmsg. by apply Hraises.
  - eapply extends_by_weaken; [| |exact Hbody]; lia.
Qed.

(** A fetched document adds at most one result. *)
Lemma fetch_extends rt (d : Doc) (t : str) (make : str -> A) st :
  tid d = Some t ->
  (forall html, fetched rt d t html -> P (make html)) ->
  (fresh = true -> forall html, docId (make html) ∉ docId <$> found st) ->
  extends_by docId P L fresh 1 0 st
    (call (api_get_document rt t) (fun doc_details =>
       match doc doc_details with
       | Some html => append (make html)
       | None => pass
       end) st).1.
Proof.
  intros Ht HP Hfresh. unfold call.
  destruct (api_get_document rt t) as [details|e] eqn:Hd;
    [|apply extends_by_unchanged].
  destruct (doc details) as [html|] eqn:Hh; [|apply extends_by_unchanged].
  apply extends_by_append.
  - apply HP. split; [done|]. by exists details.
  - intros Hf. by apply Hfresh.
Qed.

(** A search adds at most one result for each of the first [k] documents
    it lists. *)
Lemma search_extends rt (query doc_types : str) (k : nat)
    (each : Doc -> block A) st :
  (forall d st, lists rt query doc_types k d ->
                extends_by docId P L fresh 1 0 st (each d st).1) ->
  extends_by docId P L fresh k 0 st
    (call (api_search rt query doc_types) (fun results =>
       match docs results with
       | Some ds => if_ (truthy ds) (for_each (take k ds) each)
       | None => pass
       end) st).1.
Proof.
  intros Heach. unfold call.
  destruct (api_search rt query doc_types) as [results|e] eqn:Hs;
    [|apply extends_by_unchanged].
  destruct (docs results) as [ds|] eqn:Hds; [|apply extends_by_unchanged].
  unfold if_. destruct (truthy ds); [|apply extends_by_unchanged].
  eapply extends_by_weaken; [| |apply (for_each_extends 1 0)].
  - rewrite length_take. lia.
  - lia.
  - intros d st' Hd. apply Heach. by exists results, ds.
Qed.

End Blocks.

(** *** What a loop is sure to find *)

Section Reach.

Context {A : Type}.
Implicit Types (st : SearchState A) (Q : list A -> Prop).


Lemma for_each_grows {B} (body : B -> block A) (l : list B) :
  (forall x, x ∈ l -> grows (body x)) -> grows (for_each l body).
Proof.
  induction l as [|x l IH]; intros Hbody st; [done|].
  cbn [for_each]. unfold then_.
  pose proof (Hbody x (list_elem_of_here _ _) st) as Hx.
  destruct (body x st) as [st1 [e|]]; cbn [fst] in *; [done|].
  etrans; [exact Hx|]. apply IH. intros y Hy. apply Hbody. by right.
Qed.

Lemma for_each_completes {B} (body : B -> block A) (l : list B) :
  (forall x, x ∈ l -> completes (body x)) -> completes (for_each l body).
Proof.
  induction l as [|x l IH]; intros Hbody st; [done|].
  cbn [for_each]. unfold then_.
  pose proof (Hbody x (list_elem_of_here _ _) st) as Hx.
  destruct (body x st) as [st1 [e|]]; [done|].
  apply IH. intros y Hy. apply Hbody. by right.
Qed.

(** If the steps before the one for [d] complete, what that step
    establishes holds at the end of the loop. *)
Lemma for_each_reaches {B} (body : B -> block A) (before after : list B)
    (d : B) Q :
  kept Q ->
  (forall x, grows (body x)) ->
  (forall x, x ∈ before -> completes (body x)) ->
  (forall st, Q (found (body d st).1)) ->
  forall st, Q (found (for_each (before ++ d :: after) body st).1).
Proof.
  intros HQ Hgrow Hbefore Hd.
  induction before as [|x before IH]; intros st.
  - cbn [app for_each]. unfold then_. specialize (Hd st).
    destruct (body d st) as [st1 [e|]]; cbn [fst] in *; [done|].
    eapply HQ; [exact Hd|].
    apply (for_each_grows body after (fun y _ => Hgrow y) st1).
  - cbn [app for_each]. unfold then_.
    pose proof (Hbefore x (list_elem_of_here _ _) st) as Hx.
    destruct (body x st) as [st1 [e|]]; [done|].
    apply IH. intros y Hy. apply Hbefore. by right.
Qed.

Lemma try_log_found (body : block A) (msg : raised -> str) st :
  found (try_except body (fun e => logger_error (msg e)) st).1
  = found (body st).1.
Proof.
  unfold try_except. by destruct (body st) as [st1 [e|]].
Qed.

Lemma try_log_grows (body : block A) (msg : raised -> str) :
  grows body -> grows (try_except body (fun e => logger_error (msg e))).
Proof. intros Hb st. rewrite try_log_found. apply Hb. Qed.

Lemma try_log_completes (body : block A) (msg : raised -> str) :
  completes (try_except body (fun e => logger_error (msg e))).
Proof.
  intros st. unfold try_except. by destruct (body st) as [st1 [e|]].
Qed.

Lemma fetch_grows rt (t : str) (make : str -> A) :
  grows (call (api_get_document rt t) (fun doc_details =>
           match doc doc_details with
           | Some html => append (make html)
           | None => pass
           end)).
Proof.
  intros st. unfold call.
  destruct (api_get_document rt t) as [details|e]; [|done].
  destruct (doc details) as [html|]; [|done].
  by apply prefix_app_r.
Qed.

Lemma fetch_completes rt (t : str) (make : str -> A) :
  is_ok (api_get_document rt t) = true ->
  completes (call (api_get_document rt t) (fun doc_details =>
               match doc doc_details with
               | Some html => append (make html)
               | None => pass
               end)).
Proof.
  intros Hok st. unfold call.
  destruct (api_get_document rt t) as [details|e]; [|done].
  by destruct (doc details) as [html|].
Qed.

Lemma fetch_appends rt (d : Doc) (t html : str) (make : str -> A) st :
  fetched rt d t html ->
  make html ∈
    found (call (api_get_document rt t) (fun doc_details =>
             match doc doc_details with
             | Some html => append (make html)
             | None => pass
             end) st).1.
Proof.
  intros (_ & details & Hd & Hh). unfold call. rewrite Hd, Hh.
  cbn [append fst found]. apply elem_of_app. right. left.
Qed.

Lemma search_grows rt (query doc_types : str) (k : nat)
    (each : Doc -> block A) :
  (forall d, grows (each d)) ->
  grows (call (api_search rt query doc_types) (fun results =>
           match docs results with
           | Some ds => if_ (truthy ds) (for_each (take k ds) each)
           | None => pass
           end)).
Proof.
  intros Heach st. unfold call.
  destruct (api_search rt query doc_types) as [results|e]; [|done].
  destruct (docs results) as [ds|]; [|done].
  unfold if_. destruct (truthy ds); [|done].
  by apply for_each_grows.
Qed.

(** What the step for a document establishes holds after the search, if
    the search reaches the document. *)
Lemma search_reaches rt (query doc_types : str) (k : nat)
    (each : Doc -> block A) (d : Doc) Q st :
  kept Q ->
  reaches rt query doc_types k d ->
  (forall x, grows (each x)) ->
  (forall x, fetchable rt x -> completes (each x)) ->
  (forall st, Q (found (each d st).1)) ->
  Q (found (call (api_search rt query doc_types) (fun results =>
              match docs results with
              | Some ds => if_ (truthy ds) (for_each (take k ds) each)
              | None => pass
              end) st).1).
Proof.
  intros HQ (results & ds & before & after & Hs & Hds & Htake & Hbefore)
         Hgrow Hcomp Hd.
  unfold call. rewrite Hs, Hds.
  assert (truthy ds = true) as ->.
  { destruct ds; [|done]. rewrite take_nil in Htake. by destruct before. }
  unfold if_. rewrite Htake. apply for_each_reaches; try done.
  intros x Hx. apply Hcomp. rewrite Forall_forall in Hbefore.
  by apply Hbefore.
Qed.

End Reach.

Lemma existsb_docId {A} (docId : A -> str) (t : str) (l : list A) :
  existsb (fun x => bool_decide (Some (docId x) = Some t)) l = false ->
  t ∉ docId <$> l.
Proof.
  intros Hex (s & -> & Hs)%list_elem_of_fmap.
  assert (existsb (fun x => bool_decide (Some (docId x) = Some (docId s))) l
          = true) as Ht; [|congruence].
  apply existsb_exists. exists s. split; [by apply list_elem_of_In|].
  by apply bool_decide_eq_true.
Qed.

Lemma existsb_docId_true {A} (docId : A -> str) (t : str) (l : list A) :
  existsb (fun x => bool_decide (Some (docId x) = Some t)) l = true ->
  t ∈ docId <$> l.
Proof.
  intros (s & Hs & Heq)%existsb_exists. apply bool_decide_eq_true in Heq.
  injection Heq as <-. apply list_elem_of_fmap. exists s.
  split; [done|]. by apply list_elem_of_In.
Qed.

Lemma sorted_desc_fixed {A} (rel : A -> Z) (l : list A) :
  descending rel l -> sorted_desc rel l = l.
Proof.
  unfold descending. induction 1 as [|x l Hl IH Hx]; [done|].
  cbn [sorted_desc foldr]. fold (sorted_desc rel l). rewrite IH.
  destruct l as [|y l]; [done|]. cbn [insert_desc].
  apply Forall_cons in Hx as [Hy _].
  destruct (Z.ltb_spec (rel x) (rel y)); [lia|done].
Qed.

Lemma Forall_const_descending {A} (rel : A -> Z) (z : Z) (l : list A) :
  Forall (fun x => rel x = z) l -> descending rel l.
Proof.
  unfold descending. induction 1 as [|x l Hx Hl IH]; constructor; [done|].
  eapply Forall_impl; [exact Hl|]. cbn. intros y Hy. lia.
Qed.

(** Results of relevance 9 followed by results of relevance 7 are in the
    order the sort gives them. *)
Lemma sorted_desc_two_levels {A} (rel : A -> Z) (l9 l7 : list A) :
  Forall (fun x => rel x = 9%Z) l9 -> Forall (fun x => rel x = 7%Z) l7 ->
  sorted_desc rel (l9 ++ l7) = l9 ++ l7.
Proof.
  intros H9 H7. apply sorted_desc_fixed. unfold descending.
  apply StronglySorted_app_2.
  - intros x1 x2 Hx1 Hx2. rewrite Forall_forall in H9, H7.
    rewrite (H9 x1 Hx1), (H7 x2 Hx2). lia.
  - by apply (Forall_const_descending _ 9%Z).
  - by apply (Forall_const_descending _ 7%Z).
Qed.

(** The two loops of a search that complete: what the first loop leaves
    is [l9], what the second adds is [l7]. *)
Lemma run_search_two_loops {A} (docId : A -> str) (rel : A -> Z)
    (P9 P7 : A -> Prop) (L : str -> Prop) (n9 g9 n7 g7 : nat)
    (loop9 loop7 : block A) :
  (forall x, P9 x -> rel x = 9%Z) -> (forall x, P7 x -> rel x = 7%Z) ->
  (forall st, extends_by docId P9 L false n9 g9 st (loop9 st).1) ->
  completes loop9 ->
  (forall st, extends_by docId P7 L true n7 g7 st (loop7 st).1) ->
  completes loop7 ->
  exists l9 l7 lg,
    run_search rel (then_ loop9 loop7) = (Returned (l9 ++ l7), lg) /\
    found (loop9 {| found := []; log := [] |}).1 = l9 /\
    found (loop7 (loop9 {| found := []; log := [] |}).1).1 = l9 ++ l7 /\
    Forall P9 l9 /\ Forall P7 l7 /\ Forall L lg /\
    NoDup (docId <$> l7) /\
    (forall x, x ∈ l7 -> docId x ∉ docId <$> l9) /\
    (length l9 <= n9)%nat /\ (length l7 <= n7)%nat /\
    (length lg <= g9 + g7)%nat.
Proof.
  intros Hrel9 Hrel7 H9 H9' H7 H7'. unfold run_search, then_.
  set (st0 := {| found := []; log := [] |}).
  specialize (H9 st0). specialize (H9' st0).
  destruct (loop9 st0) as [st1 r1]. cbn [fst snd] in *. subst r1.
  specialize (H7 st1). specialize (H7' st1).
  destruct (loop7 st1) as [st2 r2]. cbn [fst snd] in *. subst r2.
  destruct H9 as (l9 & lg1 & He & Hl1 & Hn1 & Hg1 & HP1 & HL1 & _).
  destruct H7 as (l7 & lg2 & Hc & Hl2 & Hn2 & Hg2 & HP2 & HL2 & Hfresh).
  destruct (Hfresh eq_refl) as [Hnd Hfr].
  cbn in He, Hl1. rewrite He in Hc, Hfr. rewrite Hl1 in Hl2.
  exists l9, l7, (lg1 ++ lg2). rewrite Hc, Hl2.
  split.
  { f_equal. f_equal. apply sorted_desc_two_levels.
    - eapply Forall_impl; [exact HP1|]. apply Hrel9.
    - eapply Forall_impl; [exact HP2|]. apply Hrel7. }
  rewrite length_app. repeat split; try done; try lia.
  by apply Forall_app.
Qed.

(** *** The steps the four loops share *)

Section Steps.

Context {A : Type}.
Variable rt : Runtime.
Variable docId : A -> str.
Variable make : Doc -> str -> str -> A.
Variable P : A -> Prop.
Variable message : str.
Variables (query doc_types : str) (k : nat).

Hypothesis make_docId : forall d t html, docId (make d t html) = t.
Hypothesis make_P :
  forall d t html,
    lists rt query doc_types k d -> fetched rt d t html -> P (make d t html).

Local Abbreviation fetch d t :=
  (call (api_get_document rt t) (fun doc_details =>
     match doc doc_details with
     | Some html => append (make d t html)
     | None => pass
     end)).

(** The step for a document, and the step that skips a document whose id
    is already in the list. *)
Local Abbreviation any_step :=
  (fun d => match tid d with
            | Some t => fetch d t
            | None => pass
            end).

Local Abbreviation new_step :=
  (fun d =>
     with_state (fun st =>
       if_ (negb (existsb (fun x => bool_decide (Some (docId x) = tid d))
                          (found st)))
         match tid d with
         | Some t => fetch d t
         | None => pass
         end)).

Local Abbreviation search each :=
  (try_except
     (call (api_search rt query doc_types) (fun results =>
        match docs results with
        | Some ds => if_ (truthy ds) (for_each (take k ds) each)
        | None => pass
        end))
     (fun e => logger_error (message ++ str_of_raised e))).

Lemma fetch_raises (d : Doc) (t : str) :
  raises_only (client_raised rt) (fetch d t).
Proof.
  intros st r. unfold call.
  destruct (api_get_document rt t) as [details|e] eqn:Hd.
  - by destruct (doc details).
  - cbn. intros [= <-]. exists e. split; [done|]. right. by exists t.
Qed.

Lemma any_step_raises (d : Doc) : raises_only (client_raised rt) (any_step d).
Proof. cbv beta. destruct (tid d) as [t|]; [apply fetch_raises|done]. Qed.

Lemma new_step_raises (d : Doc) : raises_only (client_raised rt) (new_step d).
Proof.
  cbv beta. intros st. unfold with_state, if_. destruct (negb _); [|done].
  revert st. change (raises_only (client_raised rt) (any_step d)).
  apply any_step_raises.
Qed.

Lemma any_step_grows (d : Doc) : grows (any_step d).
Proof. cbv beta. destruct (tid d) as [t|]; [apply fetch_grows|by intros st]. Qed.

Lemma new_step_grows (d : Doc) : grows (new_step d).
Proof.
  cbv beta. intros st. unfold with_state, if_. destruct (negb _); [|done].
  apply (any_step_grows d).
Qed.

Lemma any_step_completes (d : Doc) : fetchable rt d -> completes (any_step d).
Proof.
  cbv beta. intros Hd. destruct (tid d) as [t|] eqn:Ht; [|done].
  apply fetch_completes. by apply Hd.
Qed.

Lemma new_step_completes (d : Doc) : fetchable rt d -> completes (new_step d).
Proof.
  cbv beta. intros Hd st. unfold with_state, if_. destruct (negb _); [|done].
  by apply (any_step_completes d).
Qed.

Lemma any_step_appends (d : Doc) (t html : str) st :
  fetched rt d t html -> make d t html ∈ found (any_step d st).1.
Proof.
  cbv beta. intros Hf. pose proof Hf as [Ht _]. rewrite Ht.
  by apply (fetch_appends rt d t html (make d t)).
Qed.

Lemma new_step_appends (d : Doc) (t html : str) st :
  fetched rt d t html -> t ∈ docId <$> found (new_step d st).1.
Proof.
  cbv beta. intros Hf. pose proof Hf as [Ht _]. unfold with_state, if_. rewrite Ht.
  destruct (existsb _ (found st)) eqn:Hex; cbn [negb].
  - by apply existsb_docId_true.
  - apply list_elem_of_fmap. exists (make d t html).
    split; [by rewrite make_docId|].
    by apply (fetch_appends rt d t html (make d t)).
Qed.

Lemma any_step_extends (d : Doc) st :
  lists rt query doc_types k d ->
  extends_by docId P (is_error_line rt message) false 1 0 st (any_step d st).1.
Proof.
  cbv beta. intros Hd. destruct (tid d) as [t|] eqn:Ht; [|apply extends_by_unchanged].
  apply (fetch_extends _ _ _ _ rt d t (make d t)); [done| |done].
  intros html Hf. by apply make_P.
Qed.

Lemma new_step_extends (d : Doc) st :
  lists rt query doc_types k d ->
  extends_by docId P (is_error_line rt message) true 1 0 st (new_step d st).1.
Proof.
  cbv beta. intros Hd. unfold with_state, if_.
  destruct (negb (existsb _ (found st))) eqn:Hnew;
    [|apply extends_by_unchanged].
  apply negb_true_iff in Hnew.
  destruct (tid d) as [t|] eqn:Ht; [|apply extends_by_unchanged].
  apply (fetch_extends _ _ _ _ rt d t (make d t)); [done| |].
  - intros html Hf. by apply make_P.
  - intros _ html. rewrite make_docId. by apply existsb_docId.
Qed.

Lemma search_raises (each : Doc -> block A) :
  (forall d, raises_only (client_raised rt) (each d)) ->
  raises_only (client_raised rt)
    (call (api_search rt query doc_types) (fun results =>
       match docs results with
       | Some ds => if_ (truthy ds) (for_each (take k ds) each)
       | None => pass
       end)).
Proof.
  intros Heach st r. unfold call.
  destruct (api_search rt query doc_types) as [results|e] eqn:Hs.
  - destruct (docs results) as [ds|]; [|done].
    unfold if_. destruct (truthy ds); [|done].
    revert st. induction (take k ds) as [|d l IH]; intros st; [done|].
    cbn [for_each]. unfold then_.
    pose proof (Heach d st) as Hd.
    destruct (each d st) as [st1 [e|]]; cbn [snd] in *; [|apply IH].
    intros [= <-]. by apply Hd.
  - cbn. intros [= <-]. exists e. split; [done|]. left.
    by exists query, doc_types.
Qed.

(** A search with the step [any_step]: what it adds, and what it is sure
    to add. *)
Lemma any_search_extends st :
  extends_by docId P (is_error_line rt message) false k 1 st
    (search any_step st).1.
Proof.
  apply (try_log_extends _ _ _ _ _ _ (client_raised rt)).
  - apply search_raises, any_step_raises.
  - intros e He. by exists e.
  - clear st. intros st. apply search_extends. intros d st'.
    apply any_step_extends.
Qed.

Lemma new_search_extends st :
  extends_by docId P (is_error_line rt message) true k 1 st
    (search new_step st).1.
Proof.
  apply (try_log_extends _ _ _ _ _ _ (client_raised rt)).
  - apply search_raises, new_step_raises.
  - intros e He. by exists e.
  - clear st. intros st. apply search_extends. intros d st'.
    apply new_step_extends.
Qed.

Lemma any_search_grows : grows (search any_step).
Proof. apply try_log_grows, search_grows, any_step_grows. Qed.

Lemma new_search_grows : grows (search new_step).
Proof. apply try_log_grows, search_grows, new_step_grows. Qed.

Lemma any_search_appends (d : Doc) (t html : str) st :
  reaches rt query doc_types k d -> fetched rt d t html ->
  make d t html ∈ found (search any_step st).1.
Proof.
  intros Hr Hf. rewrite try_log_found.
  apply (search_reaches rt query doc_types k any_step d
           (fun l => make d t html ∈ l)); [|done|..].
  - intros l1 l2 Hl1 [l ->]. apply elem_of_app. by left.
  - apply any_step_grows.
  - apply any_step_completes.
  - intros st'. by apply (any_step_appends d t html).
Qed.

Lemma new_search_appends (d : Doc) (t html : str) st :
  reaches rt query doc_types k d -> fetched rt d t html ->
  t ∈ docId <$> found (search new_step st).1.
Proof.
  intros Hr Hf. rewrite try_log_found.
  apply (search_reaches rt query doc_types k new_step d
           (fun l => t ∈ docId <$> l)); [|done|..].
  - intros l1 l2 Hl1 [l ->]. rewrite fmap_app. apply elem_of_app. by left.
  - apply new_step_grows.
  - apply new_step_completes.
  - intros st'. by apply (new_step_appends d t html).
Qed.

End Steps.

(** What holds after the step for a member of the list holds at the end
    of a loop whose steps complete. *)
Lemma for_each_member {A B} (body : B -> block A) (l : list B) (x : B)
    (Q : list A -> Prop) st :
  kept Q -> x ∈ l ->
  (forall y, grows (body y)) ->
  (forall y, y ∈ l -> completes (body y)) ->
  (forall st, Q (found (body x st).1)) ->
  Q (found (for_each l body st).1).
Proof.
  intros HQ (before & after & ->)%list_elem_of_split Hgrow Hcomp Hx.
  apply for_each_reaches; try done.
  intros y Hy. apply Hcomp. apply elem_of_app. by left.
Qed.

Lemma kept_elem_of {A} (x : A) : kept (fun l => x ∈ l).
Proof. intros l1 l2 Hl1 [l ->]. apply elem_of_app. by left. Qed.

Lemma kept_docId {A} (docId : A -> str) (t : str) :
  kept (fun l => t ∈ docId <$> l).
Proof.
  intros l1 l2 Hl1 [l ->]. rewrite fmap_app. apply elem_of_app. by left.
Qed.

Lemma for_each_app {A B} (body : B -> block A) (l1 l2 : list B) st :
  for_each (l1 ++ l2) body st
  = then_ (for_each l1 body) (for_each l2 body) st.
Proof.
  revert st. induction l1 as [|x l1 IH]; intros st; [done|].
  cbn [app for_each]. unfold then_ in *.
  destruct (body x st) as [st1 [e|]]; [done|]. apply IH.
Qed.

(** *** [_search_law_sections] *)

Lemma exact_matches_extends rt acts_sections item st :
  item ∈ acts_sections ->
  extends_by fs_docId (is_exact rt acts_sections)
    (is_error_line rt (py "Error searching for law section: ")) false 3 1 st
    (exact_matches rt item st).1.
Proof.
  intros Hitem.
  apply (any_search_extends rt fs_docId
           (fun d t html => exact_section item t html)).
  intros d t html Hl Hf. by exists item, d, t, html.
Qed.

Lemma exact_matches_completes rt item : completes (exact_matches rt item).
Proof. apply try_log_completes. Qed.

Lemma exact_matches_grows rt item : grows (exact_matches rt item).
Proof.
  apply (any_search_grows rt (fun d t html => exact_section item t html)).
Qed.

Lemma exact_matches_appends rt item d t html st :
  reaches rt (act_section_query item) (py "laws") 3 d ->
  fetched rt d t html ->
  exact_section item t html ∈ found (exact_matches rt item st).1.
Proof.
  apply (any_search_appends rt (fun d t html => exact_section item t html)).
Qed.

Lemma existsb_act_section_query (query : str) (acts_sections : list ActSection) :
  existsb (fun item => bool_decide (query = act_section_query item))
          acts_sections = true
  <-> query ∈ act_section_query <$> acts_sections.
Proof.
  rewrite existsb_exists, list_elem_of_fmap. split.
  - intros (item & Hin & Heq). exists item.
    split; [by apply bool_decide_eq_true in Heq|by apply list_elem_of_In].
  - intros (item & -> & Hin). exists item.
    split; [by apply list_elem_of_In|by apply bool_decide_eq_true].
Qed.

Lemma concept_matches_extends rt acts_sections queries query st :
  query ∈ queries ->
  extends_by fs_docId (is_concept rt acts_sections queries)
    (is_error_line rt (py "Error searching for law section: ")) true 2 1 st
    (concept_matches rt acts_sections query st).1.
Proof.
  intros Hquery. unfold concept_matches, if_ at 1.
  destruct (existsb _ acts_sections) eqn:Hex; cbn [negb];
    [apply extends_by_unchanged|].
  apply (new_search_extends rt fs_docId (concept_section rt)); [done|].
  intros d t html Hl Hf. exists query, d, t, html.
  split; [done|]. split; [|done].
  intros Hin%existsb_act_section_query. congruence.
Qed.

Lemma concept_matches_completes rt acts_sections query :
  completes (concept_matches rt acts_sections query).
Proof.
  intros st. unfold concept_matches, if_ at 1.
  destruct (negb _); [apply try_log_completes|done].
Qed.

Lemma concept_matches_grows rt acts_sections query :
  grows (concept_matches rt acts_sections query).
Proof.
  intros st. unfold concept_matches, if_ at 1.
  destruct (negb _); [|done].
  apply (new_search_grows rt fs_docId (concept_section rt)).
Qed.

Lemma concept_matches_appends rt acts_sections query d t html st :
  query ∉ act_section_query <$> acts_sections ->
  reaches rt query (py "laws") 2 d ->
  fetched rt d t html ->
  t ∈ fs_docId <$> found (concept_matches rt acts_sections query st).1.
Proof.
  intros Hnot. unfold concept_matches, if_ at 1.
  destruct (existsb _ acts_sections) eqn:Hex; cbn [negb].
  { by apply existsb_act_section_query in Hex. }
  by apply (new_search_appends rt fs_docId (concept_section rt)).
Qed.

(** X16. The search for law sections never raises, whatever the API
    client does. What it returns is the list of the sections of its first
    loop followed by those of its second loop. A section of the first
    loop is the record, of relevance 9, for an act and section of the
    brief and a document that the client lists among the first three for
    its query and whose text it returns; the content is that text,
    cleaned. A section of the second loop is the record, of relevance 7,
    for such a document among the first two for a query that is not the
    query of an act and section. Conversely, if the client lists a
    document among the first three for an act and section, can fetch
    every document it lists before that one, and returns its text, the
    record for it is in the first part; under the same conditions for
    another query, with two for three, the id of the document is that of
    a section returned. The sections of the second loop have ids that
    differ from one another and from those of the first; there are at
    most three sections for each act and section and two for each query.
    Every line logged is the message of the handler followed by the text
    of an exception that a call of the client raised, and there is at
    most one for each search. *)
Theorem search_law_sections_outcome (rt : BriefResearch.Runtime)
    (queries : list str) (acts_sections : list ActSection) :
  exists exact concept lg,
    _search_law_sections rt queries acts_sections
    = (Returned (exact ++ concept), lg) /\
    Forall (is_exact rt acts_sections) exact /\
    Forall (is_concept rt acts_sections queries) concept /\
    (forall item d t html,
       item ∈ acts_sections ->
       reaches rt (act_section_query item) (py "laws") 3 d ->
       fetched rt d t html ->
       exact_section item t html ∈ exact) /\
    (forall query d t html,
       query ∈ queries ->
       (query ∉ act_section_query <$> acts_sections) ->
       reaches rt query (py "laws") 2 d ->
       fetched rt d t html ->
       t ∈ fs_docId <$> (exact ++ concept)) /\
    NoDup (fs_docId <$> concept) /\
    (forall s, s ∈ concept -> fs_docId s ∉ fs_docId <$> exact) /\
    (length exact <= 3 * length acts_sections)%nat /\
    (length concept <= 2 * length queries)%nat /\
    Forall (is_error_line rt (py "Error searching for law section: ")) lg /\
    (length lg <= length acts_sections + length queries)%nat.
Proof.
  unfold _search_law_sections.
  destruct (run_search_two_loops fs_docId fs_relevance
              (is_exact rt acts_sections)
              (is_concept rt acts_sections queries)
              (is_error_line rt (py "Error searching for law section: "))
              (length acts_sections * 3) (length acts_sections * 1)
              (length queries * 2) (length queries * 1)
              (for_each acts_sections (exact_matches rt))
              (for_each queries (concept_matches rt acts_sections)))
    as (exact & concept & lg & Hrun & Hl9 & Hl7 & HP1 & HP2 & HL & Hnd & Hfr
        & Hn1 & Hn2 & Hg).
  - by intros s (item & d & t & html & _ & _ & _ & ->).
  - by intros s (query & d & t & html & _ & _ & _ & _ & ->).
  - apply for_each_extends. intros x st Hx.
    by apply exact_matches_extends.
  - apply for_each_completes. intros x _. apply exact_matches_completes.
  - apply for_each_extends. intros x st Hx.
    by apply concept_matches_extends.
  - apply for_each_completes. intros x _. apply concept_matches_completes.
  - exists exact, concept, lg. split; [done|].
    split; [done|]. split; [done|].
    split.
    { intros item d t html Hitem Hr Hf. rewrite <- Hl9.
      apply (for_each_member (exact_matches rt) acts_sections item
               (fun l => exact_section item t html ∈ l)); try done.
      - apply kept_elem_of.
      - apply exact_matches_grows.
      - intros y _. apply exact_matches_completes.
      - intros st. by apply exact_matches_appends with d. }
    split.
    { intros query d t html Hquery Hnot Hr Hf. rewrite <- Hl7.
      apply (for_each_member (concept_matches rt acts_sections) queries query
               (fun l => t ∈ fs_docId <$> l)); try done.
      - apply kept_docId.
      - apply concept_matches_grows.
      - intros y _. apply concept_matches_completes.
      - intros st. by apply concept_matches_appends with d html. }
    repeat split; try done; lia.
Qed.

(** *** [_search_case_histories] *)

Lemma citation_str_returned {A} (item : Citation) (query : str)
    (k : str -> block A) :
  citation_query item = Returned query -> citation_str item k = k query.
Proof.
  unfold citation_str, citation_query.
  destruct (type item); [by intros [= <-]| |by intros [= <-]].
  destruct (volume item); [by intros [= <-]|done].
Qed.

Lemma citation_str_raises {A} (item : Citation) (k : str -> block A) st :
  lacks_volume item -> citation_str item k st = (st, Some KeyError_volume).
Proof. unfold citation_str. by intros [-> ->]. Qed.

Lemma citation_query_returned (item : Citation) :
  ~ lacks_volume item -> exists query, citation_query item = Returned query.
Proof.
  intros Hvol. by destruct (citation_query_cases item) as [[? _]|[_ ?]].
Qed.

Lemma cited_cases_extends rt citations item st :
  item ∈ citations -> ~ lacks_volume item ->
  extends_by fc_docId (is_cited rt citations)
    (is_error_line rt (py "Error searching for case history: ")) false 2 1 st
    (cited_cases rt item st).1.
Proof.
  intros Hitem [query Hq]%citation_query_returned. unfold cited_cases.
  rewrite (citation_str_returned item query) by done.
  apply (any_search_extends rt fc_docId (cited_case rt query)).
  intros d t html Hl Hf. by exists item, query, d, t, html.
Qed.

Lemma cited_cases_completes rt item :
  ~ lacks_volume item -> completes (cited_cases rt item).
Proof.
  intros [query Hq]%citation_query_returned. unfold cited_cases.
  rewrite (citation_str_returned item query) by done.
  apply try_log_completes.
Qed.

Lemma cited_cases_grows rt item : grows (cited_cases rt item).
Proof.
  unfold cited_cases.
  destruct (citation_query_cases item) as [[Hvol _]|[_ [query Hq]]].
  - intros st. by rewrite citation_str_raises.
  - rewrite (citation_str_returned item query) by done.
    apply (any_search_grows rt (cited_case rt query)).
Qed.

Lemma cited_cases_appends rt item query d t html st :
  citation_query item = Returned query ->
  reaches rt query (py "judgments") 2 d ->
  fetched rt d t html ->
  cited_case rt query d t html ∈ found (cited_cases rt item st).1.
Proof.
  intros Hq. unfold cited_cases.
  rewrite (citation_str_returned item query) by done.
  apply (any_search_appends rt (cited_case rt query)).
Qed.

Lemma concept_cases_extends rt queries query st :
  query ∈ queries ->
  extends_by fc_docId (is_concept_case rt queries)
    (is_error_line rt (py "Error searching for case history: ")) true 2 1 st
    (concept_cases rt query st).1.
Proof.
  intros Hquery.
  apply (new_search_extends rt fc_docId (concept_case rt)); [done|].
  intros d t html Hl Hf. by exists query, d, t, html.
Qed.

Lemma concept_cases_completes rt query : completes (concept_cases rt query).
Proof. apply try_log_completes. Qed.

Lemma concept_cases_grows rt query : grows (concept_cases rt query).
Proof. apply (new_search_grows rt fc_docId (concept_case rt)). Qed.

Lemma concept_cases_appends rt query d t html st :
  reaches rt query (py "judgments") 2 d ->
  fetched rt d t html ->
  t ∈ fc_docId <$> found (concept_cases rt query st).1.
Proof. by apply (new_search_appends rt fc_docId (concept_case rt)). Qed.

(** The first loop stops at the first SCC citation without a volume,
    with the state that the citations before it leave. *)
Lemma cited_cases_loop_raises rt (before after : list Citation)
    (item : Citation) st :
  Forall (fun c => ~ lacks_volume c) before -> lacks_volume item ->
  for_each (before ++ item :: after) (cited_cases rt) st
  = ((for_each before (cited_cases rt) st).1, Some KeyError_volume).
Proof.
  intros Hbefore Hitem. rewrite for_each_app. unfold then_ at 1.
  pose proof (for_each_completes (cited_cases rt) before) as Hc.
  specialize (Hc (fun x Hx => cited_cases_completes rt x
                                (proj1 (Forall_forall _ _) Hbefore x Hx)) st).
  destruct (for_each before (cited_cases rt) st) as [st1 r].
  cbn [fst snd] in *. subst r. cbn [for_each]. unfold then_, cited_cases.
  by rewrite citation_str_raises.
Qed.

Lemma Exists_first {A} (P : A -> Prop) (l : list A) :
  (forall x, P x \/ ~ P x) -> Exists P l ->
  exists before x after,
    l = before ++ x :: after /\ Forall (fun y => ~ P y) before /\ P x.
Proof.
  intros Hdec. induction 1 as [x l Hx|x l Hl (before & y & after & -> & Hb & Hy)].
  - by exists [], x, l.
  - destruct (Hdec x) as [Hx|Hx].
    + by exists [], x, (before ++ y :: after).
    + exists (x :: before), y, after. split; [done|].
      split; [by constructor|done].
Qed.

Lemma lacks_volume_cases (c : Citation) : lacks_volume c \/ ~ lacks_volume c.
Proof. destruct (citation_query_cases c) as [[? _]|[? _]]; [by left|by right]. Qed.

(** X17. The search for case histories raises in one situation only: the
    first SCC citation without a volume makes it raise the KeyError of
    the missing key, and what it has logged by then is what the search
    for the citations before that one logs, so that nothing is searched
    for that citation, for a later one or for a query. Otherwise,
    whatever the API client does, it returns the cases of its first loop
    followed by those of its second loop. A case of the first loop is the
    record, of relevance 9 and under the citation's query, for a citation
    and a document that the client lists among the first two for that
    query and whose text it returns. A case of the second loop is the
    record, of relevance 7, for such a document and a query. Conversely,
    if the client lists a document among the first two for a citation's
    query, can fetch every document it lists before that one, and returns
    its text, the record for it is in the first part; under the same
    conditions for a query, the id of the document is that of a case
    returned. The cases of the second loop have ids that differ from one
    another and from those of the first; there are at most two cases for
    each citation and for each query. Every line logged is the message of
    the handler followed by the text of an exception that a call of the
    client raised, and there is at most one for each search. The
    citations of the citation extractor never make the search raise. *)
Theorem search_case_histories_outcome (rt : BriefResearch.Runtime)
    (queries : list str) (citations : list Citation) :
  (Exists lacks_volume citations ->
   (_search_case_histories rt queries citations).1 = Raised KeyError_volume) /\
  (forall before item after,
     citations = before ++ item :: after ->
     Forall (fun c => ~ lacks_volume c) before -> lacks_volume item ->
     _search_case_histories rt queries citations
     = (Raised KeyError_volume, (_search_case_histories rt [] before).2)) /\
  (Forall (fun c => ~ lacks_volume c) citations ->
   exists cited concept lg,
     _search_case_histories rt queries citations
     = (Returned (cited ++ concept), lg) /\
     Forall (is_cited rt citations) cited /\
     Forall (is_concept_case rt queries) concept /\
     (forall item query d t html,
        item ∈ citations ->
        citation_query item = Returned query ->
        reaches rt query (py "judgments") 2 d ->
        fetched rt d t html ->
        cited_case rt query d t html ∈ cited) /\
     (forall query d t html,
        query ∈ queries ->
        reaches rt query (py "judgments") 2 d ->
        fetched rt d t html ->
        t ∈ fc_docId <$> (cited ++ concept)) /\
     NoDup (fc_docId <$> concept) /\
     (forall c, c ∈ concept -> fc_docId c ∉ fc_docId <$> cited) /\
     (length cited <= 2 * length citations)%nat /\
     (length concept <= 2 * length queries)%nat /\
     Forall (is_error_line rt (py "Error searching for case history: ")) lg /\
     (length lg <= length citations + length queries)%nat) /\
  (forall text,
     Forall (fun c => ~ lacks_volume c) (BriefAnalyzer._extract_citations text)).
Proof.
  assert (forall before item after,
            citations = before ++ item :: after ->
            Forall (fun c => ~ lacks_volume c) before -> lacks_volume item ->
            _search_case_histories rt queries citations
            = (Raised KeyError_volume,
               (_search_case_histories rt [] before).2)) as Hraise.
  { intros before item after -> Hbefore Hitem.
    unfold _search_case_histories, run_search, then_.
    rewrite cited_cases_loop_raises by done.
    pose proof (for_each_completes (cited_cases rt) before) as Hc.
    specialize (Hc (fun x Hx => cited_cases_completes rt x
                                  (proj1 (Forall_forall _ _) Hbefore x Hx))
                   {| found := []; log := [] |}).
    destruct (for_each before (cited_cases rt) _) as [st1 r].
    cbn [fst snd] in *. by subst r. }
  split; [|split; [exact Hraise|split]].
  - intros (before & item & after & Heq & Hbefore & Hitem)%Exists_first;
      [|apply lacks_volume_cases].
    by rewrite (Hraise before item after).
  - intros Hall. rewrite Forall_forall in Hall.
    unfold _search_case_histories.
    destruct (run_search_two_loops fc_docId fc_relevance
                (is_cited rt citations) (is_concept_case rt queries)
                (is_error_line rt (py "Error searching for case history: "))
                (length citations * 2) (length citations * 1)
                (length queries * 2) (length queries * 1)
                (for_each citations (cited_cases rt))
                (for_each queries (concept_cases rt)))
      as (cited & concept & lg & Hrun & Hl9 & Hl7 & HP1 & HP2 & HL & Hnd & Hfr
          & Hn1 & Hn2 & Hg).
    + by intros s (item & query & d & t & html & _ & _ & _ & _ & ->).
    + by intros s (query & d & t & html & _ & _ & _ & ->).
    + apply for_each_extends. intros x st Hx.
      apply cited_cases_extends; [done|by apply Hall].
    + apply for_each_completes. intros x Hx.
      apply cited_cases_completes. by apply Hall.
    + apply for_each_extends. intros x st Hx.
      by apply concept_cases_extends.
    + apply for_each_completes. intros x _. apply concept_cases_completes.
    + exists cited, concept, lg. split; [done|].
      split; [done|]. split; [done|].
      split.
      { intros item query d t html Hitem Hq Hr Hf. rewrite <- Hl9.
        apply (for_each_member (cited_cases rt) citations item
                 (fun l => cited_case rt query d t html ∈ l)); try done.
        - apply kept_elem_of.
        - apply cited_cases_grows.
        - intros y Hy. apply cited_cases_completes. by apply Hall.
        - intros st. by apply cited_cases_appends. }
      split.
      { intros query d t html Hquery Hr Hf. rewrite <- Hl7.
        apply (for_each_member (concept_cases rt) queries query
                 (fun l => t ∈ fc_docId <$> l)); try done.
        - apply kept_docId.
        - apply concept_cases_grows.
        - intros y _. apply concept_cases_completes.
        - intros st. by apply concept_cases_appends with d html. }
      repeat split; try done; lia.
  - apply extract_citations_volume.
Qed.

(** *** The searches with the sample client *)

Example search_law_sections_sample :
  _search_law_sections sample_client [py "fraud"] [ipc_420_item]
  = (Returned [ {| fs_title := py "Indian Penal Code";
                   fs_sectionNumber := py "420";
                   fs_content := py "Whoever cheats";
                   fs_relevance := 9;
                   fs_source := py "Indian Kanoon";
                   fs_docId := py "101" |} ],
     [ py "Error searching for law section: not found";
       py "Error searching for law section: timed out" ]).
Proof. vm_compute. reflexivity. Qed.

Example search_case_histories_sample :
  _search_case_histories sample_client [py "2017 AIR 567"] [air_2017_567]
  = (Returned [ {| fc_citation := py "2017 AIR 567";
                   fc_parties := py "State v. Rao";
                   fc_holdings := py "The appeal is dismissed.";
                   fc_relevance := 9;
                   fc_date := py "12 Mar 2017";
                   fc_source := py "Indian Kanoon";
                   fc_docId := py "201" |} ],
     []) /\
  _search_case_histories sample_client [py "fraud"]
    [air_2017_567; scc_without_volume; air_2017_567]
  = (Raised KeyError_volume, []).
Proof. split; vm_compute; reflexivity. Qed.

Lemma search_law_sections_outcome_witness :
  exists exact concept lg,
    _search_law_sections sample_client [py "fraud"] [ipc_420_item]
    = (Returned (exact ++ concept), lg) /\
    exact_section ipc_420_item (py "101") (py "<p>Whoever  cheats</p>")
    ∈ exact.
Proof.
  destruct (search_law_sections_outcome sample_client [py "fraud"]
              [ipc_420_item])
    as (exact & concept & lg & Hrun & _ & _ & Hexact & _).
  exists exact, concept, lg. split; [exact Hrun|].
  apply (Hexact ipc_420_item sample_law_doc).
  - apply list_elem_of_here.
  - exists {| docs := Some [sample_law_doc; sample_lost_doc] |},
      [sample_law_doc; sample_lost_doc], [], [sample_lost_doc].
    repeat split; constructor.
  - split; [reflexivity|].
    exists {| doc := Some (py "<p>Whoever  cheats</p>") |}.
    split; reflexivity.
Defined.

Lemma search_case_histories_outcome_witness :
  (exists cited concept lg,
     _search_case_histories sample_client [py "2017 AIR 567"] [air_2017_567]
     = (Returned (cited ++ concept), lg) /\
     cited_case sample_client (py "2017 AIR 567") sample_judgment_doc
       (py "201") (py "<b>Decided on 12 March, 2017</b>") ∈ cited /\
     Forall (fun c => fc_docId c <> py "201") concept) /\
  _search_case_histories sample_client [py "fraud"]
    [air_2017_567; scc_without_volume; air_2017_567]
  = (Raised KeyError_volume,
     (_search_case_histories sample_client [] [air_2017_567]).2).
Proof.
  split.
  - destruct (search_case_histories_outcome sample_client [py "2017 AIR 567"]
                [air_2017_567])
      as (_ & _ & Hreturns & _).
    destruct Hreturns
      as (cited & concept & lg & Hrun & _ & _ & Hcited & _ & _ & Hfresh & _).
    { constructor; [|constructor]. by intros [? _]. }
    assert (cited_case sample_client (py "2017 AIR 567") sample_judgment_doc
              (py "201") (py "<b>Decided on 12 March, 2017</b>") ∈ cited)
      as Hin.
    { apply (Hcited air_2017_567).
      - apply list_elem_of_here.
      - reflexivity.
      - exists {| docs := Some [sample_judgment_doc] |},
          [sample_judgment_doc], [], [].
        repeat split; constructor.
      - split; [reflexivity|].
        exists {| doc := Some (py "<b>Decided on 12 March, 2017</b>") |}.
        split; reflexivity. }
    exists cited, concept, lg. split; [exact Hrun|]. split; [exact Hin|].
    apply Forall_forall. intros c Hc Hid. apply (Hfresh c Hc).
    rewrite Hid. apply list_elem_of_fmap.
    exists (cited_case sample_client (py "2017 AIR 567") sample_judgment_doc
              (py "201") (py "<b>Decided on 12 March, 2017</b>")).
    split; [reflexivity|exact Hin].
  - apply (proj1 (proj2 (search_case_histories_outcome sample_client
                           [py "fraud"]
                           [air_2017_567; scc_without_volume; air_2017_567]))
             [air_2017_567] scc_without_volume [air_2017_567]).
    + reflexivity.
    + constructor; [|constructor]. by intros [? _].
    + split; reflexivity.
Defined.

End LawSectionSearch.
